(* ===== verification/_CoqProject ===== *)
-Q . S2P
Prelude.v
PyStr.v
PyDict.v
Value.v
Filter.v
PyNum.v
PyCollections.v
ValueStats.v
Stats.v
Schema.v
SchemaTree.v
Lookup.v
Rows.v
Details.v
History.v
Query.v
Session.v
Chat.v
App.v
Cli.v
