(* ===== verification/Prelude.v ===== *)
(** * askjson: a verification development for the AI-assisted JSON viewer

    The program ([src/gui.py], [src/askjson.py]) is a desktop viewer for
    JSON documents.  It parses a document, infers a schema with statistics
    from it, shows the schema as a tree whose rows carry an eye meant to
    hide an attribute, re-renders the document without the hidden attributes,
    runs jq queries typed by the user or written by a language model, and
    picks the query out of the model's answer.

    ** The parts and how they interact

    - [JsonSchemaAnalyzer] (gui.py 165-369) turns a parsed document into a
      schema: [analyze_json] and [_analyze_object] walk the document,
      [_compute_array_stats], [_compute_value_stats] and [_get_examples]
      summarize arrays and scalars.
    - [JsonSchemaViewer] and [JsonSchemaTreeWidget] (gui.py 430-730) build
      the rows of the browser from the schema ([update_schema_tree],
      [_add_schema_item]), compute the path of a row ([_get_item_path]) and
      find the schema of a path ([_get_schema_at_path]).
    - [JsonViewerWindow] (gui.py 1030-1242) owns the loaded document and the
      set of hidden paths; its handlers load a file, toggle a path, run a
      query and reset the view, and [filter_json_by_visibility] derives the
      document the pane shows.
    - [ChatWidget] (gui.py 732-1014) lists the models, sends the question
      to the selected one in a worker thread, extracts the query from the
      answer, repairs it ([_fix_jq_syntax]) and emits it to the window.
    - [JqQueryInput] (gui.py 95-163) is the query line with its history.
    - [src/askjson.py] is a separate command-line tool: it asks a model for
      a jq filter ([ask_ollama]), runs it ([run_jq]) and offers a loop of
      questions on the terminal ([interactive_mode]).

    ** The files

    - [Prelude] (this file): what the components share: the outcome type
      of code that can raise, the writer of handlers that print or fill a
      form before they return or raise, the tactics, the hint database,
      list facts.
    - [PyStr], [PyDict], [PyNum], [PyCollections]: the Python runtime as far
      as the program calls it: [str] operations ([strip], [split],
      [replace], [in], slices, the classes [\s] and [\w]), [dict] as an
      association list in insertion order, [min], [max], [sorted],
      [statistics.mean], [median] and [stdev], [collections.Counter] with
      [most_common], and [random.sample] over an explicit generator state.
      These model the language, not the repository.
    - [Value]: the objects [json.loads] returns, with [type], [isinstance]
      ([bool] is a subclass of [int]) and truthiness; [value_wf] is what
      [json.loads] guarantees (distinct keys).
    - [Filter]: [_filter_recursive] and [filter_json_by_visibility].
      Theorems: the attribute paths of the filtered document are exactly the
      visible paths of the document ([filter_key_paths]), no hidden path
      survives, idempotence, commutation with union, monotonicity.
    - [ValueStats]: [_compute_value_stats], [_get_examples], every branch.
    - [Stats]: [_compute_array_stats].  The branches for numbers and for
      strings are proved to refine [numeric_spec] and [string_spec]; from
      these follow the bounds of min and max, the exact mean, the median and
      the deviation, the frequency tables and the shape of the examples.
    - [Schema]: [analyze_json], [_analyze_object].  Theorems: the entry of
      every key ([analyze_object_entry]), the first-wins union over the first
      ten elements of a root array ([analyze_json_root_array]), determinism
      up to the random examples, well-formedness of every dict of a schema.
    - [SchemaTree]: [update_schema_tree], [_add_schema_item],
      [_get_item_path].  A row has one [UserRole] slot in column 0, which
      the code writes twice: the flag of the eye, then the row itself
      ([new_item]).  Theorems: the path of every row is an attribute path
      of the document ([tree_paths_are_key_paths]), the identity on which
      hiding relies; every row of a rebuilt browser holds itself in its
      slot ([update_schema_tree_data]).
    - [Lookup]: [_get_schema_at_path] over the dynamically typed objects of
      a schema, with [TypeError] as an outcome.  Theorems: the walk computes
      [resolve] when the segments avoid the analyzer's own keys; on a root
      array it skips the first segment; its third branch is dead.
    - [Rows]: analyzer, browser and lookup together: in the browser of an
      object document with plain keys the lookup of the path of every row
      returns the node the row was built from ([document_rows_resolve]).
    - [Details]: [show_attribute_details], the form under the browser, as
      a function from the analysis and the clicked row to the rows of the
      form and the exception, if any, with the operations of the runtime it
      applies to the object the lookup returned.  Theorems: on an object
      document with plain keys a click never raises and the form starts
      with the path and the type of the node of the row
      ([details_of_row]); the statistics of arrays have the types the
      handler formats ([array_stats_typed]); on a root array the form of a
      top-level attribute is its path alone ([details_root_array]).
    - [History]: [JqQueryInput]: [keyPressEvent], [add_to_history],
      [navigate_history] as functions on the state of the line.  Theorems:
      the invariant of the reachable states (at most 50 entries, none empty,
      no immediate repetition, index in range), [navigate_history] never
      indexes out of range, Up then Down restores the line.
    - [Query]: the extraction loop of [get_response], [_fix_jq_syntax] with
      its four regular expressions as matchers, and the delivery of the
      query over the two signals.  Theorems: the extraction returns the first
      query line of the answer, stated on the text of the answer
      ([extract_query_spec] with [query_line]: not empty, none of the nine
      lead-ins followed by something, a bar or a dot somewhere), a query
      without [sort] is unchanged, every generated query reaches the window
      three times.
    - [Chat]: [ChatWidget]: the models offered ([load_models],
      [_add_ollama_models]), [send_message] and the Return key of the
      input, and the worker [get_response] as a function to the signals it
      emits.  Theorems: the items of the combo box and the selected model
      ([load_models_offered]), when the widget is left without a model
      ([load_models_no_model]), that an item taken from the listing runs
      the process under the name the listing printed
      ([listed_model_runs]), the failure on an answer that is not a
      string ([get_response_object]).
    - [Cli]: [src/askjson.py]: [ask_ollama], [run_jq], [interactive_mode]
      and [main], with what they echo as part of the result; the loop is a
      step function over the inputs typed.  Theorems: the clean-up of the
      answer, [run_jq] raises only when jq cannot be started, the loop ends
      exactly on an interrupt or on exit or quit and never at the end of the
      input, the exit status of [main].
    - [Session]: the window as a record and the session as a transition
      system: [load_json_file], [toggle_attribute_visibility],
      [reset_to_original_json], [run_jq_query], [set_query_from_chat], the
      eye click ([editorEvent] of the delegate, then [eye_clicked]: the
      slot [_handle_eye_clicked] and the signals that end in
      [toggle_attribute_visibility]).  Theorems: the invariant of the
      reachable states ([session_invariant]) by induction over the steps;
      that the handlers show no hidden path, also in a session whose eyes
      can report a row as hidden ([handled], [session_hidden_absent]); that
      no click on an eye of the program ever hides a path,
      because the delegate reads the row where the flag was
      ([eye_never_hides]); and the result of [load_json_file] on each of its
      three branches.
    - [App]: the window of [Session] with the query line of [History] and
      the queries of [Query], connected as [JsonViewerWindow.__init__]
      connects the widgets.  Theorems: the invariants of the session and of
      the history hold of every state the application reaches, and both
      models hold the same text of the line ([app_invariant]); the hidden
      set is empty in each of them ([app_nothing_hidden]).

    ** Modelling choices

    - Shallow embedding: a method is a function from its arguments and the
      state it reads to its result and the state it leaves.  Names are those
      of the source.
    - A Python [dict] is a list of pairs in insertion order with
      first-match lookup ([PyDict]); [dict_set] keeps the position of a key
      that is already present, as Python does.
    - [int] is [Z] (Python integers are unbounded), [float] is [Q]: the
      arithmetic of means and medians is exact, so the theorems hold of the
      program up to floating-point rounding.  [json.loads] also accepts
      [NaN], [Infinity] and [-Infinity] and reads [1e999] as an infinity;
      the model has no such floats, and its numbers do not overflow: for an
      integer too large for a float [statistics.mean] raises
      [OverflowError], which ends the numeric branch at [except] with
      ['min'] and ['max'] alone, and the format [.2f] of the details
      raises.  Documents with such numbers are outside the model.  A
      standard deviation is represented by the rational it is the square
      root of ([StSqrt]).
    - Strings are sequences of 8-bit characters, read as the code points 0 to
      255; the classes [\s] and [\w] are those of Python on this range.
    - [random.sample] draws from an explicit generator state, a stream of
      numbers ([rng]); the state is threaded through the analysis in the
      order of the calls.  [array_stats_examples_complete] shows that every
      outcome of the real generator is the outcome of some stream.
    - An exception the code catches is a branch of the model: a runtime
      call that can raise returns an [option], and the [except] block is
      the case [None] ([numeric_stats]).  An exception the code lets
      escape is the outcome [Raise] ([Lookup]).
    - The environment of the session and of the command-line tool, reading
      a file, [json.loads] and the processes of jq and of the model, is a
      parameter of the section of the handlers; the invariant of the
      session assumes only that [json.loads] returns well-formed documents.
      [json.dumps] is a constructor of the pane's contents.  The result
      [None] of a parameter stands for the exception the code names:
      reading a file fails with any exception in the viewer and with
      [FileNotFoundError] in the command-line tool, [json.loads] with
      [JSONDecodeError].  Other exceptions of these calls (another
      [OSError] in the tool, a [RecursionError] of [json.loads] or of the
      analysis on a deeply nested document) are outside the model: in the
      viewer they would reach the outer [except] of [load_json_file] after
      the hidden set is reset, in the tool they leave [main] as a traceback.
    - Qt is modelled where the program's state depends on it.  The item
      data of a row is one value per column and role, whoever writes it
      ([QTreeWidgetItem.setData] or the [setData] of the tree's model).
      A click on an eye is the delegate's [editorEvent] on a row that is
      painted, with the release on its eye.  The click handler of the
      browser is the one assigned over [_handle_item_clicked] (gui.py 492),
      taken to redirect the connection made before (gui.py 443).
    - The text [str] gives for a float, a container or a tuple, and the
      text of a number with a fixed number of decimals, are parameters of
      the handler of [Details]; [str] of [None], booleans, integers and
      strings is defined.  The examples run with a formatter that is exact
      on rationals.
    - The terminal of [interactive_mode] is the finite list of the inputs
      typed; the loop is recursive on this list and its result says whether
      it has returned or waits for more input, so no fuel is needed and a
      loop that never ends shows as one that waits after every input.
    - No recursion needs fuel: every function is structurally recursive on
      the document, the schema, the path or the string, so every definition
      computes and the examples are checked by evaluation.

    ** Not modelled

    The syntax highlighter and the construction and painting of the Qt
    widgets: they draw.  Of [EyeIconDelegate.paint] the model has the
    choice of the icon ([Session.paint]), not the rectangle it is drawn in.  The processes ([jq], [ollama]) and the [llm]
    library are parameters.  The answer of the model is the input of [Query]; the
    output of jq is the input of [Session] and of [Cli]; the text of the
    prompts sent to the model is not modelled. *)

From Stdlib Require Export ZifyNat.
From stdpp Require Export base tactics option list strings gmap sorting.

(** Division and remainder on [nat] stay folded under [simpl], as stdpp
    keeps the operations of [Z]. *)
#[global] Arguments Nat.div : simpl never.
#[global] Arguments Nat.modulo : simpl never.

(** ** Scope and notations *)

Declare Scope py_scope.
Delimit Scope py_scope with py.

(** ** Outcomes: a result or a raised exception

    The code of a handler that can raise is a function into [outcome];
    [try! x := m in f] runs [f] on the result of [m] and passes a raised
    exception on. *)

Inductive exn : Type :=
  TypeError | AttributeError | KeyError | ValueError | OSError | EOFError.

Inductive outcome (A : Type) : Type :=
| Return (a : A)
| Raise (e : exn).
Arguments Return {A} a.
Arguments Raise {A} e.

Definition and_then {A B} (m : outcome A) (f : A → outcome B) : outcome B :=
  match m with
  | Return a => f a
  | Raise e => Raise e
  end.

Notation "'try!' x := m 'in' f" := (and_then m (λ x, f))
  (at level 10, x name, m at level 100, f at level 200) : py_scope.

(** ** Handlers that write

    A handler that writes as it runs (lines to a terminal, rows to a form)
    is a function into [writer W]: what it has written, and the value or the
    exception it ended with.  What is written before an exception stays
    written. *)

Definition writer (W A : Type) : Type := list W * outcome A.

Definition io_ret {W A} (a : A) : writer W A := ([], Return a).

Definition io_bind {W A B} (m : writer W A) (f : A → writer W B) : writer W B :=
  match m with
  | (log, Return a) => let '(log', r) := f a in (log ++ log', r)
  | (log, Raise e) => (log, Raise e)
  end.

Definition tell {W} (w : W) : writer W unit := ([w], Return ()).

Definition call {W A} (o : outcome A) : writer W A := ([], o).

Notation "'do!' x := m 'in' f" := (io_bind m (λ x, f))
  (at level 10, x name, m at level 100, f at level 200) : py_scope.
Notation "'say!' m 'in' f" := (io_bind m (λ _, f))
  (at level 10, m at level 100, f at level 200) : py_scope.

(** [for i, x in enumerate(l): f(i, x)], counting from [i]. *)
Fixpoint for_enumerate {W A} (f : nat → A → writer W unit) (i : nat) (l : list A)
    : writer W unit :=
  match l with
  | [] => io_ret ()
  | x :: l => io_bind (f i x) (λ _, for_enumerate f (S i) l)
  end.

Lemma io_bind_returns {W A B} (m : writer W A) (f : A → writer W B) :
  (∃ log a, m = (log, Return a)) → (∀ a, ∃ log b, f a = (log, Return b)) →
  ∃ log b, io_bind m f = (log, Return b).
Proof.
  intros (log & a & ->) Hf. destruct (Hf a) as (log' & b & Hb).
  unfold io_bind. rewrite Hb. eauto.
Qed.

Lemma io_bind_call {W A B} (a : A) (f : A → writer W B) :
  io_bind (call (Return a)) f = f a.
Proof. unfold io_bind, call. by destruct (f a). Qed.

Lemma io_bind_tell {W B} (w : W) (f : unit → writer W B) :
  io_bind (tell w) f = (w :: (f ()).1, (f ()).2).
Proof. unfold io_bind, tell. by destruct (f ()). Qed.

Lemma for_enumerate_returns {W A} (f : nat → A → writer W unit) i l :
  (∀ i x, x ∈ l → ∃ log u, f i x = (log, Return u)) →
  ∃ log u, for_enumerate f i l = (log, Return u).
Proof.
  revert i. induction l as [|x l IH]; intros i Hf; [by eexists _, _|].
  cbn [for_enumerate]. apply io_bind_returns; [apply Hf; left|].
  intros _. apply IH. intros j y Hy. apply Hf. by right.
Qed.

(** ** Hint database of the development *)

Create HintDb askjson discriminated.
Create Rewrite HintDb askjson.

(** ** Tactics *)

(** [split_hyps]: split the conjunctions among the hypotheses. *)
Ltac split_hyps :=
  repeat match goal with
  | H : _ ∧ _ |- _ => destruct H
  end.

(** [destruct_pairs]: split every pair-typed hypothesis variable. *)
Ltac destruct_pairs :=
  repeat match goal with
  | p : (_ * _)%type |- _ => destruct p
  end.


(** ** Generic list facts shared by the components *)

Section list_facts.
Context {A : Type}.
Implicit Types (l : list A) (P Q R : A → Prop).

(** Two facts about every element give a third. *)
Lemma Forall_impl2 P Q R l :
  Forall P l → Forall Q l → (∀ x, P x → Q x → R x) → Forall R l.
Proof.
  intros HP HQ HR. induction HP as [|x l Hx _ IH]; [constructor|].
  apply Forall_cons in HQ as [Hq HQ]. constructor; auto.
Qed.

Lemma StronglySorted_impl (R R' : relation A) l :
  (∀ x y, R x y → R' x y) → StronglySorted R l → StronglySorted R' l.
Proof.
  intros HR. induction 1 as [|x l _ IH Hx]; constructor; [done|].
  eapply Forall_impl; eauto.
Qed.

Lemma StronglySorted_reverse (R : relation A) l :
  StronglySorted R l → StronglySorted (flip R) (reverse l).
Proof.
  induction 1 as [|x l _ IH Hx]; [rewrite reverse_nil; constructor|].
  rewrite reverse_cons. apply StronglySorted_app_2; [|done|by repeat constructor].
  intros y z Hy ->%list_elem_of_singleton. rewrite elem_of_reverse in Hy.
  rewrite Forall_forall in Hx. unfold flip. by apply Hx.
Qed.

End list_facts.

Lemma filter_nil_Forall {A} (P : A → Prop) `{∀ x, Decision (P x)} (l : list A) :
  filter P l = [] ↔ Forall (λ x, ¬ P x) l.
Proof.
  induction l as [|x l IH]; [by rewrite filter_nil|].
  rewrite filter_cons, Forall_cons. case_decide; [|by rewrite IH; tauto].
  split; [done|]. by intros [].
Qed.
