(* ===== verification/PyStr.v ===== *)
(** * PyStr: the Python runtime's [str] operations the program calls

    Strings are [string]s of 8-bit characters.  [len(s)] is
    [String.length], [s + t] is [+:+], the slice [s[:n]] is
    [String.substring 0 n s].

    These definitions and facts model the language runtime, not code of
    the repository. *)

From Stdlib Require Import Ascii String.
From S2P Require Import Prelude.

(** ** Whitespace and word characters

    [c.isspace()] on the characters below 256, which is also the class [\s]
    of [re]; [isword] is the class [\w]: the alphanumeric characters and the
    underscore. *)

Definition isspace (c : ascii) : bool :=
  let n := nat_of_ascii c in
  ((9 <=? n) && (n <=? 13)) || ((28 <=? n) && (n <=? 32))
  || (n =? 133) || (n =? 160).

Definition isword (c : ascii) : bool :=
  let n := nat_of_ascii c in
  ((48 <=? n) && (n <=? 57)) || ((65 <=? n) && (n <=? 90)) || (n =? 95)
  || ((97 <=? n) && (n <=? 122))
  || (n =? 170) || (n =? 178) || (n =? 179) || (n =? 181) || (n =? 185)
  || (n =? 186) || ((188 <=? n) && (n <=? 190))
  || ((192 <=? n) && (n <=? 214)) || ((216 <=? n) && (n <=? 246))
  || (248 <=? n).

(** ** [strip], [split], [in] and [replace] *)

Fixpoint lstrip (s : string) : string :=
  match s with
  | String c s' => if isspace c then lstrip s' else s
  | EmptyString => EmptyString
  end.

Definition rstrip (s : string) : string := String.rev (lstrip (String.rev s)).

Definition strip (s : string) : string := rstrip (lstrip s).

(** [s.strip(chars)]: the characters of [chars] are removed from both
    ends. *)
Fixpoint lstrip_chars (chars : list ascii) (s : string) : string :=
  match s with
  | String c s' => if bool_decide (c ∈ chars) then lstrip_chars chars s' else s
  | EmptyString => EmptyString
  end.

Definition strip_chars (chars : list ascii) (s : string) : string :=
  String.rev (lstrip_chars chars (String.rev (lstrip_chars chars s))).

(** [c.lower()] on the characters below 256: the letters A to Z and the
    capital letters of Latin-1 (192 to 222 without the multiplication sign)
    move up by 32. *)
Definition lower_char (c : ascii) : ascii :=
  let n := nat_of_ascii c in
  if ((65 <=? n) && (n <=? 90)) || ((192 <=? n) && (n <=? 222) && negb (n =? 215))
  then ascii_of_nat (n + 32) else c.

Fixpoint lower (s : string) : string :=
  match s with
  | String c s' => String (lower_char c) (lower s')
  | EmptyString => EmptyString
  end.

Definition newline : ascii := "010"%char.

(** [s * n] *)
Fixpoint str_mul (s : string) (n : nat) : string :=
  match n with
  | 0 => EmptyString
  | S n => s +:+ str_mul s n
  end.

(** [sep.join(l)] *)
Fixpoint join (sep : string) (l : list string) : string :=
  match l with
  | [] => EmptyString
  | [x] => x
  | x :: l' => x +:+ sep +:+ join sep l'
  end.

(** [s.split(c)] for a separator of one character. *)
Fixpoint split_on (c : ascii) (s : string) : list string :=
  match s with
  | EmptyString => [EmptyString]
  | String a s' =>
      if Ascii.eqb a c then EmptyString :: split_on c s'
      else match split_on c s' with
           | h :: t => String a h :: t
           | [] => [String a EmptyString]
           end
  end.

(** [s.split()]: the maximal runs of characters that are not whitespace;
    [word] is the run read so far. *)
Fixpoint split_ws_go (word s : string) : list string :=
  let flush := if bool_decide (word = "") then [] else [word] in
  match s with
  | String c s' =>
      if isspace c then flush ++ split_ws_go "" s'
      else split_ws_go (word +:+ String c "") s'
  | EmptyString => flush
  end.

Definition split_ws (s : string) : list string := split_ws_go "" s.

(** [s.split(c, 1)]: [s] cut at the first [c]. *)
Fixpoint split1 (c : ascii) (s : string) : list string :=
  match s with
  | String a s' =>
      if Ascii.eqb a c then [""; s']
      else match split1 c s' with
           | x :: rest => String a x :: rest
           | [] => [String a s']
           end
  | EmptyString => [""]
  end.

(** [sub in s] *)
Fixpoint contains (sub s : string) : bool :=
  String.prefix sub s ||
  match s with
  | String _ s' => contains sub s'
  | EmptyString => false
  end.

(** [s[n:]] *)
Fixpoint drop_str (n : nat) (s : string) : string :=
  match n, s with
  | S n, String _ s' => drop_str n s'
  | _, _ => s
  end.

(** [s.replace(old, new)] for a non-empty [old], left to right and without
    overlaps: after an occurrence is replaced, [skip] counts the characters
    of it still to be passed. *)
Fixpoint replace_go (old new : string) (skip : nat) (s : string) : string :=
  match s with
  | EmptyString => EmptyString
  | String a s' =>
      match skip with
      | S k => replace_go old new k s'
      | 0 =>
          if String.prefix old s
          then new +:+ replace_go old new (String.length old - 1) s'
          else String a (replace_go old new 0 s')
      end
  end.

Definition replace (old new s : string) : string := replace_go old new 0 s.

(** The string without the character [c]. *)
Fixpoint remove_char (c : ascii) (s : string) : string :=
  match s with
  | String a s' => if Ascii.eqb a c then remove_char c s' else String a (remove_char c s')
  | EmptyString => EmptyString
  end.

(** [c] does not occur in [s]. *)
Definition char_free (c : ascii) (s : string) : Prop :=
  c ∉ list_ascii_of_string s.

#[export] Instance char_free_dec c s : Decision (char_free c s).
Proof. unfold char_free. apply _. Defined.

(** ** Length, concatenation and slices *)

Lemma String_length_app s1 s2 :
  String.length (s1 +:+ s2) = String.length s1 + String.length s2.
Proof. induction s1; simpl; [done|]. by rewrite IHs1. Qed.

(** [len(s[:n]) == min(n, len(s))] *)
Lemma substring_0_length n s :
  String.length (String.substring 0 n s) = n `min` String.length s.
Proof.
  revert n. induction s as [|c s IH]; intros [|n]; simpl; try done.
  by rewrite IH.
Qed.

(** [s.startswith(s[:n])] *)
Lemma substring_0_prefix n s : String.prefix (String.substring 0 n s) s = true.
Proof.
  revert n. induction s as [|c s IH]; intros [|n]; simpl; try done.
  destruct (Ascii.ascii_dec c c); [apply IH|done].
Qed.

(** [s[:n] == s] when [len(s) <= n] *)
Lemma substring_0_all n s : String.length s ≤ n → String.substring 0 n s = s.
Proof.
  revert n. induction s as [|c s IH]; intros [|n]; simpl; try done; [lia|].
  intros Hn. rewrite IH; [done|lia].
Qed.

(** ** Whitespace *)

Lemma lstrip_idemp s : lstrip (lstrip s) = lstrip s.
Proof.
  induction s as [|c s IH]; [done|]. simpl.
  destruct (isspace c) eqn:E; [done|]. simpl. by rewrite E.
Qed.

(** Nothing is left of a string of whitespace. *)
Lemma lstrip_empty s :
  lstrip s = EmptyString ↔ Forall (λ c, isspace c = true) (String.list_ascii_of_string s).
Proof.
  induction s as [|c s IH]; simpl; [by split; [constructor|]|].
  destruct (isspace c) eqn:E.
  - rewrite IH, Forall_cons. naive_solver.
  - split; [done|]. intros [? _]%Forall_cons. congruence.
Qed.

(** ** Occurrences *)

Lemma prefix_contains p s : String.prefix p s = true → contains p s = true.
Proof. destruct s; simpl; intros ->; done. Qed.

Lemma contains_cons_false p a s :
  contains p (String a s) = false →
  String.prefix p (String a s) = false ∧ contains p s = false.
Proof. cbn [contains]. by intros ?%orb_false_iff. Qed.

(** [s.replace(old, new) == s] when [old] does not occur in [s]. *)
Lemma replace_absent old new s : contains old s = false → replace old new s = s.
Proof.
  unfold replace. induction s as [|a s IH]; [done|].
  intros [Hp Hc]%contains_cons_false. cbn [replace_go]. rewrite Hp.
  by rewrite IH.
Qed.

Lemma split_on_nonempty c s : split_on c s ≠ [].
Proof.
  induction s as [|a s IH]; [done|]. simpl.
  destruct (Ascii.eqb a c); [done|]. by destruct (split_on c s).
Qed.

(** Joining the pieces with the separator gives the string back. *)
Lemma split_on_join c s :
  foldr (λ piece acc, match acc with
                      | None => Some piece
                      | Some t => Some (piece +:+ String c t)
                      end) None (split_on c s) = Some s.
Proof.
  induction s as [|a s IH]; [done|]. simpl.
  destruct (Ascii.eqb_spec a c) as [->|Hne].
  - simpl. by rewrite IH.
  - destruct (split_on c s) as [|h t] eqn:E; [by apply split_on_nonempty in E|].
    simpl in *. destruct (foldr _ None t); by simplify_eq/=.
Qed.

Lemma join_cons sep x l : l ≠ [] → join sep (x :: l) = x +:+ sep +:+ join sep l.
Proof. by destruct l. Qed.

(** [sep.join(s.split(sep)) == s] *)
Lemma join_split_on c s : join (String c "") (split_on c s) = s.
Proof.
  induction s as [|a s IH]; [done|]. cbn [split_on].
  destruct (Ascii.eqb_spec a c) as [->|Hne].
  - rewrite join_cons by apply split_on_nonempty. by rewrite IH.
  - destruct (split_on c s) as [|h t] eqn:E; [by apply split_on_nonempty in E|].
    rewrite <-IH. destruct t; [done|]. by rewrite !join_cons by done.
Qed.

(** ** Replacing a character by nothing *)

Lemma replace_char_empty c s : replace (String c "") "" s = remove_char c s.
Proof.
  unfold replace. induction s as [|a s IH]; [done|]. cbn [replace_go remove_char].
  cbn [String.prefix String.length Nat.sub]. rewrite Ascii.eqb_sym.
  destruct (Ascii.eqb_spec c a) as [->|Hne].
  - destruct (ascii_dec a a); [|done]. by destruct s.
  - destruct (ascii_dec c a); [done|]. by rewrite IH.
Qed.

(** No string that starts with [c] occurs in a string without [c]. *)
Lemma remove_char_absent c p s : contains (String c p) (remove_char c s) = false.
Proof.
  induction s as [|a s IH]; [done|]. cbn [remove_char].
  destruct (Ascii.eqb_spec a c) as [->|Hne]; [done|].
  cbn [contains String.prefix]. destruct (ascii_dec c a); [by subst|].
  by rewrite IH.
Qed.

(** ** Prefixes, occurrences and splits, in terms of concatenation *)

(** [s.startswith(p)] says that [s] is [p] followed by something. *)
Lemma prefix_spec p s : String.prefix p s = true ↔ ∃ t, s = p +:+ t.
Proof.
  revert s. induction p as [|a p IH]; intros s.
  { destruct s; simpl; split; eauto. }
  destruct s as [|b s]; cbn [String.prefix]; [split; [done|by intros [? ?]]|].
  destruct (ascii_dec a b) as [->|Hne].
  - rewrite IH. split; intros [t Ht]; exists t; [by subst|].
    by injection Ht.
  - split; [done|]. intros [t Ht]. by injection Ht.
Qed.

(** [sub in s] says that [s] is [sub] between two strings. *)
Lemma contains_spec sub s :
  contains sub s = true ↔ ∃ before after, s = before +:+ sub +:+ after.
Proof.
  split.
  - induction s as [|c s IH]; cbn [contains]; rewrite orb_true_iff, prefix_spec.
    + intros [[t Ht]|?]; [|done]. by exists "", t.
    + intros [[t Ht]|(a & b & ->)%IH]; [by exists "", t|].
      by exists (String c a), b.
  - intros (a & b & ->). induction a as [|c a IH].
    + apply prefix_contains, prefix_spec. by exists b.
    + cbn [contains]. simpl. rewrite IH. apply orb_true_r.
Qed.

Lemma char_free_cons c a s :
  char_free c (String a s) ↔ a ≠ c ∧ char_free c s.
Proof. unfold char_free. simpl. rewrite not_elem_of_cons. naive_solver. Qed.

Lemma split_on_single c s : char_free c s → split_on c s = [s].
Proof.
  induction s as [|a s IH]; [done|]. intros [Hne Hs]%char_free_cons.
  cbn [split_on]. destruct (Ascii.eqb_spec a c); [done|]. by rewrite IH.
Qed.

Lemma split_on_app c h t :
  char_free c h → split_on c (h +:+ String c t) = h :: split_on c t.
Proof.
  induction h as [|a h IH]; simpl.
  - intros _. by rewrite Ascii.eqb_refl.
  - intros [Hne Hs]%char_free_cons. destruct (Ascii.eqb_spec a c); [done|].
    by rewrite IH.
Qed.

(** The pieces of a split hold no separator. *)
Lemma split_on_pieces c s : Forall (char_free c) (split_on c s).
Proof.
  induction s as [|a s IH]; [constructor; [apply not_elem_of_nil|constructor]|].
  cbn [split_on]. destruct (Ascii.eqb_spec a c) as [->|Hne].
  - constructor; [apply not_elem_of_nil|done].
  - destruct (split_on c s) as [|h t] eqn:E; [by apply split_on_nonempty in E|].
    apply Forall_cons in IH as [Hh Ht]. constructor; [|done].
    by apply char_free_cons.
Qed.

(** [sep.join(l).split(sep) == l] for pieces without the separator. *)
Lemma split_on_join_pieces c l :
  l ≠ [] → Forall (char_free c) l → split_on c (join (String c "") l) = l.
Proof.
  induction l as [|h l IH]; [done|]. intros _ [Hh Hl]%Forall_cons.
  destruct l as [|h' l]; [by apply split_on_single|].
  rewrite join_cons by done. change (String c "" +:+ ?s) with (String c s).
  rewrite split_on_app by done. by rewrite IH.
Qed.

(** [s.split(sep)] is the one list of separator-free pieces that joins
    to [s]. *)
Lemma split_on_spec c s l :
  split_on c s = l ↔
  l ≠ [] ∧ Forall (char_free c) l ∧ s = join (String c "") l.
Proof.
  split.
  - intros <-. split_and!; [apply split_on_nonempty|apply split_on_pieces|].
    by rewrite join_split_on.
  - intros (Hne & Hl & ->). by apply split_on_join_pieces.
Qed.
