(* ===== verification/PyDict.v ===== *)
(** * PyDict: the Python runtime's insertion-ordered [dict] with [str] keys

    The program stores every JSON object, every schema and every statistics
    record in a Python [dict].  Since Python 3.7 a [dict] iterates in
    insertion order, and the program depends on it (the attribute browser
    lists keys in document order), so a [dict] is modelled as an association
    list in insertion order whose keys are pairwise distinct ([dict_wf]),
    not as a finite map.

    - [dict_get]   is [d.get(k)] and, on a present key, [d[k]];
    - [dict_mem]   is [k in d];
    - [dict_set]   is [d[k] = v]: an existing key keeps its position and
                   gets the new value, a new key is appended;
    - [dict_build] is the loop [for k, v in items: if keep: r[k] = f(k, v)]
                   that most of the program's traversals have.

    These definitions model the language runtime, not code of the
    repository; the components that use them are mapped to the source. *)

From S2P Require Import Prelude.

Abbreviation dict V := (list (string * V)).

Section pydict.
Context {V : Type}.
Implicit Types (k : string) (v : V) (d : dict V).

Fixpoint dict_get k d : option V :=
  match d with
  | [] => None
  | (k', v') :: d' => if decide (k = k') then Some v' else dict_get k d'
  end.

Definition dict_mem k d : bool := bool_decide (is_Some (dict_get k d)).

Fixpoint dict_set k v d : dict V :=
  match d with
  | [] => [(k, v)]
  | (k', v') :: d' =>
      if decide (k = k') then (k, v) :: d' else (k', v') :: dict_set k v d'
  end.

Definition dict_keys d : list string := d.*1.

(** Keys are pairwise distinct: what every [dict] of the runtime satisfies. *)
Definition dict_wf d : Prop := NoDup (dict_keys d).

#[export] Instance dict_wf_dec d : Decision (dict_wf d).
Proof. unfold dict_wf. apply _. Defined.

(** ** Lookup *)

Lemma elem_of_dict_keys k v d : (k, v) ∈ d → k ∈ dict_keys d.
Proof. apply (list_elem_of_fmap_2 fst d (k, v)). Qed.

Lemma dict_get_None k d : dict_get k d = None ↔ k ∉ dict_keys d.
Proof.
  induction d as [|[k' v'] d IH]; simpl.
  - split; [intros _; apply not_elem_of_nil | done].
  - rewrite not_elem_of_cons. case_decide; simplify_eq; naive_solver.
Qed.

Lemma dict_get_Some_elem k v d : dict_get k d = Some v → (k, v) ∈ d.
Proof.
  induction d as [|[k' v'] d IH]; simpl; [done|].
  case_decide; intros ?; simplify_eq; [left | right; auto].
Qed.

Lemma dict_get_elem k v d : dict_wf d → (k, v) ∈ d → dict_get k d = Some v.
Proof.
  unfold dict_wf, dict_keys.
  induction d as [|[k' v'] d IH]; simpl; [by intros _ ?%elem_of_nil|].
  rewrite NoDup_cons, elem_of_cons. intros [Hk' Hd] [?|Hin]; simplify_eq.
  - by rewrite decide_True.
  - rewrite decide_False; [auto|]. intros ->. eauto using elem_of_dict_keys.
Qed.

Lemma dict_mem_keys k d : dict_mem k d = true ↔ k ∈ dict_keys d.
Proof.
  unfold dict_mem. rewrite bool_decide_eq_true.
  destruct (dict_get k d) eqn:E.
  - split; [intros _ | by eauto].
    eauto using dict_get_Some_elem, elem_of_dict_keys.
  - apply dict_get_None in E. split; [by intros [??] | done].
Qed.

(** ** Assignment *)

Lemma dict_get_set_eq k v d : dict_get k (dict_set k v d) = Some v.
Proof.
  induction d as [|[k' v'] d IH]; simpl; repeat case_decide; simpl;
    repeat case_decide; congruence.
Qed.

Lemma dict_get_set_ne k k' v d :
  k ≠ k' → dict_get k' (dict_set k v d) = dict_get k' d.
Proof.
  intros Hne. induction d as [|[k1 v1] d IH]; simpl; repeat case_decide; simpl;
    repeat case_decide; congruence.
Qed.

(** Assigning to a new key appends it. *)
Lemma dict_set_fresh k v d : k ∉ dict_keys d → dict_set k v d = d ++ [(k, v)].
Proof.
  induction d as [|[k' v'] d IH]; simpl; [done|].
  rewrite not_elem_of_cons. intros [Hne Hk].
  rewrite decide_False by done. by rewrite IH.
Qed.

(** Assigning to a present key keeps the key order. *)
Lemma dict_set_keys_present k v d :
  k ∈ dict_keys d → dict_keys (dict_set k v d) = dict_keys d.
Proof.
  induction d as [|[k' v'] d IH]; simpl; [by intros ?%elem_of_nil|].
  rewrite elem_of_cons. intros Hk. case_decide; simpl; [congruence|].
  f_equal. apply IH. naive_solver.
Qed.

Lemma dict_set_keys k v d :
  dict_keys (dict_set k v d) =
  if decide (k ∈ dict_keys d) then dict_keys d else dict_keys d ++ [k].
Proof.
  case_decide as Hk.
  - by apply dict_set_keys_present.
  - rewrite dict_set_fresh by done. unfold dict_keys. by rewrite fmap_app.
Qed.

Lemma dict_set_wf k v d : dict_wf d → dict_wf (dict_set k v d).
Proof.
  unfold dict_wf. rewrite dict_set_keys. case_decide as Hk; [done|].
  intros Hd. apply NoDup_app. split_and!; [done| |apply NoDup_singleton].
  intros x Hx ->%list_elem_of_singleton. done.
Qed.

Lemma dict_set_length k v d :
  length (dict_set k v d) =
  if decide (k ∈ dict_keys d) then length d else S (length d).
Proof.
  pose proof (dict_set_keys k v d) as Hk. apply (f_equal length) in Hk.
  unfold dict_keys in *. rewrite length_fmap in Hk. rewrite Hk.
  case_decide; rewrite ?length_app, length_fmap; simpl; lia.
Qed.

End pydict.

#[export] Hint Resolve dict_set_wf : askjson.
#[export] Hint Rewrite @dict_get_set_eq : askjson.
#[export] Hint Rewrite @dict_get_set_ne using done : askjson.

(** [dict_simpl]: look keys up through a chain of assignments. *)
Ltac dict_simpl := autorewrite with askjson; simpl dict_get.

(** ** The traversal loop

    [dict_build f items acc] runs

      for k, v in items:
          if f(k, v) is not skipped:  acc[k] = f(k, v)

    where [f k v = None] stands for a [continue]. *)

Section dict_build.
Context {A V : Type}.
Implicit Types (f : string → A → option V) (items : dict A) (acc : dict V).

Definition dict_build f items acc : dict V :=
  fold_left (λ r '(k, a), match f k a with Some w => dict_set k w r | None => r end)
            items acc.

(** What the loop leaves when no key repeats: the kept items, in order. *)
Definition dict_build_spec f items : dict V :=
  omap (λ '(k, a), (k,.) <$> f k a) items.

Lemma dict_build_spec_cons f k a items :
  dict_build_spec f ((k, a) :: items) =
  match f k a with
  | Some w => (k, w) :: dict_build_spec f items
  | None => dict_build_spec f items
  end.
Proof. unfold dict_build_spec; simpl. by destruct (f k a). Qed.

Lemma dict_build_spec_keys f items :
  dict_keys (dict_build_spec f items) ⊆ dict_keys items.
Proof.
  induction items as [|[k a] items IH]; [done|].
  rewrite dict_build_spec_cons. intros x. unfold dict_keys in *.
  destruct (f k a); simpl; rewrite !elem_of_cons; naive_solver.
Qed.

Lemma dict_build_spec_wf f items :
  dict_wf items → dict_wf (dict_build_spec f items).
Proof.
  unfold dict_wf.
  induction items as [|[k a] items IH]; [done|].
  rewrite dict_build_spec_cons. unfold dict_keys at 1; simpl.
  rewrite NoDup_cons. intros [Hk Hd]. destruct (f k a); [|by apply IH].
  apply NoDup_cons. split; [|by apply IH].
  intros Hin. apply Hk. by apply (dict_build_spec_keys f items).
Qed.

Lemma dict_build_nodup f items acc :
  NoDup (dict_keys acc ++ dict_keys items) →
  dict_build f items acc = acc ++ dict_build_spec f items.
Proof.
  unfold dict_build, dict_keys.
  revert acc. induction items as [|[k a] items IH]; intros acc.
  - intros _. by rewrite app_nil_r.
  - rewrite dict_build_spec_cons. simpl. intros Hnd.
    destruct (f k a) as [w|]; simpl.
    + rewrite dict_set_fresh.
      * rewrite IH; [by rewrite <-app_assoc|].
        rewrite fmap_app; simpl. by rewrite <-app_assoc.
      * apply NoDup_app in Hnd as (_ & Hdisj & _).
        intros Hk. apply (Hdisj _ Hk). left.
    + apply IH. apply NoDup_app in Hnd as (Ha & Hdisj & Hb).
      apply NoDup_cons in Hb as [_ Hb]. apply NoDup_app. split_and!; [done| |done].
      intros x Hx Hx'. apply (Hdisj _ Hx). by right.
Qed.

(** The loop on the items of a well-formed [dict], from an empty result. *)
Lemma dict_build_wf_items f items :
  dict_wf items → dict_build f items [] = dict_build_spec f items.
Proof. intros Hwf. by rewrite dict_build_nodup. Qed.

Lemma dict_build_spec_ext f g items :
  Forall (λ kv, f kv.1 kv.2 = g kv.1 kv.2) items →
  dict_build_spec f items = dict_build_spec g items.
Proof.
  induction 1 as [|[k a] items Hkv _ IH]; [done|].
  rewrite !dict_build_spec_cons. simpl in Hkv. by rewrite Hkv, IH.
Qed.

Lemma dict_build_spec_elem f items k w :
  (k, w) ∈ dict_build_spec f items ↔ ∃ a, (k, a) ∈ items ∧ f k a = Some w.
Proof.
  unfold dict_build_spec. rewrite list_elem_of_omap. split.
  - intros ([k' a] & Hin & Hf). destruct (f k' a) eqn:E; simplify_eq/=. eauto.
  - intros (a & Hin & Hf). exists (k, a). by rewrite Hf.
Qed.

End dict_build.

Arguments dict_build_spec : simpl never.

Lemma dict_build_spec_compose {A B C} (f : string → A → option B)
    (g : string → B → option C) (items : dict A) :
  dict_build_spec g (dict_build_spec f items) =
  dict_build_spec (λ k a, f k a ≫= g k) items.
Proof.
  induction items as [|[k a] items IH]; [done|].
  rewrite !dict_build_spec_cons. destruct (f k a) as [b|]; simpl; [|done].
  rewrite dict_build_spec_cons, IH. done.
Qed.

Lemma dict_build_spec_id {A} (f : string → A → option A) (items : dict A) :
  Forall (λ kv, f kv.1 kv.2 = Some kv.2) items → dict_build_spec f items = items.
Proof.
  induction 1 as [|[k a] items Hkv _ IH]; [done|].
  rewrite dict_build_spec_cons. simpl in Hkv. by rewrite Hkv, IH.
Qed.

(** ** The traversal loop with a state

    [dict_build_st f items (acc, s)] runs

      for k, v in items:
          acc[k] = f(k, v)

    where the call reads and updates a state [s] (the random generator).
    [dict_run_st] is its specification: the entries in the order of the
    items, the state threaded through the calls. *)

Section dict_build_st.
Context {A V S : Type}.
Implicit Types (f : string → A → S → V * S) (items : dict A) (s : S).

Definition dict_build_st f items (acc : dict V * S) : dict V * S :=
  fold_left (λ '(r, s) '(k, a), let '(w, s') := f k a s in (dict_set k w r, s'))
            items acc.

Fixpoint dict_run_st f items s : dict V * S :=
  match items with
  | [] => ([], s)
  | (k, a) :: rest =>
      let '(w, s1) := f k a s in
      let '(ws, s2) := dict_run_st f rest s1 in
      ((k, w) :: ws, s2)
  end.

Lemma dict_run_st_cons f k a items s :
  dict_run_st f ((k, a) :: items) s =
  ((k, (f k a s).1) :: (dict_run_st f items (f k a s).2).1,
   (dict_run_st f items (f k a s).2).2).
Proof.
  cbn [dict_run_st]. destruct (f k a s) as [w s1]. cbn [fst snd].
  by destruct (dict_run_st f items s1).
Qed.

Lemma dict_run_st_keys f items s :
  dict_keys (dict_run_st f items s).1 = dict_keys items.
Proof.
  revert s. induction items as [|[k a] items IH]; intros s; [done|].
  rewrite dict_run_st_cons. unfold dict_keys in *. simpl. by rewrite IH.
Qed.

Lemma dict_build_st_nodup f items acc s :
  NoDup (dict_keys acc ++ dict_keys items) →
  dict_build_st f items (acc, s) =
  (acc ++ (dict_run_st f items s).1, (dict_run_st f items s).2).
Proof.
  unfold dict_build_st, dict_keys.
  revert acc s. induction items as [|[k a] items IH]; intros acc s Hnd.
  - by rewrite app_nil_r.
  - rewrite dict_run_st_cons. cbn [fold_left fst snd].
    destruct (f k a s) as [w s1]. cbn [fst snd].
    rewrite dict_set_fresh.
    + rewrite IH; [by rewrite <-app_assoc|].
      rewrite fmap_app; simpl. by rewrite <-app_assoc.
    + apply NoDup_app in Hnd as (_ & Hdisj & _).
      intros Hk. apply (Hdisj _ Hk). left.
Qed.

(** The loop on the items of a well-formed [dict], from an empty result. *)
Lemma dict_build_st_wf_items f items s :
  dict_wf items → dict_build_st f items ([], s) = dict_run_st f items s.
Proof.
  intros Hwf. rewrite dict_build_st_nodup by done.
  by destruct (dict_run_st f items s).
Qed.

(** The entry under a key comes from the item under that key, computed in
    some state. *)
Lemma dict_run_st_get f items s k :
  ∃ s', dict_get k (dict_run_st f items s).1 =
        (λ a, (f k a s').1) <$> dict_get k items.
Proof.
  revert s. induction items as [|[k' a] items IH]; intros s; [by exists s|].
  rewrite dict_run_st_cons. simpl. case_decide as Hk; [subst; by exists s|].
  apply IH.
Qed.

(** What holds of every entry computed from an item holds of the result. *)
Lemma dict_run_st_Forall f (P : string → V → Prop) items s :
  Forall (λ kv, ∀ s', P kv.1 (f kv.1 kv.2 s').1) items →
  Forall (λ kw, P kw.1 kw.2) (dict_run_st f items s).1.
Proof.
  intros Hf. revert s. induction Hf as [|[k a] items Hka _ IH]; intros s;
    [constructor|].
  rewrite dict_run_st_cons. constructor; [apply Hka|apply IH].
Qed.

(** Entries that look the same through [e] whatever the state give results
    that look the same through [e]. *)
Lemma dict_run_st_erase {W} (e : V → W) f items s s' :
  Forall (λ kv, ∀ s s', e (f kv.1 kv.2 s).1 = e (f kv.1 kv.2 s').1) items →
  prod_map id e <$> (dict_run_st f items s).1 =
  prod_map id e <$> (dict_run_st f items s').1.
Proof.
  intros Hf. revert s s'.
  induction Hf as [|[k a] items Hka _ IH]; intros s s'; [done|].
  rewrite !dict_run_st_cons. cbn [fst snd]. rewrite !fmap_cons. f_equal.
  - unfold prod_map; simpl. f_equal. apply Hka.
  - apply IH.
Qed.

(** Calls that leave the state alone give a result that does not depend
    on it. *)
Lemma dict_run_st_pure f items s s' :
  Forall (λ kv, ∀ s s', f kv.1 kv.2 s = ((f kv.1 kv.2 s').1, s)) items →
  dict_run_st f items s = ((dict_run_st f items s').1, s).
Proof.
  intros Hf. revert s s'.
  induction Hf as [|[k a] items Hka _ IH]; intros s s'; [done|].
  rewrite !dict_run_st_cons. simpl in Hka.
  rewrite (Hka s s'). cbn [fst snd]. rewrite (IH s (f k a s').2).
  cbn [fst snd]. done.
Qed.

End dict_build_st.

(** ** Mapping the values of a dict *)

Section dict_fmap.
Context {A B : Type} (f : A → B).
Implicit Types (d : dict A).

Lemma dict_get_fmap k d :
  dict_get k (prod_map id f <$> d) = f <$> dict_get k d.
Proof.
  induction d as [|[k' a] d IH]; [done|]. rewrite fmap_cons. simpl.
  by case_decide.
Qed.

Lemma dict_set_fmap k a d :
  prod_map id f <$> dict_set k a d = dict_set k (f a) (prod_map id f <$> d).
Proof.
  induction d as [|[k' a'] d IH]; [done|]. rewrite fmap_cons. simpl.
  case_decide; [done|]. by rewrite fmap_cons, IH.
Qed.

Lemma dict_keys_fmap d : dict_keys (prod_map id f <$> d) = dict_keys d.
Proof.
  unfold dict_keys. induction d as [|[k a] d IH]; [done|].
  rewrite !fmap_cons. by rewrite IH.
Qed.

Lemma dict_mem_fmap k d : dict_mem k (prod_map id f <$> d) = dict_mem k d.
Proof.
  unfold dict_mem. rewrite dict_get_fmap. apply bool_decide_ext.
  by rewrite fmap_is_Some.
Qed.

End dict_fmap.

Lemma dict_set_Forall {V} (P : V → Prop) k v (d : dict V) :
  P v → Forall (λ kv, P kv.2) d → Forall (λ kv, P kv.2) (dict_set k v d).
Proof.
  intros Hv. induction 1 as [|[k' v'] d Hkv Hd IH]; simpl;
    [by repeat constructor|].
  by case_decide; constructor.
Qed.

Lemma dict_set_elem {V} k (v : V) d k' v' :
  (k', v') ∈ dict_set k v d → (k', v') = (k, v) ∨ (k', v') ∈ d.
Proof.
  induction d as [|[k1 v1] d IH]; simpl; [set_solver|].
  case_decide; set_solver.
Qed.

(** An entry of the result comes from an item, computed in some state. *)
Lemma dict_run_st_elem {A V S} (f : string → A → S → V * S) items s k w :
  (k, w) ∈ (dict_run_st f items s).1 →
  ∃ a s', (k, a) ∈ items ∧ w = (f k a s').1.
Proof.
  revert s. induction items as [|[k' a] items IH]; intros s.
  { by intros ?%elem_of_nil. }
  rewrite dict_run_st_cons. cbn [fst]. intros [?|Hin]%elem_of_cons.
  - simplify_eq. exists a, s. split; [left|done].
  - destruct (IH _ Hin) as (a' & s' & ? & ?). exists a', s'. split; [by right|done].
Qed.

(** ** Membership from lookups *)

Lemma dict_mem_Some {V} k (d : dict V) v : dict_get k d = Some v → dict_mem k d = true.
Proof. unfold dict_mem. intros ->. by apply bool_decide_eq_true_2. Qed.

Lemma dict_mem_None {V} k (d : dict V) : dict_get k d = None → dict_mem k d = false.
Proof. unfold dict_mem. intros ->. by apply bool_decide_eq_false_2; intros [? ?]. Qed.

Lemma dict_mem_absent {V} k (d : dict V) : k ∉ dict_keys d → dict_mem k d = false.
Proof. rewrite <-dict_get_None. apply dict_mem_None. Qed.
