(* ===== verification/Value.v ===== *)
(** * Value: JSON documents as the Python runtime holds them

    [json.loads] turns a document into nested Python objects: [None],
    [bool], [int], [float], [str], [list] and [dict].  The program never
    declares this type; it inspects it with [isinstance], [type(x)] and
    truthiness tests, which are modelled here with the runtime's rules
    (notably: [bool] is a subclass of [int]).

    Numbers: an [int] is a [Z]; a [float] is the exact rational it denotes,
    kept reduced ([Qred]), so that arithmetic on floats is exact here.
    [json.loads] also returns the floats [nan], [inf] and [-inf] (for the
    literals [NaN], [Infinity], [-Infinity] and for numbers such as
    [1e999]); [value] has none of them, and rounding and overflow are
    outside the model. *)

From Stdlib Require Import QArith.
From S2P Require Import Prelude PyDict.

Unset Elimination Schemes.
Inductive value : Type :=
| VNone
| VBool (b : bool)
| VInt (z : Z)
| VFloat (q : Q)
| VStr (s : string)
| VList (l : list value)
| VDict (d : dict value).
Set Elimination Schemes.

(** Induction over documents: the elements of a list and the values of a
    dict satisfy the property. *)
Section value_ind.
Variable P : value → Prop.
Hypothesis HNone : P VNone.
Hypothesis HBool : ∀ b, P (VBool b).
Hypothesis HInt : ∀ z, P (VInt z).
Hypothesis HFloat : ∀ q, P (VFloat q).
Hypothesis HStr : ∀ s, P (VStr s).
Hypothesis HList : ∀ l, Forall P l → P (VList l).
Hypothesis HDict : ∀ d, Forall (λ kv, P kv.2) d → P (VDict d).

Fixpoint value_ind (v : value) : P v :=
  match v with
  | VNone => HNone
  | VBool b => HBool b
  | VInt z => HInt z
  | VFloat q => HFloat q
  | VStr s => HStr s
  | VList l =>
      HList l ((fix go (l : list value) : Forall P l :=
                  match l with
                  | [] => List.Forall_nil _
                  | x :: l' => List.Forall_cons _ _ _ (value_ind x) (go l')
                  end) l)
  | VDict d =>
      HDict d ((fix go (d : dict value) : Forall (λ kv, P kv.2) d :=
                  match d with
                  | [] => List.Forall_nil _
                  | kv :: d' => List.Forall_cons _ _ _ (value_ind kv.2) (go d')
                  end) d)
  end.
End value_ind.

(** ** Runtime types *)

Inductive pytype : Type :=
  TNoneType | TBool | TInt | TFloat | TStr | TList | TDict.

#[export] Instance pytype_eq_dec : EqDecision pytype.
Proof. solve_decision. Defined.

(** [type(v)] *)
Definition type_of (v : value) : pytype :=
  match v with
  | VNone => TNoneType
  | VBool _ => TBool
  | VInt _ => TInt
  | VFloat _ => TFloat
  | VStr _ => TStr
  | VList _ => TList
  | VDict _ => TDict
  end.

(** [T.__name__] *)
Definition type_name (T : pytype) : string :=
  match T with
  | TNoneType => "NoneType"
  | TBool => "bool"
  | TInt => "int"
  | TFloat => "float"
  | TStr => "str"
  | TList => "list"
  | TDict => "dict"
  end.

(** [issubclass(S, T)] on these seven types: only [bool <: int] is proper. *)
Definition issubclass (S T : pytype) : bool :=
  bool_decide (S = T) || (bool_decide (S = TBool) && bool_decide (T = TInt)).

(** [isinstance(v, T)] *)
Definition isinstance (v : value) (T : pytype) : bool :=
  issubclass (type_of v) T.

(** [isinstance(v, (int, float))] *)
Definition is_number (v : value) : bool :=
  isinstance v TInt || isinstance v TFloat.

(** [bool(v)]: the truth value of an object in a condition. *)
Definition truthy (v : value) : bool :=
  match v with
  | VNone => false
  | VBool b => b
  | VInt z => negb (z =? 0)%Z
  | VFloat q => negb (Qnum q =? 0)%Z
  | VStr s => negb (bool_decide (s = ""))
  | VList l => negb (bool_decide (l = []))
  | VDict d => negb (bool_decide (d.*1 = []))
  end.

(** The rational a number denotes; [True] is 1 and [False] is 0. *)
Definition num_of (v : value) : Q :=
  match v with
  | VBool b => inject_Z (if b then 1 else 0)
  | VInt z => inject_Z z
  | VFloat q => q
  | _ => 0
  end.

#[export] Instance VStr_inj : Inj (=) (=) VStr.
Proof. by intros ?? [=]. Qed.

(** ** Well-formed documents

    What [json.loads] can return: every [dict] has pairwise distinct keys
    and every float is in reduced form. *)

Fixpoint value_wfb (v : value) : bool :=
  match v with
  | VFloat q => bool_decide (Qnum (Qred q) = Qnum q ∧ Qden (Qred q) = Qden q)
  | VList l => forallb value_wfb l
  | VDict d => bool_decide (dict_wf d) && forallb (λ kv, value_wfb kv.2) d
  | _ => true
  end.

Definition value_wf (v : value) : Prop := value_wfb v = true.

#[export] Instance value_wf_dec v : Decision (value_wf v).
Proof. unfold value_wf. apply _. Defined.

Lemma forallb_Forall {A} (f : A → bool) (l : list A) :
  forallb f l = true ↔ Forall (λ x, f x = true) l.
Proof. induction l; simpl; rewrite ?andb_true_iff, ?Forall_cons; naive_solver. Qed.

Lemma value_wf_list l : value_wf (VList l) ↔ Forall value_wf l.
Proof. apply forallb_Forall. Qed.

Lemma value_wf_dict d :
  value_wf (VDict d) ↔ dict_wf d ∧ Forall (λ kv, value_wf kv.2) d.
Proof.
  unfold value_wf; simpl.
  by rewrite andb_true_iff, bool_decide_eq_true, forallb_Forall.
Qed.
