(* ===== verification/Filter.v ===== *)
(** * Filter: the visibility filter of the JSON view

    [JsonViewerWindow.filter_json_by_visibility] (src/gui.py) rebuilds the
    displayed document without the attributes the user has hidden.  A
    hidden attribute is a path: the tuple of keys from the root; the
    elements of an array share the array's path.

    This file holds the filter, the set of key paths of a document
    ([paths_of]) that says what the filter promises, and the sub-document
    order ([subvalue]) in which a larger hidden set gives less. *)

From S2P Require Import Prelude PyDict Value.

Abbreviation path := (list string).

(** The nested function [_filter_recursive(data, current_path)]; the hidden
    set is the window's [self.hidden_paths], which the closure reads. *)
Fixpoint _filter_recursive (hidden_paths : gset path) (data : value)
    (current_path : path) : value :=
  match data with
  | VDict items =>
      VDict (dict_build
               (λ key v,
                  let key_path := current_path ++ [key] in
                  if decide (key_path ∈ hidden_paths) then None
                  else Some (_filter_recursive hidden_paths v key_path))
               items [])
  | VList l =>
      VList ((λ item, _filter_recursive hidden_paths item current_path) <$> l)
  | _ => data
  end.

Definition filter_json_by_visibility (hidden_paths : gset path)
    (json_data : value) : value :=
  if decide (hidden_paths = ∅) then json_data
  else _filter_recursive hidden_paths json_data [].

(** ** What the filter promises: the key paths of a document

    [key_paths v] is the set of attribute paths of [v], relative to [v]: a
    key of a dict is a path, and so is a key followed by a path of its
    value; the elements of an array contribute their paths under the
    array's own path.  It is the set of rows the attribute browser could
    address in [v]. *)

Fixpoint key_paths (v : value) : gset path :=
  match v with
  | VDict items =>
      ⋃ ((λ kv, {[ [kv.1] ]} ∪ set_map (cons kv.1) (key_paths kv.2)) <$> items)
  | VList l => ⋃ (key_paths <$> l)
  | _ => ∅
  end.

(** [visible H p s]: walking down [s] from [p] meets no hidden path. *)
Fixpoint visible (H : gset path) (p s : path) : Prop :=
  match s with
  | [] => True
  | k :: s' => p ++ [k] ∉ H ∧ visible H (p ++ [k]) s'
  end.

#[export] Instance visible_dec H p s : Decision (visible H p s).
Proof. revert p. induction s; intros p; simpl; apply _. Defined.

(** ** Sub-documents

    [subvalue a b]: [a] is [b] with some attributes removed, at any depth;
    arrays keep their length and scalars their value. *)

Unset Elimination Schemes.
Inductive subvalue : value → value → Prop :=
| subvalue_refl v : subvalue v v
| subvalue_list la lb : Forall2 subvalue la lb → subvalue (VList la) (VList lb)
| subvalue_dict da db : subdict da db → subvalue (VDict da) (VDict db)
with subdict : dict value → dict value → Prop :=
| subdict_nil : subdict [] []
| subdict_keep k va vb da db :
    subvalue va vb → subdict da db → subdict ((k, va) :: da) ((k, vb) :: db)
| subdict_drop kv da db : subdict da db → subdict da (kv :: db).
Set Elimination Schemes.

(** ** The filter on well-formed documents *)

Section filter_facts.
Implicit Types (H : gset path) (v : value) (p : path) (items : dict value).

(** The body of the loop over a dict's items: [None] is the [continue]. *)
Definition keep_key H p (key : string) (v : value) : option value :=
  if decide (p ++ [key] ∈ H) then None
  else Some (_filter_recursive H v (p ++ [key])).

Lemma _filter_recursive_dict H items p :
  dict_wf items →
  _filter_recursive H (VDict items) p = VDict (dict_build_spec (keep_key H p) items).
Proof. intros Hwf. simpl. by rewrite dict_build_wf_items. Qed.

Lemma _filter_recursive_list H l p :
  _filter_recursive H (VList l) p = VList ((λ x, _filter_recursive H x p) <$> l).
Proof. done. Qed.

(** The filter returns a well-formed document. *)
Lemma _filter_recursive_wf H v : ∀ p,
  value_wf v → value_wf (_filter_recursive H v p).
Proof.
  induction v as [|b|z|q|str|l IH|items IH] using value_ind; intros p Hv; try done.
  - rewrite _filter_recursive_list. apply value_wf_list in Hv.
    apply value_wf_list, Forall_fmap. eapply (Forall_impl2 _ _ _ _ IH Hv).
    intros x IHx Hx. by apply IHx.
  - apply value_wf_dict in Hv as [Hd Hvs].
    rewrite _filter_recursive_dict by done. apply value_wf_dict.
    split; [by apply dict_build_spec_wf|].
    apply Forall_forall. intros [k w] (a & Hin & Hf)%dict_build_spec_elem.
    unfold keep_key in Hf. case_decide; simplify_eq/=.
    rewrite Forall_forall in IH, Hvs. by apply (IH (k, a)), (Hvs (k, a)).
Qed.

(** Filtering twice is filtering once by the union of the hidden sets. *)
Lemma _filter_recursive_union H1 H2 v : ∀ p,
  value_wf v →
  _filter_recursive H1 (_filter_recursive H2 v p) p =
  _filter_recursive (H1 ∪ H2) v p.
Proof.
  induction v as [|b|z|q|str|l IH|items IH] using value_ind; intros p Hv; try done.
  - rewrite !_filter_recursive_list. f_equal. rewrite <-list_fmap_compose.
    apply value_wf_list in Hv. apply Forall_fmap_ext_1.
    eapply (Forall_impl2 _ _ _ _ IH Hv). intros x IHx Hx. by apply IHx.
  - apply value_wf_dict in Hv as [Hd Hvs].
    rewrite (_filter_recursive_dict H2), !_filter_recursive_dict
      by auto using dict_build_spec_wf.
    f_equal. rewrite dict_build_spec_compose. apply dict_build_spec_ext.
    eapply (Forall_impl2 _ _ _ _ IH Hvs). intros [k a] IHa Ha; simpl in *.
    unfold keep_key.
    destruct (decide (p ++ [k] ∈ H2)); simpl; [by rewrite decide_True by set_solver|].
    destruct (decide (p ++ [k] ∈ H1)); [by rewrite decide_True by set_solver|].
    rewrite decide_False by set_solver. by rewrite IHa.
Qed.

(** With nothing hidden the traversal rebuilds the document as it is. *)
Lemma _filter_recursive_empty v : ∀ p,
  value_wf v → _filter_recursive ∅ v p = v.
Proof.
  induction v as [|b|z|q|str|l IH|items IH] using value_ind; intros p Hv; try done.
  - rewrite _filter_recursive_list. f_equal. apply value_wf_list in Hv.
    rewrite <-(list_fmap_id l) at 2. apply Forall_fmap_ext_1.
    eapply (Forall_impl2 _ _ _ _ IH Hv). intros x IHx Hx. by apply IHx.
  - apply value_wf_dict in Hv as [Hd Hvs].
    rewrite _filter_recursive_dict by done. f_equal. apply dict_build_spec_id.
    eapply (Forall_impl2 _ _ _ _ IH Hvs). intros [k a] IHa Ha; simpl in *.
    unfold keep_key. rewrite decide_False by set_solver. by rewrite IHa.
Qed.

(** *** Key paths *)

Lemma elem_of_key_paths_list s l :
  s ∈ key_paths (VList l) ↔ ∃ x, x ∈ l ∧ s ∈ key_paths x.
Proof.
  simpl. rewrite elem_of_union_list. setoid_rewrite list_elem_of_fmap.
  naive_solver.
Qed.

Lemma elem_of_key_paths_dict s items :
  s ∈ key_paths (VDict items) ↔
  ∃ k a s', (k, a) ∈ items ∧ s = k :: s' ∧ (s' = [] ∨ s' ∈ key_paths a).
Proof.
  simpl. rewrite elem_of_union_list. setoid_rewrite list_elem_of_fmap. split.
  - intros (X & ([k a] & -> & Hin) & Hs). exists k, a. simpl in Hs.
    apply elem_of_union in Hs as [->%elem_of_singleton|Hs]; [exists []; auto|].
    apply elem_of_map in Hs as (s' & -> & Hs'). eauto.
  - intros (k & a & s' & Hin & -> & Hs'). eexists. split; [by exists (k, a)|].
    simpl. destruct Hs' as [->|Hs']; [set_solver|].
    apply elem_of_union_r, elem_of_map. eauto.
Qed.

(** A key path is never empty. *)
Lemma key_paths_nonempty v : [] ∉ key_paths v.
Proof.
  induction v as [|b|z|q|str|l IH|items IH] using value_ind; try set_solver.
  - rewrite elem_of_key_paths_list. intros (x & Hx & Hs).
    rewrite Forall_forall in IH. by apply (IH x).
  - rewrite elem_of_key_paths_dict. naive_solver.
Qed.

(** The paths of the filtered document are the paths of the document that
    are reached without crossing a hidden path. *)
Lemma key_paths_filter H v : ∀ p s,
  value_wf v →
  s ∈ key_paths (_filter_recursive H v p) ↔ s ∈ key_paths v ∧ visible H p s.
Proof.
  induction v as [|b|z|q|str|l IH|items IH] using value_ind; intros p s Hv;
    try set_solver.
  - apply value_wf_list in Hv. rewrite _filter_recursive_list.
    rewrite !elem_of_key_paths_list. setoid_rewrite list_elem_of_fmap.
    rewrite Forall_forall in IH, Hv. split.
    + intros (? & (x & -> & Hx) & Hs). apply IH in Hs; naive_solver.
    + intros [(x & Hx & Hs) Hvis]. eexists. split; [by exists x|].
      apply IH; auto.
  - apply value_wf_dict in Hv as [Hd Hvs].
    rewrite _filter_recursive_dict by done. rewrite !elem_of_key_paths_dict.
    setoid_rewrite dict_build_spec_elem. unfold keep_key.
    rewrite Forall_forall in IH, Hvs. split.
    + intros (k & w & s' & (a & Hin & Hk) & -> & Hs'). case_decide; simplify_eq.
      specialize (IH _ Hin (p ++ [k]) s' (Hvs _ Hin)). simpl in *. naive_solver.
    + intros [(k & a & s' & Hin & -> & Hs') [Hk Hvis]].
      specialize (IH _ Hin (p ++ [k]) s' (Hvs _ Hin)). simpl in *.
      exists k, (_filter_recursive H a (p ++ [k])), s'.
      split; [exists a; by rewrite decide_False|]. naive_solver.
Qed.

(** Walking down a path that ends at a hidden path is not [visible]. *)
Lemma visible_not_hidden H p s : s ≠ [] → visible H p s → p ++ s ∉ H.
Proof.
  revert p. induction s as [|k s IH]; intros p Hne Hvis; [done|].
  destruct Hvis as [Hk Hs]. destruct s as [|k' s]; [done|].
  change (k :: k' :: s) with ([k] ++ k' :: s). rewrite (assoc_L (++)).
  by apply IH.
Qed.

Lemma visible_empty p s : visible ∅ p s.
Proof. revert p. induction s; simpl; set_solver. Qed.

(** Hiding more leaves fewer walks visible. *)
Lemma visible_anti H1 H2 p s : H1 ⊆ H2 → visible H2 p s → visible H1 p s.
Proof.
  intros Hsub. revert p. induction s; intros p; simpl; [done|].
  intros [??]. split; [set_solver|auto].
Qed.

(** *** Monotonicity *)

Lemma subdict_filter H1 H2 p items :
  H1 ⊆ H2 →
  Forall (λ kv, ∀ p, subvalue (_filter_recursive H2 kv.2 p)
                              (_filter_recursive H1 kv.2 p)) items →
  subdict (dict_build_spec (keep_key H2 p) items)
          (dict_build_spec (keep_key H1 p) items).
Proof.
  intros Hsub. induction 1 as [|[k a] items Ha _ IH]; [constructor|].
  rewrite !dict_build_spec_cons.
  destruct (keep_key H2 p k a) eqn:E2, (keep_key H1 p k a) eqn:E1;
    unfold keep_key in E1, E2; repeat case_decide; simplify_eq.
  - apply subdict_keep; [apply Ha | done].
  - set_solver.
  - by apply subdict_drop.
  - done.
Qed.

Lemma _filter_recursive_mono H1 H2 v : ∀ p,
  value_wf v → H1 ⊆ H2 →
  subvalue (_filter_recursive H2 v p) (_filter_recursive H1 v p).
Proof.
  induction v as [|b|z|q|str|l IH|items IH] using value_ind; intros p Hv Hsub;
    try apply subvalue_refl.
  - rewrite !_filter_recursive_list. apply subvalue_list, Forall2_fmap.
    apply value_wf_list in Hv. apply Forall_Forall2_diag.
    eapply (Forall_impl2 _ _ _ _ IH Hv). auto.
  - apply value_wf_dict in Hv as [Hd Hvs].
    rewrite !_filter_recursive_dict by done.
    apply subvalue_dict, subdict_filter; [done|].
    eapply (Forall_impl2 _ _ _ _ IH Hvs). auto.
Qed.

End filter_facts.

(** ** The properties of [filter_json_by_visibility] *)

(** Reduce a statement about the filter to one about the traversal: split on
    the emptiness tests, and use that the traversal with nothing hidden is
    the identity. *)
(** What the window relies on: nothing hidden is left, and an empty hidden
    set filters nothing. *)
Lemma filter_hidden_paths H v s :
  value_wf v → s ∈ H → s ∉ key_paths (filter_json_by_visibility H v).
Proof.
  intros Hv Hs. unfold filter_json_by_visibility. case_decide; [set_solver|].
  intros [Hin Hvis]%key_paths_filter; [|done].
  apply (visible_not_hidden H [] s); [|done..].
  intros ->. by apply key_paths_nonempty in Hin.
Qed.

Lemma filter_nothing v : filter_json_by_visibility ∅ v = v.
Proof. unfold filter_json_by_visibility. by rewrite decide_True. Qed.

Ltac filter_cases :=
  unfold filter_json_by_visibility;
  repeat case_decide; subst;
  rewrite ?_filter_recursive_empty by auto using _filter_recursive_wf.

Section filter_properties.
Implicit Types (H : gset path) (v : value) (s : path).

(** The early return of [filter_json_by_visibility] on an empty hidden
    set is only a shortcut: on every well-formed document the filter is the
    recursive traversal started at the empty path, and with nothing hidden
    it returns the document unchanged. *)
Theorem filter_is_traversal H v :
  value_wf v →
  filter_json_by_visibility H v = _filter_recursive H v [] ∧
  filter_json_by_visibility ∅ v = v.
Proof. intros Hv. split; by filter_cases. Qed.

(** [C22] Filtering is idempotent: filtering the filtered document again with
    the same hidden set changes nothing. *)
Theorem filter_idempotent H v :
  value_wf v →
  filter_json_by_visibility H (filter_json_by_visibility H v) =
  filter_json_by_visibility H v.
Proof.
  intros Hv. filter_cases; [done|].
  rewrite _filter_recursive_union by done. f_equal. set_solver.
Qed.

(** Filtering by [H2] and then by [H1] is filtering once by the union:
    the order in which attributes are hidden does not matter. *)
Theorem filter_union H1 H2 v :
  value_wf v →
  filter_json_by_visibility H1 (filter_json_by_visibility H2 v) =
  filter_json_by_visibility (H1 ∪ H2) v.
Proof.
  intros Hv. filter_cases; rewrite ?_filter_recursive_union by done;
    try done; try (f_equal; set_solver); set_solver.
Qed.

(** [C1] The attribute paths of the filtered document are exactly the paths
    of the document that can be walked from the root without crossing a
    hidden path; array elements are not told apart. *)
Theorem filter_key_paths H v s :
  value_wf v →
  s ∈ key_paths (filter_json_by_visibility H v) ↔
  s ∈ key_paths v ∧ visible H [] s.
Proof.
  intros Hv. filter_cases; [|by apply key_paths_filter].
  split; [|by intros []]. auto using visible_empty.
Qed.

(** [C2] No hidden path is an attribute path of the filtered document. *)
Theorem filter_hidden_absent H v s :
  value_wf v → s ∈ H → s ∉ key_paths (filter_json_by_visibility H v).
Proof.
  intros Hv Hs. filter_cases; [set_solver|].
  intros [Hin Hvis]%key_paths_filter; [|done].
  apply (visible_not_hidden H [] s); [|done|done].
  intros ->. by apply key_paths_nonempty in Hin.
Qed.

(** [C23] Hiding more shows less: for [H1 ⊆ H2] the document filtered by
    [H2] is a sub-document of the one filtered by [H1], and its attribute
    paths are among the other's. *)
Theorem filter_monotone H1 H2 v :
  value_wf v → H1 ⊆ H2 →
  subvalue (filter_json_by_visibility H2 v) (filter_json_by_visibility H1 v) ∧
  key_paths (filter_json_by_visibility H2 v) ⊆
  key_paths (filter_json_by_visibility H1 v).
Proof.
  intros Hv Hsub. split.
  - filter_cases; try apply subvalue_refl; [set_solver| |by apply _filter_recursive_mono].
    rewrite <-(_filter_recursive_empty v []) at 2 by done.
    by apply _filter_recursive_mono.
  - intros s. filter_cases; rewrite ?key_paths_filter by done;
      [done|set_solver|tauto|].
    intros [??]. eauto using visible_anti.
Qed.

(** The filter returns a well-formed document. *)
Theorem filter_wf H v :
  value_wf v → value_wf (filter_json_by_visibility H v).
Proof. intros Hv. filter_cases; auto using _filter_recursive_wf. Qed.

End filter_properties.

(** ** A document and its filtered views *)

Definition example_doc : value :=
  VDict [("name", VStr "x");
         ("items", VList [VDict [("id", VInt 1); ("secret", VStr "s")];
                          VDict [("id", VInt 2); ("secret", VStr "t")]]);
         ("meta", VDict [("secret", VInt 1)])].

Definition example_hidden : gset path := {[ ["items"; "secret"] ]}.

Definition example_hidden2 : gset path := {[ ["items"; "secret"]; ["meta"] ]}.

(** Hiding [items > secret] removes the attribute from every element of the
    array and leaves [meta > secret] alone. *)
Example filter_example :
  filter_json_by_visibility example_hidden example_doc =
  VDict [("name", VStr "x");
         ("items", VList [VDict [("id", VInt 1)]; VDict [("id", VInt 2)]]);
         ("meta", VDict [("secret", VInt 1)])].
Proof. vm_compute. reflexivity. Qed.

Lemma filter_is_traversal_witness :
  filter_json_by_visibility example_hidden example_doc =
    _filter_recursive example_hidden example_doc [] ∧
  filter_json_by_visibility ∅ example_doc = example_doc.
Proof. apply filter_is_traversal. vm_compute. reflexivity. Defined.

Lemma filter_idempotent_witness :
  filter_json_by_visibility example_hidden
    (filter_json_by_visibility example_hidden example_doc) =
  filter_json_by_visibility example_hidden example_doc.
Proof. apply filter_idempotent. vm_compute. reflexivity. Defined.

Lemma filter_union_witness :
  filter_json_by_visibility {[ ["meta"] ]}
    (filter_json_by_visibility example_hidden example_doc) =
  filter_json_by_visibility ({[ ["meta"] ]} ∪ example_hidden) example_doc.
Proof. apply filter_union. vm_compute. reflexivity. Defined.

Lemma filter_key_paths_witness :
  ["items"; "id"] ∈ key_paths (filter_json_by_visibility example_hidden example_doc) ↔
  ["items"; "id"] ∈ key_paths example_doc ∧ visible example_hidden [] ["items"; "id"].
Proof. apply filter_key_paths. vm_compute. reflexivity. Defined.

Lemma filter_hidden_absent_witness :
  ["items"; "secret"] ∉ key_paths (filter_json_by_visibility example_hidden example_doc).
Proof.
  apply filter_hidden_absent; [vm_compute; reflexivity|].
  apply elem_of_singleton. reflexivity.
Defined.

Lemma filter_monotone_witness :
  subvalue (filter_json_by_visibility example_hidden2 example_doc)
           (filter_json_by_visibility example_hidden example_doc) ∧
  key_paths (filter_json_by_visibility example_hidden2 example_doc) ⊆
  key_paths (filter_json_by_visibility example_hidden example_doc).
Proof.
  apply filter_monotone; [vm_compute; reflexivity|].
  apply (bool_decide_unpack _). vm_compute. exact I.
Defined.

Lemma filter_wf_witness :
  value_wf (filter_json_by_visibility example_hidden example_doc).
Proof. apply filter_wf. vm_compute. reflexivity. Defined.
