(* ===== verification/PyNum.v ===== *)
(** * PyNum: the Python runtime's numeric built-ins the program calls

    [min], [max], [sorted] and the [statistics] module ([mean], [median],
    [stdev]) on lists of numbers, as the runtime defines them:

    - [min]/[max] scan left to right and return the FIRST extremal element,
      the object itself (so [min([True, 1])] is [True]);
    - [sorted] is stable;
    - [statistics.mean] sums exactly and returns an [int] when the data are
      [int]s (or [bool]s) and the quotient is integral, a [float] otherwise;
    - [statistics.median] of an even number of data is the true division
      by two of the middle pair, a [float];
    - [statistics.stdev] is the square root of the sample variance
      (denominator [n - 1]) and raises for fewer than two data.

    Numbers are exact rationals here (see Value.v).  A square root has no
    rational value in general, so the standard deviation is represented by
    its square, [statistics_stdev_sq].  A call that raises is [None].

    These definitions model the language runtime, not code of the
    repository. *)

From Stdlib Require Import QArith Lqa.
From S2P Require Import Prelude PyDict Value.

(** ** Rationals *)

Definition Qlt_bool (a b : Q) : bool := negb (Qle_bool b a).

Lemma Qlt_bool_iff a b : Qlt_bool a b = true ↔ (a < b)%Q.
Proof.
  unfold Qlt_bool. rewrite negb_true_iff, <-not_true_iff_false, Qle_bool_iff.
  split; [apply Qnot_le_lt | apply Qlt_not_le].
Qed.

Lemma Qlt_bool_false a b : Qlt_bool a b = false ↔ (b <= a)%Q.
Proof. unfold Qlt_bool. by rewrite negb_false_iff, Qle_bool_iff. Qed.

Lemma Qsq_nonneg (x : Q) : (0 <= x * x)%Q.
Proof. destruct (Qlt_le_dec x 0); nra. Qed.

Definition qsum (l : list Q) : Q := foldr Qplus 0%Q l.

(** ** First-wins selection: [min] and [max] *)

Section best.
Context {A : Type} (better : A → A → bool).

(** [py_best x l]: scan [l] with current best [x]; [better y m] says that
    [y] replaces the current best [m]. *)
Definition py_best (x : A) (l : list A) : A :=
  fold_left (λ m y, if better y m then y else m) l x.

Lemma py_best_elem x l : py_best x l ∈ x :: l.
Proof.
  unfold py_best. revert x. induction l as [|y l IH]; intros x; simpl; [left|].
  specialize (IH (if better y x then y else x)).
  destruct (better y x); set_solver.
Qed.

(** The scan returns an element no other element is better than, and the
    first such: every element before it is strictly worse.  [better] is
    the strict part of a total preorder. *)
Context (Hasym : ∀ a b, better a b = true → better b a = false).
Context (Hneg : ∀ a b c, better a b = false → better b c = false →
                         better a c = false).

Lemma py_best_optimal x l y : y ∈ x :: l → better y (py_best x l) = false.
Proof.
  unfold py_best. revert x y. induction l as [|z l IH]; intros x y Hy; simpl.
  - apply list_elem_of_singleton in Hy as ->.
    destruct (better x x) eqn:E; [|done]. by rewrite (Hasym _ _ E) in E.
  - destruct (better z x) eqn:E.
    + apply elem_of_cons in Hy as [->|Hy]; [|by apply IH].
      eapply Hneg; [by apply Hasym | apply IH; left].
    + apply elem_of_cons in Hy as [->|[->|Hy]%elem_of_cons];
        [apply IH; left | | apply IH; by right].
      eapply Hneg; [done | apply IH; left].
Qed.

Lemma py_best_first x l :
  ∃ l1 l2, x :: l = l1 ++ py_best x l :: l2 ∧
           Forall (λ y, better (py_best x l) y = true) l1.
Proof.
  revert x. induction l as [|z l IH]; intros x; [by exists [], []|].
  change (py_best x (z :: l)) with (py_best (if better z x then z else x) l).
  destruct (better z x) eqn:E.
  - destruct (IH z) as (l1 & l2 & Hl & Hl1). exists (x :: l1), l2.
    split; [by rewrite Hl|]. constructor; [|done].
    apply not_false_iff_true. intros Eb.
    assert (better z x = false); [|congruence].
    eapply Hneg; [|done]. apply py_best_optimal. left.
  - destruct (IH x) as ([|x' l1] & l2 & Hl & Hl1); simpl in Hl;
      injection Hl as Hx Hl.
    + exists [], (z :: l). split; [|done]. simpl. by rewrite <-Hx.
    + subst x'. apply Forall_cons in Hl1 as [Hx Hl1]. exists (x :: z :: l1), l2.
      split; [simpl; by rewrite <-Hl|]. repeat constructor; [done| |done].
      apply not_false_iff_true. intros Eb.
      assert (better (py_best x l) x = false); [by eapply Hneg|congruence].
Qed.

End best.

Definition num_lt (a b : value) : bool := Qlt_bool (num_of a) (num_of b).

(** [min(l)] and [max(l)] on numbers; [None] is the [ValueError] on []. *)
Definition py_min (l : list value) : option value :=
  match l with
  | [] => None
  | x :: l' => Some (py_best (λ y m, num_lt y m) x l')
  end.

Definition py_max (l : list value) : option value :=
  match l with
  | [] => None
  | x :: l' => Some (py_best (λ y m, num_lt m y) x l')
  end.

Lemma num_lt_asym a b : num_lt a b = true → num_lt b a = false.
Proof.
  unfold num_lt. rewrite Qlt_bool_iff, Qlt_bool_false. apply Qlt_le_weak.
Qed.

Lemma num_lt_neg_trans a b c :
  num_lt a b = false → num_lt b c = false → num_lt a c = false.
Proof.
  unfold num_lt. rewrite !Qlt_bool_false. eauto using Qle_trans.
Qed.

Lemma py_min_is_Some l : l ≠ [] → is_Some (py_min l).
Proof. destruct l; [done|]. by eexists. Qed.

Lemma py_max_is_Some l : l ≠ [] → is_Some (py_max l).
Proof. destruct l; [done|]. by eexists. Qed.

(** [min(l)] is an element of [l] below every element of [l]. *)
Lemma py_min_spec l m :
  py_min l = Some m → m ∈ l ∧ Forall (λ y, (num_of m <= num_of y)%Q) l.
Proof.
  destruct l as [|x l]; intros ?; simplify_eq/=. split; [apply py_best_elem|].
  apply Forall_forall. intros y Hy. apply Qlt_bool_false.
  apply (py_best_optimal (λ y m, num_lt y m)); auto using num_lt_asym.
  intros ???; apply num_lt_neg_trans.
Qed.

(** [max(l)] is an element of [l] above every element of [l]. *)
Lemma py_max_spec l m :
  py_max l = Some m → m ∈ l ∧ Forall (λ y, (num_of y <= num_of m)%Q) l.
Proof.
  destruct l as [|x l]; intros ?; simplify_eq/=. split; [apply py_best_elem|].
  apply Forall_forall. intros y Hy. apply Qlt_bool_false.
  apply (py_best_optimal (λ y m, num_lt m y)); auto using num_lt_asym.
  intros a b c ??. by apply (num_lt_neg_trans c b a).
Qed.

(** [min] and [max] on a list of [int]s that are lengths. *)
Definition nat_min (l : list nat) : option nat :=
  match l with
  | [] => None
  | x :: l' => Some (py_best (λ y m, y <? m) x l')
  end.

Definition nat_max (l : list nat) : option nat :=
  match l with
  | [] => None
  | x :: l' => Some (py_best (λ y m, m <? y) x l')
  end.

Lemma nat_min_spec l m : nat_min l = Some m → m ∈ l ∧ Forall (λ y, m ≤ y) l.
Proof.
  destruct l as [|x l]; intros ?; simplify_eq/=. split; [apply py_best_elem|].
  apply Forall_forall. intros y Hy. apply Nat.ltb_ge.
  apply (py_best_optimal (λ y m, y <? m)); [| |done]; intros *;
    rewrite ?Nat.ltb_lt, ?Nat.ltb_ge; lia.
Qed.

Lemma nat_max_spec l m : nat_max l = Some m → m ∈ l ∧ Forall (λ y, y ≤ m) l.
Proof.
  destruct l as [|x l]; intros ?; simplify_eq/=. split; [apply py_best_elem|].
  apply Forall_forall. intros y Hy. apply Nat.ltb_ge.
  apply (py_best_optimal (λ y m, m <? y)); [| |done]; intros *;
    rewrite ?Nat.ltb_lt, ?Nat.ltb_ge; lia.
Qed.

(** ** Stable sorting: [sorted] *)

Section sorted.
Context {A : Type} (le : A → A → bool).

(** Insert [x], which precedes every element of [l] in the input, before
    the first element it is not above. *)
Fixpoint insert_sorted (x : A) (l : list A) : list A :=
  match l with
  | [] => [x]
  | y :: l' => if le x y then x :: l else y :: insert_sorted x l'
  end.

Definition py_sorted (l : list A) : list A := foldr insert_sorted [] l.

Lemma insert_sorted_perm x l : insert_sorted x l ≡ₚ x :: l.
Proof.
  induction l as [|y l IH]; simpl; [done|].
  destruct (le x y); [done|]. rewrite IH. apply Permutation_swap.
Qed.

Lemma py_sorted_perm l : py_sorted l ≡ₚ l.
Proof.
  induction l as [|x l IH]; simpl; [done|].
  by rewrite insert_sorted_perm, IH.
Qed.

Lemma py_sorted_length l : length (py_sorted l) = length l.
Proof. by rewrite py_sorted_perm. Qed.

Lemma py_sorted_elem x l : x ∈ py_sorted l ↔ x ∈ l.
Proof. by rewrite py_sorted_perm. Qed.

(** The result is sorted when [le] is total and transitive. *)
Section sorted_order.
Context (Htotal : ∀ x y, le x y = true ∨ le y x = true).
Context (Htrans : ∀ x y z, le x y = true → le y z = true → le x z = true).

Lemma insert_sorted_HdRel a x l :
  le a x = true → HdRel (λ x y, le x y = true) a l →
  HdRel (λ x y, le x y = true) a (insert_sorted x l).
Proof.
  intros Hax Hal. destruct l as [|y l]; simpl; [by constructor|].
  destruct (le x y); constructor; [done|]. by inversion Hal.
Qed.

Lemma insert_sorted_Sorted x l :
  Sorted (λ x y, le x y = true) l →
  Sorted (λ x y, le x y = true) (insert_sorted x l).
Proof.
  induction 1 as [|y l Hl IH Hy]; simpl; [by repeat constructor|].
  destruct (le x y) eqn:E; [by repeat constructor|].
  constructor; [done|]. apply insert_sorted_HdRel; [|done].
  by destruct (Htotal x y) as [?|?]; [congruence|].
Qed.

Lemma py_sorted_Sorted l : Sorted (λ x y, le x y = true) (py_sorted l).
Proof.
  induction l; simpl; [constructor | by apply insert_sorted_Sorted].
Qed.

Lemma py_sorted_StronglySorted l :
  StronglySorted (λ x y, le x y = true) (py_sorted l).
Proof.
  apply Sorted_StronglySorted; [|apply py_sorted_Sorted].
  intros x y z. apply Htrans.
Qed.

End sorted_order.

(** The sort is stable: elements with the same key keep their order. *)
Section sorted_stable.
Context {K : Type} `{EqDecision K} (key : A → K).
Context (Hkey : ∀ x y, key x = key y → le x y = true).

Lemma insert_sorted_stable k x l :
  filter (λ z, key z = k) (insert_sorted x l) =
  filter (λ z, key z = k) (x :: l).
Proof.
  induction l as [|y l IH]; cbn [insert_sorted]; [done|].
  destruct (le x y) eqn:E; [done|].
  rewrite (filter_cons _ y), IH, !filter_cons.
  repeat case_decide; try done. rewrite Hkey in E by congruence. done.
Qed.

Lemma py_sorted_stable k l :
  filter (λ z, key z = k) (py_sorted l) = filter (λ z, key z = k) l.
Proof.
  induction l as [|x l IH]; cbn [py_sorted foldr]; [done|].
  fold (py_sorted l). by rewrite insert_sorted_stable, !filter_cons, IH.
Qed.

End sorted_stable.

End sorted.

(** ** The [statistics] module *)

Definition num_le (a b : value) : bool := Qle_bool (num_of a) (num_of b).

(** The type [statistics._sum] computes with: [int] when every datum is an
    [int] or a [bool]. *)
Definition all_int (l : list value) : bool :=
  forallb (λ v, isinstance v TInt) l.

(** [statistics._convert(q, T)] *)
Definition of_fraction (int_data : bool) (q : Q) : value :=
  if int_data && (Qden q =? 1)%positive then VInt (Qnum q) else VFloat q.

Definition mean_q (l : list value) : Q :=
  Qred (qsum (num_of <$> l) / inject_Z (Z.of_nat (length l))).

Definition statistics_mean (l : list value) : option value :=
  match l with
  | [] => None
  | _ => Some (of_fraction (all_int l) (mean_q l))
  end.

Definition statistics_median (l : list value) : option value :=
  let data := py_sorted num_le l in
  let n := length data in
  if decide (n = 0) then None
  else if Nat.odd n then data !! (n / 2)
  else
    let i := n / 2 in
    a ← data !! (i - 1); b ← data !! i;
    Some (VFloat (Qred ((num_of a + num_of b) / 2))).

(** The sum of the squared deviations from the mean. *)
Definition sum_sq_dev (l : list value) : Q :=
  let m := mean_q l in
  qsum ((λ v, (num_of v - m) * (num_of v - m))%Q <$> l).

(** The square of [statistics.stdev(l)]: the sample variance. *)
Definition statistics_stdev_sq (l : list value) : option Q :=
  if decide (length l < 2) then None
  else Some (Qred (sum_sq_dev l / inject_Z (Z.of_nat (length l - 1)))).

(** ** Facts about the statistics *)

Definition qlen {A} (l : list A) : Q := inject_Z (Z.of_nat (length l)).

Lemma qlen_cons {A} (x : A) l : (qlen (x :: l) == qlen l + 1)%Q.
Proof.
  unfold qlen. simpl length. rewrite Nat2Z.inj_succ, <-Z.add_1_r.
  by rewrite inject_Z_plus.
Qed.

Lemma qlen_nonneg {A} (l : list A) : (0 <= qlen l)%Q.
Proof. unfold qlen. rewrite <-(Zle_Qle 0). lia. Qed.

Lemma qlen_pos {A} (l : list A) : l ≠ [] → (0 < qlen l)%Q.
Proof.
  destruct l; [done|]. intros _. rewrite qlen_cons.
  pose proof (qlen_nonneg l). lra.
Qed.

Lemma num_of_of_fraction b q : (num_of (of_fraction b q) == q)%Q.
Proof.
  unfold of_fraction. destruct (b && _) eqn:E; simpl; [|reflexivity].
  apply andb_true_iff in E as [_ E%Pos.eqb_eq].
  destruct q as [n d]; simpl in *. subst d. unfold Qeq; simpl. lia.
Qed.

Lemma qsum_cons q l : qsum (q :: l) = (q + qsum l)%Q.
Proof. done. Qed.

Lemma qsum_lower a (l : list Q) :
  Forall (λ q, (a <= q)%Q) l → (a * qlen l <= qsum l)%Q.
Proof.
  induction 1 as [|q l Hq _ IH].
  - change (a * 0 <= 0)%Q. lra.
  - rewrite qlen_cons, qsum_cons. lra.
Qed.

Lemma qsum_upper a (l : list Q) :
  Forall (λ q, (q <= a)%Q) l → (qsum l <= a * qlen l)%Q.
Proof.
  induction 1 as [|q l Hq _ IH].
  - change (0 <= a * 0)%Q. lra.
  - rewrite qlen_cons, qsum_cons. lra.
Qed.

Lemma qsum_nonneg (l : list Q) : Forall (λ q, (0 <= q)%Q) l → (0 <= qsum l)%Q.
Proof. intros Hl%qsum_lower. lra. Qed.

(** The mean times the number of data is their sum. *)
Lemma mean_q_sum l : l ≠ [] → (mean_q l * qlen l == qsum (num_of <$> l))%Q.
Proof.
  intros Hl%qlen_pos. unfold mean_q. rewrite Qred_correct. fold (qlen l).
  field. lra.
Qed.

(** The mean lies between any bounds of the data. *)
Lemma mean_q_bounds l lo hi :
  l ≠ [] →
  Forall (λ v, (lo <= num_of v)%Q) l → Forall (λ v, (num_of v <= hi)%Q) l →
  (lo <= mean_q l <= hi)%Q.
Proof.
  intros Hl Hlo Hhi. pose proof (qlen_pos l Hl) as Hn.
  pose proof (mean_q_sum l Hl) as Hm.
  apply (Forall_fmap num_of (λ q, lo <= q)%Q), qsum_lower in Hlo.
  apply (Forall_fmap num_of (λ q, q <= hi)%Q), qsum_upper in Hhi.
  unfold qlen in *. rewrite length_fmap in Hlo, Hhi.
  split; nra.
Qed.

Lemma sum_sq_dev_nonneg l : (0 <= sum_sq_dev l)%Q.
Proof.
  unfold sum_sq_dev. apply qsum_nonneg, Forall_fmap, Forall_true.
  intros v; simpl. apply Qsq_nonneg.
Qed.

(** The sample variance is defined from two data on and is not negative. *)
Lemma statistics_stdev_sq_spec l :
  match statistics_stdev_sq l with
  | None => length l < 2
  | Some q => 2 ≤ length l ∧ (0 <= q)%Q
  end.
Proof.
  unfold statistics_stdev_sq. case_decide as Hn; [done|]. split; [lia|].
  rewrite Qred_correct. apply Qle_shift_div_l.
  - rewrite <-(Zlt_Qlt 0). lia.
  - pose proof (sum_sq_dev_nonneg l). lra.
Qed.

(** The median is defined on non-empty data; it is the half-sum of two data
    (of one datum counted twice when their number is odd). *)
Lemma statistics_median_is_Some l : l ≠ [] → is_Some (statistics_median l).
Proof.
  intros Hl. unfold statistics_median.
  assert (length (py_sorted num_le l) ≠ 0) as Hn
    by (rewrite py_sorted_length; by destruct l).
  rewrite decide_False by done. set (data := py_sorted num_le l) in *.
  destruct (Nat.odd (length data)) eqn:Hodd.
  - apply lookup_lt_is_Some. lia.
  - destruct (lookup_lt_is_Some_2 data (length data / 2 - 1)) as [a ->]; [lia|].
    destruct (lookup_lt_is_Some_2 data (length data / 2)) as [b ->]; [lia|].
    by eexists.
Qed.

Lemma statistics_median_spec l m :
  statistics_median l = Some m →
  ∃ a b, a ∈ l ∧ b ∈ l ∧ (num_of m == (num_of a + num_of b) / 2)%Q.
Proof.
  unfold statistics_median. case_decide; [done|].
  set (data := py_sorted num_le l). destruct (Nat.odd _).
  - intros Hm%list_elem_of_lookup_2%py_sorted_elem. exists m, m.
    split_and!; [done..|]. field.
  - intros Hm. apply bind_Some in Hm as (a & Ha & Hm).
    apply bind_Some in Hm as (b & Hb & Hm). simplify_eq. exists a, b.
    apply list_elem_of_lookup_2, py_sorted_elem in Ha, Hb.
    split_and!; [done..|]. simpl. apply Qred_correct.
Qed.
