(* ===== verification/PyCollections.v ===== *)
(** * PyCollections: [collections.Counter] and [random.sample]

    - [Counter(arr)] counts the strings of [arr] in a dict, so its keys are
      in first-encountered order;
    - [c.most_common()] is [sorted(c.items(), key=count, reverse=True)], a
      stable sort: equal counts stay in first-encountered order;
      [c.most_common(n)] is its first [n] entries;
    - [random.sample(population, k)] returns [k] distinct elements of the
      population in selection order.  The generator's state is an explicit
      stream of numbers ([rng]); each selection consumes one number [r] and
      picks the element at index [r mod (remaining size)] of what is left,
      so a stream exists for every possible outcome ([sample_complete]).

    These definitions model the language runtime, not code of the
    repository. *)

From S2P Require Import Prelude PyDict PyNum.

(** ** Counter *)

Definition counter_incr (c : dict nat) (k : string) : dict nat :=
  dict_set k (S (default 0 (dict_get k c))) c.

Definition Counter (arr : list string) : dict nat :=
  fold_left counter_incr arr [].

(** Entries by descending count. *)
Definition count_ge (x y : string * nat) : bool := y.2 <=? x.2.

Definition most_common_all (c : dict nat) : dict nat := py_sorted count_ge c.

Definition most_common (n : nat) (c : dict nat) : dict nat :=
  take n (most_common_all c).

(** [c.most_common()[:-6:-1]]: the last five entries, last first. *)
Definition least_common5 (c : dict nat) : dict nat :=
  take 5 (reverse (most_common_all c)).

(** The number of occurrences of [k] in [arr]. *)
Definition occurrences (k : string) (arr : list string) : nat :=
  length (filter (λ x, x = k) arr).

(** ** random.sample *)

Definition rng := list nat.

(** The next number of the stream (0 when it is exhausted). *)
Definition rng_next (g : rng) : nat * rng := (hd 0 g, tl g).

Fixpoint sample_from (pool : list nat) (k : nat) (g : rng) : list nat * rng :=
  match k with
  | 0 => ([], g)
  | S k' =>
      match pool with
      | [] => ([], g)
      | _ =>
          let '(r, g1) := rng_next g in
          let i := r mod length pool in
          let '(rest, g2) := sample_from (delete i pool) k' g1 in
          (default 0 (pool !! i) :: rest, g2)
      end
  end.

(** [random.sample(range(a, b), k)] *)
Definition random_sample_range (a b k : nat) (g : rng) : list nat * rng :=
  sample_from (seq a (b - a)) k g.

(** [random.randint(a, b)] *)
Definition randint (a b : Z) (g : rng) : Z * rng :=
  let '(r, g) := rng_next g in ((a + Z.of_nat r mod (b - a + 1))%Z, g).

(** ** Facts about Counter *)

Lemma counter_incr_wf c k : dict_wf c → dict_wf (counter_incr c k).
Proof. apply dict_set_wf. Qed.

Lemma Counter_wf arr : dict_wf (Counter arr).
Proof.
  unfold Counter. assert (dict_wf (@nil (string * nat))) as Hc by constructor.
  revert Hc. generalize (@nil (string * nat)).
  induction arr; simpl; auto using counter_incr_wf.
Qed.

Lemma occurrences_cons k x arr :
  occurrences k (x :: arr) =
  if decide (x = k) then S (occurrences k arr) else occurrences k arr.
Proof. unfold occurrences. rewrite filter_cons. by case_decide. Qed.

Lemma occurrences_pos k arr : 0 < occurrences k arr ↔ k ∈ arr.
Proof.
  induction arr as [|x arr IH].
  - unfold occurrences; simpl. rewrite elem_of_nil. lia.
  - rewrite occurrences_cons, elem_of_cons. case_decide; [|naive_solver].
    split; [auto|lia].
Qed.

Lemma occurrences_0 k arr : k ∉ arr → occurrences k arr = 0.
Proof.
  intros Hk. destruct (occurrences k arr) eqn:E; [done|].
  exfalso. apply Hk, occurrences_pos. lia.
Qed.

(** Counting [arr] on top of [c] adds the occurrences in [arr]. *)
Lemma counter_fold_get k arr c :
  dict_get k (fold_left counter_incr arr c) =
  if decide (k ∈ arr)
  then Some (occurrences k arr + default 0 (dict_get k c))
  else dict_get k c.
Proof.
  revert c. induction arr as [|x arr IH]; intros c; simpl.
  - done.
  - rewrite IH, occurrences_cons. unfold counter_incr.
    destruct (decide (x = k)) as [->|Hne].
    + rewrite dict_get_set_eq. simpl.
      destruct (decide (k ∈ k :: arr)) as [_|[]]; [|left].
      case_decide; f_equal; rewrite ?occurrences_0 by done; lia.
    + rewrite dict_get_set_ne by done.
      destruct (decide (k ∈ arr)) as [Hk|Hk].
      * destruct (decide (k ∈ x :: arr)) as [_|[]]; [done|by right].
      * destruct (decide (k ∈ x :: arr)) as [?%elem_of_cons|_]; naive_solver.
Qed.

(** A counter holds, for each string of the array and for no other, the
    number of its occurrences. *)
Lemma Counter_get k arr :
  dict_get k (Counter arr) =
  if decide (k ∈ arr) then Some (occurrences k arr) else None.
Proof.
  unfold Counter. rewrite counter_fold_get. case_decide; simpl; [|done].
  f_equal. lia.
Qed.

Lemma Counter_elem k n arr :
  (k, n) ∈ Counter arr ↔ k ∈ arr ∧ n = occurrences k arr.
Proof.
  split.
  - intros Hin%(dict_get_elem _ _ _ (Counter_wf arr)).
    rewrite Counter_get in Hin. case_decide; naive_solver.
  - intros [Hk ->]. apply dict_get_Some_elem. rewrite Counter_get.
    by rewrite decide_True.
Qed.

Lemma Counter_keys_elem k arr : k ∈ dict_keys (Counter arr) ↔ k ∈ arr.
Proof.
  rewrite <-dict_mem_keys. unfold dict_mem.
  rewrite bool_decide_eq_true, Counter_get.
  case_decide; [by split; [|eexists]|]. split; [by intros []|done].
Qed.

(** The keys of a counter are the distinct strings of the array. *)
Lemma Counter_keys arr : dict_keys (Counter arr) ≡ₚ remove_dups arr.
Proof.
  apply NoDup_Permutation; [apply Counter_wf|apply NoDup_remove_dups|].
  intros k. by rewrite elem_of_remove_dups, Counter_keys_elem.
Qed.

Lemma Counter_length arr : length (Counter arr) = length (remove_dups arr).
Proof. rewrite <-Counter_keys. unfold dict_keys. by rewrite length_fmap. Qed.

(** ** Facts about most_common *)

Lemma count_ge_total x y : count_ge x y = true ∨ count_ge y x = true.
Proof. unfold count_ge. rewrite !Nat.leb_le. lia. Qed.

Lemma count_ge_trans x y z :
  count_ge x y = true → count_ge y z = true → count_ge x z = true.
Proof. unfold count_ge. rewrite !Nat.leb_le. lia. Qed.

Lemma most_common_all_perm c : most_common_all c ≡ₚ c.
Proof. apply py_sorted_perm. Qed.

(** The entries are in descending order of count. *)
Lemma most_common_all_sorted c :
  StronglySorted (λ x y, y.2 ≤ x.2) (most_common_all c).
Proof.
  apply (StronglySorted_impl (λ x y, count_ge x y = true)).
  - intros x y. unfold count_ge. by rewrite Nat.leb_le.
  - apply py_sorted_StronglySorted; [apply count_ge_total|apply count_ge_trans].
Qed.

(** Entries with the same count are in first-encountered order. *)
Lemma most_common_all_stable n c :
  filter (λ kv, kv.2 = n) (most_common_all c) = filter (λ kv, kv.2 = n) c.
Proof.
  apply (py_sorted_stable count_ge snd). intros x y Hxy.
  unfold count_ge. rewrite Hxy. apply Nat.leb_refl.
Qed.

Lemma most_common_length n c : length (most_common n c) = n `min` length c.
Proof.
  unfold most_common. by rewrite length_take, most_common_all_perm.
Qed.

Lemma most_common_elem n c kv : kv ∈ most_common n c → kv ∈ c.
Proof.
  unfold most_common. intros Hin.
  rewrite <-(most_common_all_perm c). eauto using elem_of_sublist, sublist_take.
Qed.

Lemma most_common_wf n (c : dict nat) : dict_wf c → dict_wf (most_common n c).
Proof.
  unfold dict_wf, dict_keys, most_common. intros Hc. rewrite fmap_take.
  eapply sublist_NoDup; [|apply sublist_take]. by rewrite most_common_all_perm.
Qed.

(** The first [n] entries are sorted, and no entry left out has a higher
    count than one of them. *)
Lemma most_common_sorted n c :
  StronglySorted (λ x y, y.2 ≤ x.2) (most_common n c).
Proof.
  pose proof (most_common_all_sorted c) as Hs.
  rewrite <-(take_drop n (most_common_all c)) in Hs.
  by apply StronglySorted_app_1_l in Hs.
Qed.

Lemma most_common_top n c kv kv' :
  kv ∈ most_common n c → kv' ∈ c → kv' ∉ most_common n c → kv'.2 ≤ kv.2.
Proof.
  intros Hkv Hkv' Hout. pose proof (most_common_all_sorted c) as Hs.
  rewrite <-(most_common_all_perm c) in Hkv'.
  rewrite <-(take_drop n (most_common_all c)) in Hs, Hkv'.
  apply elem_of_app in Hkv' as [?|Hkv']; [done|].
  by apply (StronglySorted_app_1_elem_of _ _ _ kv kv') in Hs.
Qed.

Lemma least_common5_wf (c : dict nat) : dict_wf c → dict_wf (least_common5 c).
Proof.
  unfold dict_wf, dict_keys, least_common5. intros Hc. rewrite fmap_take.
  eapply sublist_NoDup; [|apply sublist_take].
  by rewrite fmap_reverse, reverse_Permutation, most_common_all_perm.
Qed.

Lemma least_common5_elem c kv : kv ∈ least_common5 c → kv ∈ c.
Proof.
  unfold least_common5. intros Hin.
  rewrite <-(most_common_all_perm c), <-elem_of_reverse.
  eauto using elem_of_sublist, sublist_take.
Qed.

Lemma least_common5_length c : length (least_common5 c) = 5 `min` length c.
Proof.
  unfold least_common5.
  by rewrite length_take, length_reverse, most_common_all_perm.
Qed.

(** The five entries of [least_common5] are in ascending order of count
    and no other entry has a lower count. *)
Lemma least_common5_sorted c :
  StronglySorted (λ x y, x.2 ≤ y.2) (least_common5 c).
Proof.
  unfold least_common5.
  apply (StronglySorted_app_1_l _ _ (drop 5 (reverse (most_common_all c)))).
  rewrite take_drop.
  apply (StronglySorted_reverse _ _ (most_common_all_sorted c)).
Qed.

Lemma least_common5_bottom c kv kv' :
  kv ∈ least_common5 c → kv' ∈ c → kv' ∉ least_common5 c → kv.2 ≤ kv'.2.
Proof.
  unfold least_common5. intros Hkv Hkv' Hout.
  pose proof (StronglySorted_reverse _ _ (most_common_all_sorted c)) as Hs.
  rewrite <-(most_common_all_perm c), <-elem_of_reverse in Hkv'.
  rewrite <-(take_drop 5 (reverse (most_common_all c))) in Hs, Hkv'.
  apply elem_of_app in Hkv' as [?|Hkv']; [done|].
  by apply (StronglySorted_app_1_elem_of _ _ _ kv kv') in Hs.
Qed.

(** ** Facts about random.sample *)

Lemma sample_from_spec pool k g :
  NoDup pool → k ≤ length pool →
  let s := (sample_from pool k g).1 in
  length s = k ∧ NoDup s ∧ s ⊆ pool.
Proof.
  revert pool g. induction k as [|k IH]; intros pool g Hnd Hk; simpl.
  { split_and!; [done|constructor|set_solver]. }
  destruct pool as [|p pool]; [simpl in Hk; lia|].
  set (i := hd 0 g mod length (p :: pool)).
  destruct (lookup_lt_is_Some_2 (p :: pool) i) as [x Hx].
  { apply Nat.mod_upper_bound. done. }
  rewrite Hx. pose proof (delete_Permutation _ _ _ Hx) as Hperm.
  destruct (sample_from (delete i (p :: pool)) k (tl g)) as [rest g2] eqn:E.
  destruct (IH (delete i (p :: pool)) (tl g)) as (Hlen & Hnd' & Hsub).
  - rewrite Hperm in Hnd. by apply NoDup_cons in Hnd as [].
  - rewrite length_delete by eauto. simpl in *. lia.
  - rewrite E in *. simpl in *. split_and!; [by rewrite Hlen| |].
    + apply NoDup_cons. split; [|done]. intros Hin%Hsub.
      rewrite Hperm in Hnd. by apply NoDup_cons in Hnd as [].
    + intros y. rewrite elem_of_cons. intros [->|Hy%Hsub].
      * by eapply list_elem_of_lookup_2.
      * by eapply list_elem_of_delete_inv.
Qed.

(** Every selection of distinct elements of the pool is the outcome of some
    stream: the model leaves no outcome of [random.sample] out. *)
Lemma sample_complete pool s :
  NoDup s → s ⊆ pool → ∃ g, (sample_from pool (length s) g).1 = s.
Proof.
  revert pool. induction s as [|x s IH]; intros pool Hnd Hsub; [by exists []|].
  apply NoDup_cons in Hnd as [Hx Hnd].
  destruct (list_elem_of_lookup_1 pool x) as [i Hi]; [set_solver|].
  destruct (IH (delete i pool)) as [g Hg]; [done| |].
  { intros y Hy. assert (y ∈ pool) as Hyp by set_solver.
    rewrite (delete_Permutation _ _ _ Hi), elem_of_cons in Hyp.
    destruct Hyp as [->|]; done. }
  exists (i :: g). simpl. destruct pool as [|p pool]; [done|].
  simpl hd. simpl tl.
  rewrite Nat.mod_small by by eapply lookup_lt_Some.
  rewrite Hi. destruct (sample_from _ _ g); simpl in *. by subst.
Qed.

(** ** Facts about random.randint *)

Lemma randint_range a b g : (a ≤ b → a ≤ (randint a b g).1 ≤ b)%Z.
Proof.
  intros Hab. unfold randint. cbn.
  pose proof (Z.mod_pos_bound (Z.of_nat (hd 0 g)) (b - a + 1)). lia.
Qed.
