(* ===== verification/ValueStats.v ===== *)
(** * ValueStats: the record and the examples of a primitive value

    [_compute_value_stats] and [_get_examples] of [JsonSchemaAnalyzer]
    (src/gui.py).  A statistics record is a Python dict built key by key;
    it is modelled as such, so that which keys are present, and in which
    order, is part of the result.

    [value_stats_spec] states what the record of a primitive holds without
    the order of tests of the code; [_compute_value_stats_eq] shows that
    the code computes it, which settles in particular that the test for
    [bool] is never reached ([bool] is a subclass of [int]). *)

From S2P Require Import Prelude PyStr PyDict Value PyNum.

(** What [_get_examples] returns the elements of: objects, or the
    [(key, value)] tuples of a dict's items. *)
Inductive example : Type :=
| ExVal (v : value)
| ExItem (k : string) (v : value).

(** ** [_compute_value_stats(key, value, parent_obj=None)] *)

Definition _compute_value_stats (key : string) (v : value)
    (parent_obj : value) : dict value :=
  let value_type := type_name (type_of v) in
  let stats := [("type", VStr value_type)] in
  if is_number v then
    let stats := dict_set "value" v stats in
    match parent_obj with
    | VDict d =>
        if truthy parent_obj && dict_mem key d then
          match dict_get key d with
          | Some pv =>
              let values := [pv] in
              let stats := from_option (λ m, dict_set "min" m stats) stats
                                       (py_min values) in
              from_option (λ m, dict_set "max" m stats) stats (py_max values)
          | None => stats
          end
        else stats
    | _ => stats
    end
  else if isinstance v TStr then
    match v with
    | VStr s =>
        let stats := dict_set "length" (VInt (Z.of_nat (String.length s))) stats in
        if decide (50 < String.length s)
        then dict_set "preview" (VStr (String.substring 0 50 s +:+ "...")) stats
        else dict_set "preview" (VStr s) stats
    | _ => stats
    end
  else if isinstance v TBool then dict_set "value" v stats
  else match v with
       | VNone => dict_set "value" (VStr "null") stats
       | _ => stats
       end.

(** ** [_get_examples(value)] *)

Definition _get_examples (v : value) : list example :=
  match v with
  | VList l =>
      if decide (length l ≤ 3) then ExVal <$> l
      else
        match l !! 0, l !! (length l / 2), last l with
        | Some a, Some m, Some z => [ExVal a; ExVal m; ExVal z]
        | _, _, _ => []
        end
  | VDict d =>
      if decide (length d ≤ 3) then (λ kv, ExItem kv.1 kv.2) <$> d
      else (λ kv, ExItem kv.1 kv.2) <$> take 3 d
  | _ => [ExVal v]
  end.

(** ** Specification *)

(** What the record of a primitive holds after its type. *)
Definition value_stats_spec (key : string) (v parent_obj : value) : dict value :=
  match v with
  | VBool _ | VInt _ | VFloat _ =>
      ("value", v) ::
      match parent_obj with
      | VDict d =>
          from_option (λ pv, [("min", pv); ("max", pv)]) [] (dict_get key d)
      | _ => []
      end
  | VStr s =>
      [("length", VInt (Z.of_nat (String.length s)));
       ("preview", VStr (if decide (50 < String.length s)
                         then String.substring 0 50 s +:+ "..." else s))]
  | VNone => [("value", VStr "null")]
  | _ => []
  end.

(** ** Facts *)

(** A dict that has a key is not empty, hence true as a condition. *)
Lemma dict_mem_truthy key (d : dict value) :
  dict_mem key d = true → truthy (VDict d) = true.
Proof. by destruct d. Qed.

Lemma _compute_value_stats_eq key v parent_obj :
  _compute_value_stats key v parent_obj =
  ("type", VStr (type_name (type_of v))) :: value_stats_spec key v parent_obj.
Proof.
  unfold _compute_value_stats, value_stats_spec.
  destruct v as [|b|z|q|s|l|d]; try done; [| | |simpl; by case_decide];
  (destruct parent_obj as [| | | | | |p]; try done;
   destruct (dict_mem key p) eqn:Hm;
   [rewrite (dict_mem_truthy _ _ Hm); simpl; by destruct (dict_get key p)
   |rewrite andb_false_r;
    apply not_true_iff_false in Hm; rewrite dict_mem_keys, <-dict_get_None in Hm;
    by rewrite Hm]).
Qed.

Lemma _compute_value_stats_wf key v parent_obj :
  dict_wf (_compute_value_stats key v parent_obj).
Proof.
  rewrite _compute_value_stats_eq. unfold dict_wf, dict_keys.
  destruct v; simpl; try by apply (bool_decide_unpack _).
  all: destruct parent_obj; try by apply (bool_decide_unpack _).
  all: simpl; destruct (dict_get key d); by apply (bool_decide_unpack _).
Qed.

(** ** Properties *)

(** Every record holds the type name of the value under ['type'],
    and under ['value'] the value itself for a number or a boolean, the
    string ['null'] for [None] and nothing for a string. *)
Theorem value_stats_type key v parent_obj :
  let stats := _compute_value_stats key v parent_obj in
  dict_get "type" stats = Some (VStr (type_name (type_of v))) ∧
  (dict_get "value" stats =
     match v with
     | VNone => Some (VStr "null")
     | VBool _ | VInt _ | VFloat _ => Some v
     | _ => None
     end).
Proof. cbv zeta. rewrite _compute_value_stats_eq. by destruct v. Qed.

(** [C39] The ['min'] and ['max'] of a number are the entry of the parent
    object under the key, which in [_analyze_object] is the number itself:
    they carry no information about sibling objects. *)
Theorem value_stats_min_max key v d :
  is_number v = true → dict_get key d = Some v →
  let stats := _compute_value_stats key v (VDict d) in
  dict_get "min" stats = Some v ∧ dict_get "max" stats = Some v.
Proof.
  intros Hn Hd. cbv zeta. rewrite _compute_value_stats_eq.
  destruct v; try done; simpl; by rewrite Hd.
Qed.

(** The record of a string holds its length and a preview: the string
    itself up to 50 characters, its first 50 characters followed by
    ["..."] beyond; a preview never exceeds 53 characters. *)
Theorem value_stats_preview key s parent_obj :
  let stats := _compute_value_stats key (VStr s) parent_obj in
  dict_get "length" stats = Some (VInt (Z.of_nat (String.length s))) ∧
  ∃ p, dict_get "preview" stats = Some (VStr p) ∧
       String.length p ≤ 53 ∧
       if decide (String.length s ≤ 50) then p = s
       else ∃ p', p = p' +:+ "..." ∧ String.length p' = 50 ∧
                  String.prefix p' s = true.
Proof.
  cbv zeta. rewrite _compute_value_stats_eq. simpl. split; [done|].
  eexists. split; [done|].
  destruct (decide (50 < String.length s)), (decide (String.length s ≤ 50));
    try lia; [|split; [lia|done]].
  rewrite String_length_app, substring_0_length.
  change (String.length "...") with 3. split; [lia|].
  eexists. split_and!; [done| |apply substring_0_prefix].
  rewrite substring_0_length. lia.
Qed.

(** [_get_examples] returns at most three examples, each taken from
    the value: the value itself for a primitive, elements of a list, items
    of a dict. *)
Theorem get_examples_spec v :
  length (_get_examples v) ≤ 3 ∧
  match v with
  | VList l => ∀ e, e ∈ _get_examples v → ∃ x, e = ExVal x ∧ x ∈ l
  | VDict d => ∀ e, e ∈ _get_examples v → ∃ k x, e = ExItem k x ∧ (k, x) ∈ d
  | _ => _get_examples v = [ExVal v]
  end.
Proof.
  destruct v as [| | | | |l|d]; simpl; try (split; [lia|done]).
  - case_decide; [rewrite length_fmap; split; [done|]|].
    + intros e (x & -> & Hx)%list_elem_of_fmap. eauto.
    + destruct (l !! 0) as [a|] eqn:Ha, (l !! (length l / 2)) as [m|] eqn:Hm,
        (last l) as [z|] eqn:Hz; simpl; (split; [lia|]); intros e He;
        try by apply elem_of_nil in He.
      apply list_elem_of_lookup_2 in Ha, Hm. rewrite last_lookup in Hz.
      apply list_elem_of_lookup_2 in Hz. set_unfold. naive_solver.
  - case_decide; rewrite length_fmap, ?length_take; (split; [lia|]);
      intros e ([k x] & -> & Hx)%list_elem_of_fmap; eexists _, _;
      (split; [done|]); [done|].
    eauto using elem_of_sublist, sublist_take.
Qed.

(** ** Examples *)

Example value_stats_example :
  _compute_value_stats "n" (VInt 7) (VDict [("n", VInt 7); ("s", VStr "x")]) =
    [("type", VStr "int"); ("value", VInt 7); ("min", VInt 7); ("max", VInt 7)] ∧
  _compute_value_stats "b" (VBool true) (VDict [("b", VBool true)]) =
    [("type", VStr "bool"); ("value", VBool true);
     ("min", VBool true); ("max", VBool true)] ∧
  _compute_value_stats "s" (VStr "x") (VDict [("s", VStr "x")]) =
    [("type", VStr "str"); ("length", VInt 1); ("preview", VStr "x")] ∧
  _compute_value_stats "z" VNone (VDict [("z", VNone)]) =
    [("type", VStr "NoneType"); ("value", VStr "null")].
Proof. by vm_compute. Qed.

Lemma value_stats_min_max_witness :
  let stats := _compute_value_stats "n" (VInt 7) (VDict [("n", VInt 7)]) in
  dict_get "min" stats = Some (VInt 7) ∧ dict_get "max" stats = Some (VInt 7).
Proof. by apply (value_stats_min_max "n" (VInt 7) [("n", VInt 7)]). Defined.
