(* ===== verification/Stats.v ===== *)
(** * Stats: the statistical summarizer of arrays

    [_compute_array_stats] of [JsonSchemaAnalyzer] (src/gui.py).  The
    record it returns is a Python dict built key by key; it is modelled as
    such ([dict stat]), so that which keys are present, and in which order,
    is part of the result.

    Entries are Python objects ([StVal]) except ['stdev']: the square root
    of the sample variance is kept as its radicand ([StSqrt q] stands for
    the float [sqrt q]).

    The function draws random example indices for arrays of strings; the
    generator's state [rng] (PyCollections.v) is passed in and returned.

    The file has the model first, then the specification ([numeric_spec],
    [string_spec]: the entry under each key, without the order of
    assignments and the exception handling; [top_of], [bottom_of],
    [example_indices_ok]: what the entries promise), then the refinement
    lemmas and the properties. *)

From Stdlib Require Import QArith Lqa.
From S2P Require Import Prelude PyDict Value PyNum PyCollections.

Inductive stat : Type :=
| StVal (v : value)
| StSqrt (radicand : Q).

(** [len(x)] as a Python [int]. *)
Definition py_len {A} (l : list A) : value := VInt (Z.of_nat (length l)).

(** ** [_compute_array_stats(arr)] *)

Definition str_of (v : value) : string :=
  match v with VStr s => s | _ => "" end.

Definition common_entry (kv : string * nat) : value :=
  VDict [("value", VStr kv.1); ("count", VInt (Z.of_nat kv.2))].

(** The last statement of the numeric branch: the examples of a large
    array, its first, last and middle elements. *)
Definition numeric_examples (arr : list value) (stats : dict stat) : dict stat :=
  if decide (5 < length arr) then
    match arr !! 0, last arr with
    | Some a, Some z =>
        let examples := [a; z] in
        let mid_idx := length arr / 2 in
        let examples :=
          if decide (0 < mid_idx ∧ mid_idx < length arr)
          then match arr !! mid_idx with
               | Some m => examples ++ [m]
               | None => examples
               end
          else examples in
        dict_set "examples" (StVal (VList examples)) stats
    | _, _ => stats
    end
  else stats.

(** The [try] block of the numeric branch.  A call that raises ends the
    block with the entries stored so far ([except Exception: pass]); a
    failure of [statistics.stdev] alone is ignored by the inner [try]. *)
Definition numeric_stats (arr : list value) (stats : dict stat) : dict stat :=
  match py_min arr with
  | None => stats
  | Some mn =>
  let stats := dict_set "min" (StVal mn) stats in
  match py_max arr with
  | None => stats
  | Some mx =>
  let stats := dict_set "max" (StVal mx) stats in
  match statistics_mean arr with
  | None => stats
  | Some mean =>
  let stats := dict_set "mean" (StVal mean) stats in
  if decide (1 < length arr) then
    match statistics_median arr with
    | None => stats
    | Some md =>
        let stats := dict_set "median" (StVal md) stats in
        let stats :=
          match statistics_stdev_sq arr with
          | Some q => dict_set "stdev" (StSqrt q) stats
          | None => stats
          end in
        numeric_examples arr stats
    end
  else numeric_examples arr stats
  end end end.

(** Arrays of this many strings or more get no frequency table. *)
Definition counter_limit : nat := 1000.

Definition str_lengths (arr : list value) : list nat :=
  (λ s, String.length (str_of s)) <$> arr.

(** The string branch, block by block: the length statistics, *)
Definition string_lengths (arr : list value) (stats : dict stat) : dict stat :=
  let lengths := str_lengths arr in
  let stats := from_option
    (λ m, dict_set "min_length" (StVal (VInt (Z.of_nat m))) stats) stats
    (nat_min lengths) in
  let stats := from_option
    (λ m, dict_set "max_length" (StVal (VInt (Z.of_nat m))) stats) stats
    (nat_max lengths) in
  dict_set "avg_length"
    (StVal (VFloat (Qred (inject_Z (Z.of_nat (sum_list lengths)) / qlen lengths))))
    stats.

(** the most and least common values, *)
Definition string_common (arr : list value) (stats : dict stat) : dict stat :=
  if decide (length arr < counter_limit) then
    let counter := Counter (str_of <$> arr) in
    let most := most_common 5 counter in
    let stats :=
      if bool_decide (most ≠ [])
      then dict_set "most_common" (StVal (VList (common_entry <$> most))) stats
      else stats in
    if decide (5 < length counter)
    then dict_set "least_common"
           (StVal (VList (common_entry <$> least_common5 counter))) stats
    else stats
  else stats.

(** and the examples of a large array: the first, the last and three drawn
    at random from the interior. *)
Definition string_examples (arr : list value) (stats : dict stat) (g : rng)
    : dict stat * rng :=
  if decide (5 < length arr) then
    let sample_indices := [0; length arr - 1] in
    let '(sample_indices, g) :=
      if decide (3 < length arr) then
        let '(s, g') := random_sample_range 1 (length arr - 1)
                          (3 `min` (length arr - 2)) g in
        (sample_indices ++ s, g')
      else (sample_indices, g) in
    (dict_set "examples"
       (StVal (VList (omap (λ i, arr !! i) sample_indices))) stats, g)
  else (stats, g).

Definition string_stats (arr : list value) (stats : dict stat) (g : rng)
    : dict stat * rng :=
  string_examples arr (string_common arr (string_lengths arr stats)) g.

Definition _compute_array_stats (arr : list value) (g : rng)
    : dict stat * rng :=
  let stats := [("count", StVal (py_len arr))] in
  match arr with
  | [] => (stats, g)
  | first :: _ =>
      let first_type := type_of first in
      let all_same_type := forallb (λ item, isinstance item first_type) arr in
      let stats := dict_set "uniform_type" (StVal (VBool all_same_type)) stats in
      if all_same_type && forallb is_number arr then
        (numeric_stats arr stats, g)
      else if all_same_type && forallb (λ item, isinstance item TStr) arr then
        string_stats arr stats g
      else (stats, g)
  end.

(** ** The shapes of arrays the summarizer tells apart *)

(** [all_same_type]: every element is an instance of the first one's type. *)
Definition uniform (arr : list value) : bool :=
  match arr with
  | [] => false
  | first :: _ => forallb (λ item, isinstance item (type_of first)) arr
  end.

Definition numeric_array (arr : list value) : bool :=
  uniform arr && forallb is_number arr.

Definition string_array (arr : list value) : bool :=
  uniform arr && negb (forallb is_number arr) &&
  forallb (λ item, isinstance item TStr) arr.

(** The two entries every non-empty array has. *)
Definition base_stats (arr : list value) : dict stat :=
  [("count", StVal (py_len arr)); ("uniform_type", StVal (VBool (uniform arr)))].

(** ** Specification

    [numeric_spec arr k] and [string_spec arr g k] are the entries a
    numeric array and an array of strings get under key [k]. *)

(** [[arr[0], arr[-1], arr[len(arr) // 2]]] *)
Definition first_last_mid (arr : list value) : option (list value) :=
  a ← arr !! 0; z ← last arr; m ← arr !! (length arr / 2); Some [a; z; m].

Definition numeric_spec (arr : list value) (k : string) : option stat :=
  if decide (k = "min") then StVal <$> py_min arr
  else if decide (k = "max") then StVal <$> py_max arr
  else if decide (k = "mean") then StVal <$> statistics_mean arr
  else if decide (k = "median") then
    if decide (1 < length arr) then StVal <$> statistics_median arr else None
  else if decide (k = "stdev") then StSqrt <$> statistics_stdev_sq arr
  else if decide (k = "examples") then
    if decide (5 < length arr)
    then (λ l, StVal (VList l)) <$> first_last_mid arr
    else None
  else None.

(** The indices of the examples of a large array of strings. *)
Definition string_example_indices (n : nat) (g : rng) : list nat * rng :=
  let '(s, g') := random_sample_range 1 (n - 1) (3 `min` (n - 2)) g in
  ([0; n - 1] ++ s, g').

Definition string_spec (arr : list value) (g : rng) (k : string) : option stat :=
  let counter := Counter (str_of <$> arr) in
  if decide (k = "min_length") then
    (λ m, StVal (VInt (Z.of_nat m))) <$> nat_min (str_lengths arr)
  else if decide (k = "max_length") then
    (λ m, StVal (VInt (Z.of_nat m))) <$> nat_max (str_lengths arr)
  else if decide (k = "avg_length") then
    Some (StVal (VFloat (Qred (inject_Z (Z.of_nat (sum_list (str_lengths arr)))
                               / qlen arr))))
  else if decide (k = "most_common") then
    if decide (length arr < counter_limit)
    then Some (StVal (VList (common_entry <$> most_common 5 counter)))
    else None
  else if decide (k = "least_common") then
    if decide (length arr < counter_limit ∧ 5 < length counter)
    then Some (StVal (VList (common_entry <$> least_common5 counter)))
    else None
  else if decide (k = "examples") then
    if decide (5 < length arr)
    then Some (StVal (VList (omap (λ i, arr !! i)
                                  (string_example_indices (length arr) g).1)))
    else None
  else None.

(** The frequency table of an array of strings. *)
Definition table_of (arr : list value) : dict nat := Counter (str_of <$> arr).

(** [top] lists the [n] most frequent strings of [arr] with their counts,
    most frequent first, and no string left out is more frequent than a
    listed one. *)
Definition top_of (n : nat) (arr : list value) (top : dict nat) : Prop :=
  length top = n `min` length (remove_dups (str_of <$> arr)) ∧
  NoDup (dict_keys top) ∧
  StronglySorted (λ x y, y.2 ≤ x.2) top ∧
  (∀ s c, (s, c) ∈ top → VStr s ∈ arr ∧ c = occurrences s (str_of <$> arr)) ∧
  (∀ s kv, VStr s ∈ arr → s ∉ dict_keys top → kv ∈ top →
           occurrences s (str_of <$> arr) ≤ kv.2).

(** [bottom] lists the five least frequent strings, least frequent first. *)
Definition bottom_of (arr : list value) (bottom : dict nat) : Prop :=
  length bottom = 5 ∧
  NoDup (dict_keys bottom) ∧
  StronglySorted (λ x y, x.2 ≤ y.2) bottom ∧
  (∀ s c, (s, c) ∈ bottom → VStr s ∈ arr ∧ c = occurrences s (str_of <$> arr)) ∧
  (∀ s kv, VStr s ∈ arr → s ∉ dict_keys bottom → kv ∈ bottom →
           kv.2 ≤ occurrences s (str_of <$> arr)).

(** The example indices of an array of [n] strings: the first, the last
    and three distinct interior ones. *)
Definition example_indices_ok (n : nat) (idx : list nat) : Prop :=
  ∃ mid, idx = [0; n - 1] ++ mid ∧ length mid = 3 ∧ NoDup mid ∧
         Forall (λ i, 0 < i < n - 1) mid.

(** ** The three branches *)

Lemma _compute_array_stats_empty g :
  _compute_array_stats [] g = ([("count", StVal (VInt 0))], g).
Proof. done. Qed.

Lemma _compute_array_stats_numeric arr g :
  numeric_array arr = true →
  _compute_array_stats arr g = (numeric_stats arr (base_stats arr), g).
Proof.
  unfold numeric_array, _compute_array_stats, base_stats.
  destruct arr as [|first rest]; [done|]. cbn [uniform]. by intros ->.
Qed.

Lemma _compute_array_stats_string arr g :
  string_array arr = true →
  _compute_array_stats arr g = string_stats arr (base_stats arr) g.
Proof.
  unfold string_array, _compute_array_stats, base_stats.
  destruct arr as [|first rest]; [done|]. cbn [uniform].
  intros [[Hu Hn%negb_true_iff]%andb_true_iff Hs]%andb_true_iff.
  by rewrite Hu, Hn, Hs.
Qed.

Lemma _compute_array_stats_other arr g :
  arr ≠ [] → numeric_array arr = false → string_array arr = false →
  _compute_array_stats arr g = (base_stats arr, g).
Proof.
  unfold numeric_array, string_array, _compute_array_stats, base_stats.
  destruct arr as [|first rest]; [done|]. cbn [uniform]. intros _.
  generalize (forallb (λ item, isinstance item (type_of first)) (first :: rest)).
  generalize (forallb is_number (first :: rest)).
  generalize (forallb (λ item, isinstance item TStr) (first :: rest)).
  by intros [] [] [].
Qed.

(** ** What the numeric branch stores *)

Lemma statistics_mean_is_Some arr : arr ≠ [] → is_Some (statistics_mean arr).
Proof. destruct arr; [done|]. by eexists. Qed.

Lemma first_last_mid_is_Some arr : arr ≠ [] → is_Some (first_last_mid arr).
Proof.
  intros Hne. unfold first_last_mid.
  assert (0 < length arr) by (destruct arr; [done|simpl; lia]).
  destruct (lookup_lt_is_Some_2 arr 0) as [a ->]; [lia|].
  destruct (lookup_lt_is_Some_2 arr (length arr / 2)) as [m ->]; [lia|].
  destruct (last arr) as [z|] eqn:Hz; [by eexists|].
  by apply last_None in Hz.
Qed.

Lemma numeric_examples_get arr stats k :
  arr ≠ [] →
  dict_get k (numeric_examples arr stats) =
  if decide (k = "examples" ∧ 5 < length arr)
  then (λ l, StVal (VList l)) <$> first_last_mid arr
  else dict_get k stats.
Proof.
  intros Hne. unfold numeric_examples.
  destruct (decide (5 < length arr)) as [Hn|Hn];
    [|rewrite decide_False; [done|naive_solver]].
  destruct (first_last_mid_is_Some arr Hne) as [ex Hex]. rewrite Hex.
  unfold first_last_mid in Hex.
  destruct (arr !! 0) as [a|], (last arr) as [z|],
    (arr !! (length arr / 2)) as [m|]; simplify_eq/=.
  rewrite decide_True by lia.
  case_decide as Hk; [destruct Hk as [-> _]; by dict_simpl|].
  rewrite dict_get_set_ne; [done|]. naive_solver.
Qed.

(** The numeric branch extends the record with exactly [numeric_spec]. *)
Lemma numeric_stats_get arr stats k :
  arr ≠ [] →
  dict_get k (numeric_stats arr stats) =
  match numeric_spec arr k with
  | Some s => Some s
  | None => dict_get k stats
  end.
Proof.
  intros Hne. unfold numeric_stats, numeric_spec.
  destruct (py_min_is_Some arr Hne) as [mn ->].
  destruct (py_max_is_Some arr Hne) as [mx ->].
  destruct (statistics_mean_is_Some arr Hne) as [mean ->].
  destruct (statistics_median_is_Some arr Hne) as [md ->].
  destruct (first_last_mid_is_Some arr Hne) as [ex Hex].
  pose proof (statistics_stdev_sq_spec arr) as Hsd.
  destruct (statistics_stdev_sq arr) as [q|];
    destruct (decide (1 < length arr)); try lia;
    rewrite numeric_examples_get, Hex by done;
    repeat (case_decide; split_hyps; simplify_eq; try lia; try done);
    dict_simpl; try done; naive_solver.
Qed.

(** ** What the string branch stores *)

Lemma Counter_nonempty arr : arr ≠ [] → Counter arr ≠ [].
Proof.
  destruct arr as [|x arr]; [done|]. intros _ Hc.
  assert ((x, occurrences x (x :: arr)) ∈ Counter (x :: arr)) as Hin
    by (apply Counter_elem; split; [left|done]).
  rewrite Hc in Hin. by apply elem_of_nil in Hin.
Qed.

Lemma most_common_nonempty n arr :
  arr ≠ [] → most_common (S n) (Counter arr) ≠ [].
Proof.
  intros Hne%Counter_nonempty Hm. apply (f_equal length) in Hm.
  rewrite most_common_length in Hm. destruct (Counter arr); [done|].
  simpl in Hm. lia.
Qed.

Lemma string_lengths_get arr stats k :
  arr ≠ [] →
  dict_get k (string_lengths arr stats) =
  if decide (k = "min_length") then
    (λ m, StVal (VInt (Z.of_nat m))) <$> nat_min (str_lengths arr)
  else if decide (k = "max_length") then
    (λ m, StVal (VInt (Z.of_nat m))) <$> nat_max (str_lengths arr)
  else if decide (k = "avg_length") then
    Some (StVal (VFloat (Qred (inject_Z (Z.of_nat (sum_list (str_lengths arr)))
                               / qlen arr))))
  else dict_get k stats.
Proof.
  intros Hne. unfold string_lengths.
  assert (str_lengths arr ≠ []) as Hl by (by destruct arr).
  destruct (nat_min (str_lengths arr)) as [mn|] eqn:Hmn; [|by destruct (str_lengths arr)].
  destruct (nat_max (str_lengths arr)) as [mx|] eqn:Hmx; [|by destruct (str_lengths arr)].
  replace (qlen (str_lengths arr)) with (qlen arr)
    by (unfold qlen, str_lengths; by rewrite length_fmap).
  simpl. repeat (case_decide; simplify_eq); by dict_simpl.
Qed.

Lemma string_common_get arr stats k :
  arr ≠ [] →
  dict_get k (string_common arr stats) =
  let counter := Counter (str_of <$> arr) in
  if decide (k = "most_common" ∧ length arr < counter_limit)
  then Some (StVal (VList (common_entry <$> most_common 5 counter)))
  else if decide (k = "least_common" ∧ length arr < counter_limit
                  ∧ 5 < length counter)
  then Some (StVal (VList (common_entry <$> least_common5 counter)))
  else dict_get k stats.
Proof.
  intros Hne. unfold string_common. generalize counter_limit as limit.
  intros limit. cbv zeta.
  pose proof (most_common_nonempty 4 (str_of <$> arr)) as Hmc.
  rewrite bool_decide_eq_true_2 by (apply Hmc; by destruct arr).
  destruct (decide (length arr < limit)),
    (decide (5 < length (Counter (str_of <$> arr))));
    repeat (case_decide; split_hyps; simplify_eq; try done);
    dict_simpl; try done;
    rewrite !dict_get_set_ne by (intros ?; subst; naive_solver); done.
Qed.

Lemma string_examples_get arr stats g k :
  dict_get k (string_examples arr stats g).1 =
  if decide (k = "examples" ∧ 5 < length arr)
  then Some (StVal (VList (omap (λ i, arr !! i)
                                (string_example_indices (length arr) g).1)))
  else dict_get k stats.
Proof.
  unfold string_examples, string_example_indices.
  destruct (decide (5 < length arr));
    [|rewrite decide_False; [done|naive_solver]].
  destruct (decide (3 < length arr)); [|lia].
  destruct (random_sample_range _ _ _ _) as [s g']. cbn [fst].
  case_decide as Hk; [destruct Hk as [-> _]; by dict_simpl|].
  rewrite dict_get_set_ne; [done|naive_solver].
Qed.

Lemma string_stats_rng arr stats g :
  (string_stats arr stats g).2 =
  if decide (5 < length arr) then (string_example_indices (length arr) g).2 else g.
Proof.
  unfold string_stats, string_examples, string_example_indices.
  destruct (decide (5 < length arr)); [|done].
  destruct (decide (3 < length arr)); [|lia].
  by destruct (random_sample_range _ _ _ _).
Qed.

(** The string branch extends the record with exactly [string_spec]. *)
Lemma string_stats_get arr stats g k :
  arr ≠ [] →
  dict_get k (string_stats arr stats g).1 =
  match string_spec arr g k with
  | Some s => Some s
  | None => dict_get k stats
  end.
Proof.
  intros Hne. unfold string_stats, string_spec.
  rewrite string_examples_get, string_common_get, string_lengths_get by done.
  assert (str_lengths arr ≠ []) as Hl by (by destruct arr).
  destruct (nat_min (str_lengths arr)) as [mn|] eqn:Hmn; [|by destruct (str_lengths arr)].
  destruct (nat_max (str_lengths arr)) as [mx|] eqn:Hmx; [|by destruct (str_lengths arr)].
  cbv zeta.
  repeat (case_decide; split_hyps; simplify_eq; try done); naive_solver.
Qed.

(** ** The summary of an array, key by key *)

Lemma numeric_array_nonempty arr : numeric_array arr = true → arr ≠ [].
Proof. by destruct arr. Qed.

Lemma string_array_nonempty arr : string_array arr = true → arr ≠ [].
Proof. by destruct arr. Qed.

Lemma numeric_array_numbers arr :
  numeric_array arr = true → Forall (λ v, is_number v = true) arr.
Proof.
  unfold numeric_array. intros [_ Hn]%andb_true_iff.
  by apply forallb_Forall in Hn.
Qed.

(** The elements of an array of strings are strings. *)
Lemma string_array_strings arr :
  string_array arr = true → VStr <$> (str_of <$> arr) = arr.
Proof.
  unfold string_array. intros [_ Hs%forallb_Forall]%andb_true_iff.
  induction Hs as [|v arr Hv _ IH]; [done|].
  rewrite !fmap_cons, IH. by destruct v.
Qed.

Lemma numeric_spec_base arr k :
  k ∈ ["count"; "uniform_type"] → numeric_spec arr k = None.
Proof.
  unfold numeric_spec. rewrite !elem_of_cons, elem_of_nil.
  by intros [->|[->|[]]].
Qed.

Lemma string_spec_base arr g k :
  k ∈ ["count"; "uniform_type"] → string_spec arr g k = None.
Proof.
  unfold string_spec. rewrite !elem_of_cons, elem_of_nil.
  by intros [->|[->|[]]].
Qed.

Lemma array_stats_numeric_get arr g k :
  numeric_array arr = true →
  dict_get k (_compute_array_stats arr g).1 =
  match numeric_spec arr k with
  | Some s => Some s
  | None => dict_get k (base_stats arr)
  end.
Proof.
  intros Hn. rewrite _compute_array_stats_numeric by done.
  apply numeric_stats_get. by apply numeric_array_nonempty.
Qed.

Lemma array_stats_string_get arr g k :
  string_array arr = true →
  dict_get k (_compute_array_stats arr g).1 =
  match string_spec arr g k with
  | Some s => Some s
  | None => dict_get k (base_stats arr)
  end.
Proof.
  intros Hn. rewrite _compute_array_stats_string by done.
  apply string_stats_get. by apply string_array_nonempty.
Qed.

(** The three shapes cover every non-empty array and exclude each other. *)
Lemma array_shape arr :
  arr ≠ [] →
  numeric_array arr = true ∨ string_array arr = true ∨
  (numeric_array arr = false ∧ string_array arr = false).
Proof.
  intros _. unfold numeric_array, string_array.
  destruct (uniform arr), (forallb is_number arr), (forallb _ arr); auto.
Qed.

Lemma numeric_string_disjoint arr :
  numeric_array arr = true → string_array arr = false.
Proof.
  unfold numeric_array, string_array. intros [-> ->]%andb_true_iff. done.
Qed.

Lemma array_stats_base_get arr g k :
  arr ≠ [] → k ∈ ["count"; "uniform_type"] →
  dict_get k (_compute_array_stats arr g).1 = dict_get k (base_stats arr).
Proof.
  intros Hne Hk. destruct (array_shape arr Hne) as [Hn|[Hs|[Hn Hs]]].
  - by rewrite array_stats_numeric_get, numeric_spec_base.
  - by rewrite array_stats_string_get, string_spec_base.
  - by rewrite _compute_array_stats_other.
Qed.

(** ** The entries of a numeric array *)

Lemma qlen_pred {A} (l : list A) :
  l ≠ [] → (inject_Z (Z.of_nat (length l - 1)) == qlen l - 1)%Q.
Proof.
  destruct l as [|x l]; [done|]. intros _. rewrite qlen_cons.
  replace (length (x :: l) - 1) with (length l) by (simpl; lia).
  unfold qlen. lra.
Qed.

Lemma numeric_spec_min_max arr :
  arr ≠ [] →
  ∃ mn mx, numeric_spec arr "min" = Some (StVal mn) ∧
           numeric_spec arr "max" = Some (StVal mx) ∧
           mn ∈ arr ∧ mx ∈ arr ∧
           Forall (λ v, (num_of mn <= num_of v <= num_of mx)%Q) arr.
Proof.
  intros Hne. destruct (py_min_is_Some arr Hne) as [mn Hmn].
  destruct (py_max_is_Some arr Hne) as [mx Hmx]. exists mn, mx.
  unfold numeric_spec; simpl. rewrite Hmn, Hmx.
  apply py_min_spec in Hmn as [? Hlo]. apply py_max_spec in Hmx as [? Hhi].
  split_and!; [done..|]. eapply Forall_impl2; [exact Hlo|exact Hhi|done].
Qed.

Lemma numeric_spec_mean arr :
  arr ≠ [] →
  ∃ m, numeric_spec arr "mean" = Some (StVal m) ∧
       (num_of m * qlen arr == qsum (num_of <$> arr))%Q.
Proof.
  intros Hne. exists (of_fraction (all_int arr) (mean_q arr)). split.
  - unfold numeric_spec; simpl. by destruct arr.
  - rewrite num_of_of_fraction. by apply mean_q_sum.
Qed.

Lemma numeric_spec_median_stdev arr :
  arr ≠ [] → 1 < length arr →
  ∃ md a b q,
    numeric_spec arr "median" = Some (StVal md) ∧
    a ∈ arr ∧ b ∈ arr ∧ (num_of md == (num_of a + num_of b) / 2)%Q ∧
    numeric_spec arr "stdev" = Some (StSqrt q) ∧
    (0 <= q)%Q ∧ (q * (qlen arr - 1) == sum_sq_dev arr)%Q.
Proof.
  intros Hne Hlen. destruct (statistics_median_is_Some arr Hne) as [md Hmd].
  destruct (statistics_median_spec _ _ Hmd) as (a & b & Ha & Hb & Hab).
  pose proof (statistics_stdev_sq_spec arr) as Hsd.
  unfold numeric_spec; simpl. rewrite decide_True, Hmd by done.
  unfold statistics_stdev_sq in *. rewrite decide_False in * by lia.
  eexists md, a, b, _. split_and!; try done; [apply Hsd|].
  rewrite Qred_correct, qlen_pred by done.
  assert (1 < qlen arr)%Q by (unfold qlen; rewrite <-(Zlt_Qlt 1); lia).
  field. lra.
Qed.

Lemma numeric_spec_small arr :
  length arr ≤ 1 →
  numeric_spec arr "median" = None ∧ numeric_spec arr "stdev" = None.
Proof.
  intros Hlen. unfold numeric_spec, statistics_stdev_sq; simpl.
  by rewrite decide_False, decide_True by lia.
Qed.

(** ** Every record is a well-formed dict *)

Lemma base_stats_wf arr : dict_wf (base_stats arr).
Proof. unfold dict_wf, dict_keys. simpl. by apply (bool_decide_unpack _). Qed.

Lemma numeric_examples_wf arr stats :
  dict_wf stats → dict_wf (numeric_examples arr stats).
Proof.
  intros Hwf. unfold numeric_examples.
  repeat (case_decide || case_match); auto using dict_set_wf.
Qed.

Lemma numeric_stats_wf arr stats :
  dict_wf stats → dict_wf (numeric_stats arr stats).
Proof.
  intros Hwf. unfold numeric_stats.
  repeat (case_decide || case_match);
    auto 10 using dict_set_wf, numeric_examples_wf.
Qed.

Lemma string_lengths_wf arr stats :
  dict_wf stats → dict_wf (string_lengths arr stats).
Proof.
  intros Hwf. unfold string_lengths.
  destruct (nat_min _), (nat_max _); simpl; auto 10 using dict_set_wf.
Qed.

Lemma string_common_wf arr stats :
  dict_wf stats → dict_wf (string_common arr stats).
Proof.
  intros Hwf. unfold string_common. generalize counter_limit as limit.
  intros limit. repeat (case_decide || case_match); auto 10 using dict_set_wf.
Qed.

Lemma string_examples_wf arr stats g :
  dict_wf stats → dict_wf (string_examples arr stats g).1.
Proof.
  intros Hwf. unfold string_examples.
  repeat (case_decide || case_match); simplify_eq/=; auto using dict_set_wf.
Qed.

(** ** The entries of an array of strings *)

Lemma string_array_elem arr s :
  string_array arr = true → VStr s ∈ arr ↔ s ∈ str_of <$> arr.
Proof.
  intros Hs. rewrite <-(string_array_strings arr Hs) at 1.
  apply list_elem_of_fmap_inj, _.
Qed.

Lemma table_of_elem arr s n :
  string_array arr = true →
  (s, n) ∈ table_of arr ↔ VStr s ∈ arr ∧ n = occurrences s (str_of <$> arr).
Proof.
  intros Hs. unfold table_of. by rewrite Counter_elem, string_array_elem.
Qed.

Lemma most_common_top_of n arr :
  string_array arr = true → top_of n arr (most_common n (table_of arr)).
Proof.
  intros Hs. unfold top_of. split_and!.
  - unfold table_of. by rewrite most_common_length, Counter_length.
  - apply most_common_wf, Counter_wf.
  - apply most_common_sorted.
  - intros s c Hin%most_common_elem. by apply table_of_elem.
  - intros s kv Hs' Hout Hkv.
    apply (most_common_top n (table_of arr) kv
             (s, occurrences s (str_of <$> arr)));
      [done|by apply table_of_elem|].
    intros Hin. by apply Hout, (elem_of_dict_keys _ _ _ Hin).
Qed.

Lemma least_common5_bottom_of arr :
  string_array arr = true → 5 < length (table_of arr) →
  bottom_of arr (least_common5 (table_of arr)).
Proof.
  intros Hs Hlen. unfold bottom_of. split_and!.
  - rewrite least_common5_length. lia.
  - apply least_common5_wf, Counter_wf.
  - apply least_common5_sorted.
  - intros s c Hin%least_common5_elem. by apply table_of_elem.
  - intros s kv Hs' Hout Hkv.
    apply (least_common5_bottom (table_of arr) kv
             (s, occurrences s (str_of <$> arr)));
      [done|by apply table_of_elem|].
    intros Hin. by apply Hout, (elem_of_dict_keys _ _ _ Hin).
Qed.

Lemma string_example_indices_ok n g :
  5 < n → example_indices_ok n (string_example_indices n g).1.
Proof.
  intros Hn. unfold string_example_indices, random_sample_range.
  destruct (sample_from_spec (seq 1 (n - 1 - 1)) (3 `min` (n - 2)) g)
    as (Hlen & Hnd & Hsub); [apply NoDup_seq|rewrite length_seq; lia|].
  destruct (sample_from _ _ g) as [mid g']. cbn [fst] in *.
  exists mid. split_and!; [done|lia|done|].
  apply Forall_forall. intros i Hi%Hsub%elem_of_seq. lia.
Qed.

Lemma three_distinct_span n (mid : list nat) :
  length mid = 3 → NoDup mid → Forall (λ i, 0 < i < n - 1) mid → 3 ≤ n - 2.
Proof.
  destruct mid as [|i1 [|i2 [|i3 [|]]]]; intros Hlen Hnd Hmid; simplify_eq/=.
  apply NoDup_cons in Hnd as [Hi1 Hnd]. apply NoDup_cons in Hnd as [Hi2 _].
  rewrite !Forall_cons in Hmid. set_unfold. lia.
Qed.

(** Every choice of three distinct interior indices is drawn by some
    state of the generator. *)
Lemma string_example_indices_complete n mid :
  length mid = 3 → NoDup mid → Forall (λ i, 0 < i < n - 1) mid →
  ∃ g, (string_example_indices n g).1 = [0; n - 1] ++ mid.
Proof.
  intros Hlen Hnd Hmid. pose proof (three_distinct_span n mid Hlen Hnd Hmid).
  destruct (sample_complete (seq 1 (n - 1 - 1)) mid Hnd) as [g Hg].
  { intros i Hi. rewrite Forall_forall in Hmid. apply elem_of_seq.
    specialize (Hmid i Hi). lia. }
  exists g. unfold string_example_indices, random_sample_range.
  rewrite Nat.min_l, <-Hlen by done.
  by destruct (sample_from _ _ g) as [s g']; simpl in *; subst.
Qed.

Lemma omap_lookup_Forall2 {A} (l : list A) idx :
  Forall (λ i, i < length l) idx →
  Forall2 (λ i v, l !! i = Some v) idx (omap (λ i, l !! i) idx).
Proof.
  induction 1 as [|i idx Hi _ IH]; [constructor|].
  destruct (lookup_lt_is_Some_2 l i Hi) as [v Hv].
  cbn [omap list_omap]. rewrite Hv. by constructor.
Qed.

Lemma example_indices_ok_bound n idx :
  0 < n → example_indices_ok n idx → Forall (λ i, i < n) idx.
Proof.
  intros Hn (mid & -> & _ & _ & Hmid). repeat constructor; [lia..|].
  eapply Forall_impl; [done|]. simpl. lia.
Qed.

(** ** The part of the generator *)

Lemma string_spec_rng arr g g' k :
  k ≠ "examples" → string_spec arr g k = string_spec arr g' k.
Proof.
  intros Hk. unfold string_spec. generalize counter_limit as limit.
  intros limit. by repeat case_decide.
Qed.

Lemma string_examples_small arr stats g :
  length arr ≤ 5 → string_examples arr stats g = (stats, g).
Proof. intros Hn. unfold string_examples. by rewrite decide_False by lia. Qed.

Lemma string_examples_keys arr stats g g' :
  dict_keys (string_examples arr stats g).1 =
  dict_keys (string_examples arr stats g').1.
Proof.
  unfold string_examples. case_decide; [|done]. case_decide; [|lia].
  do 2 destruct (random_sample_range _ _ _ _). cbn [fst].
  by rewrite !dict_set_keys.
Qed.

(** Only arrays of more than five strings consult the generator. *)
Lemma array_stats_rng_free arr g g' :
  string_array arr = false ∨ length arr ≤ 5 →
  _compute_array_stats arr g = ((_compute_array_stats arr g').1, g).
Proof.
  intros Hfree. destruct arr as [|v arr]; [done|].
  destruct (array_shape (v :: arr)) as [Hn|[Hs|[Hn Hs]]]; [done|..].
  - by rewrite !_compute_array_stats_numeric.
  - destruct Hfree as [?|Hlen]; [congruence|].
    rewrite !_compute_array_stats_string by done. unfold string_stats.
    by rewrite !string_examples_small.
  - by rewrite !_compute_array_stats_other.
Qed.

Lemma array_stats_keys_rng arr g g' :
  dict_keys (_compute_array_stats arr g).1 =
  dict_keys (_compute_array_stats arr g').1.
Proof.
  destruct (decide (string_array arr = true)) as [Hs|Hs%not_true_is_false].
  - rewrite !_compute_array_stats_string by done. apply string_examples_keys.
  - by rewrite (array_stats_rng_free arr g g') by auto.
Qed.

Lemma array_stats_get_rng arr g g' k :
  k ≠ "examples" →
  dict_get k (_compute_array_stats arr g).1 =
  dict_get k (_compute_array_stats arr g').1.
Proof.
  intros Hk.
  destruct (decide (string_array arr = true)) as [Hs|Hs%not_true_is_false].
  - by rewrite !array_stats_string_get, (string_spec_rng arr g g').
  - by rewrite (array_stats_rng_free arr g g') by auto.
Qed.

(** Every record is a well-formed dict: no key occurs twice. *)
Lemma array_stats_wf arr g : dict_wf (_compute_array_stats arr g).1.
Proof.
  destruct arr as [|v arr]; [apply NoDup_singleton|].
  destruct (array_shape (v :: arr)) as [Hn|[Hs|[Hn Hs]]]; [done|..].
  - rewrite _compute_array_stats_numeric by done.
    apply numeric_stats_wf, base_stats_wf.
  - rewrite _compute_array_stats_string by done.
    apply string_examples_wf, string_common_wf, string_lengths_wf, base_stats_wf.
  - rewrite _compute_array_stats_other by done. apply base_stats_wf.
Qed.

(** ** Properties *)

(** [C4] Refinement, numeric branch: on an array of numbers of one type
    the summarizer returns, under every key, the entry of [numeric_spec]
    on top of ['count'] and ['uniform_type'], and leaves the generator
    untouched. *)
Theorem array_stats_numeric_refines arr g k :
  numeric_array arr = true →
  dict_get k (_compute_array_stats arr g).1 =
    match numeric_spec arr k with
    | Some s => Some s
    | None => dict_get k (base_stats arr)
    end ∧
  (_compute_array_stats arr g).2 = g.
Proof.
  intros Hn. split; [by apply array_stats_numeric_get|].
  by rewrite _compute_array_stats_numeric.
Qed.

(** [C5] Refinement, string branch: on an array of strings the summarizer
    returns, under every key, the entry of [string_spec] on top of
    ['count'] and ['uniform_type']; the generator advances by one draw of
    three indices exactly when the array has more than five elements. *)
Theorem array_stats_string_refines arr g k :
  string_array arr = true →
  dict_get k (_compute_array_stats arr g).1 =
    match string_spec arr g k with
    | Some s => Some s
    | None => dict_get k (base_stats arr)
    end ∧
  (_compute_array_stats arr g).2 =
    if decide (5 < length arr)
    then (random_sample_range 1 (length arr - 1) 3 g).2 else g.
Proof.
  intros Hs. split; [by apply array_stats_string_get|].
  rewrite _compute_array_stats_string, string_stats_rng by done.
  case_decide; [|done]. unfold string_example_indices.
  rewrite Nat.min_l by lia. by destruct (random_sample_range _ _ _ _).
Qed.

(** [C10] ['min'] and ['max'] of a numeric array are elements of the array
    that bound every element. *)
Theorem array_stats_min_max arr g :
  numeric_array arr = true →
  ∃ mn mx,
    dict_get "min" (_compute_array_stats arr g).1 = Some (StVal mn) ∧
    dict_get "max" (_compute_array_stats arr g).1 = Some (StVal mx) ∧
    mn ∈ arr ∧ mx ∈ arr ∧
    Forall (λ v, (num_of mn <= num_of v <= num_of mx)%Q) arr.
Proof.
  intros Hn. rewrite !array_stats_numeric_get by done.
  destruct (numeric_spec_min_max arr) as (mn & mx & -> & -> & ?);
    [by apply numeric_array_nonempty|]. by exists mn, mx.
Qed.

(** [C20] ['mean'] of a numeric array is the exact arithmetic mean: times
    the number of elements it is their sum, and it lies between ['min']
    and ['max']. *)
Theorem array_stats_mean arr g :
  numeric_array arr = true →
  ∃ m lo hi,
    dict_get "mean" (_compute_array_stats arr g).1 = Some (StVal m) ∧
    dict_get "min" (_compute_array_stats arr g).1 = Some (StVal lo) ∧
    dict_get "max" (_compute_array_stats arr g).1 = Some (StVal hi) ∧
    (num_of m * qlen arr == qsum (num_of <$> arr))%Q ∧
    (num_of lo <= num_of m <= num_of hi)%Q.
Proof.
  intros Hn. pose proof (numeric_array_nonempty _ Hn) as Hne.
  rewrite !array_stats_numeric_get by done.
  destruct (numeric_spec_min_max arr Hne) as (lo & hi & -> & -> & _ & _ & Hb).
  destruct (numeric_spec_mean arr Hne) as (m & -> & Hm).
  exists m, lo, hi. do 4 (split; [done|]).
  pose proof (qlen_pos arr Hne) as Hlen.
  assert (Forall (λ q, (num_of lo <= q)%Q) (num_of <$> arr)) as Hlo
    by (apply Forall_fmap; eapply Forall_impl; [exact Hb|]; by intros ? []).
  assert (Forall (λ q, (q <= num_of hi)%Q) (num_of <$> arr)) as Hhi
    by (apply Forall_fmap; eapply Forall_impl; [exact Hb|]; by intros ? []).
  apply qsum_lower in Hlo. apply qsum_upper in Hhi.
  unfold qlen in *. rewrite length_fmap in Hlo, Hhi. split; nra.
Qed.

(** [C21] A numeric array of two or more elements has a ['median'], the
    half-sum of two of its elements, and a ['stdev'] whose square is the
    sum of the squared deviations from the mean over [count - 1], also
    when every element is the same; an array of one element has neither. *)
Theorem array_stats_median_stdev arr g :
  numeric_array arr = true →
  let stats := (_compute_array_stats arr g).1 in
  if decide (1 < length arr) then
    ∃ md a b q,
      dict_get "median" stats = Some (StVal md) ∧
      a ∈ arr ∧ b ∈ arr ∧ (num_of md == (num_of a + num_of b) / 2)%Q ∧
      dict_get "stdev" stats = Some (StSqrt q) ∧
      (0 <= q)%Q ∧ (q * (qlen arr - 1) == sum_sq_dev arr)%Q
  else dict_get "median" stats = None ∧ dict_get "stdev" stats = None.
Proof.
  intros Hn. pose proof (numeric_array_nonempty _ Hn) as Hne. cbv zeta.
  rewrite !array_stats_numeric_get by done. case_decide as Hlen.
  - destruct (numeric_spec_median_stdev arr Hne Hlen)
      as (md & a & b & q & -> & ? & ? & ? & -> & ?). by exists md, a, b, q.
  - destruct (numeric_spec_small arr) as [-> ->]; [lia|done].
Qed.

(** Every record holds ['count'], the length of the array; every
    record of a non-empty array holds ['uniform_type'], which tells
    whether every element is an instance of the type of the first. *)
Theorem array_stats_count arr g :
  let stats := (_compute_array_stats arr g).1 in
  dict_get "count" stats = Some (StVal (VInt (Z.of_nat (length arr)))) ∧
  dict_get "uniform_type" stats =
    match arr with
    | [] => None
    | _ => Some (StVal (VBool (uniform arr)))
    end.
Proof.
  destruct arr as [|v arr]; [done|]. cbv zeta.
  by rewrite !array_stats_base_get by set_solver.
Qed.

(** An array that is neither numeric nor of strings gets ['count']
    and, when it is not empty, ['uniform_type'], and nothing else. *)
Theorem array_stats_plain arr g :
  numeric_array arr = false → string_array arr = false →
  _compute_array_stats arr g =
  (match arr with
   | [] => [("count", StVal (VInt 0))]
   | _ => [("count", StVal (py_len arr));
           ("uniform_type", StVal (VBool (uniform arr)))]
   end, g).
Proof.
  intros Hn Hs. destruct arr as [|v arr]; [done|].
  by rewrite _compute_array_stats_other.
Qed.

(** [C9] ['most_common'] of an array of fewer than 1000 strings lists the
    five most frequent strings (all of them when there are fewer) with
    their numbers of occurrences, in descending order of count; a larger
    array has no such entry. *)
Theorem array_stats_most_common arr g :
  string_array arr = true →
  if decide (length arr < counter_limit) then
    ∃ top, dict_get "most_common" (_compute_array_stats arr g).1 =
             Some (StVal (VList (common_entry <$> top))) ∧
           top_of 5 arr top
  else dict_get "most_common" (_compute_array_stats arr g).1 = None.
Proof.
  intros Hs. rewrite array_stats_string_get by done.
  unfold string_spec; simpl. generalize counter_limit as limit. intros limit.
  case_decide; [|done]. eexists. split; [done|]. by apply most_common_top_of.
Qed.

(** ['least_common'] is present exactly when the array has fewer than
    1000 strings and more than five distinct ones; it lists the five least
    frequent strings with their counts, in ascending order of count. *)
Theorem array_stats_least_common arr g :
  string_array arr = true →
  if decide (length arr < counter_limit
             ∧ 5 < length (remove_dups (str_of <$> arr))) then
    ∃ bottom, dict_get "least_common" (_compute_array_stats arr g).1 =
                Some (StVal (VList (common_entry <$> bottom))) ∧
              bottom_of arr bottom
  else dict_get "least_common" (_compute_array_stats arr g).1 = None.
Proof.
  intros Hs. rewrite array_stats_string_get by done.
  unfold string_spec; simpl. generalize counter_limit as limit. intros limit.
  rewrite Counter_length.
  case_decide as Hc; [|done]. eexists. split; [done|].
  apply least_common5_bottom_of; [done|]. unfold table_of.
  rewrite Counter_length. by destruct Hc.
Qed.

(** [C38] ['examples'] of an array of more than five strings are five
    elements: the first, the last and three at distinct interior indices;
    a smaller array has no examples. *)
Theorem array_stats_string_examples arr g :
  string_array arr = true →
  let stats := (_compute_array_stats arr g).1 in
  if decide (5 < length arr) then
    ∃ idx ex, dict_get "examples" stats = Some (StVal (VList ex)) ∧
              example_indices_ok (length arr) idx ∧
              Forall2 (λ i v, arr !! i = Some v) idx ex
  else dict_get "examples" stats = None.
Proof.
  intros Hs. cbv zeta. rewrite array_stats_string_get by done.
  unfold string_spec; simpl. case_decide as Hn; [|done].
  pose proof (string_example_indices_ok (length arr) g Hn) as Hok.
  eexists _, _. split_and!; [done..|].
  apply omap_lookup_Forall2, example_indices_ok_bound; [lia|done].
Qed.

(** The model of the generator leaves no outcome out: whatever three
    distinct interior indices are chosen, some state of the generator
    makes the summarizer return the examples at these indices. *)
Theorem array_stats_examples_complete arr mid :
  string_array arr = true → 5 < length arr →
  length mid = 3 → NoDup mid → Forall (λ i, 0 < i < length arr - 1) mid →
  ∃ g, dict_get "examples" (_compute_array_stats arr g).1 =
       Some (StVal (VList (omap (λ i, arr !! i) ([0; length arr - 1] ++ mid)))).
Proof.
  intros Hs Hn Hlen Hnd Hmid.
  destruct (string_example_indices_complete (length arr) mid) as [g Hg];
    [done..|].
  exists g. rewrite array_stats_string_get by done.
  unfold string_spec; simpl. by rewrite decide_True, Hg.
Qed.

(** Determinism: the keys of the record never depend on the
    generator, and neither does any entry other than the ['examples'] of
    an array of more than five strings. *)
Theorem array_stats_deterministic arr g g' k :
  k ≠ "examples" ∨ string_array arr = false ∨ length arr ≤ 5 →
  dict_get k (_compute_array_stats arr g).1 =
  dict_get k (_compute_array_stats arr g').1 ∧
  dict_keys (_compute_array_stats arr g).1 =
  dict_keys (_compute_array_stats arr g').1.
Proof.
  intros Hk. split; [|apply array_stats_keys_rng].
  destruct Hk as [Hk|Hfree]; [by apply array_stats_get_rng|].
  by rewrite (array_stats_rng_free arr g g').
Qed.

(** ** Examples and instances *)

Definition ints5 : list value := VInt <$> [1; 2; 3; 4; 5]%Z.
Definition strs6 : list value := VStr <$> ["a"; "a"; "b"; "c"; "a"; "b"].
Definition strs7 : list value := VStr <$> ["a"; "b"; "c"; "d"; "e"; "f"; "a"].

(** [[1,2,3,4,5]]: the standard deviation is [sqrt (5/2)], about 1.5811. *)
Example array_stats_ints5 g :
  _compute_array_stats ints5 g =
  ([("count", StVal (VInt 5)); ("uniform_type", StVal (VBool true));
    ("min", StVal (VInt 1)); ("max", StVal (VInt 5));
    ("mean", StVal (VInt 3)); ("median", StVal (VInt 3));
    ("stdev", StSqrt (5 # 2))], g).
Proof. by vm_compute. Qed.

(** [[7]]: a mean, no median and no standard deviation. *)
Example array_stats_single g :
  _compute_array_stats [VInt 7] g =
  ([("count", StVal (VInt 1)); ("uniform_type", StVal (VBool true));
    ("min", StVal (VInt 7)); ("max", StVal (VInt 7));
    ("mean", StVal (VInt 7))], g).
Proof. by vm_compute. Qed.

(** [["a","a","b","c","a","b"]] with a generator that draws the interior
    indices 4, 1 and 2. *)
Example array_stats_strs6 :
  _compute_array_stats strs6 [3; 0; 0] =
  ([("count", StVal (VInt 6)); ("uniform_type", StVal (VBool true));
    ("min_length", StVal (VInt 1)); ("max_length", StVal (VInt 1));
    ("avg_length", StVal (VFloat 1));
    ("most_common", StVal (VList (common_entry <$> [("a", 3); ("b", 2); ("c", 1)])));
    ("examples", StVal (VList (VStr <$> ["a"; "b"; "a"; "a"; "b"])))], []).
Proof. by vm_compute. Qed.

(** Ties: ['most_common'] keeps the first-encountered order, and
    ['least_common'] the reverse of it. *)
Example array_stats_strs7 g :
  let stats := (_compute_array_stats strs7 g).1 in
  dict_get "most_common" stats =
    Some (StVal (VList (common_entry <$>
            [("a", 2); ("b", 1); ("c", 1); ("d", 1); ("e", 1)]))) ∧
  dict_get "least_common" stats =
    Some (StVal (VList (common_entry <$>
            [("f", 1); ("e", 1); ("d", 1); ("c", 1); ("b", 1)]))).
Proof.
  cbv zeta. by rewrite !array_stats_string_get by done.
Qed.

(** [bool] is a subclass of [int]: whether an array of integers and
    booleans is uniform depends on which comes first, *)
Example uniform_type_order_sensitive g :
  dict_get "uniform_type" (_compute_array_stats [VInt 1; VBool true] g).1
    = Some (StVal (VBool true)) ∧
  dict_get "uniform_type" (_compute_array_stats [VBool true; VInt 1] g).1
    = Some (StVal (VBool false)).
Proof. done. Qed.

(** an array of booleans gets the statistics of numbers, *)
Example array_stats_booleans g :
  _compute_array_stats [VBool true; VBool false] g =
  ([("count", StVal (VInt 2)); ("uniform_type", StVal (VBool true));
    ("min", StVal (VBool false)); ("max", StVal (VBool true));
    ("mean", StVal (VFloat (1 # 2))); ("median", StVal (VFloat (1 # 2)));
    ("stdev", StSqrt (1 # 2))], g).
Proof. by vm_compute. Qed.

(** and a constant array has a standard deviation, zero. *)
Example array_stats_constant g :
  dict_get "stdev" (_compute_array_stats [VInt 2; VInt 2] g).1
  = Some (StSqrt 0).
Proof. done. Qed.

Lemma array_stats_numeric_refines_witness :
  dict_get "mean" (_compute_array_stats ints5 [1]).1 =
    match numeric_spec ints5 "mean" with
    | Some s => Some s
    | None => dict_get "mean" (base_stats ints5)
    end ∧
  (_compute_array_stats ints5 [1]).2 = [1].
Proof. by apply (array_stats_numeric_refines ints5 [1] "mean"). Defined.

Lemma array_stats_string_refines_witness :
  dict_get "examples" (_compute_array_stats strs6 [3; 0; 0]).1 =
    match string_spec strs6 [3; 0; 0] "examples" with
    | Some s => Some s
    | None => dict_get "examples" (base_stats strs6)
    end ∧
  (_compute_array_stats strs6 [3; 0; 0]).2 =
    if decide (5 < length strs6)
    then (random_sample_range 1 (length strs6 - 1) 3 [3; 0; 0]).2
    else [3; 0; 0].
Proof. by apply (array_stats_string_refines strs6 [3; 0; 0] "examples"). Defined.

Lemma array_stats_min_max_witness :
  ∃ mn mx,
    dict_get "min" (_compute_array_stats ints5 []).1 = Some (StVal mn) ∧
    dict_get "max" (_compute_array_stats ints5 []).1 = Some (StVal mx) ∧
    mn ∈ ints5 ∧ mx ∈ ints5 ∧
    Forall (λ v, (num_of mn <= num_of v <= num_of mx)%Q) ints5.
Proof. by apply (array_stats_min_max ints5 []). Defined.

Lemma array_stats_mean_witness :
  ∃ m lo hi,
    dict_get "mean" (_compute_array_stats ints5 []).1 = Some (StVal m) ∧
    dict_get "min" (_compute_array_stats ints5 []).1 = Some (StVal lo) ∧
    dict_get "max" (_compute_array_stats ints5 []).1 = Some (StVal hi) ∧
    (num_of m * qlen ints5 == qsum (num_of <$> ints5))%Q ∧
    (num_of lo <= num_of m <= num_of hi)%Q.
Proof. by apply (array_stats_mean ints5 []). Defined.

Lemma array_stats_median_stdev_witness :
  ∃ md a b q,
    dict_get "median" (_compute_array_stats ints5 []).1 = Some (StVal md) ∧
    a ∈ ints5 ∧ b ∈ ints5 ∧ (num_of md == (num_of a + num_of b) / 2)%Q ∧
    dict_get "stdev" (_compute_array_stats ints5 []).1 = Some (StSqrt q) ∧
    (0 <= q)%Q ∧ (q * (qlen ints5 - 1) == sum_sq_dev ints5)%Q.
Proof. by apply (array_stats_median_stdev ints5 []). Defined.

Lemma array_stats_plain_witness :
  _compute_array_stats [VInt 1; VStr "x"] [7] =
  ([("count", StVal (VInt 2)); ("uniform_type", StVal (VBool false))], [7]).
Proof. by apply (array_stats_plain [VInt 1; VStr "x"] [7]). Defined.

Lemma array_stats_most_common_witness :
  ∃ top, dict_get "most_common" (_compute_array_stats strs6 []).1 =
           Some (StVal (VList (common_entry <$> top))) ∧
         top_of 5 strs6 top.
Proof. by apply (array_stats_most_common strs6 []). Defined.

Lemma array_stats_least_common_witness :
  ∃ bottom, dict_get "least_common" (_compute_array_stats strs7 []).1 =
              Some (StVal (VList (common_entry <$> bottom))) ∧
            bottom_of strs7 bottom.
Proof. by apply (array_stats_least_common strs7 []). Defined.

Lemma array_stats_string_examples_witness :
  ∃ idx ex,
    dict_get "examples" (_compute_array_stats strs6 [3; 0; 0]).1
      = Some (StVal (VList ex)) ∧
    example_indices_ok (length strs6) idx ∧
    Forall2 (λ i v, strs6 !! i = Some v) idx ex.
Proof. by apply (array_stats_string_examples strs6 [3; 0; 0]). Defined.

Lemma array_stats_examples_complete_witness :
  ∃ g, dict_get "examples" (_compute_array_stats strs6 g).1 =
       Some (StVal (VList (VStr <$> ["a"; "b"; "a"; "a"; "b"]))).
Proof.
  apply (array_stats_examples_complete strs6 [4; 1; 2]);
    [done|simpl; lia|done|by apply (bool_decide_unpack _)|].
  repeat constructor; simpl; lia.
Defined.

Lemma array_stats_deterministic_witness :
  dict_get "most_common" (_compute_array_stats strs7 [1; 2; 3]).1 =
  dict_get "most_common" (_compute_array_stats strs7 [3; 0; 0]).1 ∧
  dict_keys (_compute_array_stats strs7 [1; 2; 3]).1 =
  dict_keys (_compute_array_stats strs7 [3; 0; 0]).1.
Proof.
  apply (array_stats_deterministic strs7 [1; 2; 3] [3; 0; 0] "most_common").
  by left.
Defined.
