(* ===== verification/Schema.v ===== *)
(** * Schema: the schema inference engine

    [analyze_json] and [_analyze_object] of [JsonSchemaAnalyzer]
    (src/gui.py).  The schema of an object is a dict from its keys to
    nodes; a node is the Python dict the code builds for a value, with the
    keys the code gives it:

    - [SObject properties] for [{'type': 'object', 'properties': ...}],
    - [SArray element_type stats properties] for [{'type': 'array',
      'element_type': ..., 'stats': ...}], with ['properties'] when the
      first element is an object,
    - [SPrim type value stats examples] for the node of a primitive.

    The schema of a root array also holds the record of the whole array
    under the key ['__array_stats'] ([EArrayStats]).

    The walk calls [_compute_array_stats], which draws random numbers for
    arrays of strings: the state of the generator is threaded through the
    walk in the order of the calls of the code.

    Model first, then the specification: [analyze_entry] (the body of the
    loop), [node_for] (the node of a value), [first_wins] (the entry of a
    root array under a key), [erase_node] (a schema without its random
    examples), [rng_free] (documents the analysis of which draws no
    number), [schema_wf]; then the lemmas and the properties. *)

From Stdlib Require Import QArith.
From S2P Require Import Prelude PyDict Value PyNum PyCollections ValueStats Stats.

#[local] Arguments _compute_array_stats : simpl never.

(** ** Schemas *)

Unset Elimination Schemes.
Inductive schema_node : Type :=
| SObject (properties : list (string * schema_node))
| SArray (element_type : string) (stats : dict stat)
         (properties : option (list (string * schema_node)))
| SPrim (type : string) (v : value) (stats : dict value)
        (examples : list example).
Set Elimination Schemes.

(** Induction over nodes: the nodes of the properties satisfy the
    property. *)
Section schema_node_ind.
Variable P : schema_node → Prop.
Hypothesis HObject : ∀ p, Forall (λ kn, P kn.2) p → P (SObject p).
Hypothesis HArray : ∀ et s p,
  from_option (Forall (λ kn, P kn.2)) True p → P (SArray et s p).
Hypothesis HPrim : ∀ t v s e, P (SPrim t v s e).

Fixpoint schema_node_ind (n : schema_node) : P n :=
  let go := fix go (p : dict schema_node) : Forall (λ kn, P kn.2) p :=
              match p with
              | [] => List.Forall_nil _
              | kn :: p' => List.Forall_cons _ _ _ (schema_node_ind kn.2) (go p')
              end in
  match n with
  | SObject p => HObject p (go p)
  | SArray et s p =>
      HArray et s p match p with Some p => go p | None => I end
  | SPrim t v s e => HPrim t v s e
  end.
End schema_node_ind.

Inductive schema_entry : Type :=
| ENode (n : schema_node)
| EArrayStats (stats : dict stat).

(** ** [_analyze_object(obj)] *)

(** ['element_type']: the type name of the first element when every
    element is an instance of its type, ['mixed'] otherwise. *)
Definition element_type_of (l : list value) : string :=
  match l with
  | first :: _ =>
      if forallb (λ item, isinstance item (type_of first)) l
      then type_name (type_of first) else "mixed"
  | [] => "mixed"
  end.

(** Called on objects only; on another value the loop of the code would
    raise. *)
Fixpoint _analyze_object (obj : value) (g : rng) {struct obj}
    : dict schema_node * rng :=
  match obj with
  | VDict items =>
      dict_build_st (λ key v g,
        let value_type := type_name (type_of v) in
        match v with
        | VDict _ =>
            let '(props, g) := _analyze_object v g in (SObject props, g)
        | VList l =>
            let element_type := element_type_of l in
            let '(array_stats, g) := _compute_array_stats l g in
            match l with
            | (VDict _ as first) :: _ =>
                let '(sample_schema, g) := _analyze_object first g in
                (SArray element_type array_stats (Some sample_schema), g)
            | _ => (SArray element_type array_stats None, g)
            end
        | _ =>
            let stats := _compute_value_stats key v obj in
            (SPrim value_type v stats (_get_examples v), g)
        end) items ([], g)
  | _ => ([], g)
  end.

#[global] Arguments _analyze_object : simpl never.

(** ** [analyze_json(json_data)] *)

(** The inner loop over the sampled element's schema: a key already in the
    combined schema keeps its entry. *)
Definition merge_first_wins (item_schema : dict schema_node)
    (combined_schema : dict schema_entry) : dict schema_entry :=
  fold_left (λ combined '(key, value),
               if dict_mem key combined then combined
               else dict_set key (ENode value) combined)
            item_schema combined_schema.

(** The body of the loop of [analyze_json] over the sampled elements. *)
Definition combine_item (acc : dict schema_entry * rng) (item : value)
    : dict schema_entry * rng :=
  let '(combined_schema, g) := acc in
  match item with
  | VDict _ =>
      let '(item_schema, g) := _analyze_object item g in
      (merge_first_wins item_schema combined_schema, g)
  | _ => (combined_schema, g)
  end.

Definition analyze_json (json_data : value) (g : rng)
    : dict schema_entry * rng :=
  match json_data with
  | VDict _ =>
      let '(schema, g) := _analyze_object json_data g in
      (prod_map id ENode <$> schema, g)
  | VList l =>
      if truthy json_data then
        let '(combined_schema, g) :=
          fold_left combine_item (take 10 l) ([], g) in
        let '(array_stats, g) := _compute_array_stats l g in
        (dict_set "__array_stats" (EArrayStats array_stats) combined_schema, g)
      else ([], g)
  | _ => ([], g)
  end.

(** ** Specification *)

(** The body of the loop of [_analyze_object]. *)
Definition analyze_entry (obj : value) (key : string) (v : value) (g : rng)
    : schema_node * rng :=
  match v with
  | VDict _ => let '(props, g) := _analyze_object v g in (SObject props, g)
  | VList l =>
      let '(array_stats, g) := _compute_array_stats l g in
      match l with
      | (VDict _ as first) :: _ =>
          let '(sample_schema, g) := _analyze_object first g in
          (SArray (element_type_of l) array_stats (Some sample_schema), g)
      | _ => (SArray (element_type_of l) array_stats None, g)
      end
  | _ => (SPrim (type_name (type_of v)) v (_compute_value_stats key v obj)
                (_get_examples v), g)
  end.

(** The node of a value: [g1] and [g2] are the states of the generator in
    which the array is summarized and its first element analyzed. *)
Definition node_for (obj : value) (key : string) (v : value) (g1 g2 : rng)
    : schema_node :=
  match v with
  | VDict _ => SObject (_analyze_object v g1).1
  | VList l =>
      SArray (element_type_of l) (_compute_array_stats l g1).1
        match l with
        | VDict d :: _ => Some (_analyze_object (VDict d) g2).1
        | _ => None
        end
  | _ => SPrim (type_name (type_of v)) v (_compute_value_stats key v obj)
               [ExVal v]
  end.

(** The entry of a root array under a key: that of the first sampled
    object that has the key. *)
Fixpoint first_wins (k : string) (items : list value) : option schema_node :=
  match items with
  | [] => None
  | VDict d :: rest =>
      match dict_get k (_analyze_object (VDict d) []).1 with
      | Some n => Some n
      | None => first_wins k rest
      end
  | _ :: rest => first_wins k rest
  end.

(** A schema without the random examples of its arrays of strings. *)
(** erasure *)
Definition mask_examples (kv : string * stat) : string * stat :=
  if decide (kv.1 = "examples") then (kv.1, StVal VNone) else kv.

Definition erase_stats (s : dict stat) : dict stat :=
  if dict_mem "avg_length" s then mask_examples <$> s else s.

Fixpoint erase_node (n : schema_node) : schema_node :=
  match n with
  | SObject p => SObject (prod_map id erase_node <$> p)
  | SArray et s p =>
      SArray et (erase_stats s) (fmap (M:=list) (prod_map id erase_node) <$> p)
  | SPrim _ _ _ _ => n
  end.

Definition erase_schema (s : dict schema_node) : dict schema_node :=
  prod_map id erase_node <$> s.

Definition erase_entry (e : schema_entry) : schema_entry :=
  match e with
  | ENode n => ENode (erase_node n)
  | EArrayStats s => EArrayStats (erase_stats s)
  end.

Definition erase_entries (s : dict schema_entry) : dict schema_entry :=
  prod_map id erase_entry <$> s.

(** [rng_free v]: no array of more than five strings occurs where the
    analyzer summarizes arrays. *)
Definition quiet_array (l : list value) : bool :=
  negb (string_array l) || bool_decide (length l ≤ 5).

Fixpoint rng_free (v : value) : bool :=
  match v with
  | VDict items =>
      forallb (λ kv,
        match kv.2 with
        | VDict _ => rng_free kv.2
        | VList l =>
            quiet_array l &&
            match l with
            | (VDict _ as first) :: _ => rng_free first
            | _ => true
            end
        | _ => true
        end) items
  | _ => true
  end.

Definition rng_free_root (v : value) : bool :=
  match v with
  | VList l => forallb rng_free (take 10 l) && quiet_array l
  | _ => rng_free v
  end.

(** Every dict of a schema has pairwise distinct keys. *)
Fixpoint node_wfb (n : schema_node) : bool :=
  match n with
  | SObject p => bool_decide (dict_wf p) && forallb (λ kv, node_wfb kv.2) p
  | SArray _ s p =>
      bool_decide (dict_wf s) &&
      match p with
      | Some p => bool_decide (dict_wf p) && forallb (λ kv, node_wfb kv.2) p
      | None => true
      end
  | SPrim _ _ s _ => bool_decide (dict_wf s)
  end.

Definition schema_wf (s : dict schema_node) : Prop :=
  dict_wf s ∧ Forall (λ kv, node_wfb kv.2 = true) s.

Definition entry_wf (e : schema_entry) : Prop :=
  match e with
  | ENode n => node_wfb n = true
  | EArrayStats s => dict_wf s
  end.

Definition entries_wf (s : dict schema_entry) : Prop :=
  dict_wf s ∧ Forall (λ kv, entry_wf kv.2) s.

(** ** Induction on the values the analysis visits

    The nested objects of an object, and the first element of its
    arrays. *)

Section value_schema_ind.
Context (P : value → Prop).
Context (Hdict : ∀ items,
  Forall (λ kv, P kv.2 ∧ ∀ first l, kv.2 = VList (first :: l) → P first) items →
  P (VDict items)).
Context (Hother : ∀ v, (∀ items, v ≠ VDict items) → P v).

Lemma value_schema_ind v : P v.
Proof.
  cut (P v ∧ ∀ l, v = VList l → Forall P l); [by intros []|].
  induction v as [|b|z|q|str|l IH|items IH] using value_ind;
    try (split; [by apply Hother|done]).
  - split; [by apply Hother|]. intros ? [= <-].
    eapply Forall_impl; [exact IH|]. by intros ? [].
  - split; [|done]. apply Hdict. eapply Forall_impl; [exact IH|].
    intros [k v] [HP Hl]. split; [done|]. intros first l Hv.
    specialize (Hl _ Hv). by apply Forall_cons in Hl as [].
Qed.
End value_schema_ind.

(** ** The loop of [_analyze_object] *)

Lemma _analyze_object_dict items g :
  _analyze_object (VDict items) g =
  dict_build_st (analyze_entry (VDict items)) items ([], g).
Proof. done. Qed.

Lemma _analyze_object_wf_items items g :
  dict_wf items →
  _analyze_object (VDict items) g = dict_run_st (analyze_entry (VDict items)) items g.
Proof. intros Hwf. by rewrite _analyze_object_dict, dict_build_st_wf_items. Qed.

Lemma analyze_entry_list obj key l g :
  analyze_entry obj key (VList l) g =
  let r := _compute_array_stats l g in
  match l with
  | VDict d :: _ =>
      (SArray (element_type_of l) r.1 (Some (_analyze_object (VDict d) r.2).1),
       (_analyze_object (VDict d) r.2).2)
  | _ => (SArray (element_type_of l) r.1 None, r.2)
  end.
Proof.
  unfold analyze_entry. destruct (_compute_array_stats l g) as [s g1].
  destruct l as [|[] ?]; try done. cbn [fst snd].
  by destruct (_analyze_object _ g1).
Qed.

Lemma analyze_entry_dict obj key d g :
  analyze_entry obj key (VDict d) g =
  (SObject (_analyze_object (VDict d) g).1, (_analyze_object (VDict d) g).2).
Proof. unfold analyze_entry. by destruct (_analyze_object _ g). Qed.

Lemma analyze_entry_node_for obj key v g :
  ∃ g2, (analyze_entry obj key v g).1 = node_for obj key v g g2.
Proof.
  destruct v as [| | | | |l|d]; try by exists g.
  - rewrite analyze_entry_list. cbv zeta.
    exists (_compute_array_stats l g).2. by destruct l as [|[] ?].
  - exists g. by rewrite analyze_entry_dict.
Qed.

(** ** Independence of the generator *)

Lemma mask_examples_set x y (s : dict stat) :
  mask_examples <$> dict_set "examples" x s =
  mask_examples <$> dict_set "examples" y s.
Proof.
  induction s as [|[k v] s IH]; [done|]. simpl.
  case_decide; [by subst|]. by rewrite !fmap_cons, IH.
Qed.

Lemma erase_stats_set x y s :
  dict_mem "avg_length" s = true →
  erase_stats (dict_set "examples" x s) = erase_stats (dict_set "examples" y s).
Proof.
  unfold erase_stats, dict_mem. rewrite !dict_get_set_ne by done.
  intros ->. apply mask_examples_set.
Qed.

Lemma string_common_avg_length arr stats :
  arr ≠ [] → dict_mem "avg_length" (string_common arr (string_lengths arr stats)) = true.
Proof.
  intros Hne. unfold dict_mem.
  rewrite string_common_get, string_lengths_get by done. cbv zeta.
  by repeat (rewrite decide_False by (try intros [? ?]; done)).
Qed.

(** The records of an array under two states of the generator differ at
    most in the examples of an array of strings. *)
Lemma erase_stats_rng arr g g' :
  erase_stats (_compute_array_stats arr g).1 =
  erase_stats (_compute_array_stats arr g').1.
Proof.
  destruct (string_array arr) eqn:Hs;
    [|by rewrite (array_stats_rng_free arr g g') by auto].
  rewrite !_compute_array_stats_string by done.
  unfold string_stats, string_examples. case_decide; [|done].
  case_decide; [|lia]. do 2 destruct (random_sample_range _ _ _ _).
  apply erase_stats_set, string_common_avg_length.
  by apply string_array_nonempty.
Qed.

Lemma analyze_entry_erase obj key v :
  (∀ d, v = VDict d → ∀ g g', erase_schema (_analyze_object v g).1 =
                              erase_schema (_analyze_object v g').1) →
  (∀ first l, v = VList (first :: l) →
     ∀ g g', erase_schema (_analyze_object first g).1 =
             erase_schema (_analyze_object first g').1) →
  ∀ g g', erase_node (analyze_entry obj key v g).1 =
          erase_node (analyze_entry obj key v g').1.
Proof.
  intros Hd Hl g g'. destruct v as [| | | | |l|d]; try done.
  - rewrite !analyze_entry_list. cbv zeta.
    destruct l as [|first l]; [done|].
    destruct first; simpl; f_equal; try apply erase_stats_rng.
    f_equal. by eapply Hl.
  - rewrite !analyze_entry_dict. simpl. f_equal. by eapply Hd.
Qed.

Lemma analyze_object_erase v g g' :
  value_wf v →
  erase_schema (_analyze_object v g).1 = erase_schema (_analyze_object v g').1.
Proof.
  revert g g'. induction v as [items IH|v Hv] using value_schema_ind;
    intros g g' Hwf; [|by destruct v; try done; destruct (Hv d)].
  apply value_wf_dict in Hwf as [Hitems Hwf].
  rewrite !_analyze_object_wf_items by done. apply dict_run_st_erase.
  eapply Forall_impl2; [exact IH|exact Hwf|].
  intros [k v] [IHv IHl] Hv s s'. simpl in *. apply analyze_entry_erase.
  - intros d _ ??. by apply IHv.
  - intros first l -> ??. apply (IHl _ _ eq_refl).
    apply value_wf_list in Hv. by apply Forall_cons in Hv as [].
Qed.

Lemma analyze_object_get_erase v g g' k :
  value_wf v →
  erase_node <$> dict_get k (_analyze_object v g).1 =
  erase_node <$> dict_get k (_analyze_object v g').1.
Proof.
  intros Hwf. rewrite <-!dict_get_fmap. fold (erase_schema (_analyze_object v g).1).
  by rewrite (analyze_object_erase v g g').
Qed.

Lemma analyze_entry_pure obj key v :
  (∀ d, v = VDict d → ∀ g g', _analyze_object v g = ((_analyze_object v g').1, g)) →
  (∀ l, v = VList l → quiet_array l = true) →
  (∀ d l, v = VList (VDict d :: l) →
     ∀ g g', _analyze_object (VDict d) g = ((_analyze_object (VDict d) g').1, g)) →
  ∀ g g', analyze_entry obj key v g = ((analyze_entry obj key v g').1, g).
Proof.
  intros Hd Hq Hfirst g g'. destruct v as [| | | | |l|d]; try done.
  - rewrite !analyze_entry_list. cbv zeta.
    assert (∀ g g', _compute_array_stats l g =
                    ((_compute_array_stats l g').1, g)) as Hs.
    { intros ??. apply array_stats_rng_free. specialize (Hq _ eq_refl).
      unfold quiet_array in Hq.
      apply orb_true_iff in Hq as [?%negb_true_iff|?%bool_decide_eq_true]; auto. }
    rewrite (Hs g g'). cbn [fst snd]. destruct l as [|[] l]; try done.
    by rewrite (Hfirst _ _ eq_refl g (_compute_array_stats (VDict d :: l) g').2).
  - rewrite !analyze_entry_dict. by rewrite (Hd _ eq_refl g g').
Qed.

Lemma rng_free_dict items :
  rng_free (VDict items) = true ↔
  Forall (λ kv,
    (∀ d, kv.2 = VDict d → rng_free kv.2 = true) ∧
    (∀ l, kv.2 = VList l → quiet_array l = true) ∧
    (∀ d l, kv.2 = VList (VDict d :: l) → rng_free (VDict d) = true)) items.
Proof.
  cbn [rng_free]. rewrite forallb_Forall. apply Forall_iff. intros [k v]. simpl.
  destruct v as [| | | | |[|[] l]|d]; rewrite ?andb_true_iff; naive_solver.
Qed.

Lemma analyze_object_rng_free v g g' :
  value_wf v → rng_free v = true →
  _analyze_object v g = ((_analyze_object v g').1, g).
Proof.
  revert g g'. induction v as [items IH|v Hv] using value_schema_ind;
    intros g g' Hwf Hfree; [|by destruct v; try done; destruct (Hv d)].
  apply value_wf_dict in Hwf as [Hitems Hwf]. apply rng_free_dict in Hfree.
  rewrite !_analyze_object_wf_items by done. apply dict_run_st_pure.
  eapply Forall_impl2; [exact IH|eapply Forall_impl2; [exact Hwf|exact Hfree|]|].
  { intros kv H1 H2. exact (conj H1 H2). }
  intros [k v] [IHv IHl] [Hv (Hd & Hq & Hfirst)] s s'. simpl in *.
  apply analyze_entry_pure; [|done|].
  - intros d -> ??. apply IHv; [done|]. by eapply Hd.
  - intros d l -> ??. apply (IHl _ _ eq_refl); [|by eapply Hfirst].
    apply value_wf_list in Hv. by apply Forall_cons in Hv as [].
Qed.

(** ** The loop of [analyze_json] *)

(** merge *)
Lemma merge_first_wins_get item_schema combined k :
  dict_get k (merge_first_wins item_schema combined) =
  match dict_get k combined with
  | Some e => Some e
  | None => ENode <$> dict_get k item_schema
  end.
Proof.
  unfold merge_first_wins. revert combined.
  induction item_schema as [|[k' n] s IH]; intros combined; simpl.
  { by destruct (dict_get k combined). }
  rewrite IH. unfold dict_mem. destruct (dict_get k' combined) as [e|] eqn:E.
  - rewrite bool_decide_eq_true_2 by done.
    case_decide; [subst; by rewrite E|done].
  - rewrite bool_decide_eq_false_2 by (by intros []).
    case_decide; [subst; by rewrite dict_get_set_eq, E|].
    by rewrite dict_get_set_ne.
Qed.

Lemma merge_first_wins_elem s c k e :
  (k, e) ∈ merge_first_wins s c →
  (k, e) ∈ c ∨ ∃ n, e = ENode n ∧ (k, n) ∈ s.
Proof.
  unfold merge_first_wins. revert c.
  induction s as [|[k' n'] s IH]; intros c; [by left|]. cbn [fold_left].
  intros [Hin|(n & -> & Hin)]%IH; [|right; exists n; split; [done|by right]].
  destruct (dict_mem k' c); [by left|].
  apply dict_set_elem in Hin as [?|?]; [|by left]. simplify_eq.
  right. eexists. split; [done|left].
Qed.

Lemma combine_fold_elem items acc k e :
  (k, e) ∈ (fold_left combine_item items acc).1 →
  (k, e) ∈ acc.1 ∨
  ∃ d g n, VDict d ∈ items ∧ e = ENode n ∧ (k, n) ∈ (_analyze_object (VDict d) g).1.
Proof.
  revert acc. induction items as [|item items IH]; intros acc; [by left|].
  cbn [fold_left]. intros [Hin|(d & g & n & ? & ? & ?)]%IH;
    [|right; exists d, g, n; split; [by right|done]].
  destruct acc as [c g]. unfold combine_item in Hin.
  destruct item; try by left.
  destruct (_analyze_object (VDict d) g) as [s g1] eqn:E. cbn [fst] in Hin.
  apply merge_first_wins_elem in Hin as [?|(n & -> & Hin)]; [by left|].
  right. exists d, g, n. rewrite E. split; [left|done].
Qed.

Lemma merge_first_wins_erase s c :
  erase_entries (merge_first_wins s c) =
  merge_first_wins (erase_schema s) (erase_entries c).
Proof.
  unfold merge_first_wins, erase_entries, erase_schema. revert c.
  induction s as [|[k n] s IH]; intros c; [done|].
  rewrite fmap_cons. cbn [fold_left prod_map fst snd id]. rewrite IH.
  rewrite dict_mem_fmap. destruct (dict_mem k c); [done|].
  by rewrite dict_set_fmap.
Qed.

Lemma combine_item_get acc item k :
  value_wf item →
  erase_entry <$> dict_get k (combine_item acc item).1 =
  match dict_get k acc.1 with
  | Some e => Some (erase_entry e)
  | None => erase_entry <$> (ENode <$> first_wins k [item])
  end.
Proof.
  intros Hwf. destruct acc as [combined g]. unfold combine_item.
  destruct item; try (simpl; by destruct (dict_get k combined)).
  destruct (_analyze_object (VDict d) g) as [s g1] eqn:E. cbn [fst snd].
  rewrite merge_first_wins_get. destruct (dict_get k combined); [done|].
  cbn [first_wins].
  pose proof (analyze_object_get_erase (VDict d) g [] k Hwf) as He.
  rewrite E in He. cbn [fst] in He.
  destruct (dict_get k s), (dict_get k (_analyze_object (VDict d) []).1);
    simpl in *; congruence.
Qed.

Lemma first_wins_cons k item items :
  first_wins k (item :: items) =
  match first_wins k [item] with
  | Some n => Some n
  | None => first_wins k items
  end.
Proof.
  destruct item; try done. simpl.
  by destruct (dict_get k (_analyze_object (VDict d) []).1).
Qed.

Lemma combine_fold_get items acc k :
  Forall value_wf items →
  erase_entry <$> dict_get k (fold_left combine_item items acc).1 =
  match dict_get k acc.1 with
  | Some e => Some (erase_entry e)
  | None => erase_entry <$> (ENode <$> first_wins k items)
  end.
Proof.
  intros Hwf. revert acc. induction Hwf as [|item items Hitem _ IH]; intros acc.
  { simpl. by destruct (dict_get k acc.1). }
  cbn [fold_left]. rewrite IH, first_wins_cons.
  pose proof (combine_item_get acc item k Hitem) as Hc.
  destruct (dict_get k (combine_item acc item).1) as [e|],
    (dict_get k acc.1) as [e'|], (first_wins k [item]) as [n|];
    simpl in *; congruence.
Qed.

Lemma combine_item_erase item acc acc' :
  value_wf item → erase_entries acc.1 = erase_entries acc'.1 →
  erase_entries (combine_item acc item).1 =
  erase_entries (combine_item acc' item).1.
Proof.
  intros Hwf Hacc. destruct acc as [c g], acc' as [c' g']. unfold combine_item.
  destruct item; try done.
  pose proof (analyze_object_erase (VDict d) g g' Hwf) as He.
  destruct (_analyze_object (VDict d) g), (_analyze_object (VDict d) g').
  cbn [fst] in *. by rewrite !merge_first_wins_erase, He, Hacc.
Qed.

Lemma combine_fold_erase items acc acc' :
  Forall value_wf items → erase_entries acc.1 = erase_entries acc'.1 →
  erase_entries (fold_left combine_item items acc).1 =
  erase_entries (fold_left combine_item items acc').1.
Proof.
  intros Hwf. revert acc acc'.
  induction Hwf as [|item items Hitem _ IH]; intros acc acc' Hacc; [done|].
  cbn [fold_left]. by apply IH, combine_item_erase.
Qed.

Lemma combine_item_pure item c g g' :
  value_wf item → rng_free item = true →
  combine_item (c, g) item = ((combine_item (c, g') item).1, g).
Proof.
  intros Hwf Hfree. unfold combine_item. destruct item; try done.
  rewrite (analyze_object_rng_free (VDict d) g g' Hwf Hfree).
  by destruct (_analyze_object (VDict d) g').
Qed.

Lemma combine_fold_pure items c g g' :
  Forall value_wf items → forallb rng_free items = true →
  fold_left combine_item items (c, g) =
  ((fold_left combine_item items (c, g')).1, g).
Proof.
  intros Hwf. revert c. induction Hwf as [|item items Hitem _ IH]; intros c;
    [done|].
  cbn [forallb fold_left]. intros [Hfree Hrest]%andb_true_iff.
  rewrite (combine_item_pure item c g g'), (combine_item_pure item c g' g') by done.
  by rewrite IH.
Qed.

Lemma analyze_json_list l g :
  l ≠ [] →
  analyze_json (VList l) g =
  let c := fold_left combine_item (take 10 l) ([], g) in
  let r := _compute_array_stats l c.2 in
  (dict_set "__array_stats" (EArrayStats r.1) c.1, r.2).
Proof.
  intros Hne. unfold analyze_json. cbn [truthy].
  rewrite bool_decide_eq_false_2 by done. cbn [negb].
  destruct (fold_left _ _ _) as [c g1]. cbn [fst snd].
  by destruct (_compute_array_stats l g1).
Qed.

Lemma analyze_json_list_get l g k :
  l ≠ [] → Forall value_wf l →
  erase_entry <$> dict_get k (analyze_json (VList l) g).1 =
  if decide (k = "__array_stats")
  then Some (EArrayStats (erase_stats (_compute_array_stats l []).1))
  else erase_entry <$> (ENode <$> first_wins k (take 10 l)).
Proof.
  intros Hne Hwf. rewrite analyze_json_list by done. cbv zeta. cbn [fst].
  case_decide as Hk.
  - subst. rewrite dict_get_set_eq. simpl. do 2 f_equal. apply erase_stats_rng.
  - rewrite dict_get_set_ne by done. rewrite combine_fold_get; [done|].
    by apply Forall_take.
Qed.

(** ** Well-formed schemas *)

Lemma schema_wf_node s :
  schema_wf s → bool_decide (dict_wf s) && forallb (λ kv, node_wfb kv.2) s = true.
Proof.
  intros [Hwf Hs]. apply andb_true_iff. split; [by apply bool_decide_eq_true|].
  by apply forallb_Forall.
Qed.

Lemma analyze_entry_wf obj key v g :
  (∀ d, v = VDict d → ∀ g, schema_wf (_analyze_object v g).1) →
  (∀ d l, v = VList (VDict d :: l) → ∀ g, schema_wf (_analyze_object (VDict d) g).1) →
  node_wfb (analyze_entry obj key v g).1 = true.
Proof.
  intros Hd Hl. destruct v as [| | | | |l|d];
    try (by apply bool_decide_eq_true, _compute_value_stats_wf).
  - rewrite analyze_entry_list. cbv zeta.
    assert (bool_decide (dict_wf (_compute_array_stats l g).1) = true) as Hs
      by apply bool_decide_eq_true, array_stats_wf.
    destruct l as [|[] l]; cbn [node_wfb fst]; rewrite Hs; try done.
    by apply schema_wf_node, (Hl _ _ eq_refl).
  - rewrite analyze_entry_dict. by apply schema_wf_node, (Hd _ eq_refl).
Qed.

Lemma analyze_object_wf v g :
  value_wf v → schema_wf (_analyze_object v g).1.
Proof.
  revert g. induction v as [items IH|v Hv] using value_schema_ind;
    intros g Hwf;
    [|destruct v; try (split; constructor); by destruct (Hv d)].
  apply value_wf_dict in Hwf as [Hitems Hwf].
  rewrite !_analyze_object_wf_items by done. split.
  { unfold dict_wf. by rewrite dict_run_st_keys. }
  apply (dict_run_st_Forall _ (λ _ n, node_wfb n = true)).
  eapply Forall_impl2; [exact IH|exact Hwf|].
  intros [k v] [IHv IHl] Hv s. simpl in *. apply analyze_entry_wf.
  - intros d -> ?. by apply IHv.
  - intros d l -> ?. apply (IHl _ _ eq_refl).
    apply value_wf_list in Hv. by apply Forall_cons in Hv as [].
Qed.

(** A property of nodes that every node the analyzer builds has, when its
    constructors preserve it. *)
Section analysis_nodes.
Context (Q : schema_node → Prop).
Context (Hobject : ∀ p, Forall (λ kn, Q kn.2) p → Q (SObject p)).
Context (Harray : ∀ et l g p,
  from_option (Forall (λ kn, Q kn.2)) True p →
  Q (SArray et (_compute_array_stats l g).1 p)).
Context (Hprim : ∀ key v obj,
  Q (SPrim (type_name (type_of v)) v (_compute_value_stats key v obj)
       (_get_examples v))).

Lemma analyze_entry_all obj key v g :
  (∀ d, v = VDict d → ∀ g, Forall (λ kn, Q kn.2) (_analyze_object v g).1) →
  (∀ d l, v = VList (VDict d :: l) →
     ∀ g, Forall (λ kn, Q kn.2) (_analyze_object (VDict d) g).1) →
  Q (analyze_entry obj key v g).1.
Proof using All.
  intros Hd Hl. destruct v as [| | | | |l|d]; try apply Hprim.
  - rewrite analyze_entry_list. cbv zeta.
    destruct l as [|[] l]; cbn [fst]; try (by apply Harray).
    apply Harray, (Hl _ _ eq_refl).
  - rewrite analyze_entry_dict. apply Hobject, (Hd _ eq_refl).
Qed.

Lemma analyze_object_all v g :
  value_wf v → Forall (λ kn, Q kn.2) (_analyze_object v g).1.
Proof using All.
  revert g. induction v as [items IH|v Hv] using value_schema_ind; intros g Hwf;
    [|destruct v; try (by apply List.Forall_nil); by destruct (Hv d)].
  apply value_wf_dict in Hwf as [Hitems Hwf].
  rewrite !_analyze_object_wf_items by done.
  apply Forall_forall. intros [k n] Hin.
  apply dict_run_st_elem in Hin as (x & s & Hkx & ->).
  rewrite Forall_forall in IH, Hwf.
  destruct (IH _ Hkx) as [IHx IHl]. specialize (Hwf _ Hkx). cbn [fst snd] in *.
  apply analyze_entry_all.
  - intros d -> ?. by apply IHx.
  - intros d l -> ?. apply (IHl _ _ eq_refl).
    apply value_wf_list in Hwf. by apply Forall_cons in Hwf as [].
Qed.
End analysis_nodes.

Lemma dict_set_entries_wf k e s :
  entry_wf e → entries_wf s → entries_wf (dict_set k e s).
Proof.
  intros He [Hwf Hs]. split; [by apply dict_set_wf|by apply dict_set_Forall].
Qed.

Lemma merge_first_wins_entries_wf s c :
  schema_wf s → entries_wf c → entries_wf (merge_first_wins s c).
Proof.
  intros [_ Hs]. unfold merge_first_wins. revert c.
  induction Hs as [|[k n] s Hn _ IH]; intros c Hc; [done|].
  cbn [fold_left]. apply IH. case_match; [done|]. by apply dict_set_entries_wf.
Qed.

Lemma combine_fold_entries_wf items acc :
  Forall value_wf items → entries_wf acc.1 →
  entries_wf (fold_left combine_item items acc).1.
Proof.
  intros Hwf. revert acc. induction Hwf as [|item items Hitem _ IH]; intros acc Hacc;
    [done|].
  cbn [fold_left]. apply IH. destruct acc as [c g]. unfold combine_item.
  destruct item; try done.
  pose proof (analyze_object_wf (VDict d) g Hitem) as Hs.
  destruct (_analyze_object (VDict d) g). by apply merge_first_wins_entries_wf.
Qed.

(** ** Properties *)

(** [C27] Determinism up to the random examples: two analyses of a
    document, whatever the states of the generator, give the same schema
    once the examples of the arrays of strings are masked. *)
Theorem analyze_json_deterministic v g g' :
  value_wf v →
  erase_entries (analyze_json v g).1 = erase_entries (analyze_json v g').1.
Proof.
  intros Hwf. destruct v as [| | | | |l|d]; try done.
  - destruct (decide (l = [])) as [->|Hne]; [done|].
    rewrite !analyze_json_list by done. cbv zeta. cbn [fst].
    unfold erase_entries. rewrite !dict_set_fmap. cbn [erase_entry].
    rewrite erase_stats_rng with (g' := []). symmetry.
    rewrite erase_stats_rng with (g' := []). f_equal.
    apply combine_fold_erase; [|done]. by apply Forall_take, value_wf_list.
  - unfold analyze_json.
    pose proof (analyze_object_erase (VDict d) g g' Hwf) as He.
    destruct (_analyze_object (VDict d) g), (_analyze_object (VDict d) g').
    cbn [fst] in *. unfold erase_entries, erase_schema in *.
    rewrite <-!list_fmap_compose.
    apply (f_equal (fmap (prod_map id ENode))) in He.
    by rewrite <-!list_fmap_compose in He.
Qed.

(** Determinism: the analysis of a document in which no summarized
    array holds more than five strings draws no random number and does not
    depend on the generator. *)
Theorem analyze_json_rng_free v g g' :
  value_wf v → rng_free_root v = true →
  analyze_json v g = ((analyze_json v g').1, g).
Proof.
  intros Hwf Hfree. destruct v as [| | | | |l|d]; try done.
  - destruct (decide (l = [])) as [->|Hne]; [done|].
    apply andb_true_iff in Hfree as [Hfree Hq].
    rewrite !analyze_json_list by done. cbv zeta.
    rewrite (combine_fold_pure _ _ g g') by (by try apply Forall_take, value_wf_list).
    cbn [fst snd].
    rewrite (array_stats_rng_free l g (fold_left combine_item (take 10 l) ([], g')).2);
      [done|].
    unfold quiet_array in Hq.
    apply orb_true_iff in Hq as [?%negb_true_iff|?%bool_decide_eq_true]; auto.
  - unfold analyze_json. rewrite (analyze_object_rng_free (VDict d) g g' Hwf Hfree).
    by destruct (_analyze_object (VDict d) g').
Qed.

(** The schema of an object has the keys of the object, in the order
    of the document. *)
Theorem analyze_object_keys items g :
  dict_wf items →
  dict_keys (_analyze_object (VDict items) g).1 = dict_keys items.
Proof.
  intros Hwf. rewrite _analyze_object_wf_items by done. apply dict_run_st_keys.
Qed.

(** [C26] Under each key of an object the schema holds the node of its
    value: an object node with the schema of a nested object, an array
    node with the element type, the record of the whole array and the
    schema of the first element when that is an object, a primitive node
    with the value, its record and the value as its only example. *)
Theorem analyze_object_entry items g k :
  dict_wf items →
  ∃ g1 g2, dict_get k (_analyze_object (VDict items) g).1 =
           (λ v, node_for (VDict items) k v g1 g2) <$> dict_get k items.
Proof.
  intros Hwf. rewrite _analyze_object_wf_items by done.
  destruct (dict_run_st_get (analyze_entry (VDict items)) items g k) as [g1 ->].
  destruct (dict_get k items) as [v|]; [|by exists g, g].
  cbn [fmap option_fmap option_map].
  destruct (analyze_entry_node_for (VDict items) k v g1) as [g2 ->].
  by exists g1, g2.
Qed.

(** [C3] The schema of a non-empty root array holds, under every key but
    ['__array_stats'], the entry of the first of the first ten elements
    that is an object with this key, and under ['__array_stats'] the record
    of the whole array, also when an element has a key of that name. *)
Theorem analyze_json_root_array l g k :
  l ≠ [] → Forall value_wf l →
  erase_entry <$> dict_get k (analyze_json (VList l) g).1 =
  if decide (k = "__array_stats")
  then Some (EArrayStats (erase_stats (_compute_array_stats l []).1))
  else erase_entry <$> (ENode <$> first_wins k (take 10 l)).
Proof.
  apply analyze_json_list_get.
Qed.

(** Elements after the tenth contribute no key to the schema of a
    root array. *)
Theorem analyze_json_sample_cap l extra g k :
  10 ≤ length l → Forall value_wf (l ++ extra) → k ≠ "__array_stats" →
  erase_entry <$> dict_get k (analyze_json (VList (l ++ extra)) g).1 =
  erase_entry <$> dict_get k (analyze_json (VList l) g).1.
Proof.
  intros Hlen Hwf Hk. pose proof Hwf as [Hl _]%Forall_app.
  assert (l ≠ []) by (intros ->; simpl in *; lia).
  assert (l ++ extra ≠ []) by (by destruct l).
  rewrite !analyze_json_list_get by done.
  rewrite !decide_False by done. by rewrite take_app_le.
Qed.

(** The schema of a primitive and of an empty array is the empty
    dict, and the generator is left untouched. *)
Theorem analyze_json_degenerate v g :
  (∀ items, v ≠ VDict items) → (∀ l, v = VList l → l = []) →
  analyze_json v g = ([], g).
Proof.
  intros Hd Hl. destruct v as [| | | | |l|d]; try done.
  - by rewrite (Hl l).
  - by destruct (Hd d).
Qed.

(** The dicts of a schema keep the representation invariant of [PyDict]:
    pairwise distinct keys, the records included. *)
Lemma analyze_json_wf v g : value_wf v → entries_wf (analyze_json v g).1.
Proof.
  intros Hwf. destruct v as [| | | | |l|d]; try (split; constructor).
  - destruct (decide (l = [])) as [->|Hne]; [split; constructor|].
    rewrite analyze_json_list by done. cbv zeta. cbn [fst].
    apply dict_set_entries_wf; [apply array_stats_wf|].
    apply combine_fold_entries_wf; [|split; constructor].
    by apply Forall_take, value_wf_list.
  - unfold analyze_json. pose proof (analyze_object_wf (VDict d) g Hwf) as [Hk Hs].
    destruct (_analyze_object (VDict d) g) as [s g1]. cbn [fst] in *. split.
    + unfold dict_wf. by rewrite dict_keys_fmap.
    + apply Forall_fmap. eapply Forall_impl; [exact Hs|]. by intros [].
Qed.

(** ** Examples and instances *)

Definition doc1_items : dict value :=
  [("name", VStr "x"); ("n", VInt 3);
   ("tags", VList (VStr <$> ["a"; "b"; "c"; "d"; "e"; "f"]));
   ("items", VList [VDict [("id", VInt 1)];
                    VDict [("id", VInt 2); ("z", VNone)]]);
   ("o", VDict [("f", VFloat (1 # 2))])].

Definition doc1 : value := VDict doc1_items.

Definition xy : list value := [VDict [("x", VInt 1)]; VDict [("y", VInt 2)]].

Definition int_node (z : Z) : schema_node :=
  SPrim "int" (VInt z)
        [("type", VStr "int"); ("value", VInt z);
         ("min", VInt z); ("max", VInt z)]
        [ExVal (VInt z)].

(** A root array [[{"x":1},{"y":2}]] gets the keys of both elements, *)
Example analyze_json_union g :
  analyze_json (VList xy) g =
  ([("x", ENode (int_node 1)); ("y", ENode (int_node 2));
    ("__array_stats",
     EArrayStats [("count", StVal (VInt 2));
                  ("uniform_type", StVal (VBool true))])], g).
Proof. by vm_compute. Qed.

(** the same array under a key gets those of its first element only, *)
Example analyze_object_first_element g :
  _analyze_object (VDict [("a", VList xy)]) g =
  ([("a", SArray "dict"
            [("count", StVal (VInt 2)); ("uniform_type", StVal (VBool true))]
            (Some [("x", int_node 1)]))], g).
Proof. by vm_compute. Qed.

(** and a key ['__array_stats'] of an element is lost. *)
Example analyze_json_reserved_key g :
  analyze_json (VList [VDict [("__array_stats", VInt 1)]]) g =
  ([("__array_stats",
     EArrayStats [("count", StVal (VInt 1));
                  ("uniform_type", StVal (VBool true))])], g).
Proof. by vm_compute. Qed.

Lemma analyze_json_deterministic_witness :
  erase_entries (analyze_json doc1 [1; 2; 3]).1 =
  erase_entries (analyze_json doc1 [3; 0; 0]).1.
Proof. by apply (analyze_json_deterministic doc1 [1; 2; 3] [3; 0; 0]). Defined.

Lemma analyze_json_rng_free_witness :
  analyze_json (VList xy) [1; 2; 3] = ((analyze_json (VList xy) []).1, [1; 2; 3]).
Proof. by apply (analyze_json_rng_free (VList xy) [1; 2; 3] []). Defined.

Lemma analyze_object_keys_witness :
  dict_keys (_analyze_object (VDict doc1_items) [1; 2; 3]).1 =
  dict_keys doc1_items.
Proof.
  apply (analyze_object_keys doc1_items [1; 2; 3]).
  by apply (bool_decide_unpack _).
Defined.

Lemma analyze_object_entry_witness :
  ∃ g1 g2, dict_get "n" (_analyze_object (VDict [("n", VInt 3)]) []).1 =
           (λ v, node_for (VDict [("n", VInt 3)]) "n" v g1 g2)
             <$> dict_get "n" [("n", VInt 3)].
Proof.
  apply (analyze_object_entry [("n", VInt 3)] [] "n").
  by apply (bool_decide_unpack _).
Defined.

Lemma analyze_json_root_array_witness :
  erase_entry <$> dict_get "y" (analyze_json (VList xy) []).1 =
  if decide ("y" = "__array_stats")
  then Some (EArrayStats (erase_stats (_compute_array_stats xy []).1))
  else erase_entry <$> (ENode <$> first_wins "y" (take 10 xy)).
Proof.
  apply (analyze_json_root_array xy [] "y"); [done|].
  by repeat constructor.
Defined.

Lemma analyze_json_sample_cap_witness :
  erase_entry <$>
    dict_get "y" (analyze_json (VList (replicate 10 (VInt 0) ++ xy)) []).1 =
  erase_entry <$> dict_get "y" (analyze_json (VList (replicate 10 (VInt 0))) []).1.
Proof.
  apply (analyze_json_sample_cap (replicate 10 (VInt 0)) xy [] "y");
    [simpl; lia|by repeat constructor|done].
Defined.

Lemma analyze_json_degenerate_witness :
  analyze_json (VStr "x") [1] = ([], [1]).
Proof. by apply (analyze_json_degenerate (VStr "x") [1]). Defined.
