(* ===== verification/SchemaTree.v ===== *)
(** * SchemaTree: the attribute browser

    The tree of rows [JsonSchemaViewer.update_schema_tree] builds from a
    schema with [_add_schema_item], and the path
    [JsonSchemaTreeWidget._get_item_path] gives to a row (src/gui.py).

    A row ([tree_item]) has the text of its two columns, the value of its
    [UserRole] slot and its child rows.  The slot is written twice when a
    row is made: [tree_item.setData(0, UserRole, False)] stores the flag of
    the eye, then [schema_tree.model().setData(index, tree_item, UserRole)]
    stores the row itself for the delegate.  Both calls write column 0,
    role [UserRole], of the same item (the model of a [QTreeWidget] hands
    [setData] to the item), so the second replaces the first, and the rows
    of a rebuilt browser hold themselves where the flag is read
    ([update_schema_tree_data]).  The code walks from a row to the root through
    [parent()]; here a row is addressed by its position [pos], the indices
    of the rows from the top down, and [texts_to] gives the texts on the
    way, so that [_get_item_path] receives the texts it reads, from the
    row up to the root.

    The main result is [tree_paths_are_key_paths]: the path of a row of the
    browser of a document is an attribute path of that document, the one
    [filter_json_by_visibility] (Filter.v) compares hidden paths with. *)

From stdpp Require Import pretty.
From S2P Require Import Prelude PyDict Value PyNum PyCollections ValueStats Stats.
From S2P Require Import Filter Schema.

#[local] Arguments _compute_array_stats : simpl never.

(** ** Rows *)

(** The value under [Qt.ItemDataRole.UserRole] in column 0 of a row:
    nothing ([None]), the flag of the eye, or the row itself. *)
Inductive user_data : Type :=
| Unset
| Flag (is_hidden : bool)
| Self.

#[export] Instance user_data_eq_dec : EqDecision user_data.
Proof. solve_decision. Defined.

(** [bool(x)] of the value of the slot, as in [x or False], [not x] and
    [if x]: a row is an object without [__bool__] or [__len__]. *)
Definition data_truthy (x : user_data) : bool :=
  match x with
  | Unset => false
  | Flag is_hidden => is_hidden
  | Self => true
  end.

Unset Elimination Schemes.
Inductive tree_item : Type :=
| Item (text type_text : string) (data : user_data) (children : list tree_item).
Set Elimination Schemes.

Definition item_text (it : tree_item) : string := let 'Item t _ _ _ := it in t.

Definition item_type (it : tree_item) : string := let 'Item _ t _ _ := it in t.

Definition item_data (it : tree_item) : user_data := let 'Item _ _ d _ := it in d.

(** [item.setData(0, UserRole, value)], and [model().setData(index, value,
    UserRole)] with the index of [item] in column 0. *)
Definition setData (value : user_data) (it : tree_item) : tree_item :=
  let 'Item text type_text _ children := it in Item text type_text value children.

(** A row as the code makes it: [QTreeWidgetItem(parent, [text,
    type_text])], [setData(0, UserRole, False)], then the row itself
    stored through the model.  The children are the rows appended to it
    afterwards. *)
Definition new_item (text type_text : string) (children : list tree_item)
    : tree_item :=
  setData Self (setData (Flag false) (Item text type_text Unset children)).

Definition item_children (it : tree_item) : list tree_item :=
  let 'Item _ _ _ c := it in c.

(** ** [_add_schema_item(parent_item, key, schema)]

    The row the call appends to [parent_item].  A schema node always is a
    dict with a ['type']. *)

Fixpoint _add_schema_item (key : string) (schema : schema_node) : tree_item :=
  match schema with
  | SObject properties =>
      new_item key "object"
           ((λ '(sub_key, sub_schema), _add_schema_item sub_key sub_schema)
              <$> properties)
  | SArray element_type _ properties =>
      new_item key "array"
           [new_item "elements" element_type
                 match properties with
                 | Some p =>
                     (λ '(sub_key, sub_schema), _add_schema_item sub_key sub_schema)
                       <$> p
                 | None => []
                 end]
  | SPrim item_type _ _ _ => new_item key item_type []
  end.

(** A value of the schema that is no node, the record under
    ['__array_stats'], takes the [else] branch. *)
Definition add_entry (key : string) (schema : schema_entry) : tree_item :=
  match schema with
  | ENode n => _add_schema_item key n
  | EArrayStats _ => new_item key "dict" []
  end.

(** ** [update_schema_tree()] *)

(** [str(stats.get('count', 0))]; the count of a record is an [int]. *)
Definition count_text (stats : option schema_entry) : string :=
  match stats with
  | Some (EArrayStats stats) =>
      match dict_get "count" stats with
      | Some (StVal (VInt n)) => pretty n
      | Some _ => ""
      | None => "0"
      end
  | _ => "0"
  end.

Definition update_schema_tree (schema_info : dict schema_entry) : list tree_item :=
  match schema_info with
  | [] => []
  | _ =>
      if dict_mem "__array_stats" schema_info then
        [new_item "[Root]" "array"
           (new_item "Count" (count_text (dict_get "__array_stats" schema_info)) []
            :: omap (λ '(key, value),
                       if decide (key ≠ "__array_stats")
                       then Some (add_entry key value) else None)
                    schema_info)]
      else
        [new_item "[Root]" "object"
           ((λ '(key, value), add_entry key value) <$> schema_info)]
  end.

(** ** [_get_item_path(item)] *)

Definition key_ok (text : string) : Prop := text ≠ "[Root]" ∧ text ≠ "elements".

#[export] Instance key_ok_dec text : Decision (key_ok text).
Proof. unfold key_ok. apply _. Defined.

(** [chain]: the texts of the row, of its parent, ... up to the root. *)
Definition _get_item_path (chain : list string) : path :=
  fold_left (λ path text, if decide (key_ok text) then text :: path else path)
            chain [].

(** ** Specification *)

(** The texts from a top-level row down to the row at [pos]. *)
(** positions *)
Fixpoint texts_to (forest : list tree_item) (pos : list nat) : option (list string) :=
  match pos with
  | [] => None
  | i :: pos' =>
      item ← forest !! i;
      match pos' with
      | [] => Some [item_text item]
      | _ => cons (item_text item) <$> texts_to (item_children item) pos'
      end
  end.

(** The row at a position. *)
Fixpoint item_at (forest : list tree_item) (pos : list nat) : option tree_item :=
  match pos with
  | [] => None
  | i :: pos' =>
      item ← forest !! i;
      match pos' with
      | [] => Some item
      | _ => item_at (item_children item) pos'
      end
  end.

(** [texts_in forest texts]: [texts] are the texts of the items from a
    top-level item of [forest] down to some item. *)
Inductive texts_in : list tree_item → list string → Prop :=
| texts_here forest it :
    it ∈ forest → texts_in forest [item_text it]
| texts_below forest it texts :
    it ∈ forest → texts_in (item_children it) texts →
    texts_in forest (item_text it :: texts).

(** [reserved_free v]: no key of [v] is a text the browser gives to rows of
    its own. *)
Fixpoint reserved_free (v : value) : bool :=
  match v with
  | VDict items =>
      forallb (λ kv, bool_decide (key_ok kv.1) && reserved_free kv.2) items
  | VList l => forallb reserved_free l
  | _ => true
  end.

(** [texts] lead to the row of key [k] or below it to an attribute of
    its value [v]. *)
Definition item_path_ok (k : string) (v : value) (texts : list string) : Prop :=
  filter key_ok texts = [k] ∨ ∃ s, filter key_ok texts = k :: s ∧ s ∈ key_paths v.

(** The children of the row of an object. *)
Definition child_items (properties : dict schema_node) : list tree_item :=
  (λ '(sub_key, sub_schema), _add_schema_item sub_key sub_schema) <$> properties.

(** Every row of the tree holds itself in its slot. *)
Fixpoint all_self (it : tree_item) : bool :=
  let 'Item _ _ data children := it in
  bool_decide (data = Self) && forallb all_self children.

(** ** Texts of rows *)

Lemma new_item_eq text type_text children :
  new_item text type_text children = Item text type_text Self children.
Proof. done. Qed.

Lemma texts_to_in forest pos texts :
  texts_to forest pos = Some texts → texts_in forest texts.
Proof.
  revert forest texts. induction pos as [|i pos IH]; intros forest texts; [done|].
  cbn [texts_to]. intros (it & Hit%list_elem_of_lookup_2 & Ht)%bind_Some.
  destruct pos as [|j pos]; [simplify_eq; by constructor|].
  apply fmap_Some in Ht as (texts' & Ht & ->). constructor; [done|by apply IH].
Qed.

Lemma texts_in_elem forest texts :
  texts_in forest texts ↔ ∃ it, it ∈ forest ∧ texts_in [it] texts.
Proof.
  split.
  - destruct 1 as [forest it Hit|forest it texts Hit Ht]; exists it;
      (split; [done|]); constructor; by try left.
  - intros (it & Hit & Ht).
    inversion Ht as [? it' Hit'|? it' ? Hit' Ht']; subst;
      apply list_elem_of_singleton in Hit' as ->; by constructor.
Qed.

Lemma texts_in_item t ty h c texts :
  texts_in [Item t ty h c] texts ↔
  texts = [t] ∨ ∃ texts', texts = t :: texts' ∧ texts_in c texts'.
Proof.
  split.
  - inversion 1 as [? it' Hit'|? it' ? Hit' Ht']; subst;
      apply list_elem_of_singleton in Hit' as ->; eauto.
  - intros [->|(texts' & -> & Ht)].
    + apply (texts_here _ (Item t ty h c)). left.
    + apply (texts_below _ (Item t ty h c)); [left|done].
Qed.

Lemma texts_in_nil texts : ¬ texts_in [] texts.
Proof. inversion 1; by eapply not_elem_of_nil. Qed.

Lemma add_item_object k props texts :
  texts_in [_add_schema_item k (SObject props)] texts ↔
  texts = [k] ∨ ∃ texts', texts = k :: texts' ∧ texts_in (child_items props) texts'.
Proof. cbn [_add_schema_item]. rewrite new_item_eq. apply texts_in_item. Qed.

Lemma add_item_array k et stats props texts :
  texts_in [_add_schema_item k (SArray et stats props)] texts ↔
  texts = [k] ∨ texts = [k; "elements"] ∨
  ∃ texts', texts = k :: "elements" :: texts' ∧
            texts_in (from_option child_items [] props) texts'.
Proof.
  cbn [_add_schema_item]. rewrite !new_item_eq, texts_in_item.
  setoid_rewrite texts_in_item. destruct props; naive_solver.
Qed.

Lemma add_item_prim k t v stats ex texts :
  texts_in [_add_schema_item k (SPrim t v stats ex)] texts ↔ texts = [k].
Proof.
  cbn [_add_schema_item]. rewrite new_item_eq, texts_in_item. split; [|auto].
  intros [?|(? & _ & []%texts_in_nil)]. done.
Qed.

Lemma update_schema_tree_texts info texts :
  texts_in (update_schema_tree info) texts →
  texts = ["[Root]"] ∨ texts = ["[Root]"; "Count"] ∨
  ∃ k e texts', (k, e) ∈ info ∧ texts = "[Root]" :: texts' ∧
                (dict_mem "__array_stats" info = true → k ≠ "__array_stats") ∧
                texts_in [add_entry k e] texts'.
Proof.
  unfold update_schema_tree. destruct info as [|kv info]; [by intros ?%texts_in_nil|].
  destruct (dict_mem _ _); rewrite new_item_eq, texts_in_item;
    (intros [->|(texts' & -> & Ht)]; [by left|]); right.
  - apply texts_in_elem in Ht as (it & Hit & Ht).
    apply elem_of_cons in Hit as [->|Hit].
    + rewrite new_item_eq in Ht.
      apply texts_in_item in Ht as [->|(? & _ & []%texts_in_nil)]. by left.
    + right. apply list_elem_of_omap in Hit as ([k e] & Hin & Hit).
      case_decide; simplify_eq. by exists k, e, texts'.
  - right. apply texts_in_elem in Ht as (it & Hit & Ht).
    apply list_elem_of_fmap in Hit as ([k e] & -> & Hin). by exists k, e, texts'.
Qed.

(** ** Paths of rows *)

Lemma _get_item_path_filter texts :
  _get_item_path (reverse texts) = filter key_ok texts.
Proof.
  unfold _get_item_path. rewrite <-(app_nil_r (filter key_ok texts)).
  generalize (@nil string) as acc.
  induction texts as [|t texts IH] using rev_ind; intros acc; [done|].
  rewrite reverse_app, filter_app. simpl. rewrite filter_cons, filter_nil.
  rewrite IH, <-app_assoc. by destruct (decide (key_ok t)).
Qed.

Lemma filter_key_ok_elements texts :
  filter key_ok ("elements" :: texts) = filter key_ok texts.
Proof. rewrite filter_cons. case_decide as H; [by destruct H|done]. Qed.

Lemma filter_key_ok_root texts :
  filter key_ok ("[Root]" :: texts) = filter key_ok texts.
Proof. rewrite filter_cons. case_decide as H; [by destruct H|done]. Qed.

Lemma item_path_ok_dict k v d texts :
  (k, v) ∈ d → item_path_ok k v texts → filter key_ok texts ∈ key_paths (VDict d).
Proof.
  intros Hin Hok. apply elem_of_key_paths_dict.
  destruct Hok as [->|(s & -> & Hs)]; eauto 10.
Qed.

Lemma item_path_ok_here k v : key_ok k → item_path_ok k v [k].
Proof. intros Hk. left. rewrite filter_cons. by rewrite decide_True. Qed.

Lemma reserved_free_dict d :
  reserved_free (VDict d) = true ↔
  Forall (λ kv, key_ok kv.1 ∧ reserved_free kv.2 = true) d.
Proof.
  cbn [reserved_free]. rewrite forallb_Forall. apply Forall_iff. intros [k v].
  by rewrite andb_true_iff, bool_decide_eq_true.
Qed.

Lemma reserved_free_list l :
  reserved_free (VList l) = true ↔ Forall (λ v, reserved_free v = true) l.
Proof. cbn [reserved_free]. by rewrite forallb_Forall. Qed.

Lemma object_children_paths d g texts :
  dict_wf d →
  Forall (λ kv, ∀ obj g texts, 
            texts_in [_add_schema_item kv.1 (analyze_entry obj kv.1 kv.2 g).1] texts →
            item_path_ok kv.1 kv.2 texts) d →
  texts_in (child_items (_analyze_object (VDict d) g).1) texts →
  filter key_ok texts ∈ key_paths (VDict d).
Proof.
  intros Hwf Hd. rewrite _analyze_object_wf_items by done.
  intros (it & Hit & Ht)%texts_in_elem.
  apply list_elem_of_fmap in Hit as ([k n] & -> & Hkn).
  assert (Forall (λ kn, ∀ texts, texts_in [_add_schema_item kn.1 kn.2] texts →
                   filter key_ok texts ∈ key_paths (VDict d))
                 (dict_run_st (analyze_entry (VDict d)) d g).1) as HP.
  { apply (dict_run_st_Forall _
      (λ k n, ∀ texts, texts_in [_add_schema_item k n] texts →
                       filter key_ok texts ∈ key_paths (VDict d))).
    apply Forall_forall. intros [k' v] Hin g' texts' Ht'.
    rewrite Forall_forall in Hd. eapply item_path_ok_dict; [done|].
    by eapply (Hd _ Hin). }
  rewrite Forall_forall in HP. by apply (HP _ Hkn).
Qed.

Lemma add_item_paths v :
  value_wf v → reserved_free v = true →
  ∀ obj k g texts, key_ok k →
    texts_in [_add_schema_item k (analyze_entry obj k v g).1] texts →
    item_path_ok k v texts.
Proof.
  induction v as [|b|z|q|str|l IH|d IH] using value_ind;
    intros Hwf Hfree obj k g texts Hk;
    try (intros ->%add_item_prim; by apply item_path_ok_here).
  - rewrite analyze_entry_list. cbv zeta.
    apply value_wf_list in Hwf. apply reserved_free_list in Hfree.
    destruct l as [|first l];
      [intros [->|[->|(? & _ & []%texts_in_nil)]]%add_item_array|].
    1,2: rewrite ?filter_key_ok_elements; by apply item_path_ok_here.
    apply Forall_cons in IH as [IH _], Hwf as [Hwf _], Hfree as [Hfree _].
    destruct first; cbn [fst];
      try (intros [->|[->|(? & _ & []%texts_in_nil)]]%add_item_array;
           rewrite ?filter_key_ok_elements; by apply item_path_ok_here).
    intros [->|[->|(texts' & -> & Ht)]]%add_item_array;
      rewrite ?filter_key_ok_elements; try by apply item_path_ok_here.
    destruct (IH Hwf Hfree obj k (_compute_array_stats (VDict d :: l) g).2
                (k :: texts') Hk) as [Hh|(s & Hs & Hin)].
    + rewrite analyze_entry_dict. apply add_item_object. eauto.
    + left. by rewrite filter_cons, decide_True, filter_key_ok_elements,
        <-(filter_cons_True key_ok k) by done.
    + right. exists s. rewrite filter_cons, decide_True, filter_key_ok_elements,
        <-(filter_cons_True key_ok k) by done.
      split; [done|]. apply elem_of_key_paths_list. exists (VDict d).
      split; [left|done].
  - rewrite analyze_entry_dict. cbn [fst].
    intros [->|(texts' & -> & Ht)]%add_item_object; [by apply item_path_ok_here|].
    right. exists (filter key_ok texts'). rewrite filter_cons, decide_True by done.
    split; [done|]. apply value_wf_dict in Hwf as [Hd Hwf].
    apply reserved_free_dict in Hfree.
    eapply object_children_paths; [done| |done].
    eapply Forall_impl2; [exact IH|eapply Forall_impl2; [exact Hwf|exact Hfree|]|].
    { intros kv H1 H2. exact (conj H1 H2). }
    intros [k' v'] IHv [Hv [Hk' Hf]] obj' g' texts''. by apply IHv.
Qed.

(** The entries of the schema of an object are the nodes of its items. *)
Lemma analyze_object_elem d g k n texts :
  value_wf (VDict d) → reserved_free (VDict d) = true →
  (k, n) ∈ (_analyze_object (VDict d) g).1 →
  texts_in [_add_schema_item k n] texts →
  filter key_ok texts ∈ key_paths (VDict d).
Proof.
  intros [Hd Hwf]%value_wf_dict Hfree%reserved_free_dict.
  rewrite _analyze_object_wf_items by done.
  intros (v & g' & Hin & ->)%dict_run_st_elem Ht.
  rewrite Forall_forall in Hwf, Hfree.
  destruct (Hfree _ Hin) as [Hk Hf]. eapply item_path_ok_dict; [done|].
  eapply add_item_paths; [by apply (Hwf _ Hin)|done..].
Qed.

Lemma analyze_json_entry_paths doc g k e texts :
  value_wf doc → reserved_free doc = true →
  (k, e) ∈ (analyze_json doc g).1 →
  (dict_mem "__array_stats" (analyze_json doc g).1 = true → k ≠ "__array_stats") →
  texts_in [add_entry k e] texts →
  filter key_ok texts ∈ key_paths doc.
Proof.
  intros Hwf Hfree Hin Hk Ht. destruct doc as [| | | | |l|d];
    try by apply elem_of_nil in Hin.
  - destruct (decide (l = [])) as [->|Hne]; [by apply elem_of_nil in Hin|].
    rewrite analyze_json_list in Hin, Hk by done.
    cbv zeta in Hin, Hk. cbn [fst] in Hin, Hk.
    apply dict_set_elem in Hin as [?|Hin].
    { simplify_eq. destruct Hk; [|done]. unfold dict_mem.
      by rewrite dict_get_set_eq. }
    apply combine_fold_elem in Hin as [[]%elem_of_nil|(d & g' & n & Hd & -> & Hin)].
    assert (VDict d ∈ l) as Hl
      by (eapply elem_of_sublist; [exact Hd|apply sublist_take]).
    apply elem_of_key_paths_list. exists (VDict d).
    apply value_wf_list in Hwf. apply reserved_free_list in Hfree.
    rewrite Forall_forall in Hwf, Hfree. split; [done|].
    eapply analyze_object_elem; eauto.
  - unfold analyze_json in Hin.
    destruct (_analyze_object (VDict d) g) as [s g1] eqn:E. cbn [fst] in Hin.
    apply list_elem_of_fmap in Hin as ([k' n] & [= -> ->] & Hin).
    eapply (analyze_object_elem d g k' n); [done..| |done]. by rewrite E.
Qed.

Lemma _add_schema_item_data key schema :
  all_self (_add_schema_item key schema) = true.
Proof.
  revert key. induction schema as [p IH|et s p IH|t v s e] using schema_node_ind;
    intros key; cbn; [| |done].
  - apply forallb_Forall, Forall_fmap. eapply Forall_impl; [exact IH|].
    intros [k n] Hn. apply Hn.
  - rewrite andb_true_r. destruct p as [p|]; [|done].
    apply forallb_Forall, Forall_fmap. eapply Forall_impl; [exact IH|].
    intros [k n] Hn. apply Hn.
Qed.

Lemma all_self_item_at forest pos it :
  forallb all_self forest = true → item_at forest pos = Some it →
  item_data it = Self.
Proof.
  revert forest. induction pos as [|i pos IH]; intros forest Hf; [done|].
  cbn [item_at]. intros ([t ty d c] & Hi & Hit)%bind_Some.
  rewrite forallb_Forall, Forall_lookup in Hf.
  apply Hf in Hi as [Hd%bool_decide_eq_true Hc]%andb_true_iff.
  destruct pos; [by simplify_eq|by apply (IH c)].
Qed.

(** ** Properties *)

(** [C7] Path identity: in the browser of a document none of whose keys is
    ["[Root]"] or ["elements"], the path of every row is empty (the root
    row), [["Count"]] (the count row of a root array) or an attribute path
    of the document. *)
Theorem tree_paths_are_key_paths doc g pos texts :
  value_wf doc → reserved_free doc = true →
  texts_to (update_schema_tree (analyze_json doc g).1) pos = Some texts →
  let p := _get_item_path (reverse texts) in
  p = [] ∨ p = ["Count"] ∨ p ∈ key_paths doc.
Proof.
  intros Hwf Hfree Ht%texts_to_in. cbv zeta. rewrite _get_item_path_filter.
  apply update_schema_tree_texts in Ht
    as [->|[->|(k & e & texts' & Hin & -> & Hk & Ht)]];
    [by left|by right; left|].
  rewrite filter_key_ok_root. right; right.
  by eapply analyze_json_entry_paths.
Qed.

(** [_get_item_path] returns the texts from the root down to the row
    without the texts ["[Root]"] and ["elements"]. *)
Theorem get_item_path_spec texts :
  _get_item_path (reverse texts) = filter key_ok texts.
Proof. apply _get_item_path_filter. Qed.

(** In a rebuilt browser the slot of every row holds the row, not the
    flag written first: the delegate paints every eye as hidden. *)
Theorem update_schema_tree_data info :
  forallb all_self (update_schema_tree info) = true.
Proof.
  assert (∀ k e, all_self (add_entry k e) = true) as Hadd
    by (intros k []; [apply _add_schema_item_data|done]).
  unfold update_schema_tree. destruct info as [|kv info]; [done|].
  destruct (dict_mem _ _); rewrite new_item_eq;
    cbn [forallb all_self bool_decide decide_rel andb];
    rewrite bool_decide_eq_true_2, ?andb_true_r by done; apply forallb_Forall.
  - apply Forall_forall. intros it ([k e] & _ & Hit)%list_elem_of_omap.
    case_decide; simplify_eq. apply Hadd.
  - apply Forall_fmap, Forall_true. intros [k e]. apply Hadd.
Qed.

(** So the row at every position holds itself. *)
Corollary update_schema_tree_rows_self info pos it :
  item_at (update_schema_tree info) pos = Some it → item_data it = Self.
Proof. apply all_self_item_at, update_schema_tree_data. Qed.

(** ** Examples and instances *)

Example update_schema_tree_doc1 :
  update_schema_tree (analyze_json doc1 []).1 =
  [Item "[Root]" "object" Self
     [Item "name" "str" Self []; Item "n" "int" Self [];
      Item "tags" "array" Self [Item "elements" "str" Self []];
      Item "items" "array" Self
        [Item "elements" "dict" Self [Item "id" "int" Self []]];
      Item "o" "object" Self [Item "f" "float" Self []]]].
Proof. by vm_compute. Qed.

Example update_schema_tree_root_array :
  update_schema_tree (analyze_json (VList xy) []).1 =
  [Item "[Root]" "array" Self
     [Item "Count" "2" Self []; Item "x" "int" Self [];
      Item "y" "int" Self []]].
Proof. by vm_compute. Qed.

(** A key ["elements"] is dropped from the path of the rows below it: the
    row of [a > elements > x] gets the path [a > x], which is no attribute
    of the document. *)
Definition reserved_doc : value :=
  VDict [("a", VDict [("elements", VDict [("x", VInt 1)])])].

Example reserved_key_breaks_path :
  let tree := update_schema_tree (analyze_json reserved_doc []).1 in
  (_get_item_path ∘ reverse) <$> texts_to tree [0; 0; 0; 0] = Some ["a"; "x"] ∧
  ["a"; "x"] ∉ key_paths reserved_doc ∧
  ["a"; "elements"; "x"] ∈ key_paths reserved_doc.
Proof. cbv zeta. split; [by vm_compute|]. split; by vm_compute. Qed.

Lemma tree_paths_are_key_paths_witness :
  let p := _get_item_path (reverse ["[Root]"; "items"; "elements"; "id"]) in
  p = [] ∨ p = ["Count"] ∨ p ∈ key_paths doc1.
Proof.
  by apply (tree_paths_are_key_paths doc1 [] [0; 3; 0; 0]).
Defined.
