(* ===== verification/Lookup.v ===== *)
(** * Lookup: the schema at a path ([JsonSchemaViewer._get_schema_at_path])

    [_get_schema_at_path] of [src/gui.py] walks the schema the analyzer
    returned along the path of a row of the tree.  The schema is a Python
    dict of dicts and the walk is dynamically typed: it tests [k in schema]
    and [isinstance(schema, dict)] on whatever object it has reached, a dict
    of the schema, a type name, a statistic or a list of examples.

    [pyobj] names the objects of a schema; [items] gives the items of those
    that are dicts, with the keys the analyzer gave them; [py_in] is the
    operator [in], which raises [TypeError] on numbers, booleans and [None].
    [_get_schema_at_path] is the code's loop with its [continue] and its
    three early [return None].

    The specification is [resolve]: the node a path of document keys leads
    to.  The file proves that the walk computes [resolve] on the schema of an
    object whenever no segment of the path is one of the keys the analyzer
    gives to its own dicts, that the third branch of the loop is dead, and
    that on the schema of a root array the walk skips the first segment of
    every path. *)

From Stdlib Require Import QArith.
From S2P Require Import Prelude PyStr PyDict Value Filter PyCollections ValueStats Stats Schema.

#[local] Open Scope py_scope.

(** ** The objects of a schema

    [OSchema] is a dict from keys to nodes (the result of [analyze_json], and
    every ['properties'] dict), [ONode] the dict of a node, [OStats] and
    [OValueStats] the two kinds of ['stats'] dicts, [OStat], [OExamples] and
    [OVal] what these dicts hold. *)

Inductive pyobj : Type :=
| OSchema (schema : dict schema_entry)
| ONode (n : schema_node)
| OStats (stats : dict stat)
| OValueStats (stats : dict value)
| OStat (s : stat)
| OExamples (l : list example)
| OVal (v : value).

Definition entry_obj (e : schema_entry) : pyobj :=
  match e with
  | ENode n => ONode n
  | EArrayStats stats => OStats stats
  end.

(** A ['properties'] dict. *)
Definition OProps (properties : dict schema_node) : pyobj :=
  OSchema (prod_map id ENode <$> properties).

(** [items o] is [Some] of the items of [o] when [o] is a [dict]:
    [isinstance(o, dict)] is [is_Some (items o)]. *)
Definition items (o : pyobj) : option (dict pyobj) :=
  match o with
  | OSchema schema => Some (prod_map id entry_obj <$> schema)
  | ONode (SObject properties) =>
      Some [("type", OVal (VStr "object")); ("properties", OProps properties)]
  | ONode (SArray element_type stats properties) =>
      Some ([("type", OVal (VStr "array"));
             ("element_type", OVal (VStr element_type));
             ("stats", OStats stats)]
            ++ from_option (λ p, [("properties", OProps p)]) [] properties)
  | ONode (SPrim type v stats examples) =>
      Some [("type", OVal (VStr type)); ("value", OVal v);
            ("stats", OValueStats stats); ("examples", OExamples examples)]
  | OStats stats => Some (prod_map id OStat <$> stats)
  | OValueStats stats => Some (prod_map id OVal <$> stats)
  | OStat (StVal (VDict d)) | OVal (VDict d) => Some (prod_map id OVal <$> d)
  | _ => None
  end.

(** [o == s] for a string [s]. *)
Definition is_str (s : string) (o : pyobj) : bool :=
  match o with
  | OStat (StVal (VStr t)) | OVal (VStr t) => bool_decide (t = s)
  | _ => false
  end.

Definition value_is_str (s : string) (v : value) : bool :=
  match v with
  | VStr t => bool_decide (t = s)
  | _ => false
  end.

(** [k in o]: the keys of a dict, the substrings of a string, the elements
    of a list; [TypeError] for the objects that are not containers. *)
Definition py_in (k : string) (o : pyobj) : outcome bool :=
  match items o with
  | Some d => Return (dict_mem k d)
  | None =>
      match o with
      | OStat (StVal (VStr s)) | OVal (VStr s) => Return (contains k s)
      | OStat (StVal (VList l)) | OVal (VList l) => Return (existsb (value_is_str k) l)
      | OExamples l =>
          Return (existsb (λ e, match e with
                                | ExVal v => value_is_str k v
                                | ExItem _ _ => false
                                end) l)
      | _ => Raise TypeError
      end
  end.

(** [o[k]] for a key the dict has. *)
Definition getitem (k : string) (d : dict pyobj) : pyobj :=
  default (OVal VNone) (dict_get k d).

(** The body of the loop of [_get_schema_at_path] on a dict: the object the
    walk continues with, [None] for [return None]. *)
Definition lookup_segment (segment : string) (schema : dict pyobj)
    : outcome (option pyobj) :=
  if dict_mem segment schema then Return (Some (getitem segment schema))
  else
    try! in_properties :=
      if dict_mem "properties" schema
      then py_in segment (getitem "properties" schema) else Return false in
    if in_properties then
      match items (getitem "properties" schema) with
      | Some properties => Return (Some (getitem segment properties))
      | None => Raise TypeError
      end
    else if dict_mem "type" schema && is_str "array" (getitem "type" schema)
            && dict_mem "properties" schema then
      try! in_properties := py_in segment (getitem "properties" schema) in
      if in_properties then
        match items (getitem "properties" schema) with
        | Some properties => Return (Some (getitem segment properties))
        | None => Raise TypeError
        end
      else Return None
    else Return None.

(** The loop over [enumerate(path)] from index [i]. *)
Fixpoint walk (i : nat) (path : list string) (schema : pyobj)
    : outcome (option pyobj) :=
  match path with
  | [] => Return (Some schema)
  | segment :: path =>
      try! is_root_array := py_in "__array_stats" schema in
      if is_root_array && (i =? 0) then walk (S i) path schema
      else
        match items schema with
        | Some d =>
            try! next := lookup_segment segment d in
            match next with
            | Some schema => walk (S i) path schema
            | None => Return None
            end
        | None => Return None
        end
  end.

(** ** [_get_schema_at_path(path)] *)

Definition _get_schema_at_path (schema_info : pyobj) (path : list string)
    : outcome (option pyobj) :=
  match path with
  | [] => Return (Some schema_info)
  | _ => walk 0 path schema_info
  end.

(** ** Specification *)

(** The keys of the dicts that stand for nodes. *)
Definition node_keys : list string :=
  ["type"; "element_type"; "stats"; "properties"; "value"; "examples"].

(** The nodes below a node: the properties of an object and of the sampled
    element of an array. *)
Definition child_nodes (n : schema_node) : option (dict schema_node) :=
  match n with
  | SObject properties => Some properties
  | SArray _ _ properties => properties
  | SPrim _ _ _ _ => None
  end.

(** The node a path leads to from a node, by the keys of the document. *)
Fixpoint resolve_from (n : schema_node) (p : path) : option schema_node :=
  match p with
  | [] => Some n
  | k :: p => properties ← child_nodes n; n' ← dict_get k properties; resolve_from n' p
  end.

Definition resolve (schema : dict schema_node) (p : path) : option schema_node :=
  match p with
  | [] => None
  | k :: p => n ← dict_get k schema; resolve_from n p
  end.

(** The loop body without its third branch. *)
Definition lookup_segment_short (segment : string) (schema : dict pyobj)
    : outcome (option pyobj) :=
  if dict_mem segment schema then Return (Some (getitem segment schema))
  else if dict_mem "properties" schema then
    try! in_properties := py_in segment (getitem "properties" schema) in
    if in_properties then
      match items (getitem "properties" schema) with
      | Some properties => Return (Some (getitem segment properties))
      | None => Raise TypeError
      end
    else Return None
  else Return None.

(** ** Example documents *)

(** A document whose keys are among the analyzer's own. *)
Definition collision_doc : value :=
  VDict [("k", VList [VDict [("stats", VDict [("count", VDict [("x", VInt 1)])])]]);
         ("o", VDict [("type", VInt 1); ("a", VStr "s")])].

Definition collision_schema : pyobj := OSchema (analyze_json collision_doc []).1.

Definition nested_schema : dict schema_node :=
  (_analyze_object (VDict [("a", VDict [("b", VInt 1)]); ("c", VList [])]) []).1.

(** ** Lemmas *)

Lemma lookup_segment_short_eq segment schema :
  lookup_segment segment schema = lookup_segment_short segment schema.
Proof.
  unfold lookup_segment, lookup_segment_short.
  destruct (dict_mem segment schema); [done|].
  destruct (dict_mem "properties" schema); cbn [and_then]; [|by rewrite andb_false_r].
  destruct (py_in segment (getitem "properties" schema)) as [[]|e] eqn:E;
    cbn [and_then]; [done| |done].
  by destruct (dict_mem "type" schema && _ && true).
Qed.

Lemma items_props properties :
  items (OProps properties) = Some (prod_map id ONode <$> properties).
Proof.
  unfold OProps. cbn [items]. f_equal. rewrite <-list_fmap_compose.
  apply list_fmap_ext. by intros _ [k n] _.
Qed.

Lemma py_in_dict k o d : items o = Some d → py_in k o = Return (dict_mem k d).
Proof. unfold py_in. by intros ->. Qed.

Lemma py_in_props k properties :
  py_in k (OProps properties) = Return (dict_mem k properties).
Proof. by rewrite (py_in_dict _ _ _ (items_props _)), dict_mem_fmap. Qed.

Lemma getitem_props k properties n :
  dict_get k properties = Some n →
  getitem k (prod_map id ONode <$> properties) = ONode n.
Proof. unfold getitem. rewrite dict_get_fmap. by intros ->. Qed.

(** The dict of a node has the child nodes under ['properties'] and no key
    outside [node_keys]. *)
Lemma node_items n :
  ∃ d, items (ONode n) = Some d ∧
       (∀ k, k ∉ node_keys → dict_mem k d = false) ∧
       match child_nodes n with
       | Some properties =>
           dict_mem "properties" d = true ∧
           getitem "properties" d = OProps properties
       | None => dict_mem "properties" d = false
       end.
Proof.
  assert (∀ k (d : dict pyobj), dict_keys d ⊆ node_keys → k ∉ node_keys →
            dict_mem k d = false) as Hkeys.
  { intros k d Hd Hk. apply dict_mem_absent. set_solver. }
  destruct n as [p|et st [p|]|t v st ex]; eexists; (split; [reflexivity|]);
    (split; [intros k Hk; apply Hkeys; [|done]; unfold node_keys; set_solver|]);
    done.
Qed.

(** One segment from a node. *)
Lemma lookup_segment_node n d k :
  items (ONode n) = Some d → k ∉ node_keys →
  lookup_segment k d =
  Return (ONode <$> (properties ← child_nodes n; dict_get k properties)).
Proof.
  intros Hd Hk. destruct (node_items n) as (d' & Hd' & Hmem & Hprops).
  simplify_eq. rewrite lookup_segment_short_eq. unfold lookup_segment_short.
  rewrite (Hmem k Hk). destruct (child_nodes n) as [p|]; cbn [mbind option_bind].
  - destruct Hprops as [-> ->]. rewrite py_in_props, items_props. cbn [and_then].
    destruct (dict_get k p) as [n'|] eqn:E.
    + by rewrite (dict_mem_Some _ _ _ E), (getitem_props _ _ _ E).
    + by rewrite (dict_mem_None _ _ E).
  - by rewrite Hprops.
Qed.

Lemma walk_node i n p :
  Forall (λ k, k ∉ node_keys) p →
  walk (S i) p (ONode n) = Return (ONode <$> resolve_from n p).
Proof.
  intros Hp. revert i n. induction Hp as [|k p Hk _ IH]; intros i n; [done|].
  destruct (node_items n) as (d & Hd & _). cbn [walk resolve_from].
  rewrite (py_in_dict _ _ _ Hd), Hd. cbn [and_then Nat.eqb].
  rewrite andb_false_r, (lookup_segment_node n d k Hd Hk). cbn [and_then].
  destruct (child_nodes n) as [props|]; [|done]. cbn [mbind option_bind].
  destruct (dict_get k props) as [n'|]; [|done]. apply IH.
Qed.

Lemma walk_schema_present k p schema n :
  "__array_stats" ∉ dict_keys schema → dict_get k schema = Some n →
  walk 0 (k :: p) (OProps schema) = walk 1 p (ONode n).
Proof.
  intros Hroot Hk. cbn [walk]. rewrite py_in_props, items_props.
  cbn [and_then]. rewrite (dict_mem_absent _ _ Hroot).
  cbn [andb]. unfold lookup_segment.
  rewrite dict_mem_fmap, (dict_mem_Some _ _ _ Hk). cbn [and_then].
  by rewrite (getitem_props _ _ _ Hk).
Qed.

Lemma walk_schema_absent k p schema :
  "__array_stats" ∉ dict_keys schema → dict_get k schema = None →
  k ∉ node_keys →
  walk 0 (k :: p) (OProps schema) = Return None.
Proof.
  intros Hroot Hk Hnk. cbn [walk]. rewrite py_in_props, items_props.
  cbn [and_then]. rewrite (dict_mem_absent _ _ Hroot).
  cbn [andb]. rewrite lookup_segment_short_eq. unfold lookup_segment_short.
  rewrite !dict_mem_fmap, (dict_mem_None _ _ Hk).
  destruct (dict_get "properties" schema) as [n|] eqn:E.
  - rewrite (dict_mem_Some _ _ _ E), (getitem_props _ _ _ E).
    destruct (node_items n) as (d & Hd & Hmem & _).
    by rewrite (py_in_dict _ _ _ Hd), (Hmem k Hnk).
  - by rewrite (dict_mem_None _ _ E).
Qed.

Lemma schema_resolve schema p :
  "__array_stats" ∉ dict_keys schema → p ≠ [] →
  Forall (λ k, k ∉ node_keys) p →
  _get_schema_at_path (OProps schema) p = Return (ONode <$> resolve schema p).
Proof.
  intros Hroot Hp Hkeys. destruct p as [|k p]; [done|].
  apply Forall_cons in Hkeys as [Hk Hkeys]. cbn [_get_schema_at_path resolve].
  destruct (dict_get k schema) as [n|] eqn:E; cbn [mbind option_bind].
  - rewrite (walk_schema_present _ _ _ _ Hroot E). by apply walk_node.
  - by apply walk_schema_absent.
Qed.

Lemma walk_root_array k p schema :
  dict_mem "__array_stats" schema = true →
  walk 0 (k :: p) (OSchema schema) = walk 1 p (OSchema schema).
Proof.
  intros Hroot. cbn [walk].
  rewrite (py_in_dict _ (OSchema schema) _ eq_refl), dict_mem_fmap, Hroot. done.
Qed.

Lemma analyze_json_list_root l g :
  l ≠ [] → dict_mem "__array_stats" (analyze_json (VList l) g).1 = true.
Proof.
  intros Hl. rewrite (analyze_json_list _ _ Hl). cbn [fst].
  eapply dict_mem_Some, dict_get_set_eq.
Qed.

(** ** Properties *)

(** [C8] On the schema of an object, for a non-empty path none of whose
    segments is a key the analyzer gives to its own dicts (type,
    element_type, stats, properties, value, examples), [_get_schema_at_path]
    raises nothing and returns the node [resolve] specifies: the entry of the
    first segment, then for each further segment the property of that name of
    the object or of the sampled element of the array reached so far, and
    [None] as soon as a segment has no such entry. *)
Theorem get_schema_at_path_resolve schema p :
  "__array_stats" ∉ dict_keys schema → p ≠ [] →
  Forall (λ k, k ∉ node_keys) p →
  _get_schema_at_path (OProps schema) p = Return (ONode <$> resolve schema p).
Proof. apply schema_resolve. Qed.

(** A path that leads to a node of the schema of an object is resolved
    to that node when its segments after the first avoid the analyzer's own
    keys; the first segment may be any key. *)
Theorem get_schema_at_path_present schema k p n :
  "__array_stats" ∉ dict_keys schema →
  Forall (λ k, k ∉ node_keys) p →
  resolve schema (k :: p) = Some n →
  _get_schema_at_path (OProps schema) (k :: p) = Return (Some (ONode n)).
Proof.
  intros Hroot Hkeys Hn. cbn [_get_schema_at_path resolve] in *.
  destruct (dict_get k schema) as [n'|] eqn:E; [|done]. cbn [mbind option_bind] in Hn.
  rewrite (walk_schema_present _ _ _ _ Hroot E), (walk_node _ _ _ Hkeys).
  by rewrite Hn.
Qed.

(** The third branch of the loop of [_get_schema_at_path] (an array
    node with properties) is never taken with effect: the loop body equals
    the body without it, on every dict. *)
Theorem lookup_segment_third_branch_dead segment schema :
  lookup_segment segment schema = lookup_segment_short segment schema.
Proof. apply lookup_segment_short_eq. Qed.

(** [C28] On the schema of a non-empty root array the first segment of a
    path is skipped: the path of a top-level attribute resolves to the whole
    schema, not to the node of the attribute. *)
Theorem get_schema_at_path_root_array l g k :
  l ≠ [] →
  let schema_info := (analyze_json (VList l) g).1 in
  _get_schema_at_path (OSchema schema_info) [k] = Return (Some (OSchema schema_info)).
Proof.
  intros Hl schema_info. cbn [_get_schema_at_path].
  by rewrite (walk_root_array _ _ _ (analyze_json_list_root l g Hl)).
Qed.

(** ** Examples *)

(** The path of the row of [o.a] resolves to its node; the path of the row
    of [o.type] resolves to the type name of [o]; the path of the row of
    [k[].stats.count.x] raises: the walk reaches the element count of the
    array [k], an [int], and tests [in] on it. *)
Example get_schema_at_path_collisions :
  _get_schema_at_path collision_schema ["o"; "a"]
  = Return (Some (ONode (SPrim "str" (VStr "s")
      [("type", VStr "str"); ("length", VInt 1); ("preview", VStr "s")]
      [ExVal (VStr "s")])))
  ∧ _get_schema_at_path collision_schema ["o"; "type"]
    = Return (Some (OVal (VStr "object")))
  ∧ _get_schema_at_path collision_schema ["k"; "stats"; "count"; "x"]
    = Raise TypeError.
Proof. by vm_compute. Qed.

(** In a root array the second segment is looked up at the top level. *)
Example get_schema_at_path_root_array_nested :
  let schema_info :=
    OSchema (analyze_json (VList [VDict [("a", VDict [("b", VInt 1)]);
                                         ("b", VStr "top")]]) []).1 in
  _get_schema_at_path schema_info ["a"; "b"]
  = Return (Some (ONode (SPrim "str" (VStr "top")
      [("type", VStr "str"); ("length", VInt 3); ("preview", VStr "top")]
      [ExVal (VStr "top")]))).
Proof. by vm_compute. Qed.

Lemma get_schema_at_path_resolve_witness :
  _get_schema_at_path (OProps nested_schema) ["a"; "b"]
  = Return (ONode <$> resolve nested_schema ["a"; "b"]).
Proof.
  apply get_schema_at_path_resolve; [by apply dict_get_None; vm_compute|done|].
  unfold node_keys. repeat constructor; set_solver.
Defined.

Lemma get_schema_at_path_present_witness :
  _get_schema_at_path (OProps nested_schema) ["a"; "b"]
  = Return (Some (ONode (SPrim "int" (VInt 1)
      [("type", VStr "int"); ("value", VInt 1); ("min", VInt 1); ("max", VInt 1)]
      [ExVal (VInt 1)]))).
Proof.
  apply get_schema_at_path_present;
    [by apply dict_get_None; vm_compute| |by vm_compute].
  unfold node_keys. repeat constructor; set_solver.
Defined.

Lemma get_schema_at_path_root_array_witness :
  let schema_info := (analyze_json (VList [VDict [("a", VInt 1)]]) []).1 in
  _get_schema_at_path (OSchema schema_info) ["a"] = Return (Some (OSchema schema_info)).
Proof. by apply get_schema_at_path_root_array. Defined.
