(* ===== verification/Rows.v ===== *)
(** * Rows: the rows of the browser and the schema found for them

    A click on a row of the browser shows the details of the attribute:
    [show_attribute_details] of [src/gui.py] takes the path of the row
    ([_get_item_path]) and looks the schema up at this path
    ([_get_schema_at_path]).  This file joins the three components involved,
    the analyzer, the browser and the lookup: in the browser of an object
    document whose keys are plain, every row below the root is the row of a
    node of the schema, and the lookup of the path of the row returns this
    node.

    A key is plain when it is none of the texts the browser gives to rows of
    its own (["[Root]"], ["elements"]) and none of the keys the analyzer
    gives to the dicts of its nodes; [Lookup.get_schema_at_path_collisions]
    shows what happens otherwise. *)

From S2P Require Import Prelude PyStr PyDict Value Filter PyCollections ValueStats Stats Schema SchemaTree Lookup.

#[local] Arguments _compute_array_stats : simpl never.

(** ** The node of a row *)

(** [row_of schema texts n]: the texts [texts] lead from a top-level row of
    the browser of [schema] to a row that [_add_schema_item] built from the
    node [n]; the ["elements"] row of an array is built from the node of the
    array. *)
Inductive row_of : dict schema_node → list string → schema_node → Prop :=
| row_here schema k n :
    (k, n) ∈ schema → row_of schema [k] n
| row_elements schema k element_type stats properties :
    (k, SArray element_type stats properties) ∈ schema →
    row_of schema [k; "elements"] (SArray element_type stats properties)
| row_object schema k properties texts n :
    (k, SObject properties) ∈ schema → row_of properties texts n →
    row_of schema (k :: texts) n
| row_array schema k element_type stats properties texts n :
    (k, SArray element_type stats (Some properties)) ∈ schema →
    row_of properties texts n →
    row_of schema (k :: "elements" :: texts) n.

(** A key that is neither a text the browser gives to rows of its own nor a
    key the analyzer gives to the dicts of its nodes. *)
Definition plain_key (k : string) : Prop := key_ok k ∧ k ∉ node_keys.

#[export] Instance plain_key_dec k : Decision (plain_key k).
Proof. unfold plain_key. apply _. Defined.

Fixpoint plain_node (n : schema_node) : bool :=
  let plain_dict := forallb (λ kn : string * schema_node,
                               bool_decide (plain_key kn.1) && plain_node kn.2) in
  match n with
  | SObject properties => plain_dict properties
  | SArray _ _ (Some properties) => plain_dict properties
  | _ => true
  end.

Definition plain_schema (schema : dict schema_node) : Prop :=
  Forall (λ kn, plain_key kn.1 ∧ plain_node kn.2 = true) schema.

(** The same of a document: every key of its objects and of the objects in
    its arrays is plain. *)
Fixpoint plain_doc (v : value) : bool :=
  match v with
  | VDict items =>
      forallb (λ kv, bool_decide (plain_key kv.1) && plain_doc kv.2) items
  | VList l => forallb plain_doc l
  | _ => true
  end.

(** ** An example document *)

Definition rows_doc : dict value :=
  [("a", VDict [("b", VInt 1)]);
   ("c", VList [VDict [("d", VStr "x")]; VDict [("e", VNone)]])].

(** ** Rows and nodes *)

Lemma plain_node_dict properties :
  forallb (λ kn : string * schema_node,
             bool_decide (plain_key kn.1) && plain_node kn.2) properties = true ↔
  plain_schema properties.
Proof.
  unfold plain_schema. rewrite forallb_Forall. apply Forall_iff. intros [k n].
  by rewrite andb_true_iff, bool_decide_eq_true.
Qed.

Lemma plain_schema_elem schema k n :
  plain_schema schema → (k, n) ∈ schema → plain_key k ∧ plain_node n = true.
Proof. unfold plain_schema. rewrite Forall_forall. intros H Hin. apply (H _ Hin). Qed.

Lemma schema_wf_elem schema k n :
  schema_wf schema → (k, n) ∈ schema →
  dict_get k schema = Some n ∧ node_wfb n = true.
Proof.
  intros [Hwf Hs] Hin. split; [by apply dict_get_elem|].
  rewrite Forall_forall in Hs. apply (Hs _ Hin).
Qed.

Lemma node_wfb_children n properties :
  node_wfb n = true → child_nodes n = Some properties → schema_wf properties.
Proof.
  destruct n as [p|et st [p|]|]; intros Hwf [= <-]; cbn [node_wfb] in Hwf.
  - apply andb_true_iff in Hwf as [Hd%bool_decide_eq_true Hp].
    split; [done|by apply forallb_Forall].
  - apply andb_true_iff in Hwf as [_ [Hd%bool_decide_eq_true Hp]%andb_true_iff].
    split; [done|by apply forallb_Forall].
Qed.

Lemma plain_node_children n properties :
  plain_node n = true → child_nodes n = Some properties → plain_schema properties.
Proof.
  destruct n as [p|et st [p|]|]; intros Hp [= <-]; by apply plain_node_dict.
Qed.

Lemma filter_key_ok_plain k texts :
  plain_key k → filter key_ok (k :: texts) = k :: filter key_ok texts.
Proof. intros [Hk _]. by rewrite filter_cons, decide_True. Qed.

(** Below a node the path continues in its child nodes. *)
Lemma resolve_from_children n properties p :
  child_nodes n = Some properties → p ≠ [] →
  resolve_from n p = resolve properties p.
Proof. intros Hn Hp. destruct p as [|k p]; [done|]. cbn. by rewrite Hn. Qed.

Lemma resolve_cons schema k n p :
  dict_get k schema = Some n → resolve schema (k :: p) = resolve_from n p.
Proof. cbn. by intros ->. Qed.

Lemma resolve_nonempty schema p n : resolve schema p = Some n → p ≠ [].
Proof. by destruct p. Qed.

(** The path of a row resolves to the node of the row. *)
Lemma row_of_resolve schema texts n :
  schema_wf schema → plain_schema schema → row_of schema texts n →
  resolve schema (filter key_ok texts) = Some n ∧
  Forall (λ k, k ∉ node_keys) (filter key_ok texts).
Proof.
  intros Hwf Hplain Hrow. induction Hrow as
    [schema k n Hin|schema k et st p Hin
    |schema k p texts n Hin _ IH|schema k et st p texts n Hin _ IH].
  - destruct (plain_schema_elem _ _ _ Hplain Hin) as [Hk _].
    destruct (schema_wf_elem _ _ _ Hwf Hin) as [Hget _].
    rewrite filter_key_ok_plain, filter_nil by done.
    rewrite (resolve_cons _ _ _ _ Hget). split; [done|]. by repeat constructor; destruct Hk.
  - destruct (plain_schema_elem _ _ _ Hplain Hin) as [Hk _].
    destruct (schema_wf_elem _ _ _ Hwf Hin) as [Hget _].
    rewrite filter_key_ok_plain, filter_key_ok_elements, filter_nil by done.
    rewrite (resolve_cons _ _ _ _ Hget). split; [done|]. by repeat constructor; destruct Hk.
  - destruct (plain_schema_elem _ _ _ Hplain Hin) as [Hk Hn].
    destruct (schema_wf_elem _ _ _ Hwf Hin) as [Hget Hnwf].
    destruct IH as [IH1 IH2];
      [by eapply node_wfb_children|by eapply plain_node_children|].
    rewrite filter_key_ok_plain by done. rewrite (resolve_cons _ _ _ _ Hget).
    rewrite (resolve_from_children _ p) by (done || by eapply resolve_nonempty).
    split; [done|]. constructor; [by destruct Hk|done].
  - destruct (plain_schema_elem _ _ _ Hplain Hin) as [Hk Hn].
    destruct (schema_wf_elem _ _ _ Hwf Hin) as [Hget Hnwf].
    destruct IH as [IH1 IH2];
      [by eapply node_wfb_children|by eapply plain_node_children|].
    rewrite filter_key_ok_plain, filter_key_ok_elements by done.
    rewrite (resolve_cons _ _ _ _ Hget).
    rewrite (resolve_from_children _ p) by (done || by eapply resolve_nonempty).
    split; [done|]. constructor; [by destruct Hk|done].
Qed.

(** Every row below the root is the row of a node. *)
Lemma add_schema_item_row_of n : ∀ k texts schema,
  texts_in [_add_schema_item k n] texts → (k, n) ∈ schema →
  ∃ n', row_of schema texts n'.
Proof.
  assert (∀ p texts, Forall (λ kn : string * schema_node, ∀ k texts schema,
              texts_in [_add_schema_item k kn.2] texts → (k, kn.2) ∈ schema →
              ∃ n', row_of schema texts n') p →
            texts_in (child_items p) texts → ∃ n', row_of p texts n') as Hchildren.
  { intros p texts IH (it & Hit & Ht)%texts_in_elem.
    apply list_elem_of_fmap in Hit as ([k' n'] & -> & Hin).
    rewrite Forall_forall in IH. by apply (IH _ Hin k'). }
  induction n as [p IH|et st p IH|t v st ex] using schema_node_ind;
    intros k texts schema Ht Hin.
  - apply add_item_object in Ht as [->|(texts' & -> & Ht)]; [by eexists; constructor|].
    destruct (Hchildren _ _ IH Ht) as [n' Hn']. exists n'. by eapply row_object.
  - apply add_item_array in Ht as [->|[->|(texts' & -> & Ht)]];
      [by eexists; constructor|by eexists; constructor|].
    destruct p as [p|]; [|by apply texts_in_nil in Ht].
    destruct (Hchildren _ _ IH Ht) as [n' Hn']. exists n'. by eapply row_array.
  - apply add_item_prim in Ht as ->. by eexists; constructor.
Qed.

Lemma child_items_row_of schema texts :
  texts_in (child_items schema) texts → ∃ n, row_of schema texts n.
Proof.
  intros (it & Hit & Ht)%texts_in_elem.
  apply list_elem_of_fmap in Hit as ([k n] & -> & Hin).
  by eapply add_schema_item_row_of.
Qed.

(** The browser of the schema of an object. *)
Lemma update_schema_tree_object schema :
  schema ≠ [] → "__array_stats" ∉ dict_keys schema →
  update_schema_tree (prod_map id ENode <$> schema)
  = [Item "[Root]" "object" Self (child_items schema)].
Proof.
  intros Hne Hroot. unfold update_schema_tree.
  rewrite dict_mem_fmap, (dict_mem_absent _ _ Hroot).
  destruct schema as [|kn schema]; [done|]. rewrite fmap_cons.
  rewrite <-fmap_cons. unfold child_items. rewrite <-list_fmap_compose.
  do 2 f_equal. apply list_fmap_ext. by intros _ [k n] _.
Qed.

Lemma tree_rows schema texts :
  "__array_stats" ∉ dict_keys schema →
  texts_in (update_schema_tree (prod_map id ENode <$> schema)) texts →
  texts = ["[Root]"] ∨
  ∃ texts' n, texts = "[Root]" :: texts' ∧ row_of schema texts' n.
Proof.
  intros Hroot. destruct (decide (schema = [])) as [->|Hne];
    [by intros ?%texts_in_nil|].
  rewrite update_schema_tree_object by done.
  intros [->|(texts' & -> & Ht)]%texts_in_item; [by left|right].
  destruct (child_items_row_of _ _ Ht) as [n Hn]. eauto.
Qed.

Lemma row_lookup schema texts n :
  schema_wf schema → plain_schema schema → "__array_stats" ∉ dict_keys schema →
  row_of schema texts n →
  _get_schema_at_path (OProps schema) (_get_item_path (reverse ("[Root]" :: texts)))
  = Return (Some (ONode n)).
Proof.
  intros Hwf Hplain Hroot Hrow.
  destruct (row_of_resolve _ _ _ Hwf Hplain Hrow) as [Hres Hkeys].
  rewrite _get_item_path_filter, filter_key_ok_root.
  rewrite schema_resolve; [by rewrite Hres|done|by eapply resolve_nonempty|done].
Qed.

(** ** The schema of a plain document is plain *)

Lemma plain_doc_dict d :
  plain_doc (VDict d) = true ↔
  Forall (λ kv, plain_key kv.1 ∧ plain_doc kv.2 = true) d.
Proof.
  cbn [plain_doc]. rewrite forallb_Forall. apply Forall_iff. intros [k v].
  by rewrite andb_true_iff, bool_decide_eq_true.
Qed.

Lemma analyze_entry_plain obj key v g :
  (∀ d, v = VDict d → ∀ g, plain_schema (_analyze_object v g).1) →
  (∀ d l, v = VList (VDict d :: l) → ∀ g, plain_schema (_analyze_object (VDict d) g).1) →
  plain_node (analyze_entry obj key v g).1 = true.
Proof.
  intros Hd Hl. destruct v as [| | | | |l|d]; try done.
  - rewrite analyze_entry_list. cbv zeta.
    destruct l as [|[] l]; cbn [plain_node fst]; try done.
    by apply plain_node_dict, (Hl _ _ eq_refl).
  - rewrite analyze_entry_dict. by apply plain_node_dict, (Hd _ eq_refl).
Qed.

Lemma analyze_object_plain v g :
  value_wf v → plain_doc v = true → plain_schema (_analyze_object v g).1.
Proof.
  revert g. induction v as [items IH|v Hv] using value_schema_ind;
    intros g Hwf Hplain;
    [|destruct v; try (by apply List.Forall_nil); by destruct (Hv d)].
  apply value_wf_dict in Hwf as [Hitems Hwf].
  apply plain_doc_dict in Hplain.
  rewrite !_analyze_object_wf_items by done.
  assert (Forall (λ kv, plain_key kv.1 ∧
            ∀ s, plain_node (analyze_entry (VDict items) kv.1 kv.2 s).1 = true)
          items) as Hall.
  { eapply Forall_impl2; [exact IH|
      eapply Forall_impl2; [exact Hwf|exact Hplain|intros ? H1 H2; exact (conj H1 H2)]|].
    intros [k v] [IHv IHl] [Hv [Hk Hp]]. cbn [fst snd] in *. split; [done|].
    intros s. apply analyze_entry_plain.
    - intros d -> ?. by apply IHv.
    - intros d l -> ?. apply (IHl _ _ eq_refl).
      + apply value_wf_list in Hv. by apply Forall_cons in Hv as [].
      + cbn [plain_doc forallb] in Hp. by apply andb_true_iff in Hp as []. }
  clear -Hall Hitems. unfold plain_schema. apply Forall_forall. intros [k n] Hin.
  apply dict_run_st_elem in Hin as (v & s & Hkv & ->).
  rewrite Forall_forall in Hall. destruct (Hall _ Hkv) as [Hk Hn].
  split; [exact Hk|apply Hn].
Qed.

Lemma analyze_json_object items g :
  (analyze_json (VDict items) g).1
  = prod_map id ENode <$> (_analyze_object (VDict items) g).1.
Proof. unfold analyze_json. by destruct (_analyze_object _ _). Qed.

Lemma analyze_object_root_key items g :
  dict_wf items → "__array_stats" ∉ dict_keys items →
  "__array_stats" ∉ dict_keys (_analyze_object (VDict items) g).1.
Proof.
  intros Hwf Hroot. rewrite _analyze_object_wf_items by done.
  by rewrite dict_run_st_keys.
Qed.

Lemma schema_rows_resolve schema texts :
  schema_wf schema → plain_schema schema → "__array_stats" ∉ dict_keys schema →
  texts_in (update_schema_tree (prod_map id ENode <$> schema)) texts →
  texts = ["[Root]"] ∨
  ∃ texts' n, texts = "[Root]" :: texts' ∧ row_of schema texts' n ∧
    _get_schema_at_path (OProps schema) (_get_item_path (reverse texts))
    = Return (Some (ONode n)).
Proof.
  intros Hwf Hplain Hroot Ht.
  apply (tree_rows _ _ Hroot) in Ht as [->|(texts' & n & -> & Hrow)]; [by left|].
  right. exists texts', n. split_and!; [done..|]. by apply row_lookup.
Qed.

(** ** Properties *)

(** In the browser of a well-formed schema without ['__array_stats']
    whose keys are plain, every row below the root row is the row of a node
    of the schema, and [_get_schema_at_path] on the path [_get_item_path]
    gives for the row returns this node, without raising. *)
Theorem rows_resolve schema texts :
  schema_wf schema → plain_schema schema → "__array_stats" ∉ dict_keys schema →
  texts_in (update_schema_tree (prod_map id ENode <$> schema)) texts →
  texts = ["[Root]"] ∨
  ∃ texts' n, texts = "[Root]" :: texts' ∧ row_of schema texts' n ∧
    _get_schema_at_path (OProps schema) (_get_item_path (reverse texts))
    = Return (Some (ONode n)).
Proof. apply schema_rows_resolve. Qed.

(** [C11] The same of a document: for an object document with distinct keys
    at every level, plain keys and no key ['__array_stats'], the details of
    every row of the browser built from its analysis are found: the lookup
    of the row's path in the analysis returns the node of the row. *)
Theorem document_rows_resolve items g texts :
  value_wf (VDict items) → plain_doc (VDict items) = true →
  "__array_stats" ∉ dict_keys items →
  let schema_info := (analyze_json (VDict items) g).1 in
  texts_in (update_schema_tree schema_info) texts →
  texts = ["[Root]"] ∨
  ∃ texts' n, texts = "[Root]" :: texts' ∧
    row_of (_analyze_object (VDict items) g).1 texts' n ∧
    _get_schema_at_path (OSchema schema_info) (_get_item_path (reverse texts))
    = Return (Some (ONode n)).
Proof.
  intros Hwf Hplain Hroot. cbv zeta. rewrite analyze_json_object.
  apply schema_rows_resolve.
  - by apply analyze_object_wf.
  - by apply analyze_object_plain.
  - apply analyze_object_root_key; [|done]. by apply value_wf_dict in Hwf as [].
Qed.

(** ** Examples *)

(** The rows of the example document, with the paths their eyes toggle. *)
Example rows_doc_paths :
  (λ pos, _get_item_path ∘ reverse <$>
            texts_to (update_schema_tree (analyze_json (VDict rows_doc) []).1) pos)
  <$> [[0]; [0; 0]; [0; 0; 0]; [0; 1]; [0; 1; 0]; [0; 1; 0; 0]]
  = [Some []; Some ["a"]; Some ["a"; "b"]; Some ["c"]; Some ["c"]; Some ["c"; "d"]].
Proof. by vm_compute. Qed.

Lemma rows_doc_row :
  texts_in (update_schema_tree (analyze_json (VDict rows_doc) []).1)
           ["[Root]"; "c"; "elements"; "d"].
Proof. by apply (texts_to_in _ [0; 1; 0; 0]). Qed.

Lemma rows_resolve_witness :
  let schema := (_analyze_object (VDict rows_doc) []).1 in
  ["[Root]"; "c"; "elements"; "d"] = ["[Root]"] ∨
  ∃ texts' n, ["[Root]"; "c"; "elements"; "d"] = "[Root]" :: texts' ∧
    row_of schema texts' n ∧
    _get_schema_at_path (OProps schema)
      (_get_item_path (reverse ["[Root]"; "c"; "elements"; "d"]))
    = Return (Some (ONode n)).
Proof.
  apply rows_resolve.
  - by apply analyze_object_wf.
  - by apply analyze_object_plain.
  - by apply dict_get_None; vm_compute.
  - rewrite <-analyze_json_object. apply rows_doc_row.
Defined.

Lemma document_rows_resolve_witness :
  let schema_info := (analyze_json (VDict rows_doc) []).1 in
  ["[Root]"; "c"; "elements"; "d"] = ["[Root]"] ∨
  ∃ texts' n, ["[Root]"; "c"; "elements"; "d"] = "[Root]" :: texts' ∧
    row_of (_analyze_object (VDict rows_doc) []).1 texts' n ∧
    _get_schema_at_path (OSchema schema_info)
      (_get_item_path (reverse ["[Root]"; "c"; "elements"; "d"]))
    = Return (Some (ONode n)).
Proof.
  apply document_rows_resolve; [done|done| |apply rows_doc_row].
  by apply dict_get_None; vm_compute.
Defined.
