(* ===== verification/Details.v ===== *)
(** * Details: the panel of the selected attribute

    [JsonSchemaViewer.show_attribute_details] of [src/gui.py] fills the form
    under the browser when a row is clicked: it clears the form, computes the
    path of the row, looks the path up in the analysis
    ([_get_schema_at_path]) and adds one row per fact it finds in the object
    the lookup returned.  The object is inspected with [in], [[]], [.get],
    [str] and f-strings, on whatever the lookup returned; these operations
    are modelled here on [pyobj] with the exceptions they raise.

    The form is a list of rows, a label and the text of a [QLabel]; the
    handler is a function into [writer row], so the rows added before an
    exception are kept, as the widget keeps them.

    Three functions of the runtime are parameters of the model: the text
    [str] gives for a float or a container ([repr]), for a tuple
    ([repr_item]), and the text of a number with a fixed number of decimals
    ([format_float]).  [str] of [None], booleans, integers and strings is
    defined.  The parameters are total: the format [f"{x:.2f}"] of an
    integer too large for a float raises [OverflowError] in the code, so
    the results on never raising hold for the numbers a float holds. *)

From Stdlib Require Import QArith.
From Stdlib Require Import Ascii String.
From stdpp Require Import pretty.
From S2P Require Import Prelude PyStr PyDict Value Filter PyNum PyCollections ValueStats Stats Schema.
From S2P Require Import SchemaTree Lookup Rows.

#[local] Open Scope py_scope.

(** A row of the form: the label and the text of the [QLabel]. *)
Definition row : Type := string * string.

Definition form (A : Type) : Type := writer row A.

(** [self.details_layout.addRow(label, QLabel(text))] *)
Definition addRow (label text : string) : form unit := tell (label, text).

(** ** The operations of the runtime on the objects of a schema *)

(** [bool(o)] *)
Definition obj_truthy (o : pyobj) : bool :=
  match o with
  | OStat (StVal v) | OVal v => truthy v
  | OStat (StSqrt radicand) => negb (Qnum radicand =? 0)%Z
  | OExamples l => negb (bool_decide (length l = 0))
  | OSchema schema => negb (bool_decide (length schema = 0))
  | ONode _ => true
  | OStats stats => negb (bool_decide (length stats = 0))
  | OValueStats stats => negb (bool_decide (length stats = 0))
  end.

(** [o.get(k, default)]: only a dict has the method. *)
Definition py_get (k : string) (dflt : pyobj) (o : pyobj) : outcome pyobj :=
  match items o with
  | Some d => Return (default dflt (dict_get k d))
  | None => Raise AttributeError
  end.

(** [o[k]] for a string [k]: the entry of a dict; strings and lists take
    integers, the other objects no subscript. *)
Definition subscript (k : string) (o : pyobj) : outcome pyobj :=
  match items o with
  | Some d => from_option Return (Raise KeyError) (dict_get k d)
  | None => Raise TypeError
  end.

(** [x[k]] for an element [x] of a loop. *)
Definition subscript_example (k : string) (x : example) : outcome value :=
  match x with
  | ExVal (VDict d) => from_option Return (Raise KeyError) (dict_get k d)
  | _ => Raise TypeError
  end.

(** What [for x in o] runs through: the elements of a list, the keys of a
    dict, the characters of a string. *)
Definition iterate (o : pyobj) : outcome (list example) :=
  match o with
  | OExamples l => Return l
  | OStat (StVal (VList l)) | OVal (VList l) => Return (ExVal <$> l)
  | OStat (StVal (VStr s)) | OVal (VStr s) =>
      Return ((λ c, ExVal (VStr (String c ""))) <$> list_ascii_of_string s)
  | _ =>
      match items o with
      | Some d => Return ((λ kv, ExVal (VStr kv.1)) <$> d)
      | None => Raise TypeError
      end
  end.

(** [s[:n] + "..."] when [len(s) > n] *)
Definition shorten (n : nat) (s : string) : string :=
  if decide (n < String.length s) then substring 0 n s +:+ "..." else s.

(** The label of the row of an element: [f"  #{i+1}"]. *)
Definition numbered (i : nat) : string := "  #" +:+ pretty (i + 1).

Section details.
Context (repr : pyobj → string).
Context (repr_item : string → value → string).
Context (format_float : nat → stat → string).

(** [str(v)] *)
Definition str_value (v : value) : string :=
  match v with
  | VNone => "None"
  | VBool b => if b then "True" else "False"
  | VInt z => pretty z
  | VStr s => s
  | _ => repr (OVal v)
  end.

Definition py_str (o : pyobj) : string :=
  match o with
  | OStat (StVal v) | OVal v => str_value v
  | _ => repr o
  end.

Definition str_example (x : example) : string :=
  match x with
  | ExVal v => str_value v
  | ExItem k v => repr_item k v
  end.

(** [f"{o:.<digits>f}"]: the format of a number; [ValueError] for a string,
    [TypeError] for the other objects. *)
Definition format_f (digits : nat) (o : pyobj) : outcome string :=
  match o with
  | OStat (StSqrt radicand) => Return (format_float digits (StSqrt radicand))
  | OStat (StVal v) | OVal v =>
      if is_number v then Return (format_float digits (StVal v))
      else if isinstance v TStr then Raise ValueError
      else Raise TypeError
  | _ => Raise TypeError
  end.

(** ** [show_attribute_details(item, column)] *)

(** [if k in stats: addRow(label, QLabel(str(stats[k])))] *)
Definition row_if_in (k label : string) (stats : pyobj) : form unit :=
  do! present := call (py_in k stats) in
  if present then
    do! x := call (subscript k stats) in
    addRow label (py_str x)
  else io_ret ().

(** [if k in stats: addRow(label, QLabel(f"{stats[k]:.<digits>f}"))] *)
Definition row_f_if_in (k label : string) (digits : nat) (stats : pyobj)
    : form unit :=
  do! present := call (py_in k stats) in
  if present then
    do! x := call (subscript k stats) in
    do! text := call (format_f digits x) in
    addRow label text
  else io_ret ().

(** The body of the loops over examples. *)
Definition example_row (i : nat) (example : example) : form unit :=
  addRow (numbered i +:+ ":") (shorten 50 (str_example example)).

(** [if 'examples' in o: ...], for the statistics of an array and for a
    node. *)
Definition examples_rows (o : pyobj) : form unit :=
  do! present := call (py_in "examples" o) in
  if present then
    say! addRow "Examples:" "" in
    do! examples := call (try! x := subscript "examples" o in iterate x) in
    for_enumerate example_row 0 examples
  else io_ret ().

(** The body of the loops over the most and the least common values. *)
Definition common_row (i : nat) (common : example) : form unit :=
  do! value := call (subscript_example "value" common) in
  let value := match value with
               | VStr s => VStr (shorten 30 s)
               | _ => value
               end in
  do! count := call (subscript_example "count" common) in
  addRow (numbered i +:+ " (" +:+ str_value count +:+ " times)") (str_value value).

Definition common_rows (k label : string) (stats : pyobj) : form unit :=
  do! present := call (py_in k stats) in
  if present then
    say! addRow label "" in
    do! commons := call (try! x := subscript k stats in iterate x) in
    for_enumerate common_row 0 commons
  else io_ret ().

(** The rows of an array: [schema['type'] == 'array' and 'stats' in schema]. *)
Definition array_rows (schema stats : pyobj) : form unit :=
  do! count := call (py_get "count" (OVal (VInt 0)) stats) in
  say! addRow "Count:" (py_str count) in
  do! uniform := call (try! present := py_in "uniform_type" stats in
                       if present
                       then try! u := subscript "uniform_type" stats in
                            Return (obj_truthy u)
                       else Return false) in
  say! (if uniform : bool then
          do! element_type :=
            call (py_get "element_type" (OVal (VStr "unknown")) schema) in
          addRow "Element Type:" (py_str element_type)
        else io_ret ()) in
  say! row_if_in "min" "Min Value:" stats in
  say! row_if_in "max" "Max Value:" stats in
  say! row_f_if_in "mean" "Mean:" 2 stats in
  say! row_f_if_in "median" "Median:" 2 stats in
  say! row_f_if_in "stdev" "Std Dev:" 2 stats in
  say! row_if_in "min_length" "Min Length:" stats in
  say! row_if_in "max_length" "Max Length:" stats in
  say! row_f_if_in "avg_length" "Avg Length:" 1 stats in
  say! examples_rows stats in
  say! common_rows "most_common" "Most Common:" stats in
  common_rows "least_common" "Least Common:" stats.

(** The rows of a primitive: [elif 'stats' in schema]. *)
Definition value_rows (stats : pyobj) : form unit :=
  say! row_if_in "value" "Value:" stats in
  say! row_if_in "min" "Min Value:" stats in
  say! row_if_in "max" "Max Value:" stats in
  say! row_if_in "length" "Length:" stats in
  row_if_in "preview" "Preview:" stats.

(** The rows after the path, for the object the lookup returned. *)
Definition schema_rows (schema : pyobj) : form unit :=
  match items schema with
  | Some d =>
      if dict_mem "type" d then
        let type := getitem "type" d in
        say! addRow "Type:" (py_str type) in
        say! (if is_str "array" type && dict_mem "stats" d
              then array_rows schema (getitem "stats" d)
              else if dict_mem "stats" d then value_rows (getitem "stats" d)
              else io_ret ()) in
        examples_rows schema
      else io_ret ()
  | None => io_ret ()
  end.

(** The handler, for the row whose texts up to the root are [chain], on the
    analysis [schema_info]; the form is empty when it starts. *)
Definition show_attribute_details (schema_info : pyobj) (chain : list string)
    : form unit :=
  let path := _get_item_path chain in
  if bool_decide (path = []) then io_ret ()
  else
    do! schema := call (_get_schema_at_path schema_info path) in
    match schema with
    | Some schema =>
        if obj_truthy schema then
          say! addRow "Path:" (join " > " path) in
          schema_rows schema
        else io_ret ()
    | None => io_ret ()
    end.

End details.

(** ** Specification *)

(** The type the form shows for a node. *)
Definition node_type (n : schema_node) : string :=
  match n with
  | SObject _ => "object"
  | SArray _ _ _ => "array"
  | SPrim type _ _ _ => type
  end.

(** An entry of a frequency table. *)
Definition common_ok (v : value) : bool :=
  match v with
  | VDict d => dict_mem "value" d && dict_mem "count" d
  | _ => false
  end.

(** What the handler relies on in the statistics of an array: the entries it
    formats as numbers are numbers, the entries it loops over are lists, and
    the entries of the frequency tables have a value and a count. *)
Definition stat_ok (kv : string * stat) : bool :=
  if bool_decide (kv.1 ∈ ["mean"; "median"; "stdev"; "avg_length"]) then
    match kv.2 with StSqrt _ => true | StVal v => is_number v end
  else if bool_decide (kv.1 = "examples") then
    match kv.2 with StVal (VList _) => true | _ => false end
  else if bool_decide (kv.1 ∈ ["most_common"; "least_common"]) then
    match kv.2 with StVal (VList l) => forallb common_ok l | _ => false end
  else true.

Definition stats_ok (stats : dict stat) : Prop :=
  Forall (λ kv, stat_ok kv = true) stats.

Fixpoint node_typed (n : schema_node) : bool :=
  let typed_dict := forallb (λ kn : string * schema_node, node_typed kn.2) in
  match n with
  | SObject properties => typed_dict properties
  | SArray _ stats properties =>
      forallb stat_ok stats && from_option typed_dict true properties
  | SPrim type _ _ _ => negb (bool_decide (type = "array"))
  end.

Definition schema_typed (schema : dict schema_node) : Prop :=
  Forall (λ kn, node_typed kn.2 = true) schema.

(** ** An example runtime: rationals printed exactly *)

(** The decimal digits of [n], at least [digits] of them. *)
Definition padded (digits : nat) (n : Z) : string :=
  let s := pretty n in str_mul "0" (digits - String.length s) +:+ s.

(** [q] rounded to [digits] decimals, half to even. *)
Definition round_q (digits : nat) (q : Q) : Z :=
  let scaled := (2 * Qnum q * 10 ^ Z.of_nat digits)%Z in
  let den := (2 * Z.pos (Qden q))%Z in
  let fl := (scaled / den)%Z in
  let r := (scaled mod den)%Z in
  if (2 * r <? den)%Z then fl
  else if (den <? 2 * r)%Z then (fl + 1)%Z
  else if Z.even fl then fl else (fl + 1)%Z.

Definition fixed (digits : nat) (n : Z) : string :=
  let p := (10 ^ Z.of_nat digits)%Z in
  (if (n <? 0)%Z then "-" else "")
  +:+ pretty (Z.abs n / p)%Z +:+ "." +:+ padded digits (Z.abs n mod p)%Z.

Definition example_format (digits : nat) (s : stat) : string :=
  match s with
  | StVal v => fixed digits (round_q digits (num_of v))
  | StSqrt radicand =>
      let p := (10 ^ Z.of_nat digits)%Z in
      fixed digits
        ((Z.sqrt (4 * Qnum radicand * p * p / Z.pos (Qden radicand)) + 1) / 2)
  end.

Definition example_repr (o : pyobj) : string :=
  match o with
  | OVal (VFloat q) => fixed 1 (round_q 1 q)
  | _ => "{...}"
  end.

Definition example_repr_item (k : string) (v : value) : string :=
  "('" +:+ k +:+ "', ...)".

Definition details_of (doc : value) (chain : list string) : form unit :=
  show_attribute_details example_repr example_repr_item example_format
    (OSchema (analyze_json doc []).1) chain.

Definition details_doc : value :=
  VDict [("name", VStr "Ada");
         ("scores", VList (VInt <$> [1; 2; 3; 4]%Z));
         ("tags", VList (VStr <$> ["a"; "b"; "a"]));
         ("address", VDict [("city", VStr "Bern")])].


(** ** The statistics of an array are well typed *)

Lemma stats_ok_set k v stats :
  stat_ok (k, v) = true → stats_ok stats → stats_ok (dict_set k v stats).
Proof.
  unfold stats_ok. rewrite !Forall_forall. intros Hv Hs [k' v'] Hin.
  apply dict_set_elem in Hin as [[= -> ->]|Hin]; [done|by apply Hs].
Qed.

Lemma stats_ok_get k v stats :
  stats_ok stats → dict_get k stats = Some v → stat_ok (k, v) = true.
Proof.
  unfold stats_ok. rewrite Forall_forall. intros Hs Hk.
  by apply Hs, dict_get_Some_elem.
Qed.

Lemma is_number_of_fraction b q : is_number (of_fraction b q) = true.
Proof. unfold of_fraction. by destruct (_ && _). Qed.

Lemma statistics_mean_number l m : statistics_mean l = Some m → is_number m = true.
Proof. destruct l; [done|]. intros [= <-]. apply is_number_of_fraction. Qed.

Lemma statistics_median_number l m :
  forallb is_number l = true → statistics_median l = Some m → is_number m = true.
Proof.
  intros Hl%forallb_Forall. rewrite Forall_forall in Hl.
  unfold statistics_median. cbv zeta. case_decide; [done|].
  destruct (Nat.odd _).
  - intros Hm%list_elem_of_lookup_2%py_sorted_elem. by apply Hl.
  - intros Hm. by simplify_option_eq.
Qed.

Lemma numeric_examples_ok arr stats :
  stats_ok stats → stats_ok (numeric_examples arr stats).
Proof.
  intros Hs. unfold numeric_examples. repeat case_match; try done;
    by apply stats_ok_set.
Qed.

Lemma numeric_stats_ok arr stats :
  forallb is_number arr = true → stats_ok stats → stats_ok (numeric_stats arr stats).
Proof.
  intros Harr Hs. unfold numeric_stats.
  destruct (py_min arr); [|done]. destruct (py_max arr); [|by apply stats_ok_set].
  destruct (statistics_mean arr) as [mean|] eqn:Hmean; [|by repeat apply stats_ok_set].
  apply statistics_mean_number in Hmean.
  assert (stats_ok (dict_set "mean" (StVal mean)
            (dict_set "max" (StVal v0) (dict_set "min" (StVal v) stats)))) as Hs'.
  { by repeat apply stats_ok_set. }
  case_decide; [|by apply numeric_examples_ok].
  destruct (statistics_median arr) as [md|] eqn:Hmd; [|done].
  apply (statistics_median_number _ _ Harr) in Hmd.
  apply numeric_examples_ok. destruct (statistics_stdev_sq arr);
    by repeat apply stats_ok_set.
Qed.

Lemma common_entries_ok (l : list (string * nat)) :
  forallb common_ok (common_entry <$> l) = true.
Proof. apply forallb_Forall, Forall_fmap, Forall_forall. by intros [s n] _. Qed.

Lemma string_lengths_ok arr stats :
  stats_ok stats → stats_ok (string_lengths arr stats).
Proof.
  intros Hs. unfold string_lengths. cbv zeta. apply stats_ok_set; [done|].
  destruct (nat_max _); cbn [from_option]; [apply stats_ok_set; [done|]|];
    destruct (nat_min _); cbn [from_option]; by try apply stats_ok_set.
Qed.

Lemma stat_ok_commons k (l : list (string * nat)) :
  k = "most_common" ∨ k = "least_common" →
  stat_ok (k, StVal (VList (common_entry <$> l))) = true.
Proof. intros [-> | ->]; apply common_entries_ok. Qed.

Lemma string_common_ok arr stats :
  stats_ok stats → stats_ok (string_common arr stats).
Proof.
  intros Hs. unfold string_common. cbv zeta. case_decide; [|done].
  case_decide; case_bool_decide;
    repeat (apply stats_ok_set; [apply stat_ok_commons; auto|]); done.
Qed.

Lemma string_stats_ok arr stats g :
  stats_ok stats → stats_ok (string_stats arr stats g).1.
Proof.
  intros Hs%(string_lengths_ok arr)%(string_common_ok arr).
  unfold string_stats, string_examples. case_decide; [|done].
  case_decide; [destruct (random_sample_range _ _ _ _)|]; by apply stats_ok_set.
Qed.

Lemma compute_array_stats_ok arr g : stats_ok (_compute_array_stats arr g).1.
Proof.
  unfold _compute_array_stats.
  assert (stats_ok [("count", StVal (py_len arr))]) as Hc by by repeat constructor.
  destruct arr as [|first arr]; [done|]. cbv zeta.
  assert (∀ b, stats_ok (dict_set "uniform_type" (StVal (VBool b))
                           [("count", StVal (py_len (first :: arr)))])) as Hu.
  { intros b. by apply stats_ok_set. }
  case_match eqn:Hn.
  - apply andb_true_iff in Hn as [_ Hn]. by apply numeric_stats_ok.
  - case_match; [by apply string_stats_ok|apply Hu].
Qed.

(** ** The nodes of an analysis *)

Lemma node_typed_dict properties :
  forallb (λ kn : string * schema_node, node_typed kn.2) properties = true ↔
  schema_typed properties.
Proof. unfold schema_typed. by rewrite forallb_Forall. Qed.

Lemma analyze_object_typed v g :
  value_wf v → schema_typed (_analyze_object v g).1.
Proof.
  apply (analyze_object_all (λ n, node_typed n = true)).
  - intros p Hp. by apply node_typed_dict.
  - intros et l s p Hp. cbn [node_typed]. apply andb_true_iff. split.
    + apply forallb_Forall, compute_array_stats_ok.
    + destruct p; [by apply node_typed_dict|done].
  - intros key x obj. by destruct x.
Qed.

Lemma node_typed_children n properties :
  node_typed n = true → child_nodes n = Some properties → schema_typed properties.
Proof.
  destruct n as [p|et st [p|]|]; intros Hp [= <-]; cbn [node_typed] in Hp.
  - by apply node_typed_dict.
  - apply andb_true_iff in Hp as [_ Hp]. by apply node_typed_dict.
Qed.

Lemma row_of_typed schema texts n :
  schema_typed schema → row_of schema texts n → node_typed n = true.
Proof.
  intros Hs Hrow.
  assert (∀ schema k n, schema_typed schema → (k, n) ∈ schema →
            node_typed n = true) as Helem.
  { intros s k m Hall Hin. unfold schema_typed in Hall.
    rewrite Forall_forall in Hall. apply (Hall _ Hin). }
  induction Hrow as [schema k n Hin|schema k et st p Hin
                     |schema k p texts n Hin _ IH|schema k et st p texts n Hin _ IH];
    [by eapply Helem..| |]; apply IH;
    by eapply node_typed_children; [eapply Helem|].
Qed.

(** ** The handler on the dicts of a schema *)

Lemma subscript_dict k o d :
  items o = Some d → dict_mem k d = true →
  ∃ x, dict_get k d = Some x ∧ subscript k o = Return x.
Proof.
  intros Ho Hk. unfold subscript. rewrite Ho.
  destruct (dict_get k d) as [x|] eqn:E; [by exists x|].
  by rewrite (dict_mem_None _ _ E) in Hk.
Qed.

Lemma stats_get k stats x :
  dict_get k (prod_map id OStat <$> stats) = Some x →
  ∃ s, x = OStat s ∧ dict_get k stats = Some s.
Proof.
  rewrite dict_get_fmap. destruct (dict_get k stats) as [s|]; [|done].
  intros [= <-]. by exists s.
Qed.

Lemma iterate_commons l :
  forallb common_ok l = true →
  ∃ xs, iterate (OStat (StVal (VList l))) = Return xs ∧
        Forall (λ x, ∃ v, x = ExVal v ∧ common_ok v = true) xs.
Proof.
  intros Hl%forallb_Forall. eexists. split; [done|].
  apply Forall_fmap. eapply Forall_impl; [exact Hl|]. intros v Hv. by exists v.
Qed.

Section handler.
Context (repr : pyobj → string).
Context (repr_item : string → value → string).
Context (format_float : nat → stat → string).

#[local] Abbreviation returns m := (∃ log u, m = (log, Return u)).
#[local] Abbreviation row_if_in := (row_if_in repr).
#[local] Abbreviation row_f_if_in := (row_f_if_in format_float).
#[local] Abbreviation examples_rows := (examples_rows repr repr_item).
#[local] Abbreviation common_rows := (common_rows repr).
#[local] Abbreviation array_rows := (array_rows repr repr_item format_float).
#[local] Abbreviation value_rows := (value_rows repr).
#[local] Abbreviation schema_rows := (schema_rows repr repr_item format_float).
#[local] Abbreviation show_attribute_details :=
  (show_attribute_details repr repr_item format_float).

Lemma addRow_returns label text : returns (addRow label text).
Proof. by eexists _, _. Qed.

Lemma row_if_in_returns k label o d :
  items o = Some d → returns (row_if_in k label o).
Proof.
  intros Ho. unfold Details.row_if_in.
  rewrite (py_in_dict _ _ _ Ho), io_bind_call.
  destruct (dict_mem k d) eqn:Hk; [|by eexists _, _].
  destruct (subscript_dict _ _ _ Ho Hk) as (x & _ & ->).
  rewrite io_bind_call. apply addRow_returns.
Qed.

Lemma row_f_if_in_returns k label digits o d :
  items o = Some d →
  (∀ x, dict_get k d = Some x → ∃ text, format_f format_float digits x = Return text) →
  returns (row_f_if_in k label digits o).
Proof.
  intros Ho Hfmt. unfold Details.row_f_if_in.
  rewrite (py_in_dict _ _ _ Ho), io_bind_call.
  destruct (dict_mem k d) eqn:Hk; [|by eexists _, _].
  destruct (subscript_dict _ _ _ Ho Hk) as (x & Hx & ->).
  rewrite io_bind_call. destruct (Hfmt _ Hx) as [text ->].
  rewrite io_bind_call. apply addRow_returns.
Qed.

Lemma examples_rows_returns o d :
  items o = Some d →
  (∀ x, dict_get "examples" d = Some x → ∃ l, iterate x = Return l) →
  returns (examples_rows o).
Proof.
  intros Ho Hiter. unfold Details.examples_rows.
  rewrite (py_in_dict _ _ _ Ho), io_bind_call.
  destruct (dict_mem "examples" d) eqn:Hk; [|by eexists _, _].
  destruct (subscript_dict _ _ _ Ho Hk) as (x & Hx & ->).
  destruct (Hiter _ Hx) as [l Hl].
  apply io_bind_returns; [apply addRow_returns|]. intros _.
  cbn [and_then]. rewrite Hl, io_bind_call.
  apply for_enumerate_returns. intros i e _. apply addRow_returns.
Qed.

Lemma common_row_returns i v :
  common_ok v = true → returns (common_row repr i (ExVal v)).
Proof.
  destruct v as [| | | | | |d]; try done. cbn [common_ok].
  intros [Hv Hc]%andb_true_iff. unfold common_row, subscript_example.
  destruct (dict_get "value" d) as [value|] eqn:Ev;
    [|by rewrite (dict_mem_None _ _ Ev) in Hv].
  destruct (dict_get "count" d) as [count|] eqn:Ec;
    [|by rewrite (dict_mem_None _ _ Ec) in Hc].
  cbn [from_option]. rewrite !io_bind_call. apply addRow_returns.
Qed.

Lemma common_rows_returns k label o d :
  items o = Some d →
  (∀ x, dict_get k d = Some x →
     ∃ xs, iterate x = Return xs ∧
           Forall (λ x, ∃ v, x = ExVal v ∧ common_ok v = true) xs) →
  returns (common_rows k label o).
Proof.
  intros Ho Hiter. unfold Details.common_rows.
  rewrite (py_in_dict _ _ _ Ho), io_bind_call.
  destruct (dict_mem k d) eqn:Hk; [|by eexists _, _].
  destruct (subscript_dict _ _ _ Ho Hk) as (x & Hx & ->).
  destruct (Hiter _ Hx) as (xs & Hxs & Hall).
  apply io_bind_returns; [apply addRow_returns|]. intros _.
  cbn [and_then]. rewrite Hxs, io_bind_call.
  apply for_enumerate_returns. intros i e He.
  rewrite Forall_forall in Hall. destruct (Hall _ He) as (v & -> & Hv).
  by apply common_row_returns.
Qed.

Lemma format_f_stat k digits stats x :
  k ∈ ["mean"; "median"; "stdev"; "avg_length"] → stats_ok stats →
  dict_get k (prod_map id OStat <$> stats) = Some x →
  ∃ text, format_f format_float digits x = Return text.
Proof.
  intros Hk Hs (s & -> & Hget)%stats_get.
  apply (stats_ok_get _ _ _ Hs) in Hget. unfold stat_ok in Hget.
  rewrite bool_decide_eq_true_2 in Hget by done. cbn [snd] in Hget.
  destruct s as [v|q]; cbn [format_f]; [rewrite Hget|]; by eexists.
Qed.

Lemma iterate_stat k stats x :
  k = "most_common" ∨ k = "least_common" → stats_ok stats →
  dict_get k (prod_map id OStat <$> stats) = Some x →
  ∃ xs, iterate x = Return xs ∧
        Forall (λ x, ∃ v, x = ExVal v ∧ common_ok v = true) xs.
Proof.
  intros Hk Hs (s & -> & Hget)%stats_get.
  apply (stats_ok_get _ _ _ Hs) in Hget.
  destruct s as [[| | | | |l|]|]; try (by destruct Hk as [-> | ->]).
  apply iterate_commons. by destruct Hk as [-> | ->].
Qed.

Lemma iterate_examples stats x :
  stats_ok stats →
  dict_get "examples" (prod_map id OStat <$> stats) = Some x →
  ∃ l, iterate x = Return l.
Proof.
  intros Hs (s & -> & Hget)%stats_get.
  apply (stats_ok_get _ _ _ Hs) in Hget.
  destruct s as [[| | | | |l|]|]; try done. by eexists.
Qed.

Lemma uniform_returns stats :
  ∃ b, (try! present := py_in "uniform_type" (OStats stats) in
        if present
        then try! u := subscript "uniform_type" (OStats stats) in
             Return (obj_truthy u)
        else Return false) = Return b.
Proof.
  rewrite (py_in_dict _ (OStats stats) _ eq_refl). cbn [and_then].
  destruct (dict_mem _ _) eqn:Hk; [|by eexists].
  destruct (subscript_dict _ (OStats stats) _ eq_refl Hk) as (x & _ & ->).
  by eexists.
Qed.

Lemma array_rows_returns schema d stats :
  items schema = Some d → stats_ok stats →
  returns (array_rows schema (OStats stats)).
Proof.
  intros Hd Hs. unfold Details.array_rows.
  assert (items (OStats stats) = Some (prod_map id OStat <$> stats)) as Ho by done.
  unfold py_get at 1. rewrite Ho, io_bind_call.
  apply io_bind_returns; [apply addRow_returns|]. intros _.
  destruct (uniform_returns stats) as [b ->]. rewrite io_bind_call.
  apply io_bind_returns.
  { destruct b; [|by eexists _, _]. unfold py_get. rewrite Hd, io_bind_call.
    apply addRow_returns. }
  intros _.
  repeat (apply io_bind_returns; [|intros _]);
    try (by eapply row_if_in_returns);
    try (eapply row_f_if_in_returns; [done|];
         intros x; apply format_f_stat; [set_solver|done]).
  - eapply examples_rows_returns; [done|]. intros x. by apply iterate_examples.
  - eapply common_rows_returns; [done|]. intros x. apply iterate_stat; auto.
  - eapply common_rows_returns; [done|]. intros x. apply iterate_stat; auto.
Qed.

Lemma value_rows_returns stats : returns (value_rows (OValueStats stats)).
Proof.
  unfold Details.value_rows.
  repeat (apply io_bind_returns; [|intros _]); by eapply row_if_in_returns.
Qed.

(** The handler on the dict of a node, branch by branch. *)
Lemma schema_rows_object properties :
  schema_rows (ONode (SObject properties)) = ([("Type:", "object")], Return ()).
Proof. reflexivity. Qed.

Lemma schema_rows_array element_type stats properties :
  schema_rows (ONode (SArray element_type stats properties)) =
  say! addRow "Type:" "array" in
  say! array_rows (ONode (SArray element_type stats properties)) (OStats stats) in
  examples_rows (ONode (SArray element_type stats properties)).
Proof. reflexivity. Qed.

Lemma schema_rows_prim type v stats ex :
  type ≠ "array" →
  schema_rows (ONode (SPrim type v stats ex)) =
  say! addRow "Type:" type in
  say! value_rows (OValueStats stats) in
  examples_rows (ONode (SPrim type v stats ex)).
Proof.
  intros Ht. unfold Details.schema_rows. cbn [items].
  change (is_str "array" (getitem "type" _)) with (bool_decide (type = "array")).
  by rewrite bool_decide_eq_false_2.
Qed.

(** The rows of a node: its type, then the rows of its kind. *)
Lemma schema_rows_node n :
  node_typed n = true →
  ∃ rest, schema_rows (ONode n) = (("Type:", node_type n) :: rest, Return ()).
Proof.
  intros Hn.
  cut (∃ log u, schema_rows (ONode n) = (("Type:", node_type n) :: log, Return u)).
  { intros (log & [] & ->). by exists log. }
  assert (∀ (m : form unit) text, returns m →
            ∃ log u, io_bind (addRow "Type:" text) (λ _, m)
                     = (("Type:", text) :: log, Return u)) as Hrow.
  { intros m text (log & u & ->). by eexists _, _. }
  destruct n as [p|et stats p|type v stats ex]; cbn [node_typed] in Hn.
  - rewrite schema_rows_object. by eexists _, _.
  - apply andb_true_iff in Hn as [Hs%forallb_Forall _]. rewrite schema_rows_array.
    apply Hrow, io_bind_returns; [by eapply array_rows_returns|]. intros _.
    eapply examples_rows_returns; [done|]. by destruct p.
  - apply negb_true_iff, bool_decide_eq_false in Hn.
    rewrite schema_rows_prim by done.
    apply Hrow, io_bind_returns; [apply value_rows_returns|]. intros _.
    eapply examples_rows_returns; [done|]. intros x [= <-]. by eexists.
Qed.

(** ** The form of a row *)

Lemma details_row schema texts :
  schema_wf schema → plain_schema schema → schema_typed schema →
  "__array_stats" ∉ dict_keys schema →
  texts_in (update_schema_tree (prod_map id ENode <$> schema)) texts →
  (texts = ["[Root]"] ∧
   show_attribute_details (OProps schema) (reverse texts) = ([], Return ()))
  ∨ ∃ texts' n rest, texts = "[Root]" :: texts' ∧ row_of schema texts' n ∧
      show_attribute_details (OProps schema) (reverse texts)
      = (("Path:", join " > " (_get_item_path (reverse texts)))
           :: ("Type:", node_type n) :: rest, Return ()).
Proof.
  intros Hwf Hplain Htyped Hroot Htexts.
  destruct (schema_rows_resolve _ _ Hwf Hplain Hroot Htexts)
    as [->|(texts' & n & -> & Hrow & Hget)]; [by left|right].
  exists texts', n.
  destruct (schema_rows_node n (row_of_typed _ _ _ Htyped Hrow)) as [rest Hrest].
  exists rest. split; [done|]. split; [done|].
  unfold Details.show_attribute_details. cbv zeta.
  destruct (_get_item_path _) as [|k p] eqn:Hp; [done|].
  rewrite bool_decide_eq_false_2 by done.
  rewrite Hget, io_bind_call. cbn [obj_truthy]. unfold addRow.
  by rewrite io_bind_tell, Hrest.
Qed.

Lemma details_root_array_row l g k :
  l ≠ [] → key_ok k →
  dict_mem "type" (analyze_json (VList l) g).1 = false →
  show_attribute_details (OSchema (analyze_json (VList l) g).1) [k; "[Root]"]
  = ([("Path:", k)], Return ()).
Proof.
  intros Hl Hk Htype. pose proof (analyze_json_list_root l g Hl) as Hroot.
  unfold Details.show_attribute_details, _get_item_path. cbn [fold_left].
  rewrite (decide_True (P:=key_ok k)) by done.
  rewrite decide_False by (by intros []).
  cbv zeta. rewrite bool_decide_eq_false_2 by done.
  cbn [_get_schema_at_path]. rewrite (walk_root_array _ _ _ Hroot). cbn [walk].
  rewrite io_bind_call.
  destruct (analyze_json (VList l) g).1 as [|e schema] eqn:E; [done|].
  cbn [obj_truthy length]. rewrite bool_decide_eq_false_2 by done. cbn [negb].
  unfold Details.schema_rows. cbn [items]. by rewrite dict_mem_fmap, Htype.
Qed.

End handler.

(** ** The texts of the examples are short *)

Lemma shorten_length n s : String.length (shorten n s) ≤ n + 3.
Proof.
  unfold shorten. case_decide; [|lia].
  rewrite String_length_app, substring_0_length by lia. simpl. lia.
Qed.

Lemma example_row_short repr repr_item i e :
  ∃ label text, example_row repr repr_item i e = ([(label, text)], Return ()) ∧
                String.length text ≤ 53.
Proof. eexists _, _. split; [done|apply shorten_length]. Qed.

(** ** Properties *)

(** [C12] A click on a row of the browser of an object document with distinct
    keys at every level, plain keys and no key ['__array_stats'] never
    raises (its numbers being such that the formats return): the root row
    leaves the form empty, and every other row fills it
    with the path of the row joined by [" > "], then the type of the node the
    row was built from, then the rows of the statistics of that node. *)
Theorem details_of_row repr repr_item format_float items g texts :
  value_wf (VDict items) → plain_doc (VDict items) = true →
  "__array_stats" ∉ dict_keys items →
  let schema_info := (analyze_json (VDict items) g).1 in
  let form := show_attribute_details repr repr_item format_float
                (OSchema schema_info) (reverse texts) in
  texts_in (update_schema_tree schema_info) texts →
  (texts = ["[Root]"] ∧ form = ([], Return ()))
  ∨ ∃ texts' n rest, texts = "[Root]" :: texts' ∧
      row_of (_analyze_object (VDict items) g).1 texts' n ∧
      form = (("Path:", join " > " (_get_item_path (reverse texts)))
                :: ("Type:", node_type n) :: rest, Return ()).
Proof.
  intros Hwf Hplain Hroot. cbv zeta. rewrite analyze_json_object.
  apply details_row; [by apply analyze_object_wf|by apply analyze_object_plain
                     |by apply analyze_object_typed|].
  apply analyze_object_root_key; [|done]. by apply value_wf_dict in Hwf as [].
Qed.

(** [C29] In the browser of a non-empty root array whose elements have no key
    ['type'], a click on the row of a top-level attribute shows the path of
    the row and nothing else: the lookup skips the first segment and returns
    the whole analysis, which has no type. *)
Theorem details_root_array repr repr_item format_float l g k :
  l ≠ [] → key_ok k →
  dict_mem "type" (analyze_json (VList l) g).1 = false →
  show_attribute_details repr repr_item format_float
    (OSchema (analyze_json (VList l) g).1) [k; "[Root]"]
  = ([("Path:", k)], Return ()).
Proof. apply details_root_array_row. Qed.

(** The statistics [_compute_array_stats] gives for an array are what
    the handler expects of them: the mean, the median, the deviation and the
    average length are numbers, the examples are a list, and every entry of
    the two frequency tables is a dict with a value and a count. *)
Theorem array_stats_typed arr g : stats_ok (_compute_array_stats arr g).1.
Proof. apply compute_array_stats_ok. Qed.

(** ** Examples *)

(** The forms of the rows of the example document. *)
Example details_doc_forms :
  details_of details_doc ["name"; "[Root]"]
  = ([("Path:", "name"); ("Type:", "str"); ("Length:", "3"); ("Preview:", "Ada");
      ("Examples:", ""); ("  #1:", "Ada")], Return ())
  ∧ details_of details_doc ["scores"; "[Root]"]
    = ([("Path:", "scores"); ("Type:", "array"); ("Count:", "4");
        ("Element Type:", "int"); ("Min Value:", "1"); ("Max Value:", "4");
        ("Mean:", "2.50"); ("Median:", "2.50"); ("Std Dev:", "1.29")], Return ())
  ∧ details_of details_doc ["tags"; "[Root]"]
    = ([("Path:", "tags"); ("Type:", "array"); ("Count:", "3");
        ("Element Type:", "str"); ("Min Length:", "1"); ("Max Length:", "1");
        ("Avg Length:", "1.0"); ("Most Common:", "");
        ("  #1 (2 times)", "a"); ("  #2 (1 times)", "b")], Return ())
  ∧ details_of details_doc ["city"; "address"; "[Root]"]
    = ([("Path:", "address > city"); ("Type:", "str"); ("Length:", "4");
        ("Preview:", "Bern"); ("Examples:", ""); ("  #1:", "Bern")], Return ())
  ∧ details_of details_doc ["[Root]"] = ([], Return ()).
Proof. by vm_compute. Qed.

(** Keys that are the analyzer's own: a click raises and leaves the form
    empty, shows the path alone for the type of an object, or shows the node
    of a key as the type and the node of another as the statistics. *)
Example details_collisions :
  details_of collision_doc ["x"; "count"; "stats"; "elements"; "k"; "[Root]"]
  = ([], Raise TypeError)
  ∧ details_of collision_doc ["type"; "o"; "[Root]"]
    = ([("Path:", "o > type")], Return ())
  ∧ details_of (VDict [("o", VDict [("properties", VInt 1); ("type", VInt 2);
                                    ("stats", VStr "x")])])
               ["properties"; "o"; "[Root]"]
    = ([("Path:", "o > properties"); ("Type:", "{...}"); ("Value:", "x")],
       Return ()).
Proof. by vm_compute. Qed.

(** A root array: the row of [a] shows its path and no type. *)
Example details_root_array_doc :
  details_of (VList [VDict [("a", VInt 1)]]) ["a"; "[Root]"]
  = ([("Path:", "a")], Return ()).
Proof. by vm_compute. Qed.

Lemma details_doc_row :
  texts_in (update_schema_tree (analyze_json details_doc []).1)
           ["[Root]"; "address"; "city"].
Proof. by apply (texts_to_in _ [0; 3; 0]). Qed.

Lemma details_of_row_witness :
  let texts := ["[Root]"; "address"; "city"] in
  let form := details_of details_doc (reverse texts) in
  (texts = ["[Root]"] ∧ form = ([], Return ()))
  ∨ ∃ texts' n rest, texts = "[Root]" :: texts' ∧
      row_of (_analyze_object details_doc []).1 texts' n ∧
      form = (("Path:", join " > " (_get_item_path (reverse texts)))
                :: ("Type:", node_type n) :: rest, Return ()).
Proof.
  apply (details_of_row example_repr example_repr_item example_format);
    [done|done| |apply details_doc_row].
  by apply dict_get_None; vm_compute.
Defined.

Lemma details_root_array_witness :
  details_of (VList [VDict [("a", VInt 1)]]) ["a"; "[Root]"]
  = ([("Path:", "a")], Return ()).
Proof.
  apply (details_root_array example_repr example_repr_item example_format);
    [done|by vm_compute|done].
Defined.
