(* ===== verification/History.v ===== *)
(** * History: the query line with its history ([JqQueryInput])

    [JqQueryInput] of [src/gui.py] is the line edit of the jq query.  Its
    state is the text of the line and the three attributes [history],
    [history_index] and [current_input]; [keyPressEvent] is the one handler,
    a function from a key and a state to the next state and the call it makes
    on the window ([run_jq_query] or [reset_to_original_json]), if any.

    The file proves the invariant of the key_reachable states (at most 50 entries,
    none empty, no entry equal to its successor, the index within the
    history), that [navigate_history] never indexes out of range, the round
    trip of Up and Down and that the test of the Return branch accepts what
    [add_to_history] accepts. *)

From stdpp Require Import pretty.
From S2P Require Import Prelude PyStr.

(** ** State *)

Record query_input : Type := QueryInput {
  text : string;
  history : list string;
  history_index : Z;
  current_input : string;
}.

(** [JqQueryInput.__init__]. *)
Definition query_input_init : query_input :=
  {| text := ""; history := []; history_index := -1; current_input := "" |}.

(** What a key asks of the window. *)
Inductive action : Type :=
| RunQuery          (* parent_window.run_jq_query() *)
| ResetView.        (* parent_window.reset_to_original_json() *)

Inductive key : Type :=
| KeyUp | KeyDown | KeyEscape | KeyReturn
| KeyText (new_text : string).   (* any other key: the line edit's own editing *)

(** ** Operations *)

Definition history_limit : nat := 50.

(** [self.history[-50:]] *)
Definition last_entries (n : nat) (l : list string) : list string :=
  drop (length l - n) l.

(** [add_to_history]: a non-empty query that differs from the last entry is
    appended, and the history is cut to its last 50 entries. *)
Definition add_to_history (query : string) (q : query_input) : query_input :=
  if negb (bool_decide (query = "")) &&
     (bool_decide (history q = []) || negb (bool_decide (Some query = last (history q))))
  then
    let history := history q ++ [query] in
    let history :=
      if decide (history_limit < length history)
      then last_entries history_limit history else history in
    {| text := text q; history := history;
       history_index := history_index q; current_input := current_input q |}
  else q.

(** [navigate_history]: [direction] is 1 for Up (older) and -1 for Down.
    Index -1 is the line being typed, index [i >= 0] the entry
    [history[len - 1 - i]].  The lookup cannot fail
    ([navigate_history_fields]); the model keeps the text where it would. *)
Definition navigate_history (direction : Z) (q : query_input) : query_input :=
  match history q with
  | [] => q
  | _ =>
      let current_input :=
        if decide (history_index q = -1)%Z then text q else current_input q in
      let new_index := (history_index q + direction)%Z in
      let new_index :=
        if decide (Z.of_nat (length (history q)) ≤ new_index)%Z
        then (Z.of_nat (length (history q)) - 1)%Z
        else if decide (new_index < -1)%Z then (-1)%Z
        else new_index in
      let shown :=
        if decide (new_index = -1)%Z then Some current_input
        else history q !! Z.to_nat (Z.of_nat (length (history q)) - 1 - new_index) in
      {| text := default (text q) shown; history := history q;
         history_index := new_index; current_input := current_input |}
  end.

(** [keyPressEvent]: [parent_window] and [current_json_file] are the
    truth values of the two attributes the handler tests.  The test of the
    Return branch is the source's [query and not history or (history and
    query != history[-1])] with Python's precedence. *)
Definition keyPressEvent (parent_window current_json_file : bool) (k : key)
    (q : query_input) : query_input * option action :=
  match k with
  | KeyUp => (navigate_history 1 q, None)
  | KeyDown => (navigate_history (-1) q, None)
  | KeyEscape =>
      let q := {| text := ""; history := history q;
                  history_index := history_index q;
                  current_input := current_input q |} in
      (q, if parent_window && current_json_file then Some ResetView else None)
  | KeyReturn =>
      let query := strip (text q) in
      let q :=
        if (negb (bool_decide (query = "")) && bool_decide (history q = []))
           || (negb (bool_decide (history q = []))
               && negb (bool_decide (Some query = last (history q))))
        then add_to_history query q else q in
      let q := {| text := text q; history := history q;
                  history_index := -1; current_input := current_input q |} in
      (q, if parent_window then Some RunQuery else None)
  | KeyText new_text =>
      ({| text := new_text; history := history q;
          history_index := history_index q;
          current_input := current_input q |}, None)
  end.

(** ** The key_reachable states *)

Definition key_step (parent_window current_json_file : bool) (q : query_input)
    (k : key) : query_input :=
  (keyPressEvent parent_window current_json_file k q).1.

Inductive key_reachable : query_input → Prop :=
| key_reachable_init : key_reachable query_input_init
| key_reachable_step p f q k : key_reachable q → key_reachable (key_step p f q k).

(** ** Specification vocabulary *)

(** The index after the boundary checks. *)
Definition clamp (len : nat) (i : Z) : Z :=
  (if decide (Z.of_nat len ≤ i) then Z.of_nat len - 1
   else if decide (i < -1) then -1 else i)%Z.

(** The entry [i] steps back from the most recent one. *)
Definition entry_back (l : list string) (i : Z) : option string :=
  l !! Z.to_nat (Z.of_nat (length l) - 1 - i).

(** No entry is equal to the next one. *)
Definition no_repeat (l : list string) : Prop :=
  ∀ i x, l !! i = Some x → l !! S i ≠ Some x.

Record history_ok (q : query_input) : Prop := HistoryOk {
  ok_length : length (history q) ≤ history_limit;
  ok_index : (-1 ≤ history_index q < Z.of_nat (length (history q)) `max` 0)%Z;
  ok_nonempty : Forall (λ s, s ≠ "") (history q);
  ok_no_repeat : no_repeat (history q);
}.

(** ** Examples of states *)

Definition typed (l : list string) : query_input :=
  foldl (λ q s, key_step true true (key_step true true q (KeyText s)) KeyReturn) query_input_init l.

(** A state whose history is full: the decimal numerals of 0 to 49. *)
Definition full_history : query_input :=
  {| text := ""; history := (λ n : nat, pretty n) <$> seq 0 50;
     history_index := -1; current_input := "" |}.

(** ** The invariant *)

Lemma no_repeat_snoc l x : no_repeat l → last l ≠ Some x → no_repeat (l ++ [x]).
Proof.
  intros Hl Hx i y Hi HSi.
  apply lookup_app_Some in HSi as [HSi|[Hlen HSi]].
  - pose proof (lookup_lt_Some _ _ _ HSi).
    rewrite lookup_app_l in Hi by lia. exact (Hl _ _ Hi HSi).
  - apply list_lookup_singleton_Some in HSi as [Hz ->].
    rewrite lookup_app_l in Hi by (simpl in *; lia).
    apply Hx. rewrite last_lookup, <-Hi. f_equal. simpl in *. lia.
Qed.

Lemma no_repeat_drop n l : no_repeat l → no_repeat (drop n l).
Proof.
  intros Hl i x. rewrite !lookup_drop. replace (n + S i) with (S (n + i)) by lia.
  apply Hl.
Qed.

(** What [add_to_history] tests, as propositions. *)
Lemma add_to_history_accepts query q :
  negb (bool_decide (query = "")) &&
    (bool_decide (history q = []) ||
     negb (bool_decide (Some query = last (history q)))) = true ↔
  query ≠ "" ∧ last (history q) ≠ Some query.
Proof.
  rewrite andb_true_iff, orb_true_iff, !negb_true_iff, !bool_decide_eq_false,
    bool_decide_eq_true.
  split; [intros [? [->|?]]; split; done || congruence|].
  intros [? ?]. split; [done|]. right. congruence.
Qed.

Lemma add_to_history_no_repeat query q :
  no_repeat (history q) → no_repeat (history (add_to_history query q)).
Proof.
  intros Hl. unfold add_to_history.
  destruct (negb _ && _) eqn:E; [|done].
  apply add_to_history_accepts in E as [_ Hlast]. cbn [history].
  case_decide; [apply no_repeat_drop|]; by apply no_repeat_snoc.
Qed.

Lemma add_to_history_nonempty query q :
  Forall (λ s, s ≠ "") (history q) →
  Forall (λ s, s ≠ "") (history (add_to_history query q)).
Proof.
  intros Hne. unfold add_to_history.
  destruct (negb _ && _) eqn:E; [|done].
  apply add_to_history_accepts in E as [Hq _]. cbn [history].
  case_decide; [apply Forall_drop|]; apply Forall_app; by repeat constructor.
Qed.

Lemma add_to_history_length query q :
  length (history q) ≤ history_limit →
  length (history q) ≤ length (history (add_to_history query q)) ≤ history_limit.
Proof.
  unfold add_to_history, last_entries, history_limit. intros Hlen.
  destruct (negb _ && _); [|lia]. cbn [history].
  case_decide; rewrite ?length_drop, !length_app in *; simpl in *; lia.
Qed.

Lemma add_to_history_index query q :
  history_index (add_to_history query q) = history_index q.
Proof. unfold add_to_history. by destruct (negb _ && _). Qed.

Lemma add_to_history_ok query q :
  history_ok q → history_ok (add_to_history query q).
Proof.
  intros [Hlen Hidx Hne Hrep].
  pose proof (add_to_history_length query q Hlen).
  split; rewrite ?add_to_history_index;
    auto using add_to_history_no_repeat, add_to_history_nonempty; lia.
Qed.

Lemma navigate_history_ok d q : history_ok q → history_ok (navigate_history d q).
Proof.
  intros [Hlen Hidx Hne Hrep]. unfold navigate_history.
  destruct (history q) as [|h l] eqn:Hh; [by split; rewrite ?Hh|].
  split; cbn [history history_index]; rewrite ?Hh; try done.
  repeat case_decide; simpl length in *; lia.
Qed.

Lemma key_step_ok p f q k : history_ok q → history_ok (key_step p f q k).
Proof.
  intros Hq. destruct k; unfold key_step; cbn [keyPressEvent fst];
    auto using navigate_history_ok.
  - by destruct Hq.
  - match goal with |- context [if ?b then add_to_history ?x q else q] =>
      assert (history_ok (if b then add_to_history x q else q)) as [Hl _ Hn Hr]
        by (destruct b; auto using add_to_history_ok)
    end.
    split; cbn [history history_index]; [done|lia|done|done].
  - by destruct Hq.
Qed.

Lemma query_input_init_ok : history_ok query_input_init.
Proof. split; simpl; [lia|lia|constructor|by intros ?]. Qed.

(** [C14] Every state of the query line reachable by key presses has at most
    50 history entries, none of them empty and none equal to the entry after
    it, and a history index between -1 and the last position. *)
Theorem history_invariant q : key_reachable q → history_ok q.
Proof. induction 1; [apply query_input_init_ok|by apply key_step_ok]. Qed.

(** ** Functional behaviour *)

Lemma navigate_history_empty d q : history q = [] → navigate_history d q = q.
Proof. unfold navigate_history. by intros ->. Qed.

Lemma clamp_range len i : 0 < len → (-1 ≤ clamp len i < Z.of_nat len)%Z.
Proof. unfold clamp. repeat case_decide; lia. Qed.

Lemma entry_back_Some l i :
  (0 ≤ i < Z.of_nat (length l))%Z → is_Some (entry_back l i).
Proof. intros. apply lookup_lt_is_Some. lia. Qed.

Lemma navigate_history_fields d q :
  history q ≠ [] →
  let q' := navigate_history d q in
  let saved := if decide (history_index q = -1)%Z then text q else current_input q in
  history q' = history q ∧
  history_index q' = clamp (length (history q)) (history_index q + d) ∧
  current_input q' = saved ∧
  (if decide (history_index q' = -1)%Z then text q' = saved
   else entry_back (history q) (history_index q') = Some (text q')).
Proof.
  intros Hne. unfold navigate_history.
  destruct (history q) as [|h l] eqn:Hh; [done|]. cbn zeta.
  fold (clamp (length (h :: l)) (history_index q + d)).
  fold (entry_back (h :: l) (clamp (length (h :: l)) (history_index q + d))).
  cbn [history history_index current_input text].
  split_and!; try done.
  pose proof (clamp_range (length (h :: l)) (history_index q + d) ltac:(simpl; lia)).
  case_decide; [done|].
  destruct (entry_back_Some (h :: l) (clamp (length (h :: l)) (history_index q + d)))
    as [s Hs]; [lia|]. by rewrite Hs.
Qed.

(** [C37] [navigate_history] on a non-empty history, whatever the index was:
    the history is unchanged, the new index is the old one plus the direction
    clamped to [-1, len - 1], the typed line is saved when navigation starts,
    and the line shows the saved input at index -1 and otherwise the entry
    [history[len - 1 - index]], which exists: the lookup never raises. *)
Theorem navigate_history_spec d q :
  history q ≠ [] →
  let q' := navigate_history d q in
  let saved := if decide (history_index q = -1)%Z then text q else current_input q in
  history q' = history q ∧
  history_index q' = clamp (length (history q)) (history_index q + d) ∧
  current_input q' = saved ∧
  (if decide (history_index q' = -1)%Z then text q' = saved
   else entry_back (history q) (history_index q') = Some (text q')).
Proof. apply navigate_history_fields. Qed.

(** Up followed by Down, from the line being typed, restores the line. *)
Theorem navigate_up_down q :
  history_index q = (-1)%Z →
  text (navigate_history (-1) (navigate_history 1 q)) = text q.
Proof.
  intros Hi. destruct (decide (history q = [])) as [He|Hne].
  { by rewrite (navigate_history_empty 1 q He), (navigate_history_empty _ q He). }
  destruct (navigate_history_fields 1 q Hne) as (Hh & Hidx & Hsaved & _).
  cbn zeta in *. rewrite Hi in *. rewrite decide_True in Hsaved by done.
  assert (Hne' : history (navigate_history 1 q) ≠ []) by by rewrite Hh.
  destruct (navigate_history_fields (-1) _ Hne') as (_ & Hidx' & Hsaved' & Ht).
  cbn zeta in *. rewrite Hh, Hidx in *.
  assert (0 < length (history q)) by (destruct (history q); [done|simpl; lia]).
  assert (clamp (length (history q)) (-1 + 1) = 0%Z) as Hc
    by (unfold clamp; repeat case_decide; lia).
  rewrite Hc in *.
  assert (clamp (length (history q)) (0 + -1) = (-1)%Z) as Hc'
    by (unfold clamp; repeat case_decide; lia).
  rewrite Hc' in *. rewrite decide_True in Ht by done.
  rewrite Ht. by rewrite decide_False by done.
Qed.

(** The test of the Return branch of [keyPressEvent] lets through an
    empty query when the history is not empty, which [add_to_history] then
    rejects: the history after Return is the one [add_to_history] gives for
    the stripped line. *)
Theorem return_is_add p f q :
  history (key_step p f q KeyReturn) = history (add_to_history (strip (text q)) q).
Proof.
  unfold key_step. cbn [keyPressEvent fst history]. unfold add_to_history.
  by destruct (bool_decide (strip (text q) = "")), (bool_decide (history q = [])),
    (bool_decide (Some (strip (text q)) = last (history q))).
Qed.

(** A full history (50 entries) that accepts a query drops its oldest
    entry and appends the query. *)
Theorem add_to_history_full query q :
  length (history q) = history_limit → query ≠ "" →
  last (history q) ≠ Some query →
  history (add_to_history query q) = drop 1 (history q) ++ [query].
Proof.
  intros Hlen Hq Hlast. unfold add_to_history.
  rewrite (proj2 (add_to_history_accepts query q)) by done.
  cbn [history]. unfold last_entries.
  rewrite length_app, Hlen. unfold history_limit in *. cbn [length].
  rewrite decide_True by lia. by rewrite drop_app_le by lia.
Qed.

(** ** Examples and witnesses *)

(** Three queries typed and run, the second one twice: the repetition is not
    stored; Up goes back through the history and stops at the oldest. *)
Example typed_three :
  history (typed [".a"; ".b"; ".b"; " .c "]) = [".a"; ".b"; ".c"]
  ∧ text (Nat.iter 2 (navigate_history 1) (typed [".a"; ".b"; ".c"])) = ".b"
  ∧ text (Nat.iter 5 (navigate_history 1) (typed [".a"; ".b"; ".c"])) = ".a"
  ∧ history_index (Nat.iter 5 (navigate_history 1) (typed [".a"; ".b"; ".c"])) = 2%Z.
Proof. by vm_compute. Qed.

(** Return on an empty line with a non-empty history passes the handler's own
    test and is rejected by [add_to_history]; the window is still asked to run
    the query. *)
Example return_on_empty_line :
  keyPressEvent true true KeyReturn (key_step true true (typed [".a"]) (KeyText ""))
  = ({| text := ""; history := [".a"]; history_index := -1; current_input := "" |},
     Some RunQuery).
Proof. by vm_compute. Qed.

(** Escape clears the line and resets the view only when a file is loaded. *)
Example escape_resets :
  (keyPressEvent true true KeyEscape (typed [".a"])).2 = Some ResetView
  ∧ (keyPressEvent true false KeyEscape (typed [".a"])).2 = None
  ∧ text (key_step true false (typed [".a"]) KeyEscape) = "".
Proof. by vm_compute. Qed.

Lemma typed_reachable l : key_reachable (typed l).
Proof.
  unfold typed. induction l as [|s l IH] using rev_ind; [constructor|].
  rewrite foldl_snoc. by do 2 constructor.
Qed.

Lemma history_invariant_witness :
  history_ok (typed [".a"; ".b"]).
Proof. apply history_invariant, typed_reachable. Defined.

Lemma navigate_history_spec_witness :
  let q := typed [".a"; ".b"] in
  let q' := navigate_history 1 q in
  let saved := if decide (history_index q = -1)%Z then text q else current_input q in
  history q' = history q ∧
  history_index q' = clamp (length (history q)) (history_index q + 1) ∧
  current_input q' = saved ∧
  (if decide (history_index q' = -1)%Z then text q' = saved
   else entry_back (history q) (history_index q') = Some (text q')).
Proof. apply (navigate_history_spec 1 (typed [".a"; ".b"])). by vm_compute. Defined.

Lemma navigate_up_down_witness :
  text (navigate_history (-1) (navigate_history 1 (typed [".a"; ".b"])))
  = text (typed [".a"; ".b"]).
Proof. apply navigate_up_down. by vm_compute. Defined.

Lemma add_to_history_full_witness :
  history (add_to_history "q" full_history)
  = drop 1 (history full_history) ++ ["q"].
Proof. apply add_to_history_full; by vm_compute. Defined.
