(* ===== verification/Query.v ===== *)
(** * Query: from the model's answer to the jq query ([ChatWidget])

    The second half of [ChatWidget.get_response] of [src/gui.py] picks the
    jq query out of the answer of the language model: the first line that,
    stripped, is not empty, does not start with one of nine lead-ins and
    contains a bar or a dot.  [ChatWidget._fix_jq_syntax] then rewrites four
    forms of [sort] into jq; the query is emitted on two signals, whose
    connections decide how often the window runs it.

    The regular expressions of [_fix_jq_syntax] are modelled by matchers,
    functions from a string to the rest after the matched prefix: none of the
    four patterns needs backtracking, because what follows each [\s+] is not
    whitespace and the group is the last item of its pattern.

    The file proves the specification of the extraction loop on the text of
    the answer ([query_line] says what a query line is without the
    functions of the loop), that a query without the word [sort] is returned
    unchanged and that the window receives every generated query three
    times. *)

From Stdlib Require Import Ascii.
From S2P Require Import Prelude PyStr.

(** ** Matchers *)

(** A literal. *)
Definition lit (p : string) (s : string) : option string :=
  if String.prefix p s then Some (drop_str (String.length p) s) else None.

(** [\s+] *)
Definition spaces1 (s : string) : option string :=
  match s with
  | String c s' => if isspace c then Some (lstrip s') else None
  | EmptyString => None
  end.

Fixpoint take_while (p : ascii → bool) (s : string) : string * string :=
  match s with
  | String c s' =>
      if p c then let '(a, b) := take_while p s' in (String c a, b)
      else (EmptyString, s)
  | EmptyString => (EmptyString, EmptyString)
  end.

(** The class of the second part of the group: a dot, a word character or
    a plus sign. *)
Definition isfield (c : ascii) : bool :=
  isword c || Ascii.eqb c "."%char || Ascii.eqb c "+"%char.

(** The group of the patterns: a dot, one word character at least, then
    any number of characters of the class.  The result is the group and the
    rest. *)
Definition field (s : string) : option (string * string) :=
  match s with
  | String "."%char (String c _ as s') =>
      if isword c then
        let '(f, rest) := take_while isfield s' in Some (String "." f, rest)
      else None
  | _ => None
  end.

(** [\b] after a word character. *)
Definition boundary (s : string) : bool :=
  match s with
  | String c _ => negb (isword c)
  | EmptyString => true
  end.

(** [re.search]: the match at the leftmost position that has one. *)
Fixpoint search {A} (m : string → option A) (s : string) : option A :=
  match m s with
  | Some r => Some r
  | None =>
      match s with
      | String _ s' => search m s'
      | EmptyString => None
      end
  end.

(** The four patterns, in the order of the source.  The first, second and
    fourth return group 1. *)
Definition sort_r_key (s : string) : option string :=
  s ← lit "sort" s; s ← spaces1 s; s ← lit "-r" s; s ← spaces1 s;
  s ← lit "--key=" s; fst <$> field s.

Definition sort_key (s : string) : option string :=
  s ← lit "sort" s; s ← spaces1 s; s ← lit "--key=" s; fst <$> field s.

Definition sort_r (s : string) : option unit :=
  s ← lit "sort" s; s ← spaces1 s; s ← lit "-r" s;
  if boundary s then Some () else None.

Definition sort_r_field (s : string) : option string :=
  s ← lit "sort" s; s ← spaces1 s; s ← lit "-r" s; s ← spaces1 s;
  fst <$> field s.

(** ** The normalizer *)

Definition _fix_jq_syntax (query : string) : string :=
  let query :=
    if contains "--key=" query then
      match search sort_r_key query with
      | Some field =>
          replace ("sort -r --key=" +:+ field)
                  ("sort_by(" +:+ field +:+ ") | reverse") query
      | None =>
          match search sort_key query with
          | Some field =>
              replace ("sort --key=" +:+ field) ("sort_by(" +:+ field +:+ ")") query
          | None => query
          end
      end
    else query in
  if bool_decide (is_Some (search sort_r query)) then
    match search sort_r_field query with
    | Some field =>
        replace ("sort -r " +:+ field) ("sort_by(" +:+ field +:+ ") | reverse") query
    | None => replace "sort -r" "sort | reverse" query
    end
  else query.

(** ** The extraction loop *)

Definition lead_ins : list string :=
  ["This"; "Here"; "The"; "I"; "#"; "*"; "-"; "1."; "2."].

(** The test of the loop on a stripped line. *)
Definition looks_like_query (line : string) : bool :=
  negb (bool_decide (line = "")) &&
  negb (existsb (λ p, String.prefix p line) lead_ins) &&
  (contains "|" line || contains "." line).

(** The loop over the lines: the first stripped line that passes the test,
    [None] when the loop ends without one. *)
Definition extract_lines (lines : list string) : option string :=
  snd <$> list_find (λ line, looks_like_query line = true) (strip <$> lines).

(** The loop over [response.split('\n')]. *)
Definition extract_query (response : string) : option string :=
  extract_lines (split_on newline response).

(** ** Specification of the extraction *)

(** What the comment of the loop calls a line that looks like a jq query,
    said of the text itself: it is not empty, it is none of the lead-ins
    followed by something, and a bar or a dot stands somewhere in it. *)
Definition query_line (line : string) : Prop :=
  line ≠ "" ∧
  (∀ lead_in rest, lead_in ∈ lead_ins → line ≠ lead_in +:+ rest) ∧
  ∃ before after,
    line = before +:+ "|" +:+ after ∨ line = before +:+ "." +:+ after.

(** The text of an answer: the lines joined by line feeds. *)
Definition text_of (lines : list string) : string := join (String newline "") lines.

(** ** Signals

    The two slots are [ChatWidget._emit_query_generated] and
    [JsonViewerWindow.set_query_from_chat].  [get_response] emits the query on [query_generated] and then on
    [generate_query_signal].  [_setup_thread_safety] connects the second to
    [_emit_query_generated], which emits the first; the window connects both
    to [set_query_from_chat]. *)

Inductive signal : Type := query_generated | generate_query_signal.

Inductive slot : Type := slot_emit_query_generated | slot_set_query_from_chat.

(** The slots of a signal, in the order of the [connect] calls. *)
Definition connections (s : signal) : list slot :=
  match s with
  | query_generated => [slot_set_query_from_chat]
  | generate_query_signal => [slot_emit_query_generated; slot_set_query_from_chat]
  end.

(** The arguments [set_query_from_chat] is called with when [query] is
    emitted on [s]. *)
Definition emit (s : signal) (query : string) : list string :=
  let direct sl :=
    match sl with
    | slot_set_query_from_chat => [query]
    | slot_emit_query_generated => []
    end in
  let run sl :=
    match sl with
    | slot_set_query_from_chat => [query]
    | slot_emit_query_generated => connections query_generated ≫= direct
    end in
  connections s ≫= run.

(** The queries the window is asked to run for one answer of the model:
    the tail of [get_response]. *)
Definition generated_queries (response : string) : list string :=
  match extract_query response with
  | Some jq_query =>
      if bool_decide (jq_query ≠ "") then
        let jq_query := _fix_jq_syntax jq_query in
        emit query_generated jq_query ++ emit generate_query_signal jq_query
      else []
  | None => []
  end.

(** ** Examples of answers *)

Definition lines (l : list string) : string :=
  foldr (λ line acc, line +:+ String newline acc) "" l.

Definition answer1 : string :=
  lines ["This will sort elements."; ".[] | sort_by(.created_at) | reverse"].

(** ** The extraction loop: specification *)

Lemma looks_like_query_nonempty line : looks_like_query line = true → line ≠ "".
Proof.
  unfold looks_like_query. intros [[H _]%andb_true_iff _]%andb_true_iff.
  by apply negb_true_iff, bool_decide_eq_false in H.
Qed.

Lemma extract_query_Some response q :
  extract_query response = Some q ↔
  ∃ i, (strip <$> split_on newline response) !! i = Some q ∧
       looks_like_query q = true ∧
       ∀ j line, (strip <$> split_on newline response) !! j = Some line →
                 j < i → looks_like_query line = false.
Proof.
  unfold extract_query, extract_lines. rewrite fmap_Some. split.
  - intros [[i q'] [(Hi & Hq & Hmin)%list_find_Some ->]]. exists i.
    split_and!; [done..|]. intros j line Hj Hlt.
    specialize (Hmin j line Hj Hlt). by destruct (looks_like_query line).
  - intros (i & Hi & Hq & Hmin). exists (i, q). split; [|done].
    apply list_find_Some. split_and!; [done..|]. intros j line Hj Hlt.
    by rewrite (Hmin j line Hj Hlt).
Qed.

Lemma startswith_any_spec line :
  existsb (λ p, String.prefix p line) lead_ins = false ↔
  ∀ lead_in rest, lead_in ∈ lead_ins → line ≠ lead_in +:+ rest.
Proof.
  rewrite <-not_true_iff_false, existsb_exists. split.
  - intros Hn p rest Hp ->. apply Hn. exists p.
    split; [by apply list_elem_of_In|]. apply prefix_spec. eauto.
  - intros Hn (p & Hp%list_elem_of_In & [rest ->]%prefix_spec). by eapply Hn.
Qed.

Lemma looks_like_query_spec line :
  looks_like_query line = true ↔ query_line line.
Proof.
  unfold looks_like_query, query_line.
  rewrite !andb_true_iff, !negb_true_iff, bool_decide_eq_false, orb_true_iff.
  rewrite startswith_any_spec, !contains_spec. naive_solver.
Qed.

Lemma extract_lines_spec lines q :
  extract_lines lines = Some q ↔
  ∃ before line after,
    lines = before ++ line :: after ∧ q = strip line ∧ query_line q ∧
    Forall (λ line, ¬ query_line (strip line)) before.
Proof.
  unfold extract_lines. rewrite fmap_Some. split.
  - intros [[i q'] [(Hi & Hq & Hmin)%list_find_Some ->]].
    apply list_lookup_fmap_Some in Hi as (line & -> & Hi).
    apply list_elem_of_split_length in Hi as (before & after & -> & ->).
    exists before, line, after. split_and!; [done..|by apply looks_like_query_spec|].
    apply Forall_lookup. intros j l Hj.
    rewrite <-looks_like_query_spec. apply (Hmin j).
    + by rewrite list_lookup_fmap, lookup_app_l, Hj by by eapply lookup_lt_Some.
    + by eapply lookup_lt_Some.
  - intros (before & line & after & -> & -> & Hq & Hb).
    exists (length before, strip line). split; [|done].
    apply list_find_Some. split_and!.
    + by rewrite list_lookup_fmap, list_lookup_middle.
    + by apply looks_like_query_spec.
    + intros j l Hj Hlt. rewrite list_lookup_fmap, lookup_app_l in Hj by done.
      apply fmap_Some in Hj as (l' & Hj & ->). rewrite looks_like_query_spec.
      by apply (Forall_lookup_1 _ _ _ _ Hb Hj).
Qed.

(** [C13] [extract_query] returns the first query line of the answer:
    [q] is returned exactly when the answer is lines joined by line feeds,
    [q] is one of them without its surrounding whitespace, [q] is not
    empty, is none of the nine lead-ins followed by something and has a
    bar or a dot in it, and no line before it is such a line once its
    surrounding whitespace is removed. *)
Theorem extract_query_spec response q :
  extract_query response = Some q ↔
  ∃ before line after,
    response = text_of (before ++ line :: after) ∧
    Forall (char_free newline) (before ++ line :: after) ∧
    q = strip line ∧ query_line q ∧
    Forall (λ line, ¬ query_line (strip line)) before.
Proof.
  unfold extract_query. rewrite extract_lines_spec.
  apply exist_proper; intros before. apply exist_proper; intros line.
  apply exist_proper; intros after. rewrite split_on_spec.
  unfold text_of. split; [naive_solver|].
  intros (-> & ? & ? & ? & ?). split_and!; try done. by destruct before.
Qed.

(** No query is extracted exactly when no stripped line of the answer
    passes the test. *)
Theorem extract_query_None response :
  extract_query response = None ↔
  Forall (λ line, looks_like_query (strip line) = false) (split_on newline response).
Proof.
  unfold extract_query, extract_lines.
  rewrite fmap_None, list_find_None, Forall_fmap.
  apply Forall_proper; [|done]. intros line. simpl.
  by destruct (looks_like_query (strip line)).
Qed.

(** ** The normalizer: queries it leaves alone *)

Lemma lit_prefix_false p s : String.prefix p s = false → lit p s = None.
Proof. unfold lit. by intros ->. Qed.

Lemma search_absent {A} p (m : string → option A) s :
  (∀ t, String.prefix p t = false → m t = None) →
  contains p s = false → search m s = None.
Proof.
  intros Hm. induction s as [|a s IH].
  - cbn [contains search]. rewrite orb_false_r. intros Hp. by rewrite (Hm "" Hp).
  - intros [Hp Hc]%contains_cons_false. cbn [search].
    by rewrite (Hm _ Hp), IH.
Qed.

Lemma search_sort_absent s :
  contains "sort" s = false →
  search sort_r_key s = None ∧ search sort_key s = None ∧
  search sort_r s = None ∧ search sort_r_field s = None.
Proof.
  intros Hs. split_and!; apply (search_absent "sort"); try done;
    intros t Ht; unfold sort_r_key, sort_key, sort_r, sort_r_field;
    by rewrite (lit_prefix_false _ _ Ht).
Qed.

(** [C36] A query in which the word [sort] does not occur is returned
    unchanged by [_fix_jq_syntax]. *)
Theorem fix_jq_syntax_no_sort query :
  contains "sort" query = false → _fix_jq_syntax query = query.
Proof.
  intros (H1 & H2 & H3 & H4)%search_sort_absent. unfold _fix_jq_syntax.
  rewrite H1, H2. destruct (contains "--key=" query); rewrite H3;
    by rewrite bool_decide_eq_false_2 by by intros [? ?].
Qed.

(** ** Signals *)

Lemma emit_query_generated query : emit query_generated query = [query].
Proof. done. Qed.

Lemma emit_generate_query_signal query :
  emit generate_query_signal query = [query; query].
Proof. done. Qed.

(** [C35] For an answer with a query line, [set_query_from_chat] is called
    three times with the normalized query: once for [query_generated] and
    twice for [generate_query_signal], which is connected to the window and
    to the slot that re-emits [query_generated]; without a query line it is
    not called. *)
Theorem generated_queries_spec response :
  generated_queries response =
  match extract_query response with
  | Some q => replicate 3 (_fix_jq_syntax q)
  | None => []
  end.
Proof.
  unfold generated_queries.
  destruct (extract_query response) as [q|] eqn:E; [|done].
  apply extract_query_Some in E as (_ & _ & Hq%looks_like_query_nonempty & _).
  by rewrite bool_decide_eq_true_2.
Qed.

(** ** Examples *)

(** The four rewrites. *)
Example fix_jq_syntax_forms :
  _fix_jq_syntax "sort -r --key=.created_at" = "sort_by(.created_at) | reverse"
  ∧ _fix_jq_syntax ".[] | sort --key=.a.b" = ".[] | sort_by(.a.b)"
  ∧ _fix_jq_syntax ".[] | sort -r .a | x" = ".[] | sort_by(.a) | reverse | x"
  ∧ _fix_jq_syntax ".[] | sort -r" = ".[] | sort | reverse"
  ∧ _fix_jq_syntax ".[] | sort_by(.a)" = ".[] | sort_by(.a)".
Proof. by vm_compute. Qed.

(** The patterns accept any run of whitespace where the replaced text has
    one space: a query with two spaces matches and is returned unchanged. *)
Example fix_jq_syntax_two_spaces :
  search sort_r_key ".[] | sort  -r --key=.a" = Some ".a"
  ∧ _fix_jq_syntax ".[] | sort  -r --key=.a" = ".[] | sort  -r --key=.a"
  ∧ search sort_r ".[] | sort  -r" = Some ()
  ∧ _fix_jq_syntax ".[] | sort  -r" = ".[] | sort  -r".
Proof. by vm_compute. Qed.

(** Only the field of the first match is rewritten: a second [sort] with
    another field keeps its [--key=]. *)
Example fix_jq_syntax_first_match_only :
  _fix_jq_syntax "sort --key=.a | sort --key=.b" = "sort_by(.a) | sort --key=.b".
Proof. by vm_compute. Qed.

(** The second line of the answer is the query; a line of prose that ends
    with a period and starts with none of the lead-ins is taken for one. *)
Example extract_query_answers :
  extract_query answer1 = Some ".[] | sort_by(.created_at) | reverse"
  ∧ extract_query (lines ["Sure, sort them."; ".[] | sort"]) = Some "Sure, sort them."
  ∧ extract_query (lines ["Here you go:"; "  keys  "]) = None
  ∧ generated_queries (lines ["Here:"; "sort -r .a"])
    = ["sort_by(.a) | reverse"; "sort_by(.a) | reverse"; "sort_by(.a) | reverse"].
Proof. by vm_compute. Qed.

Lemma extract_query_spec_witness :
  extract_query answer1 = Some ".[] | sort_by(.created_at) | reverse".
Proof.
  apply extract_query_spec.
  exists ["This will sort elements."], ".[] | sort_by(.created_at) | reverse", [""].
  split_and!; [done| |done|by apply looks_like_query_spec|].
  - by apply (bool_decide_unpack _).
  - constructor; [|constructor]. by intros ?%looks_like_query_spec.
Defined.

Lemma fix_jq_syntax_no_sort_witness : _fix_jq_syntax ".[] | .a" = ".[] | .a".
Proof. apply fix_jq_syntax_no_sort. by vm_compute. Defined.
