(* ===== verification/Session.v ===== *)
(** * Session: the window and its handlers as a transition system

    [JsonViewerWindow] (src/gui.py): the state a session keeps (the loaded
    file, its text, the parsed document, the set of hidden paths, the text
    of the JSON pane, the attribute browser) and the handlers that change
    it: [load_json_file], [toggle_attribute_visibility],
    [reset_to_original_json], [run_jq_query], [set_query_from_chat], and the
    click on the eye of a row ([EyeIconDelegate.editorEvent], then
    [JsonSchemaTreeWidget._handle_eye_clicked] and the signals that end in
    [toggle_attribute_visibility]).

    What the handlers obtain from outside is a parameter of the model:
    reading a file, [json.loads] and the run of [jq] are functions of a
    section, whose result [None] stands for the exception the code
    catches: any exception of [open] and [read], [JSONDecodeError] of
    [json.loads], any exception of [subprocess.run].  [json.loads] is taken
    to return or to raise [JSONDecodeError], and the analysis to return:
    another exception of theirs (a [RecursionError] on a deeply nested
    document) would reach the outer [except] of [load_json_file] with the
    hidden set already reset, and is outside the model.  The texts of the
    panes are kept as what they render ([ViewJson v] for [json.dumps(v,
    indent=4)]), the geometry of a click as the position of the row whose
    eye it hits.

    [step] runs one handler; [reachable] are the states of a session.
    [inv] holds in each of them ([session_invariant]).  The sets of hidden
    paths a session reaches are empty, because the delegate of the eye
    finds the row itself where it reads the flag ([eye_never_hides]).
    [handled] are the states of a session whose eyes can also report a row
    as hidden, the signal [eye_clicked] carrying any row; the handlers keep
    [inv] there too, and show no hidden path ([session_hidden_absent]). *)

From S2P Require Import Prelude PyStr PyDict Value PyCollections Stats.
From S2P Require Import Filter Schema SchemaTree.

(** ** State *)

Record jq_result : Type := JqResult {
  returncode : Z;
  stdout : string;
  stderr : string;
}.

(** The text of the JSON pane. *)
Inductive view : Type :=
| ViewEmpty
| ViewJson (v : value)            (* json.dumps(v, indent=4) *)
| ViewText (s : string)           (* a text shown as it is *)
| ViewInvalid (content : string)  (* "Invalid JSON: ..." and the content *)
| ViewOpenError                   (* "Error opening file: ..." *)
| ViewJqError (err : string).     (* "jq error: ..." *)

Inductive label : Type :=
| LabelDrop
| LabelLoaded (file : option string)
| LabelErrorJson (file : string)
| LabelErrorFile
| LabelExecuted (query : string)
| LabelFailed (query : string)
| LabelErrorRunning (query : string).

Inductive dialog : Type :=
| NoFileLoaded
| JqFailed.

Record schema_viewer : Type := SchemaViewer {
  json_data : option value;
  schema_info : dict schema_entry;
  schema_tree : list tree_item;
  tree_hidden_paths : gset path;
}.

Record window : Type := Window {
  current_json_file : option string;
  json_content : option string;
  parsed_json : option value;
  hidden_paths : gset path;
  query_input : string;
  json_viewer : view;
  instruction_label : label;
  viewer : schema_viewer;
  dialogs : list dialog;
  gen : rng;
}.

Definition init (g : rng) : window :=
  {| current_json_file := None; json_content := None; parsed_json := None;
     hidden_paths := ∅; query_input := ""; json_viewer := ViewEmpty;
     instruction_label := LabelDrop;
     viewer := {| json_data := None; schema_info := []; schema_tree := [];
                  tree_hidden_paths := ∅ |};
     dialogs := []; gen := g |}.

(** Field updates. *)
Definition set_file (x : option string) (w : window) : window :=
  let 'Window _ b c d e f g h i j := w in Window x b c d e f g h i j.
Definition set_content (x : option string) (w : window) : window :=
  let 'Window a _ c d e f g h i j := w in Window a x c d e f g h i j.
Definition set_parsed (x : option value) (w : window) : window :=
  let 'Window a b _ d e f g h i j := w in Window a b x d e f g h i j.
Definition set_hidden (x : gset path) (w : window) : window :=
  let 'Window a b c _ e f g h i j := w in Window a b c x e f g h i j.
Definition set_query (x : string) (w : window) : window :=
  let 'Window a b c d _ f g h i j := w in Window a b c d x f g h i j.
Definition set_view (x : view) (w : window) : window :=
  let 'Window a b c d e _ g h i j := w in Window a b c d e x g h i j.
Definition set_label (x : label) (w : window) : window :=
  let 'Window a b c d e f _ h i j := w in Window a b c d e f x h i j.
Definition set_viewer (x : schema_viewer) (w : window) : window :=
  let 'Window a b c d e f g _ i j := w in Window a b c d e f g x i j.
Definition add_dialog (x : dialog) (w : window) : window :=
  let 'Window a b c d e f g h i j := w in Window a b c d e f g h (i ++ [x]) j.
Definition set_gen (x : rng) (w : window) : window :=
  let 'Window a b c d e f g h i _ := w in Window a b c d e f g h i x.

(** [bool(s)] of a string or [None]. *)
Definition nonempty (s : option string) : bool :=
  match s with
  | Some s => negb (bool_decide (s = ""))
  | None => false
  end.

(** [bool(v)] of a document or [None]. *)
Definition truthy_doc (v : option value) : bool :=
  match v with
  | Some v => truthy v
  | None => false
  end.

(** ** [JsonSchemaViewer.set_json_data] *)

Definition set_json_data (v : value) (sv : schema_viewer) (g : rng)
    : schema_viewer * rng :=
  let '(info, g) := analyze_json v g in
  ({| json_data := Some v; schema_info := info;
      schema_tree := update_schema_tree info;
      tree_hidden_paths := tree_hidden_paths sv |}, g).

Definition show_schema (v : value) (w : window) : window :=
  let '(sv, g) := set_json_data v (viewer w) (gen w) in
  set_gen g (set_viewer sv w).

(** ** The handlers of [JsonViewerWindow] *)

Section handlers.
(** The environment: [open(path).read()], [None] when it raises;
    [json.loads], [None] for a [JSONDecodeError]; the run of [jq] on a
    query and a file, [None] when [subprocess.run] raises. *)
Context (read_file : string → option string).
Context (json_loads : string → option value).
Context (run_jq : string → string → option jq_result).

Definition load_failed (v : view) (l : label) (w : window) : window :=
  set_parsed None (set_content None (set_file None
    (set_label l (set_view v w)))).

Definition load_json_file (file_path : string) (w : window) : window :=
  match read_file file_path with
  | Some content =>
      let w := set_content (Some content) w in
      let w := set_file (Some file_path) w in
      let w := set_hidden ∅ w in
      match json_loads content with
      | Some parsed =>
          let w := set_parsed (Some parsed) w in
          let w := set_view (ViewJson parsed) w in
          let w := set_label (LabelLoaded (Some file_path)) w in
          show_schema parsed w
      | None => load_failed (ViewInvalid content) (LabelErrorJson file_path) w
      end
  | None => load_failed ViewOpenError LabelErrorFile w
  end.

Definition toggle_attribute_visibility (path : path) (is_visible : bool)
    (w : window) : window :=
  let path_tuple := path in
  let w :=
    if is_visible then set_hidden (hidden_paths w ∖ {[ path_tuple ]}) w
    else set_hidden (hidden_paths w ∪ {[ path_tuple ]}) w in
  match parsed_json w with
  | Some parsed =>
      if truthy parsed then
        let filtered_json := filter_json_by_visibility (hidden_paths w) parsed in
        set_view (ViewJson filtered_json) w
      else w
  | None => w
  end.

Definition reset_to_original_json (w : window) : window :=
  match json_content w with
  | Some content =>
      if nonempty (json_content w) then
        match json_loads content with
        | Some parsed =>
            let w := set_parsed (Some parsed) w in
            let filtered_json := filter_json_by_visibility (hidden_paths w) parsed in
            let w := set_view (ViewJson filtered_json) w in
            set_label (LabelLoaded (current_json_file w)) w
        | None => set_view (ViewText content) w
        end
      else w
  | None => w
  end.

Definition run_jq_query (w : window) : window :=
  match current_json_file w with
  | Some file =>
      if nonempty (current_json_file w) then
        let query := strip (query_input w) in
        if bool_decide (query = "") then reset_to_original_json w
        else
          match run_jq query file with
          | Some result =>
              if bool_decide (returncode result = 0%Z) then
                let w :=
                  match json_loads (stdout result) with
                  | Some output_json =>
                      let filtered_json :=
                        filter_json_by_visibility (hidden_paths w) output_json in
                      let w := set_view (ViewJson filtered_json) w in
                      show_schema output_json w
                  | None => set_view (ViewText (stdout result)) w
                  end in
                set_label (LabelExecuted query) w
              else
                set_label (LabelFailed query)
                          (set_view (ViewJqError (stderr result)) w)
          | None => set_label (LabelErrorRunning query) (add_dialog JqFailed w)
          end
      else add_dialog NoFileLoaded w
  | None => add_dialog NoFileLoaded w
  end.

Definition set_query_from_chat (query : string) (w : window) : window :=
  run_jq_query (set_query query w).

(** ** The eye of a row

    [EyeIconDelegate.editorEvent] on a mouse release on the eye of the row
    at [pos], then [JsonSchemaTreeWidget._handle_eye_clicked], whose signal
    ends in [toggle_attribute_visibility].

    The delegate reads the slot of the row twice: [model.data(index,
    UserRole)] for the row whose eye it has painted, and [tree_item.data(0,
    UserRole)] for the state of that eye.  [click_eye] is the delegate on a
    row that is in view (painted), with the release on the rectangle of its
    eye: the guard passes when the slot holds the row, which is then a key
    of [eye_rect_map]; a flag in the slot is [False], or [True], which is
    no key of the map. *)

Inductive icon : Type := visible_icon | hidden_icon.

(** [EyeIconDelegate.paint] in column 0: the icon drawn on the row, if any;
    a row with an icon becomes a key of [eye_rect_map].  What the slot
    holds is taken for the row and asked for its data, which a flag [True]
    does not have. *)
Definition paint (it : tree_item) : outcome (option icon) :=
  let tree_item := item_data it in
  if data_truthy tree_item then
    match tree_item with
    | Self =>
        let is_hidden := item_data it in
        Return (Some (if data_truthy is_hidden then hidden_icon else visible_icon))
    | _ => Raise AttributeError
    end
  else Return None.

(** The body of [editorEvent] for a release on the eye of a painted row:
    [tree_item], what the slot holds, must be true and a key of
    [eye_rect_map], that is the row; then the slot is read again as the
    state of the eye and written back negated. *)
Definition click_eye (it : tree_item) : option tree_item :=
  let tree_item := item_data it in
  if data_truthy tree_item && bool_decide (tree_item = Self) then
    let current_state := data_truthy (item_data it) in
    Some (setData (Flag (negb current_state)) it)
  else None.

(** The delegate at the row at [pos]: the tree after the write and the row
    [eye_clicked] is emitted with. *)
Fixpoint toggle_at (forest : list tree_item) (pos : list nat)
    : option (list tree_item * tree_item) :=
  match pos with
  | [] => None
  | i :: pos' =>
      match forest !! i with
      | Some it =>
          match pos' with
          | [] =>
              it' ← click_eye it;
              Some (<[i := it']> forest, it')
          | _ =>
              let 'Item text type_text data children := it in
              '(children, it') ← toggle_at children pos';
              Some (<[i := Item text type_text data children]> forest, it')
          end
      | None => None
      end
  end.

(** [_handle_eye_clicked(item)], the slot of [eye_clicked]; [chain] are
    the texts [_get_item_path] reads from [item] up to the root.  It
    returns the arguments of the signal [visibility_changed] it emits. *)
Definition _handle_eye_clicked (chain : list string) (item : tree_item)
    (sv : schema_viewer) : schema_viewer * (path * bool) :=
  let path := _get_item_path chain in
  let is_hidden := data_truthy (item_data item) in
  let hidden :=
    if is_hidden then tree_hidden_paths sv ∪ {[ path ]}
    else tree_hidden_paths sv ∖ {[ path ]} in
  ({| json_data := json_data sv; schema_info := schema_info sv;
      schema_tree := schema_tree sv; tree_hidden_paths := hidden |},
   (path, negb is_hidden)).

(** The signals from [eye_clicked] on: [_handle_eye_clicked(item)] of the
    tree, [visibility_changed] of the tree and of the viewer, and
    [toggle_attribute_visibility] of the window. *)
Definition eye_clicked (chain : list string) (item : tree_item) (w : window)
    : window :=
  let '(sv, (path, is_visible)) := _handle_eye_clicked chain item (viewer w) in
  toggle_attribute_visibility path is_visible (set_viewer sv w).

Definition set_tree (tree : list tree_item) (w : window) : window :=
  let sv := viewer w in
  set_viewer {| json_data := json_data sv; schema_info := schema_info sv;
                schema_tree := tree;
                tree_hidden_paths := tree_hidden_paths sv |} w.

Definition editorEvent (pos : list nat) (w : window) : window :=
  let sv := viewer w in
  match toggle_at (schema_tree sv) pos, texts_to (schema_tree sv) pos with
  | Some (tree, item), Some texts =>
      eye_clicked (reverse texts) item (set_tree tree w)
  | _, _ => w
  end.

(** ** The session as a transition system *)

Inductive event : Type :=
| LoadFile (file_path : string)
| EyeClick (pos : list nat)
| EditQuery (text : string)
| RunQuery
| ChatQuery (query : string).

Definition step (w : window) (e : event) : window :=
  match e with
  | LoadFile file_path => load_json_file file_path w
  | EyeClick pos => editorEvent pos w
  | EditQuery text => set_query text w
  | RunQuery => run_jq_query w
  | ChatQuery query => set_query_from_chat query w
  end.

Inductive reachable : window → Prop :=
| reachable_init g : reachable (init g)
| reachable_step w e : reachable w → reachable (step w e).

Definition run (w : window) (es : list event) : window := fold_left step es w.

(** The states the handlers lead to when the signal [eye_clicked] may carry
    any row, whatever its slot holds: the session with eyes that can
    report a row as hidden, as the comments of the code describe them.  The
    states of the running program are among them ([reachable_handled]). *)
Inductive handled : window → Prop :=
| handled_init g : handled (init g)
| handled_step w e : handled w → handled (step w e)
| handled_eye_clicked w chain item :
    handled w → handled (eye_clicked chain item w).

End handlers.

(** ** Invariants *)

Definition falsy_doc (w : window) : Prop :=
  ∃ doc, parsed_json w = Some doc ∧ truthy doc = false.

(** The JSON pane shows a document filtered by the current hidden set,
    unless the loaded document is falsy. *)
Definition view_filtered (w : window) : Prop :=
  ∀ v, json_viewer w = ViewJson v →
       falsy_doc w ∨
       ∃ doc, value_wf doc ∧ v = filter_json_by_visibility (hidden_paths w) doc.

Record inv (w : window) : Prop := Inv {
  inv_unloaded :
    parsed_json w = None →
    current_json_file w = None ∧ json_content w = None ∧
    ∀ v, json_viewer w ≠ ViewJson v;
  inv_parsed : ∀ doc, parsed_json w = Some doc → value_wf doc;
  inv_view : view_filtered w;
  inv_hidden : hidden_paths w ⊆ tree_hidden_paths (viewer w);
}.

(** The two sets of hidden paths: the window's, which the filter reads,
    and the tree's own. *)
Definition hidden_sets (w : window) : gset path * gset path :=
  (hidden_paths w, tree_hidden_paths (viewer w)).

(** [hidden_within w w']: nothing is hidden in [w'] that is not in [w]. *)
Definition hidden_within (w w' : window) : Prop :=
  (hidden_sets w').1 ⊆ (hidden_sets w).1 ∧ (hidden_sets w').2 ⊆ (hidden_sets w).2.

(** [window_simpl]: read the fields of an updated window. *)
Ltac window_simpl :=
  cbn [current_json_file json_content parsed_json hidden_paths query_input
       json_viewer instruction_label viewer dialogs gen
       set_file set_content set_parsed set_hidden set_query set_view set_label
       set_viewer add_dialog set_gen load_failed
       tree_hidden_paths schema_tree schema_info json_data] in *.

Ltac inv_split :=
  split; unfold view_filtered, falsy_doc in *; window_simpl.

Ltac destruct_window w :=
  let sv := fresh "sv" in
  destruct w as [? ? ? ? ? ? ? sv ? ?]; destruct sv; window_simpl.

Section invariants.
Context (read_file : string → option string).
Context (json_loads : string → option value).
Context (run_jq : string → string → option jq_result).
(** [json.loads] returns documents with pairwise distinct keys. *)
Context (json_loads_wf : ∀ s v, json_loads s = Some v → value_wf v).

Abbreviation step := (step read_file json_loads run_jq).
Abbreviation reachable := (reachable read_file json_loads run_jq).
Abbreviation handled := (handled read_file json_loads run_jq).

Lemma show_schema_fields v w :
  let w' := show_schema v w in
  current_json_file w' = current_json_file w ∧
  json_content w' = json_content w ∧
  parsed_json w' = parsed_json w ∧
  hidden_paths w' = hidden_paths w ∧
  json_viewer w' = json_viewer w ∧
  tree_hidden_paths (viewer w') = tree_hidden_paths (viewer w).
Proof using Type.
  unfold show_schema, set_json_data. destruct_window w.
  by destruct (analyze_json v _).
Qed.

Lemma inv_show_schema v w : inv w → inv (show_schema v w).
Proof using Type.
  destruct (show_schema_fields v w) as (Hf & Hc & Hpj & Hhid & Hvw & Ht).
  intros [Hu Hp Hv Hh]. split; unfold view_filtered, falsy_doc in *;
    by rewrite ?Hf, ?Hc, ?Hpj, ?Hhid, ?Hvw, ?Ht.
Qed.

Lemma inv_init g : inv (init g).
Proof using Type. by split. Qed.

Lemma inv_load_failed v l w :
  (∀ x, v ≠ ViewJson x) → hidden_paths w ⊆ tree_hidden_paths (viewer w) →
  inv (load_failed v l w).
Proof using Type.
  intros Hv Hh. destruct_window w. split; window_simpl; [done..| |done].
  intros x ?. by destruct (Hv x).
Qed.

Lemma inv_load file_path w :
  inv w → inv (load_json_file read_file json_loads file_path w).
Proof.
  intros [_ _ _ Hh]. unfold load_json_file.
  destruct (read_file file_path) as [content|]; [|by apply inv_load_failed].
  destruct (json_loads content) as [parsed|] eqn:E.
  - apply inv_show_schema. destruct_window w.
    split; window_simpl; [done| | |apply empty_subseteq].
    + intros ? [= <-]. eauto.
    + intros v [= <-]. right. exists parsed. rewrite filter_nothing. eauto.
  - apply inv_load_failed; [done|]. destruct_window w. apply empty_subseteq.
Qed.

(** A toggle keeps the invariant when the browser's own set follows. *)
Lemma inv_toggle (p : path) (is_visible : bool) sv w :
  inv w →
  tree_hidden_paths sv =
    (if is_visible then tree_hidden_paths (viewer w) ∖ {[ p ]}
     else tree_hidden_paths (viewer w) ∪ {[ p ]}) →
  inv (toggle_attribute_visibility p is_visible (set_viewer sv w)).
Proof using Type.
  clear json_loads_wf.
  intros [Hu Hp Hv Hh] Hsv. unfold toggle_attribute_visibility.
  assert (∀ H : gset path,
    H = (if is_visible then hidden_paths w ∖ {[ p ]}
         else hidden_paths w ∪ {[ p ]}) →
    H ⊆ tree_hidden_paths sv) as Hsub.
  { intros H ->. rewrite Hsv. destruct is_visible; set_solver. }
  destruct_window w.
  destruct is_visible; window_simpl;
    (destruct parsed_json0 as [doc|]; [destruct (truthy doc) eqn:Ht|]);
    inv_split; try done; try (by apply Hsub).
  all: try (intros v [= <-]; right; exists doc; by eauto).
  all: try (intros v ?; left; by eauto).
  all: intros v Hview; destruct Hu as (_ & _ & Hn); [done|by destruct (Hn v)].
Qed.

Lemma inv_reset w :
  inv w → inv (reset_to_original_json json_loads w).
Proof.
  intros Hw. pose proof Hw as [Hu Hp Hv Hh]. unfold reset_to_original_json.
  destruct (json_content w) as [content|] eqn:Hc; [|done].
  destruct (nonempty _); [|done].
  destruct (json_loads content) as [parsed|] eqn:E;
    destruct_window w; inv_split; try done.
  - intros ? [= <-]. eauto.
  - intros v [= <-]. right. exists parsed. eauto.
  - intros ->. by destruct Hu as (_ & ? & _).
Qed.

Lemma inv_run_jq w : inv w → inv (run_jq_query json_loads run_jq w).
Proof.
  intros Hw. unfold run_jq_query.
  assert (∀ d, inv (add_dialog d w)) as Hd
    by (intros d; destruct Hw; destruct_window w; by split).
  destruct (current_json_file w) as [file|] eqn:Hf; [|done].
  destruct (nonempty _); [|done].
  case_bool_decide; [by apply inv_reset|].
  assert (∀ l w', inv w' → inv (set_label l w')) as Hl
    by (intros l w' []; destruct_window w'; by split).
  destruct (run_jq _ file) as [result|]; [|apply Hl, Hd].
  assert (∀ x, (∀ v, x = ViewJson v →
                     ∃ doc, value_wf doc ∧
                            v = filter_json_by_visibility (hidden_paths w) doc) →
               inv (set_view x w)) as Hview.
  { intros x Hx. destruct Hw as [Hu Hp Hv Hh]. destruct_window w.
    inv_split; [|done| |done].
    - intros ->. destruct Hu as (? & _); [done|congruence].
    - intros v ->. right. by apply Hx. }
  case_bool_decide; apply Hl; [|by apply Hview].
  destruct (json_loads (stdout result)) as [output_json|] eqn:E;
    [|by apply Hview].
  apply inv_show_schema, Hview. intros v [= <-]. eauto.
Qed.

(** The signal of an eye keeps the invariant, whatever flag the row holds. *)
Lemma inv_eye_clicked chain item w : inv w → inv (eye_clicked chain item w).
Proof using Type.
  intros Hw. unfold eye_clicked, _handle_eye_clicked.
  apply inv_toggle; [done|]. by destruct (data_truthy _).
Qed.

Lemma inv_set_tree tree w : inv w → inv (set_tree tree w).
Proof using Type. intros []. destruct_window w. by split. Qed.

Lemma inv_editorEvent pos w : inv w → inv (editorEvent pos w).
Proof using Type.
  intros Hw. unfold editorEvent.
  destruct (toggle_at _ pos) as [[tree item]|]; [|done].
  destruct (texts_to _ pos) as [texts|]; [|done].
  by apply inv_eye_clicked, inv_set_tree.
Qed.

Lemma inv_step w e : inv w → inv (step w e).
Proof.
  intros Hw. destruct e as [file_path|pos|text| |query]; cbn [Session.step].
  - by apply inv_load.
  - by apply inv_editorEvent.
  - destruct Hw. destruct_window w. by split.
  - by apply inv_run_jq.
  - apply inv_run_jq. destruct Hw. destruct_window w. by split.
Qed.

Lemma reachable_handled w : reachable w → handled w.
Proof. induction 1; by constructor. Qed.

Lemma handled_inv w : handled w → inv w.
Proof.
  induction 1; [apply inv_init|by apply inv_step|by apply inv_eye_clicked].
Qed.

Lemma reachable_inv_all w : reachable w → inv w.
Proof. intros ?. by apply handled_inv, reachable_handled. Qed.


(** [C6] Invariant of the session: in every state the handlers can reach,
    an unloaded window shows no document; the parsed document is
    well-formed; a document in the JSON pane is some document filtered by
    the current hidden set, unless the loaded document is falsy; and every
    hidden path is in the browser's own set. *)
Theorem session_invariant w : reachable w → inv w.
Proof. apply reachable_inv_all. Qed.

(** [C24] Safety of the filter in the session: in every state the handlers
    lead to, also when the signal of an eye reports its row as hidden,
    whose loaded document is not falsy, no hidden path is an attribute path
    of the document the JSON pane shows. *)
Theorem session_hidden_absent w v p :
  handled w → json_viewer w = ViewJson v → ¬ falsy_doc w →
  p ∈ hidden_paths w → p ∉ key_paths v.
Proof.
  intros [_ _ Hv _]%handled_inv Hview Hfalsy Hp.
  destruct (Hv v Hview) as [?|(doc & Hwf & ->)]; [done|].
  by apply filter_hidden_paths.
Qed.

End invariants.

(** ** The hidden sets under the handlers *)

Section hidden.
Context (read_file : string → option string).
Context (json_loads : string → option value).
Context (run_jq : string → string → option jq_result).

Abbreviation step := (step read_file json_loads run_jq).
Abbreviation reachable := (reachable read_file json_loads run_jq).

Lemma hidden_sets_set_file x w : hidden_sets (set_file x w) = hidden_sets w.
Proof. by destruct w. Qed.
Lemma hidden_sets_set_content x w : hidden_sets (set_content x w) = hidden_sets w.
Proof. by destruct w. Qed.
Lemma hidden_sets_set_parsed x w : hidden_sets (set_parsed x w) = hidden_sets w.
Proof. by destruct w. Qed.
Lemma hidden_sets_set_query x w : hidden_sets (set_query x w) = hidden_sets w.
Proof. by destruct w. Qed.
Lemma hidden_sets_set_view x w : hidden_sets (set_view x w) = hidden_sets w.
Proof. by destruct w. Qed.
Lemma hidden_sets_set_label x w : hidden_sets (set_label x w) = hidden_sets w.
Proof. by destruct w. Qed.
Lemma hidden_sets_add_dialog x w : hidden_sets (add_dialog x w) = hidden_sets w.
Proof. by destruct w. Qed.
Lemma hidden_sets_set_tree x w : hidden_sets (set_tree x w) = hidden_sets w.
Proof. by destruct w. Qed.
Lemma hidden_sets_load_failed v l w :
  hidden_sets (load_failed v l w) = hidden_sets w.
Proof. by destruct w. Qed.
Lemma hidden_sets_show_schema v w : hidden_sets (show_schema v w) = hidden_sets w.
Proof using Type.
  unfold show_schema, set_json_data. destruct w as [? ? ? ? ? ? ? [] ? ?].
  cbn. by destruct (analyze_json v _).
Qed.

Create Rewrite HintDb hidden.
#[local] Hint Rewrite hidden_sets_set_file hidden_sets_set_content
  hidden_sets_set_parsed hidden_sets_set_query hidden_sets_set_view
  hidden_sets_set_label hidden_sets_add_dialog hidden_sets_set_tree
  hidden_sets_load_failed hidden_sets_show_schema : hidden.

#[export] Instance hidden_within_preorder : PreOrder hidden_within.
Proof. split; [by intros w|]. intros w1 w2 w3 [] []. split; by etrans. Qed.

Lemma hidden_sets_within w w' : hidden_sets w' = hidden_sets w → hidden_within w w'.
Proof. unfold hidden_within. by intros ->. Qed.

Lemma hidden_sets_reset w :
  hidden_sets (reset_to_original_json json_loads w) = hidden_sets w.
Proof.
  unfold reset_to_original_json.
  repeat case_match; by autorewrite with hidden.
Qed.

Lemma hidden_sets_run_jq w :
  hidden_sets (run_jq_query json_loads run_jq w) = hidden_sets w.
Proof.
  unfold run_jq_query.
  repeat (case_match || case_bool_decide); autorewrite with hidden;
    done || apply hidden_sets_reset.
Qed.

Lemma hidden_within_load file_path w :
  hidden_within w (load_json_file read_file json_loads file_path w).
Proof using Type.
  clear run_jq. unfold load_json_file, hidden_within.
  repeat case_match; autorewrite with hidden;
    destruct w as [? ? ? ? ? ? ? [] ? ?]; set_solver.
Qed.

(** The signal of a row whose slot is falsy takes its path out of both
    sets. *)
Lemma hidden_sets_eye_clicked chain item w :
  data_truthy (item_data item) = false →
  hidden_sets (eye_clicked chain item w)
  = ((hidden_sets w).1 ∖ {[ _get_item_path chain ]},
     (hidden_sets w).2 ∖ {[ _get_item_path chain ]}).
Proof using Type.
  intros Hd. unfold eye_clicked, _handle_eye_clicked, toggle_attribute_visibility.
  rewrite Hd. cbn [negb]. destruct w as [? ? ? ? ? ? ? [] ? ?].
  cbn. repeat case_match; by autorewrite with hidden.
Qed.

(** The row the delegate emits has the flag [False] in its slot. *)
Lemma click_eye_data it it' : click_eye it = Some it' → item_data it' = Flag false.
Proof using Type.
  unfold click_eye. destruct it as [t ty [|[]|] c]; intros; by simplify_eq/=.
Qed.

Lemma toggle_at_data forest pos tree it :
  toggle_at forest pos = Some (tree, it) → item_data it = Flag false.
Proof using Type.
  revert forest tree it.
  induction pos as [|i pos IH]; intros forest tree it; [done|].
  cbn [toggle_at]. destruct (forest !! i) as [[t ty d c]|]; [|done].
  destruct pos as [|j pos].
  - intros (it' & Hc%click_eye_data & ?)%bind_Some. by simplify_eq.
  - intros ([c' it'] & Hc%IH & ?)%bind_Some. by simplify_eq.
Qed.

(** The delegate acts on the rows it draws a hidden eye on, and draws no
    eye on a row it has acted on. *)
Lemma click_eye_paint it it' :
  click_eye it = Some it' →
  paint it = Return (Some hidden_icon) ∧ paint it' = Return None.
Proof using Type.
  unfold click_eye, paint.
  destruct it as [t ty [|[]|] c]; intros; by simplify_eq/=.
Qed.

(** Every eye of a rebuilt browser is drawn as hidden. *)
Theorem paint_rebuilt info pos it :
  item_at (update_schema_tree info) pos = Some it →
  paint it = Return (Some hidden_icon).
Proof using Type.
  intros Hd%update_schema_tree_rows_self. unfold paint. by rewrite Hd.
Qed.

(** A click on an eye hides nothing. *)
Lemma hidden_within_editorEvent pos w : hidden_within w (editorEvent pos w).
Proof using Type.
  unfold editorEvent.
  destruct (toggle_at _ pos) as [[tree item]|] eqn:Ht; [|done].
  destruct (texts_to _ pos) as [texts|]; [|done].
  apply toggle_at_data in Ht. unfold hidden_within.
  rewrite hidden_sets_eye_clicked by (by rewrite Ht).
  autorewrite with hidden. cbn [fst snd]. set_solver.
Qed.

Lemma hidden_within_step w e : hidden_within w (step w e).
Proof.
  destruct e as [file_path|pos|text| |query]; cbn [Session.step].
  - apply hidden_within_load.
  - apply hidden_within_editorEvent.
  - apply hidden_sets_within, hidden_sets_set_query.
  - apply hidden_sets_within, hidden_sets_run_jq.
  - apply hidden_sets_within. unfold set_query_from_chat.
    by rewrite hidden_sets_run_jq, hidden_sets_set_query.
Qed.

Lemma reachable_hidden_sets w : reachable w → hidden_sets w = (∅, ∅).
Proof.
  induction 1 as [g|w e _ IH]; [done|].
  destruct (hidden_within_step w e) as [H1 H2]. rewrite IH in H1, H2.
  destruct (hidden_sets (step w e)) as [h t]. cbn [fst snd] in *.
  f_equal; set_solver.
Qed.

(** [C16] The eye never hides: in every state the session reaches, by
    files loaded, clicks on eyes, queries typed, run or generated, the set
    of hidden paths of the window is empty, and so is the tree's own.  A
    row is made with the flag [False] and then with itself in the same
    slot, so the delegate reads a true state on the first click, writes
    [False] and reports the row as visible; after that the slot holds no
    row and the delegate ignores the eye. *)
Theorem eye_never_hides w :
  reachable w → hidden_paths w = ∅ ∧ tree_hidden_paths (viewer w) = ∅.
Proof. by intros [= -> ->]%reachable_hidden_sets. Qed.

End hidden.

Section load_spec.
Context (read_file : string → option string).
Context (json_loads : string → option value).

(** [C25] [load_json_file] on every branch: a file that cannot be read
    leaves the hidden set and shows an error; a file that is not JSON
    resets the hidden set and shows its text as invalid; both forget the
    loaded document.  A JSON file resets the hidden set, shows the
    document unfiltered and rebuilds the browser from its analysis. *)
Theorem load_json_file_spec file_path w :
  let w' := load_json_file read_file json_loads file_path w in
  match read_file file_path with
  | None =>
      json_viewer w' = ViewOpenError ∧ hidden_paths w' = hidden_paths w ∧
      parsed_json w' = None ∧ current_json_file w' = None ∧
      json_content w' = None ∧ viewer w' = viewer w
  | Some content =>
      hidden_paths w' = ∅ ∧
      match json_loads content with
      | None =>
          json_viewer w' = ViewInvalid content ∧
          parsed_json w' = None ∧ current_json_file w' = None ∧
          json_content w' = None ∧ viewer w' = viewer w
      | Some parsed =>
          json_viewer w' = ViewJson parsed ∧
          parsed_json w' = Some parsed ∧
          current_json_file w' = Some file_path ∧
          json_content w' = Some content ∧
          json_data (viewer w') = Some parsed ∧
          schema_info (viewer w') = (analyze_json parsed (gen w)).1 ∧
          schema_tree (viewer w') =
            update_schema_tree (analyze_json parsed (gen w)).1 ∧
          gen w' = (analyze_json parsed (gen w)).2
      end
  end.
Proof.
  cbv zeta. unfold load_json_file.
  destruct (read_file file_path) as [content|]; [|by destruct_window w].
  destruct (json_loads content) as [parsed|]; [|by destruct_window w].
  unfold show_schema, set_json_data. destruct_window w.
  by destruct (analyze_json parsed _).
Qed.
End load_spec.

(** ** Examples *)

Definition ab_doc : value := VDict [("a", VInt 1); ("b", VInt 2)].
Definition b_doc : value := VDict [("b", VInt 2)].

Definition example_fs (file_path : string) : option string :=
  if decide (file_path = "ab.json") then Some "AB"
  else if decide (file_path = "empty.json") then Some "[]"
  else None.

Definition example_loads (s : string) : option value :=
  if decide (s = "AB") then Some ab_doc
  else if decide (s = "B") then Some b_doc
  else if decide (s = "[]") then Some (VList [])
  else None.

Definition example_jq (query file : string) : option jq_result :=
  Some {| returncode := 0; stdout := "B"; stderr := "" |}.

Definition example_run : list event → window :=
  run example_fs example_loads example_jq (init []).

(** The signal of the eye of a row whose flag is set: what a click on an
    open eye is meant to emit. *)
Definition hide (chain : list string) : window → window :=
  eye_clicked chain (Item "" "" (Flag true) []).

(** A click on the eye of the row of [a]: nothing is hidden, the slot of
    the row holds [False], and a second click is ignored. *)
Example eye_click :
  let w := example_run [LoadFile "ab.json"; EyeClick [0; 0]] in
  json_viewer w = ViewJson ab_doc ∧ hidden_paths w = ∅ ∧
  schema_tree (viewer w) =
    [Item "[Root]" "object" Self
       [Item "a" "int" (Flag false) []; Item "b" "int" Self []]] ∧
  example_run [LoadFile "ab.json"; EyeClick [0; 0]; EyeClick [0; 0]] = w.
Proof. cbv zeta. split_and!; by vm_compute. Qed.

(** A click on an eye after a query shows the loaded document again, not
    the result of the query. *)
Example toggle_after_query :
  let w := example_run [LoadFile "ab.json"; ChatQuery "{b}"] in
  let w' := example_run [LoadFile "ab.json"; ChatQuery "{b}"; EyeClick [0; 0]] in
  json_viewer w = ViewJson b_doc ∧ json_viewer w' = ViewJson ab_doc.
Proof. cbv zeta. split_and!; by vm_compute. Qed.

(** The handlers on a hidden path: the signal of a set flag hides the
    attribute in the pane. *)
Example hide_example :
  let w := hide ["a"; "[Root]"] (example_run [LoadFile "ab.json"]) in
  json_viewer w = ViewJson b_doc ∧ hidden_paths w = {[ ["a"] ]}.
Proof. cbv zeta. split; by vm_compute. Qed.

(** A query keeps the hidden set and filters its result with it; the
    browser is rebuilt from the unfiltered result. *)
Example hidden_after_query :
  let w := run example_fs example_loads example_jq
             (hide ["b"; "[Root]"] (example_run [LoadFile "ab.json"]))
             [ChatQuery "{b}"] in
  hidden_paths w = {[ ["b"] ]} ∧
  json_viewer w = ViewJson (VDict []) ∧
  schema_tree (viewer w) =
    [Item "[Root]" "object" Self [Item "b" "int" Self []]].
Proof. cbv zeta. split_and!; by vm_compute. Qed.

(** With a falsy document loaded a toggle leaves the pane as it is: the
    hidden attribute stays in view. *)
Example stale_view :
  let w := hide ["b"; "[Root]"]
             (example_run [LoadFile "empty.json"; ChatQuery "{b}"]) in
  hidden_paths w = {[ ["b"] ]} ∧ json_viewer w = ViewJson b_doc ∧
  ["b"] ∈ key_paths b_doc.
Proof. cbv zeta. split_and!; by vm_compute. Qed.

Lemma reachable_run read_file json_loads run_jq w es :
  reachable read_file json_loads run_jq w →
  reachable read_file json_loads run_jq (run read_file json_loads run_jq w es).
Proof.
  revert w. induction es as [|e es IH]; intros w Hw; [done|].
  apply IH. by constructor.
Qed.

Lemma example_loads_wf s v : example_loads s = Some v → value_wf v.
Proof.
  unfold example_loads. repeat case_decide; intros; by simplify_eq.
Qed.

Lemma example_run_reachable es :
  reachable example_fs example_loads example_jq (example_run es).
Proof. apply reachable_run. constructor. Qed.

Lemma session_invariant_witness :
  inv (example_run [LoadFile "ab.json"; EyeClick [0; 0]; ChatQuery "{b}"]).
Proof.
  apply (session_invariant example_fs example_loads example_jq example_loads_wf).
  apply example_run_reachable.
Defined.

Lemma eye_never_hides_witness :
  let w := example_run [LoadFile "ab.json"; EyeClick [0; 0]; ChatQuery "{b}"] in
  hidden_paths w = ∅ ∧ tree_hidden_paths (viewer w) = ∅.
Proof.
  apply (eye_never_hides example_fs example_loads example_jq
           (example_run [LoadFile "ab.json"; EyeClick [0; 0]; ChatQuery "{b}"])).
  apply example_run_reachable.
Defined.

Lemma session_hidden_absent_witness :
  ["a"] ∉ key_paths b_doc.
Proof.
  apply (session_hidden_absent example_fs example_loads example_jq
           example_loads_wf
           (hide ["a"; "[Root]"] (example_run [LoadFile "ab.json"])) b_doc ["a"]).
  - apply handled_eye_clicked, reachable_handled, example_run_reachable.
  - by vm_compute.
  - intros (doc & Hdoc & Hfalsy). vm_compute in Hdoc. by simplify_eq.
  - by vm_compute.
Defined.
