(* ===== verification/Chat.v ===== *)
(** * Chat: the assistant's widget

    [ChatWidget] of [src/gui.py]: the list of models ([load_models],
    [_add_ollama_models]), the message the user sends ([send_message],
    and the Return key of [ChatInputTextEdit]) and the worker that asks the
    model and reports with signals ([get_response]).  The extraction of the
    query from the answer and its repair are those of [Query].

    The widget is a record of the combo box, the blocks of the chat display
    and the text of the input; a handler is a function on this record.  The
    worker does not touch the widget: [get_response] is a function from what
    it reads to the list of signals it emits, and [chat_deliver] is the slot
    of each signal.

    The processes and the library are parameters: [ollama list],
    [llm.get_models()], [ollama run] and [llm.get_model(...).prompt(...)].
    [load_models] can list the Ollama models twice, so the listing has two
    parameters.  An answer of [ollama run] is a [str]; an answer of the
    library is a response object, of which the model keeps what [str] and
    what the attribute [split] give (the responses of [llm] have a text and
    no method [split]).  The text of the prompt is a function of the
    message and is not modelled.

    The file proves which models the box offers and which it selects, that
    an item taken from the listing runs the process under the name the
    listing printed, and what the worker emits when the answer is an object
    without [split]. *)

From Stdlib Require Import Ascii.
From stdpp Require Import pretty.
From S2P Require Import Prelude PyStr PyDict Value PyCollections Query Session.

#[local] Open Scope py_scope.

(** ** The combo box

    A [QComboBox] that is not editable: its items and the index of the
    current one, -1 when there is none.  The first items added to an empty
    box make the first of them current. *)

Record combo : Type := Combo {
  combo_items : list string;
  currentIndex : Z;
}.

Definition combo_new : combo := {| combo_items := []; currentIndex := -1 |}.

Definition count (c : combo) : nat := length (combo_items c).

Definition findText (text : string) (c : combo) : Z :=
  from_option (λ ix, Z.of_nat ix.1) (-1)%Z
              (list_find (λ x, x = text) (combo_items c)).

Definition currentText (c : combo) : string :=
  if decide (currentIndex c < 0)%Z then ""
  else default "" (combo_items c !! Z.to_nat (currentIndex c)).

Definition addItems (texts : list string) (c : combo) : combo :=
  {| combo_items := combo_items c ++ texts;
     currentIndex := if bool_decide (combo_items c = [] ∧ texts ≠ [])
                     then 0%Z else currentIndex c |}.

Definition addItem (text : string) (c : combo) : combo := addItems [text] c.

Definition setCurrentIndex (i : Z) (c : combo) : combo :=
  {| combo_items := combo_items c;
     currentIndex := if decide (0 ≤ i < Z.of_nat (count c))%Z then i else (-1)%Z |}.

Definition setCurrentText (text : string) (c : combo) : combo :=
  if decide (findText text c = -1)%Z then c
  else setCurrentIndex (findText text c) c.

(** ** The widget *)

(** A block of the chat display. *)
Inductive chat_line : Type :=
| Line (html : string)               (* chat_display.append(html) *)
| ErrorLine (head : string) (e : exn)  (* append(f"<i>{head}{str(e)}</i>") *)
| Document (html : string).          (* chat_display.setHtml(html) *)

Record chat : Type := Chat {
  model_combo : combo;
  chat_display : list chat_line;
  chat_input : string;
}.

(** What the worker thread is started with. *)
Record job : Type := Job {
  job_message : string;
  job_model_name : string;
  job_generating_id : string;
}.

(** What [get_response] has in [response]: a [str], or an object with what
    [str(response)] and [response.split('\n')] give. *)
Inductive answer : Type :=
| Text (s : string)                   (* result.stdout.strip() *)
| Response (text : outcome string) (split : outcome (list string)).
                                      (* model.prompt(prompt) *)

(** The signals of the widget. *)
Inductive emission : Type :=
| update_html_signal (html : string)
| append_signal (line : chat_line)
| query_signal (s : signal) (jq_query : string).

Inductive chat_key : Type :=
| ChatReturn (shift : bool)
| ChatText (new_text : string).   (* any other key: the editor's own editing *)

Definition set_combo (m : combo) (c : chat) : chat :=
  {| model_combo := m; chat_display := chat_display c; chat_input := chat_input c |}.

(** [init_ui]: an empty combo box and the welcome. *)
Definition init_ui : chat :=
  {| model_combo := combo_new;
     chat_display := [Line ("<i>Welcome to JSON Assistant. Ask questions about "
                            +:+ "your JSON data to generate jq queries.</i>")];
     chat_input := "" |}.

(** [append_to_chat(html)] *)
Definition append_line (line : chat_line) (c : chat) : chat :=
  {| model_combo := model_combo c; chat_display := chat_display c ++ [line];
     chat_input := chat_input c |}.

Definition append_to_chat (html : string) (c : chat) : chat :=
  append_line (Line html) c.

(** [update_chat_html(html)] *)
Definition update_chat_html (html : string) (c : chat) : chat :=
  {| model_combo := model_combo c; chat_display := [Document html];
     chat_input := chat_input c |}.

(** The model ids [_add_ollama_models] reads from the output of
    [ollama list]: the first word of every line after the header that is not
    blank. *)
Definition listed_models (stdout : string) : list string :=
  let lines := drop 1 (split_on newline (strip stdout)) in
  lines ≫= λ line,
    if bool_decide (strip line ≠ "") then
      match split_ws line with
      | model_name :: _ => ["ollama:" +:+ model_name]
      | [] => []
      end
    else [].

(** [f"<span id='{generating_id}'><i>Generating response...</i></span>"] *)
Definition generating_span (generating_id : string) : string :=
  "<span id='" +:+ generating_id +:+ "'><i>Generating response...</i></span>".

Section chat.
Context (ollama_list ollama_list_again : outcome jq_result).
Context (llm_get_models : outcome (list string)).
Context (ollama_run : string → string → outcome jq_result).
Context (llm_prompt : string → string → outcome answer).

(** ** [_add_ollama_models] *)

(** [listing] is what [subprocess.run(['ollama', 'list'], ...)] gives. *)
Definition _add_ollama_models (listing : outcome jq_result) (c : chat)
    : chat * bool :=
  match listing with
  | Return result =>
      if bool_decide (returncode result = 0%Z) then
        let added_models := listed_models (stdout result) in
        if bool_decide (added_models ≠ []) then
          let c := set_combo (addItems added_models (model_combo c)) c in
          (append_to_chat ("<i>Found " +:+ pretty (length added_models)
                           +:+ " Ollama models</i>") c, true)
        else (c, false)
      else (c, false)
  | Raise e => (append_line (ErrorLine "Error detecting Ollama models: " e) c, false)
  end.

(** ** [load_models] *)

(** The loop over the models of the library and the [addItems] after it. *)
Definition add_llm_models (all_models : list string) (m : combo) : combo :=
  let model_names :=
    filter (λ model_id, String.prefix "ollama:" model_id = false ∧
                        findText model_id m = (-1)%Z) all_models in
  if bool_decide (model_names ≠ []) then addItems model_names m else m.

(** The choice of the default model. *)
Definition select_default (m : combo) : combo :=
  let default_model := "ollama:mistral" in
  if decide (findText default_model m ≠ -1)%Z then setCurrentText default_model m
  else if decide (0 < count m) then setCurrentIndex 0 m
  else m.

Definition load_models (c : chat) : chat :=
  let c := (_add_ollama_models ollama_list c).1 in
  match llm_get_models with
  | Return all_models =>
      let c := set_combo (add_llm_models all_models (model_combo c)) c in
      let c := set_combo (select_default (model_combo c)) c in
      append_to_chat ("<i>Using model: " +:+ currentText (model_combo c) +:+ "</i>") c
  | Raise e =>
      let c := append_line (ErrorLine "Error loading models: " e) c in
      if decide (count (model_combo c) = 0) then
        let c := (_add_ollama_models ollama_list_again c).1 in
        if decide (count (model_combo c) = 0)
        then set_combo (addItem "gpt-3.5-turbo" (model_combo c)) c
        else c
      else c
  end.

(** [ChatWidget.__init__] *)
Definition chat_init : chat := load_models init_ui.

(** ** [send_message] *)

Definition send_message (c : chat) (g : rng) : chat * option job * rng :=
  let message := strip (chat_input c) in
  if bool_decide (message = "") then (c, None, g)
  else
    let c := {| model_combo := model_combo c; chat_display := chat_display c;
                chat_input := "" |} in
    let c := append_to_chat ("<b>You:</b> " +:+ message) c in
    let model_name := currentText (model_combo c) in
    let '(n, g) := randint 1000 9999 g in
    let generating_id := "generating_" +:+ pretty n in
    let c := append_to_chat (generating_span generating_id) c in
    (c, Some {| job_message := message; job_model_name := model_name;
                job_generating_id := generating_id |}, g).

(** [ChatInputTextEdit.keyPressEvent] *)
Definition chat_keyPressEvent (k : chat_key) (c : chat) (g : rng)
    : chat * option job * rng :=
  match k with
  | ChatReturn false => send_message c g
  | ChatReturn true =>
      ({| model_combo := model_combo c; chat_display := chat_display c;
          chat_input := chat_input c +:+ String newline "" |}, None, g)
  | ChatText new_text =>
      ({| model_combo := model_combo c; chat_display := chat_display c;
          chat_input := new_text |}, None, g)
  end.

(** ** [get_response] *)

(** The inner [try]: the call of the model. *)
Definition ask_model (message model_name : string) : outcome answer :=
  if String.prefix "ollama:" model_name then
    let ollama_model := default "" (split1 ":"%char model_name !! 1) in
    try! result := ollama_run ollama_model message in
    Return (Text (strip (stdout result)))
  else llm_prompt model_name message.

(** [str(response)] and [response.split('\n')] *)
Definition answer_str (response : answer) : outcome string :=
  match response with
  | Text s => Return s
  | Response text _ => text
  end.

Definition answer_split (response : answer) : outcome (list string) :=
  match response with
  | Text s => Return (split_on newline s)
  | Response _ split => split
  end.

(** The [except] block of [get_response]; [html] is what [toHtml()] returns
    when the block runs. *)
Definition response_failed (html generating_id head : string) (e : exn)
    : list emission :=
  [update_html_signal (replace (generating_span generating_id) "" html);
   append_signal (ErrorLine head e);
   append_signal (Line "<i>Try selecting a different model from the dropdown.</i>")].

(** The loop over the lines and the emission of the query. *)
Definition emit_query (lines : list string) : list emission :=
  match extract_lines lines with
  | Some jq_query =>
      if bool_decide (jq_query ≠ "") then
        let jq_query := _fix_jq_syntax jq_query in
        [append_signal (Line ("<i>Generated query: <code>" +:+ jq_query
                              +:+ "</code></i>"));
         query_signal query_generated jq_query;
         query_signal generate_query_signal jq_query]
      else []
  | None => []
  end.

(** [html] and [html_e] are what [self.chat_display.toHtml()] returns in the
    [try] block and in the [except] block. *)
Definition get_response (html html_e : string)
    (message model_name generating_id : string) : list emission :=
  match ask_model message model_name with
  | Raise e =>
      response_failed html_e generating_id
        "Error: Error getting response from model: " e
  | Return response =>
      update_html_signal (replace (generating_span generating_id) "" html) ::
      match answer_str response with
      | Raise e => response_failed html_e generating_id "Error: " e
      | Return text =>
          append_signal (Line ("<b>Assistant:</b> " +:+ text)) ::
          match answer_split response with
          | Raise e => response_failed html_e generating_id "Error: " e
          | Return lines => emit_query lines
          end
      end
  end.

(** ** The slots *)

(** The slot of a signal in the widget; the queries go to the window. *)
Definition chat_deliver (c : chat) (s : emission) : chat :=
  match s with
  | update_html_signal html => update_chat_html html c
  | append_signal line => append_line line c
  | query_signal _ _ => c
  end.

(** The queries [set_query_from_chat] is called with. *)
Definition window_queries (l : list emission) : list string :=
  l ≫= λ s, match s with
            | query_signal s jq_query => emit s jq_query
            | _ => []
            end.

End chat.

(** ** Specification *)

(** The models a listing offers. *)
Definition detected (listing : outcome jq_result) : list string :=
  match listing with
  | Return result =>
      if bool_decide (returncode result = 0%Z)
      then listed_models (stdout result) else []
  | Raise _ => []
  end.

(** The items of the combo box after [load_models]. *)
Definition offered (ollama_list ollama_list_again : outcome jq_result)
    (llm_get_models : outcome (list string)) : list string :=
  match llm_get_models with
  | Return all_models =>
      detected ollama_list
      ++ filter (λ model_id, String.prefix "ollama:" model_id = false) all_models
  | Raise _ =>
      if bool_decide (detected ollama_list ≠ []) then detected ollama_list
      else if bool_decide (detected ollama_list_again ≠ [])
           then detected ollama_list_again
           else ["gpt-3.5-turbo"]
  end.

(** The current model after [load_models]. *)
Definition chosen (ollama_list ollama_list_again : outcome jq_result)
    (llm_get_models : outcome (list string)) : string :=
  let items := offered ollama_list ollama_list_again llm_get_models in
  match llm_get_models with
  | Return _ =>
      if decide ("ollama:mistral" ∈ items) then "ollama:mistral"
      else default "" (head items)
  | Raise _ => default "" (head items)
  end.

(** The index of the current item is -1 or the index of an item. *)
Definition combo_ok (m : combo) : Prop :=
  (-1 ≤ currentIndex m < Z.of_nat (count m))%Z.

(** ** An example environment *)

Definition example_listing : string :=
  lines ["NAME            ID      SIZE    MODIFIED";
         "mistral:latest  f974a   4.1 GB  2 days ago";
         "";
         "  llama3:8b     365c0   4.7 GB  3 weeks ago"].

Definition example_ollama_list : outcome jq_result :=
  Return {| returncode := 0; stdout := example_listing; stderr := "" |}.

Definition example_ollama_run (model prompt : string) : outcome jq_result :=
  Return {| returncode := 0; stdout := answer1; stderr := "" |}.

Definition example_llm_prompt (model prompt : string) : outcome answer :=
  if bool_decide (model = "gpt-4o")
  then Return (Response (Return answer1) (Raise AttributeError))
  else Raise KeyError.

Definition example_chat : chat :=
  load_models example_ollama_list example_ollama_list
    (Return ["gpt-4o"; "ollama:phi"; "gpt-4o"]) init_ui.


(** ** The combo box *)

Lemma findText_absent text m : findText text m = (-1)%Z ↔ text ∉ combo_items m.
Proof.
  unfold findText. destruct (list_find _ _) as [[i x]|] eqn:E; cbn.
  - apply list_find_Some in E as (Hi & -> & _). split; [lia|].
    intros []. by eapply list_elem_of_lookup_2.
  - apply list_find_None in E. split; [|done]. intros _ Hin.
    rewrite Forall_forall in E. by apply (E _ Hin).
Qed.

Lemma findText_present text m :
  text ∈ combo_items m →
  ∃ i, findText text m = Z.of_nat i ∧ combo_items m !! i = Some text.
Proof.
  intros Hin. unfold findText.
  destruct (list_find _ _) as [[i x]|] eqn:E; cbn.
  - apply list_find_Some in E as (Hi & -> & _). by exists i.
  - apply list_find_None in E. rewrite Forall_forall in E. by destruct (E _ Hin).
Qed.

Lemma addItems_nil m : addItems [] m = m.
Proof.
  destruct m as [l i]. unfold addItems. cbn. rewrite app_nil_r.
  by rewrite bool_decide_eq_false_2 by (by intros []).
Qed.

Lemma currentText_index m i :
  currentIndex m = Z.of_nat i → currentText m = default "" (combo_items m !! i).
Proof.
  intros Hi. unfold currentText. rewrite Hi, Nat2Z.id. case_decide; [lia|done].
Qed.

Lemma currentText_setCurrentText text m :
  text ∈ combo_items m → currentText (setCurrentText text m) = text.
Proof.
  intros (i & Hi & Hget)%findText_present. unfold setCurrentText.
  rewrite Hi. apply lookup_lt_Some in Hget as Hlt.
  case_decide; [lia|]. rewrite (currentText_index _ i); [cbn; by rewrite Hget|].
  cbn. unfold count. case_decide; [done|lia].
Qed.

Lemma currentText_setCurrentIndex m :
  combo_items m ≠ [] →
  currentText (setCurrentIndex 0 m) = default "" (head (combo_items m)).
Proof.
  intros Hm. rewrite (currentText_index _ 0); [by rewrite head_lookup|].
  cbn. unfold count. destruct (combo_items m); [done|]. by case_decide; [|cbn in *; lia].
Qed.

Lemma currentText_none m : currentIndex m = (-1)%Z → currentText m = "".
Proof. intros Hi. unfold currentText. rewrite Hi. by case_decide. Qed.

(** ** The listing *)

Lemma listed_models_prefix x stdout :
  x ∈ listed_models stdout → String.prefix "ollama:" x = true.
Proof.
  unfold listed_models. intros (line & Hx & _)%list_elem_of_bind.
  case_bool_decide; [|by apply elem_of_nil in Hx].
  destruct (split_ws line); [by apply elem_of_nil in Hx|].
  apply list_elem_of_singleton in Hx as ->. by destruct s.
Qed.

Lemma detected_prefix x listing :
  x ∈ detected listing → String.prefix "ollama:" x = true.
Proof.
  unfold detected. destruct listing as [r|e]; [|by intros ?%elem_of_nil].
  case_bool_decide; [apply listed_models_prefix|by intros ?%elem_of_nil].
Qed.

Lemma add_ollama_models_combo listing c :
  model_combo (_add_ollama_models listing c).1
  = addItems (detected listing) (model_combo c).
Proof.
  unfold _add_ollama_models, detected.
  destruct listing as [r|e]; [|by rewrite addItems_nil].
  case_bool_decide; [|by rewrite addItems_nil].
  case_bool_decide as Hl; [done|]. by rewrite Hl, addItems_nil.
Qed.

Lemma add_ollama_models_result listing c :
  (_add_ollama_models listing c).2 = bool_decide (detected listing ≠ []).
Proof.
  unfold _add_ollama_models, detected. destruct listing as [r|e]; [|done].
  case_bool_decide; [|done]. by case_bool_decide.
Qed.

(** The test [findText(model_id) == -1] of [load_models] never fails on a
    model the loop considers: the box holds Ollama models only. *)
Lemma add_llm_models_detected listing all_models :
  add_llm_models all_models (addItems (detected listing) combo_new)
  = addItems (filter (λ model_id, String.prefix "ollama:" model_id = false)
                     all_models)
             (addItems (detected listing) combo_new).
Proof.
  unfold add_llm_models. cbv zeta.
  rewrite (list_filter_iff _ (λ model_id, String.prefix "ollama:" model_id = false)).
  - case_bool_decide as Hl; [done|]. by rewrite Hl, addItems_nil.
  - intros x. split; [by intros []|]. intros Hx.
    split; [done|]. apply findText_absent. cbn. intros Hin%detected_prefix.
    by rewrite Hx in Hin.
Qed.

Lemma select_default_items m : combo_items (select_default m) = combo_items m.
Proof.
  unfold select_default, setCurrentText. cbv zeta. by repeat case_decide.
Qed.

Lemma select_default_current m :
  currentText (select_default m)
  = if decide ("ollama:mistral" ∈ combo_items m) then "ollama:mistral"
    else default "" (head (combo_items m)).
Proof.
  unfold select_default. cbv zeta.
  destruct (decide ("ollama:mistral" ∈ combo_items m)) as [Hin|Hin].
  - rewrite decide_True by (by rewrite findText_absent; intros []).
    by apply currentText_setCurrentText.
  - rewrite decide_False by (by rewrite findText_absent; intros []).
    unfold count. destruct (combo_items m) as [|x l] eqn:E.
    + rewrite decide_False by (cbn; lia). unfold currentText. rewrite E.
      by case_decide.
    + rewrite decide_True by (cbn; lia). rewrite currentText_setCurrentIndex; by rewrite E.
Qed.

(** Items added to a box: the current item stays, and the first item
    becomes current in an empty box. *)
Lemma addItems_current texts m :
  currentIndex m = (if decide (combo_items m = []) then -1 else 0)%Z →
  currentIndex (addItems texts m)
  = (if decide (combo_items m ++ texts = []) then -1 else 0)%Z.
Proof.
  intros Hm. unfold addItems. cbn. rewrite Hm.
  destruct (combo_items m), texts; cbn; by repeat (case_decide || case_bool_decide);
    try done; naive_solver.
Qed.

Lemma currentText_first m :
  currentIndex m = (if decide (combo_items m = []) then -1 else 0)%Z →
  currentText m = default "" (head (combo_items m)).
Proof.
  intros Hm. destruct (combo_items m) as [|x l] eqn:E.
  - by apply currentText_none.
  - rewrite (currentText_index _ 0) by done. by rewrite E.
Qed.

(** ** [load_models] from an empty box *)

Lemma addItems_new texts :
  combo_items (addItems texts combo_new) = texts ∧
  currentText (addItems texts combo_new) = default "" (head texts).
Proof. split; [done|]. by destruct texts. Qed.

Lemma model_combo_append_line line c :
  model_combo (append_line line c) = model_combo c.
Proof. done. Qed.

(** The combo box of [load_models], without the chat display. *)
Lemma load_models_combo l1 l2 llm c :
  model_combo (load_models l1 l2 llm c) =
  let m := addItems (detected l1) (model_combo c) in
  match llm with
  | Return all_models => select_default (add_llm_models all_models m)
  | Raise _ =>
      if decide (count m = 0) then
        let m := addItems (detected l2) m in
        if decide (count m = 0) then addItem "gpt-3.5-turbo" m else m
      else m
  end.
Proof.
  unfold load_models. cbv zeta. destruct llm as [all_models|e].
  { cbn [model_combo set_combo append_to_chat append_line].
    by rewrite add_ollama_models_combo. }
  rewrite !model_combo_append_line, !add_ollama_models_combo.
  rewrite !model_combo_append_line, !add_ollama_models_combo.
  repeat case_decide; cbn [model_combo set_combo];
    by rewrite ?add_ollama_models_combo, ?model_combo_append_line,
               ?add_ollama_models_combo.
Qed.

Lemma load_models_spec l1 l2 llm c :
  model_combo c = combo_new →
  let m := model_combo (load_models l1 l2 llm c) in
  combo_items m = offered l1 l2 llm ∧ currentText m = chosen l1 l2 llm.
Proof.
  intros Hc. rewrite load_models_combo, Hc. unfold chosen, offered, count. cbv zeta.
  destruct llm as [all_models|e].
  { rewrite add_llm_models_detected.
    by rewrite select_default_items, select_default_current. }
  destruct (detected l1) as [|x1 d1] eqn:E1; [|apply (addItems_new (x1 :: d1))].
  rewrite addItems_nil. cbn [combo_new combo_items length].
  rewrite decide_True, bool_decide_eq_false_2 by (done || by intros []).
  destruct (detected l2) as [|x2 d2] eqn:E2; [done|apply (addItems_new (x2 :: d2))].
Qed.

(** ** [send_message] *)

Lemma send_message_blank c g :
  strip (chat_input c) = "" → send_message c g = (c, None, g).
Proof. intros Hm. unfold send_message. by rewrite Hm. Qed.

Lemma send_message_job c g :
  strip (chat_input c) ≠ "" →
  ∃ n, (1000 ≤ n ≤ 9999)%Z ∧
    let generating_id := "generating_" +:+ pretty n in
    send_message c g =
    ({| model_combo := model_combo c;
        chat_display := chat_display c
          ++ [Line ("<b>You:</b> " +:+ strip (chat_input c));
              Line (generating_span generating_id)];
        chat_input := "" |},
     Some {| job_message := strip (chat_input c);
             job_model_name := currentText (model_combo c);
             job_generating_id := generating_id |},
     (randint 1000 9999 g).2).
Proof.
  intros Hm. exists (randint 1000 9999 g).1. split; [apply randint_range; lia|].
  unfold send_message. rewrite bool_decide_eq_false_2 by done. cbv zeta.
  destruct (randint 1000 9999 g) as [n g']. unfold append_to_chat, append_line.
  cbn. by rewrite <-app_assoc.
Qed.

(** ** [get_response] *)

Lemma ask_model_ollama ollama_run llm_prompt message name :
  ask_model ollama_run llm_prompt message ("ollama:" +:+ name)
  = try! result := ollama_run name message in Return (Text (strip (stdout result))).
Proof. unfold ask_model. by destruct name. Qed.

Lemma ask_model_llm ollama_run llm_prompt message model_name :
  String.prefix "ollama:" model_name = false →
  ask_model ollama_run llm_prompt message model_name = llm_prompt model_name message.
Proof. unfold ask_model. by intros ->. Qed.

Lemma window_queries_emit_query lines :
  window_queries (emit_query lines) =
  match extract_lines lines with
  | Some jq_query =>
      if bool_decide (jq_query ≠ "") then
        emit query_generated (_fix_jq_syntax jq_query)
        ++ emit generate_query_signal (_fix_jq_syntax jq_query)
      else []
  | None => []
  end.
Proof.
  unfold emit_query. destruct (extract_lines lines) as [q|]; [|done].
  by case_bool_decide.
Qed.

Lemma get_response_text_eq ollama_run llm_prompt html html_e message name gid result :
  ollama_run name message = Return result →
  get_response ollama_run llm_prompt html html_e message ("ollama:" +:+ name) gid
  = [update_html_signal (replace (generating_span gid) "" html);
     append_signal (Line ("<b>Assistant:</b> " +:+ strip (stdout result)))]
    ++ emit_query (split_on newline (strip (stdout result))).
Proof. intros Hr. unfold get_response. by rewrite ask_model_ollama, Hr. Qed.

Lemma get_response_queries ollama_run llm_prompt html html_e message name gid result :
  ollama_run name message = Return result →
  window_queries
    (get_response ollama_run llm_prompt html html_e message ("ollama:" +:+ name) gid)
  = generated_queries (strip (stdout result)).
Proof.
  intros Hr. rewrite (get_response_text_eq _ _ _ _ _ _ _ _ Hr).
  unfold window_queries at 1. rewrite bind_app. cbn [mbind list_bind app].
  fold (window_queries (emit_query (split_on newline (strip (stdout result))))).
  by rewrite window_queries_emit_query.
Qed.

Lemma get_response_raised ollama_run llm_prompt html html_e message model_name gid e :
  ask_model ollama_run llm_prompt message model_name = Raise e →
  get_response ollama_run llm_prompt html html_e message model_name gid
  = response_failed html_e gid "Error: Error getting response from model: " e.
Proof. intros He. unfold get_response. by rewrite He. Qed.

Lemma get_response_no_split ollama_run llm_prompt html html_e message model_name gid
    text e :
  String.prefix "ollama:" model_name = false →
  llm_prompt model_name message = Return (Response (Return text) (Raise e)) →
  get_response ollama_run llm_prompt html html_e message model_name gid
  = [update_html_signal (replace (generating_span gid) "" html);
     append_signal (Line ("<b>Assistant:</b> " +:+ text))]
    ++ response_failed html_e gid "Error: " e.
Proof.
  intros Hp Hr. unfold get_response. by rewrite (ask_model_llm _ _ _ _ Hp), Hr.
Qed.

(** The span of the generating message is removed from the document only
    when the document contains it literally. *)
Lemma generating_span_stays gid html :
  contains (generating_span gid) html = false →
  replace (generating_span gid) "" html = html.
Proof. apply replace_absent. Qed.

(** ** Properties *)

(** [C17] The models the widget offers when it is built, and the one it
    selects.  When the library lists its models, the box holds the Ollama
    models of the listing followed by every model of the library whose id
    does not start with [ollama:], and the current model is
    [ollama:mistral] when the box holds it, else the first item, else none.
    When the library fails, the box holds the Ollama models of the first
    listing that offers any, else [gpt-3.5-turbo], and the first item is
    current. *)
Theorem load_models_offered ollama_list ollama_list_again llm_get_models :
  let m := model_combo (chat_init ollama_list ollama_list_again llm_get_models) in
  combo_items m = offered ollama_list ollama_list_again llm_get_models ∧
  currentText m = chosen ollama_list ollama_list_again llm_get_models.
Proof. by apply load_models_spec. Qed.

(** [C31] The widget is left without a model exactly when the listing offers
    no Ollama model and the library returns, without raising, no model or
    only models whose id starts with [ollama:]. *)
Theorem load_models_no_model ollama_list ollama_list_again llm_get_models :
  combo_items (model_combo (chat_init ollama_list ollama_list_again llm_get_models))
  = [] ↔
  detected ollama_list = [] ∧
  ∃ all_models, llm_get_models = Return all_models ∧
    Forall (λ model_id, String.prefix "ollama:" model_id = true) all_models.
Proof.
  unfold chat_init.
  destruct (load_models_spec ollama_list ollama_list_again llm_get_models init_ui
              eq_refl) as [-> _].
  unfold offered. destruct llm_get_models as [all_models|e].
  - rewrite app_nil, filter_nil_Forall. split.
    + intros [Hd Hall]. split; [done|]. exists all_models. split; [done|].
      eapply Forall_impl; [exact Hall|]. intros x Hx. by apply not_false_is_true.
    + intros [Hd (? & [= <-] & Hall)]. split; [done|].
      eapply Forall_impl; [exact Hall|]. by intros x ->.
  - split; [|by intros [_ (? & ? & _)]].
    repeat case_bool_decide; try done; by intros ?.
Qed.

(** [C30] An answer that is an object without the method [split], as the
    responses of the library are: the worker shows the text of the answer,
    then fails on [response.split], reports the error and emits no query. *)
Theorem get_response_object ollama_run llm_prompt html html_e message model_name gid
    text e :
  String.prefix "ollama:" model_name = false →
  llm_prompt model_name message = Return (Response (Return text) (Raise e)) →
  let emitted :=
    get_response ollama_run llm_prompt html html_e message model_name gid in
  emitted = [update_html_signal (replace (generating_span gid) "" html);
             append_signal (Line ("<b>Assistant:</b> " +:+ text));
             update_html_signal (replace (generating_span gid) "" html_e);
             append_signal (ErrorLine "Error: " e);
             append_signal (Line "<i>Try selecting a different model from the dropdown.</i>")]
  ∧ window_queries emitted = [].
Proof.
  intros Hp Hr. cbv zeta. by rewrite (get_response_no_split _ _ _ _ _ _ _ _ _ Hp Hr).
Qed.

(** [C40] From the listing to the process: every item the box takes from
    the output of [ollama list] is [ollama:] followed by the first word of
    a line after the header, and a question sent with that item selected
    runs [ollama run] with exactly that word, also when the word has a colon
    of its own ([mistral:latest]); the answer is the output of the process
    without its surrounding whitespace. *)
Theorem listed_model_runs ollama_run llm_prompt stdout message model_id :
  model_id ∈ listed_models stdout →
  ∃ line name,
    line ∈ drop 1 (split_on newline (strip stdout)) ∧
    head (split_ws line) = Some name ∧
    model_id = "ollama:" +:+ name ∧
    ask_model ollama_run llm_prompt message model_id
    = try! result := ollama_run name message in
      Return (Text (strip (Session.stdout result))).
Proof.
  unfold listed_models. intros (line & Hx & Hline)%list_elem_of_bind.
  case_bool_decide; [|by apply elem_of_nil in Hx].
  destruct (split_ws line) as [|name ?] eqn:Hw; [by apply elem_of_nil in Hx|].
  apply list_elem_of_singleton in Hx as ->. exists line, name.
  rewrite Hw. split_and!; [done..|apply ask_model_ollama].
Qed.

(** ** Examples *)

(** The example listing has a blank line and an indented line; the library
    offers a model twice and an Ollama model, which is skipped. *)
Example load_models_example :
  combo_items (model_combo example_chat)
  = ["ollama:mistral:latest"; "ollama:llama3:8b"; "gpt-4o"; "gpt-4o"]
  ∧ currentText (model_combo example_chat) = "ollama:mistral:latest"
  ∧ chat_display example_chat
    = [Line "<i>Welcome to JSON Assistant. Ask questions about your JSON data to generate jq queries.</i>";
       Line "<i>Found 2 Ollama models</i>";
       Line "<i>Using model: ollama:mistral:latest</i>"].
Proof. by vm_compute. Qed.

(** Without Ollama and without the library the box holds the fallback;
    without Ollama and with a library that has no model it holds nothing. *)
Example load_models_failures :
  let c := load_models (Raise OSError) (Raise OSError) (Raise OSError) init_ui in
  let c' := load_models (Raise OSError) (Raise OSError) (Return []) init_ui in
  combo_items (model_combo c) = ["gpt-3.5-turbo"]
  ∧ currentText (model_combo c) = "gpt-3.5-turbo"
  ∧ combo_items (model_combo c') = []
  ∧ last (chat_display c') = Some (Line "<i>Using model: </i>").
Proof. by vm_compute. Qed.

Example send_message_example :
  let c := (chat_keyPressEvent (ChatText " sort by date ") example_chat []).1.1 in
  (chat_keyPressEvent (ChatReturn false) c [42]).1.2
  = Some {| job_message := "sort by date";
            job_model_name := "ollama:mistral:latest";
            job_generating_id := "generating_1042" |}
  ∧ (chat_keyPressEvent (ChatReturn false) example_chat [42]).1.2 = None.
Proof. by vm_compute. Qed.

Example get_response_example :
  get_response example_ollama_run example_llm_prompt "H" "E" "m"
    "ollama:mistral:latest" "generating_1042"
  = [update_html_signal "H";
     append_signal (Line ("<b>Assistant:</b> " +:+ strip answer1));
     append_signal (Line "<i>Generated query: <code>.[] | sort_by(.created_at) | reverse</code></i>");
     query_signal query_generated ".[] | sort_by(.created_at) | reverse";
     query_signal generate_query_signal ".[] | sort_by(.created_at) | reverse"]
  ∧ get_response example_ollama_run example_llm_prompt "H" "E" "m" "" "generating_1042"
    = [update_html_signal "E";
       append_signal (ErrorLine "Error: Error getting response from model: " KeyError);
       append_signal (Line "<i>Try selecting a different model from the dropdown.</i>")].
Proof. by vm_compute. Qed.

Lemma get_response_object_witness :
  let emitted :=
    get_response example_ollama_run example_llm_prompt "H" "E" "m" "gpt-4o"
      "generating_1042" in
  emitted = [update_html_signal (replace (generating_span "generating_1042") "" "H");
             append_signal (Line ("<b>Assistant:</b> " +:+ answer1));
             update_html_signal (replace (generating_span "generating_1042") "" "E");
             append_signal (ErrorLine "Error: " AttributeError);
             append_signal (Line "<i>Try selecting a different model from the dropdown.</i>")]
  ∧ window_queries emitted = [].
Proof.
  by apply (get_response_object example_ollama_run example_llm_prompt "H" "E" "m"
              "gpt-4o" "generating_1042" answer1 AttributeError).
Defined.

Lemma listed_model_runs_witness :
  ∃ line name,
    line ∈ drop 1 (split_on newline (strip example_listing)) ∧
    head (split_ws line) = Some name ∧
    "ollama:llama3:8b" = "ollama:" +:+ name ∧
    ask_model example_ollama_run example_llm_prompt "m" "ollama:llama3:8b"
    = try! result := example_ollama_run name "m" in
      Return (Text (strip (stdout result))).
Proof.
  apply (listed_model_runs example_ollama_run example_llm_prompt example_listing).
  by apply (bool_decide_unpack _); vm_compute.
Defined.
