(* ===== verification/App.v ===== *)
(** * App: the window with its query line and its chat

    [Session] models the window with the text of the query line as a field,
    [History] the query line by itself, [Query] the queries a chat answer
    generates.  This file composes them the way [src/gui.py] connects the
    widgets: a key pressed in the line runs [JqQueryInput.keyPressEvent] and
    then what the handler calls on the window ([run_jq_query] on Return,
    [reset_to_original_json] on Escape), the Run button calls
    [run_jq_query], and every query generated from an answer of the model
    is set into the line and run ([set_query_from_chat]); a click on a row
    of the browser fills the form of [Details] from the analysis the viewer
    holds.  The handler of that click is the one the viewer assigns over
    [_handle_item_clicked] of the tree (gui.py 492) after the tree has
    connected [itemClicked] to its own (gui.py 443); the model takes the
    assignment to redirect the clicks, as its comment says.  A release on
    an eye is the event [Eye]; the click Qt reports for the same release
    is a [Click] of its own.

    The file proves that the two models agree on the text of the line, that
    every state the application reaches satisfies the invariants of both
    components, and that none of them has a hidden path. *)

From S2P Require Import Prelude PyStr PyDict Value Filter PyCollections ValueStats Stats Schema.
From S2P Require Import SchemaTree Lookup Details History Query Session.

Record app : Type := App {
  win : window;
  line : History.query_input;
  details : list row;             (* the rows of details_layout *)
}.

Inductive app_event : Type :=
| Key (k : key)                 (* a key pressed in the query line *)
| RunButton                     (* run_button.clicked *)
| Drop (file_path : string)     (* dropEvent *)
| Eye (pos : list nat)          (* a click on the eye of a row *)
| Click (pos : list nat)        (* a click on a row: itemClicked *)
| Answer (response : string).   (* the answer of the model has arrived *)

(** [QLineEdit.setText] *)
Definition setText (s : string) (q : History.query_input) : History.query_input :=
  {| text := s; history := history q; history_index := history_index q;
     current_input := current_input q |}.

Section app.
Context (read_file : string → option string).
Context (json_loads : string → option value).
Context (run_jq : string → string → option jq_result).
Context (repr : pyobj → string).
Context (repr_item : string → value → string).
Context (format_float : nat → stat → string).

Definition app_init (g : rng) : app :=
  {| win := init g; line := query_input_init; details := [] |}.

(** What [keyPressEvent] calls on the window. *)
Definition perform (act : option action) (w : window) : window :=
  match act with
  | Some History.RunQuery => run_jq_query json_loads run_jq w
  | Some ResetView => reset_to_original_json json_loads w
  | None => w
  end.

(** [set_query_from_chat(query)]: the query is set into the line and run. *)
Definition deliver (a : app) (query : string) : app :=
  {| win := set_query_from_chat json_loads run_jq query (win a);
     line := setText query (line a); details := details a |}.

(** The click handler the viewer installs on the browser: the form is
    cleared and filled again; an exception of the handler leaves the rows
    added so far. *)
Definition clicked (a : app) (texts : list string) : app :=
  {| win := win a; line := line a;
     details := (show_attribute_details repr repr_item format_float
                   (OSchema (schema_info (viewer (win a)))) (reverse texts)).1 |}.

Definition app_step (a : app) (e : app_event) : app :=
  match e with
  | Key k =>
      let '(q, act) :=
        keyPressEvent true (nonempty (current_json_file (win a))) k (line a) in
      {| win := perform act (set_query (text q) (win a)); line := q;
         details := details a |}
  | RunButton =>
      {| win := run_jq_query json_loads run_jq (win a); line := line a;
         details := details a |}
  | Drop file_path =>
      {| win := load_json_file read_file json_loads file_path (win a);
         line := line a; details := details a |}
  | Eye pos =>
      {| win := editorEvent pos (win a); line := line a; details := details a |}
  | Click pos =>
      from_option (clicked a) a (texts_to (schema_tree (viewer (win a))) pos)
  | Answer response => fold_left deliver (generated_queries response) a
  end.

Inductive app_reachable : app → Prop :=
| app_reachable_init g : app_reachable (app_init g)
| app_reachable_step a e : app_reachable a → app_reachable (app_step a e).

(** The text of the line as the window reads it and as the line holds it. *)
Definition in_sync (a : app) : Prop := Session.query_input (win a) = text (line a).

Record app_inv (a : app) : Prop := AppInv {
  app_sync : in_sync a;
  app_window : inv (win a);
  app_history : history_ok (line a);
}.

(** ** The text of the line *)

Lemma query_input_set_label l w :
  Session.query_input (set_label l w) = Session.query_input w.
Proof. by destruct w. Qed.

Lemma query_input_set_view v w :
  Session.query_input (set_view v w) = Session.query_input w.
Proof. by destruct w. Qed.

Lemma query_input_add_dialog d w :
  Session.query_input (add_dialog d w) = Session.query_input w.
Proof. by destruct w. Qed.

Lemma query_input_show_schema v w :
  Session.query_input (show_schema v w) = Session.query_input w.
Proof.
  unfold show_schema, set_json_data. destruct_window w.
  by destruct (analyze_json _ _).
Qed.

Lemma query_input_load_failed v l w :
  Session.query_input (load_failed v l w) = Session.query_input w.
Proof. by destruct w. Qed.

Create Rewrite HintDb window.
#[local] Hint Rewrite query_input_set_label query_input_set_view
  query_input_add_dialog query_input_show_schema query_input_load_failed : window.

Lemma query_input_reset w :
  Session.query_input (reset_to_original_json json_loads w) = Session.query_input w.
Proof.
  unfold reset_to_original_json. destruct (json_content w) eqn:E; [|done].
  destruct (nonempty _); [|done].
  destruct (json_loads _); autorewrite with window; by destruct w.
Qed.

Lemma query_input_run_jq w :
  Session.query_input (run_jq_query json_loads run_jq w) = Session.query_input w.
Proof.
  unfold run_jq_query.
  repeat (case_match || case_bool_decide); autorewrite with window;
    done || apply query_input_reset.
Qed.

Lemma query_input_load file_path w :
  Session.query_input (load_json_file read_file json_loads file_path w)
  = Session.query_input w.
Proof.
  unfold load_json_file. repeat case_match; autorewrite with window; by destruct w.
Qed.

Lemma query_input_toggle p is_visible w :
  Session.query_input (toggle_attribute_visibility p is_visible w)
  = Session.query_input w.
Proof.
  unfold toggle_attribute_visibility. cbv zeta.
  repeat case_match; autorewrite with window; by destruct w.
Qed.

Lemma query_input_editorEvent pos w :
  Session.query_input (editorEvent pos w) = Session.query_input w.
Proof.
  unfold editorEvent. destruct (toggle_at _ _) as [[tree item]|]; [|done].
  destruct (texts_to _ _); [|done]. unfold eye_clicked.
  destruct (_handle_eye_clicked _ _ _) as [sv [p vis]].
  rewrite query_input_toggle. by destruct w.
Qed.

Lemma query_input_perform act w :
  Session.query_input (perform act w) = Session.query_input w.
Proof.
  destruct act as [[]|]; [apply query_input_run_jq|apply query_input_reset|done].
Qed.

Lemma clicked_win a texts : win (from_option (clicked a) a texts) = win a.
Proof. by destruct texts. Qed.

Lemma clicked_line a texts : line (from_option (clicked a) a texts) = line a.
Proof. by destruct texts. Qed.

Lemma deliver_sync a query : in_sync (deliver a query).
Proof.
  unfold in_sync, deliver, set_query_from_chat. cbn [win line text setText].
  rewrite query_input_run_jq. by destruct (win a).
Qed.

Lemma fold_deliver_sync queries a :
  in_sync a → in_sync (fold_left deliver queries a).
Proof.
  revert a. induction queries as [|q queries IH]; intros a Ha; [done|].
  cbn [fold_left]. apply IH, deliver_sync.
Qed.

Lemma app_step_sync a e : in_sync a → in_sync (app_step a e).
Proof.
  unfold in_sync. intros Ha. destruct e as [k| |file_path|pos|pos|response];
    cbn [app_step win line].
  - destruct (keyPressEvent _ _ _ _) as [q act]. cbn [win line].
    rewrite query_input_perform. by destruct (win a).
  - by rewrite query_input_run_jq.
  - by rewrite query_input_load.
  - by rewrite query_input_editorEvent.
  - by rewrite clicked_win, clicked_line.
  - by apply fold_deliver_sync.
Qed.

(** ** The hidden sets *)

Lemma hidden_sets_deliver queries a :
  hidden_sets (win (fold_left deliver queries a)) = hidden_sets (win a).
Proof.
  revert a. induction queries as [|q queries IH]; intros a; [done|].
  cbn [fold_left]. rewrite IH. unfold deliver, set_query_from_chat. cbn [win].
  by rewrite hidden_sets_run_jq, hidden_sets_set_query.
Qed.

Lemma hidden_within_app_step a e : hidden_within (win a) (win (app_step a e)).
Proof.
  destruct e as [k| |file_path|pos|pos|response]; cbn [app_step win].
  - destruct (keyPressEvent _ _ _ _) as [q act]. cbn [win].
    apply hidden_sets_within. destruct act as [[]|]; cbn [perform].
    all: by rewrite ?hidden_sets_run_jq, ?hidden_sets_reset, hidden_sets_set_query.
  - apply hidden_sets_within, hidden_sets_run_jq.
  - apply hidden_within_load.
  - apply hidden_within_editorEvent.
  - by rewrite clicked_win.
  - apply hidden_sets_within, hidden_sets_deliver.
Qed.

(** The application never hides an attribute: whatever the user does, the
    filter of the JSON pane runs with the empty set. *)
Theorem app_nothing_hidden a : app_reachable a → hidden_paths (win a) = ∅.
Proof.
  induction 1 as [g|a e _ IH]; [done|].
  destruct (hidden_within_app_step a e) as [Hh _].
  cbn [hidden_sets fst] in Hh. set_solver.
Qed.

(** ** The invariants of the components *)

Section invariants.
Context (json_loads_wf : ∀ s v, json_loads s = Some v → value_wf v).

Lemma inv_set_query s w : inv w → inv (set_query s w).
Proof. apply (inv_step read_file json_loads run_jq json_loads_wf w (EditQuery s)). Qed.

Lemma inv_perform act w : inv w → inv (perform act w).
Proof.
  destruct act as [[]|]; [by apply inv_run_jq|by apply inv_reset|done].
Qed.

Lemma setText_ok s q : history_ok q → history_ok (setText s q).
Proof. by intros []. Qed.

Lemma fold_deliver_inv queries a :
  inv (win a) ∧ history_ok (line a) →
  inv (win (fold_left deliver queries a)) ∧
  history_ok (line (fold_left deliver queries a)).
Proof.
  revert a. induction queries as [|q queries IH]; intros a [Hw Hq]; [done|].
  cbn [fold_left]. apply IH. split; cbn [deliver win line]; [|by apply setText_ok].
  apply (inv_step read_file json_loads run_jq json_loads_wf _ (ChatQuery q) Hw).
Qed.

Lemma app_step_inv a e : app_inv a → app_inv (app_step a e).
Proof.
  intros [Hs Hw Hq]. split; [by apply app_step_sync|..];
    destruct e as [k| |file_path|pos|pos|response]; cbn [app_step win line];
    rewrite ?clicked_win, ?clicked_line; try done.
  - destruct (keyPressEvent _ _ _ _) as [q act]. by apply inv_perform, inv_set_query.
  - by apply inv_run_jq.
  - by apply inv_load.
  - by apply inv_editorEvent.
  - by apply fold_deliver_inv.
  - pose proof (key_step_ok true (nonempty (current_json_file (win a))) _ k Hq) as Hk.
    unfold key_step in Hk. by destruct (keyPressEvent _ _ _ _).
  - by apply fold_deliver_inv.
Qed.

Lemma app_init_inv g : app_inv (app_init g).
Proof. split; [done|apply inv_init|apply query_input_init_ok]. Qed.

Lemma app_reachable_inv a : app_reachable a → app_inv a.
Proof. induction 1; [apply app_init_inv|by apply app_step_inv]. Qed.

(** [C15] Every state the application reaches, by keys pressed in the query
    line, the Run button, dropped files, clicks on eyes and answers of the
    model, satisfies the invariant of the session and the invariant of the
    history, and the text the window reads is the text of the line. *)
Theorem app_invariant a : app_reachable a → app_inv a.
Proof. apply app_reachable_inv. Qed.

End invariants.

End app.

(** ** Examples *)

Definition app_run (es : list app_event) : app :=
  fold_left (app_step example_fs example_loads example_jq
               example_repr example_repr_item example_format) es (app_init []).

(** Only Return stores the query: a query run with the button or generated
    by the chat is not in the history. *)
Example history_only_on_return :
  history (line (app_run [Key (KeyText ".a"); RunButton])) = []
  ∧ history (line (app_run [Key (KeyText ".a"); Key KeyReturn])) = [".a"]
  ∧ history (line (app_run [Answer (lines ["Here:"; ".a"])])) = []
  ∧ text (line (app_run [Answer (lines ["Here:"; ".a"])])) = ".a".
Proof. by vm_compute. Qed.

(** One answer of the model runs its query three times: without a loaded
    file the window opens three warnings. *)
Example answer_runs_thrice :
  dialogs (win (app_run [Answer (lines ["Here:"; ".a"])]))
  = [NoFileLoaded; NoFileLoaded; NoFileLoaded].
Proof. by vm_compute. Qed.

(** A click fills the form from the analysis of the moment; the form stays
    when a query replaces the document and the browser. *)
Example details_stay :
  let a := app_run [Drop "ab.json"; Click [0; 0]; Key (KeyText "."); Key KeyReturn] in
  details a
  = [("Path:", "a"); ("Type:", "int"); ("Value:", "1"); ("Min Value:", "1");
     ("Max Value:", "1"); ("Examples:", ""); ("  #1:", "1")]
  ∧ schema_tree (viewer (win a))
    = [Item "[Root]" "object" Self [Item "b" "int" Self []]].
Proof. by vm_compute. Qed.

Lemma app_run_reachable es :
  app_reachable example_fs example_loads example_jq
    example_repr example_repr_item example_format (app_run es).
Proof.
  unfold app_run. induction es as [|e es IH] using rev_ind; [constructor|].
  rewrite fold_left_app. by constructor.
Qed.

Lemma app_invariant_witness :
  app_inv (app_run [Key (KeyText ".a"); Key KeyReturn; Key KeyUp]).
Proof.
  apply (app_invariant example_fs example_loads example_jq
           example_repr example_repr_item example_format example_loads_wf),
    app_run_reachable.
Defined.
