(* ===== verification/Cli.v ===== *)
(** * Cli: the command-line tool ([src/askjson.py])

    [main] answers one question about a JSON file or starts
    [interactive_mode], a loop that reads questions and jq commands from the
    terminal.  Both call [ask_ollama], which asks a model for a jq filter
    and cleans the answer, and [run_jq], which runs the filter.

    The processes and the file system are parameters of the section:
    [read_file] ([None] for [FileNotFoundError]), [json_loads] ([None] for
    [JSONDecodeError]), [ollama] and [jq], the last two with the outcome
    [Raise] when the program cannot be started.  The two handlers of [load]
    catch these two exceptions only: a file that exists and cannot be read
    (a directory, no permission) raises another [OSError], which leaves the
    tool as a traceback; such files are outside the model.  What the tool prints is part of the result: a function
    returns the lines it has echoed together with its value or the exception
    it raises ([io]).  The terminal is the list of the inputs typed; reading
    past its end leaves the loop waiting ([Waiting]).

    The file proves what [ask_ollama] does to the answer, the result of
    [run_jq] on each branch, when the interactive loop ends and that it never
    ends on an exhausted input, and the exit status of [main]. *)

From Stdlib Require Import Ascii.
From S2P Require Import Prelude PyStr PyDict Value.

#[local] Open Scope py_scope.

(** ** Processes and terminal output *)

(** [subprocess.CompletedProcess] *)
Record completed : Type := Completed {
  returncode : Z;
  stdout : string;
  stderr : string;
}.

Inductive output : Type :=
| Echo (message : string)          (* click.echo(message) *)
| EchoErr (message : string)       (* click.echo(message, err=True) *)
| EchoError (e : exn)              (* click.echo(f"Error: {e}") *)
| Prompt (message : string).       (* the prompt of input(message) *)

(** The lines echoed, and the value or the exception. *)
Definition io (A : Type) : Type := writer output A.

Definition echo (message : string) : io unit := tell (Echo message).

(** The double quote and the string of a line feed. *)
Definition dquote : ascii := ascii_of_nat 34.
Definition nl : string := String newline "".

(** What [ask_ollama] puts into its prompt. *)
Record prompt : Type := MkPrompt {
  prompt_json : string;        (* {json_content_limited} *)
  prompt_structure : string;   (* {structure_type} *)
  prompt_question : string;    (* {question} *)
}.

(** The exit of the program. *)
Inductive status : Type :=
| Returned                    (* the function returned *)
| Exit (code : Z)             (* sys.exit(code) *)
| Crashed (e : exn)           (* an exception left main *)
| Waiting.                    (* input() waits for a line *)

Inductive input : Type :=
| Line (s : string)
| KeyboardInterrupt           (* Ctrl-C at the prompt *)
| EOF.                        (* end of input: input() raises EOFError *)

(** Where the loop of [interactive_mode] reads. *)
Inductive phase : Type :=
| AskQuestion                 (* input("Your question (or jq command): ") *)
| AskModify                   (* input("Do you want to modify the jq command? (y/n): ") *)
| AskNewCommand.              (* input("Enter modified jq command: ") *)

(** ** The pure parts of [ask_ollama]

    The excerpt of the document that goes into the prompt, and the clean-up
    of the answer. *)

Definition json_content_limited (json_content : string) : string :=
  let limited := join nl (take 50 (split_on newline json_content)) in
  if decide (50 < length (split_on newline json_content))
  then limited +:+ nl +:+ "... (truncated for brevity)"
  else limited.

Definition clean_result (raw_result : string) : string :=
  strip (replace "jq" "" (replace "```" "" (replace "`" "" raw_result))).

(** ** An example environment

    A file [data.json] with the array [[1, 2]], a model that answers with
    a fenced filter, and a jq that knows three filters. *)

Definition cli_file (file : string) : option string :=
  if bool_decide (file = "data.json") then Some "[1, 2]" else None.

Definition cli_json (s : string) : option value :=
  if bool_decide (s = "[1, 2]") then Some (VList [VInt 1; VInt 2]) else None.

Definition cli_answer : string :=
  "```jq" +:+ nl +:+ ".[] | select(. > 1)" +:+ nl +:+ "```" +:+ nl.

Definition cli_ollama (model : string) (p : prompt) : outcome completed :=
  if bool_decide (model = "none") then Raise OSError
  else Return {| returncode := 0; stdout := cli_answer; stderr := "" |}.

Definition cli_jq (filter file : string) : outcome completed :=
  if bool_decide (filter = ".[] | select(. > 1)")
  then Return {| returncode := 0; stdout := "2" +:+ nl; stderr := "" |}
  else if bool_decide (filter = "type")
  then Return {| returncode := 0;
                 stdout := String dquote "array" +:+ String dquote nl;
                 stderr := "" |}
  else if bool_decide (filter = ".[0]")
  then Return {| returncode := 0; stdout := "1" +:+ nl; stderr := "" |}
  else if bool_decide (filter = ".a")
  then Return {| returncode := 5; stdout := "";
                 stderr := "jq: error: Cannot index array with a" |}
  else Return {| returncode := 0; stdout := ""; stderr := "" |}.

Section cli.
Context (read_file : string → option string).
Context (json_loads : string → option value).
Context (ollama : string → prompt → outcome completed).
Context (jq : string → string → outcome completed).

(** ** [ask_ollama(question, json_content, model)] *)

Definition structure_type (json_content : string) : string :=
  match json_loads json_content with
  | Some (VList _) => "array"
  | Some _ => "object"
  | None => "unknown"
  end.

Definition ask_ollama (question json_content model : string) : io string :=
  let p := {| prompt_json := json_content_limited json_content;
              prompt_structure := structure_type json_content;
              prompt_question := question |} in
  do! result := call (ollama model p) in
  let raw_result := strip (stdout result) in
  io_ret (clean_result raw_result).

(** ** [run_jq(jq_command, json_file)] *)

Definition run_jq (jq_command json_file : string) : io string :=
  let cleaned_command := strip_chars [dquote; "'"%char] jq_command in
  say! echo ("Executing: jq '" +:+ cleaned_command +:+ "' " +:+ json_file) in
  do! result := call (jq cleaned_command json_file) in
  if bool_decide (returncode result ≠ 0%Z) then
    (* check=True: CalledProcessError, caught *)
    io_ret ("Error executing jq command: " +:+ stderr result)
  else if bool_decide (strip (stdout result) = "") then
    say! echo "No output from jq. Checking JSON structure..." in
    do! check_result := call (jq "type" json_file) in
    if contains "array" (stdout check_result) then
      do! sample_result := call (jq ".[0]" json_file) in
      io_ret ("No results found. Sample data from first element:" +:+ nl
              +:+ stdout sample_result)
    else
      io_ret "No results found. Check that the fields in your query exist in the JSON."
  else io_ret (stdout result).

(** [result = run_jq(...); click.echo("\nResult:"); click.echo(result)] *)
Definition show_result (jq_command file : string) : io unit :=
  do! result := run_jq jq_command file in
  say! echo (nl +:+ "Result:") in
  echo result.

(** ** Opening the file: the [try] block of [main] and [interactive_mode] *)

Definition load (file : string) : list output * option string :=
  match read_file file with
  | None => ([EchoErr ("Error: File " +:+ file +:+ " not found")], None)
  | Some json_content =>
      match json_loads json_content with
      | None => ([EchoErr ("Error: " +:+ file +:+ " is not a valid JSON file")], None)
      | Some _ => ([], Some json_content)
      end
  end.

(** ** [interactive_mode(file, model)] *)

Definition banner (file model : string) : list output :=
  [Echo ("Interactive mode activated. Using model: " +:+ model);
   Echo ("Analyzing JSON file: " +:+ file);
   Echo "Type 'exit' or 'quit' to end the session.";
   Echo "Type 'jq' followed by a command to directly execute a jq query.";
   Echo (str_mul "-" 50)].

Definition prompt_of (ph : phase) : string :=
  match ph with
  | AskQuestion => nl +:+ "Your question (or jq command): "
  | AskModify => nl +:+ "Do you want to modify the jq command? (y/n): "
  | AskNewCommand => "Enter modified jq command: "
  end.

(** The code between two [input] calls, run on the line read in phase
    [ph]: what it echoes, and the next phase, [None] after [break].  An
    exception of a call is caught by [except Exception], which echoes it;
    the loop starts over. *)
Definition on_line (file model json_content : string) (ph : phase) (s : string)
    : list output * option phase :=
  let guarded (m : io unit) (next : phase) : list output * option phase :=
    match m with
    | (log, Return _) => (log, Some next)
    | (log, Raise e) => (log ++ [EchoError e], Some AskQuestion)
    end in
  match ph with
  | AskQuestion =>
      let question := s in
      if bool_decide (lower question ∈ ["exit"; "quit"]) then
        ([Echo "Exiting interactive mode."], None)
      else if String.prefix "jq " (lower question) then
        let jq_command := strip (drop_str 3 question) in
        guarded (say! echo ("Executing jq directly: " +:+ jq_command) in
                 show_result jq_command file) AskQuestion
      else
        guarded (say! echo ("Generating jq command for: " +:+ question) in
                 do! jq_command := ask_ollama question json_content model in
                 say! echo ("Generated jq command: " +:+ jq_command) in
                 show_result jq_command file) AskModify
  | AskModify =>
      if bool_decide (lower s = "y") then ([], Some AskNewCommand)
      else ([], Some AskQuestion)
  | AskNewCommand =>
      let new_command := s in
      if bool_decide (strip new_command ≠ "") then
        guarded (say! echo ("Using modified command: " +:+ new_command) in
                 show_result new_command file) AskQuestion
      else ([], Some AskQuestion)
  end.

(** One [input] call and the code up to the next one. *)
Definition cli_step (file model json_content : string) (ph : phase) (i : input)
    : list output * option phase :=
  let '(log, next) :=
    match i with
    | Line s => on_line file model json_content ph s
    | KeyboardInterrupt => ([Echo (nl +:+ "Exiting interactive mode.")], None)
    | EOF => ([EchoError EOFError], Some AskQuestion)
    end in
  (Prompt (prompt_of ph) :: log, next).

(** The [while True] loop on the inputs typed. *)
Fixpoint loop (file model json_content : string) (ph : phase)
    (inputs : list input) : list output * status :=
  match inputs with
  | [] => ([Prompt (prompt_of ph)], Waiting)
  | i :: inputs =>
      match cli_step file model json_content ph i with
      | (log, Some next) =>
          let '(log', st) := loop file model json_content next inputs in
          (log ++ log', st)
      | (log, None) => (log, Returned)
      end
  end.

Definition interactive_mode (file model : string) (inputs : list input)
    : list output * status :=
  match load file with
  | (log, None) => (log, Exit 1)
  | (_, Some json_content) =>
      let '(log, st) := loop file model json_content AskQuestion inputs in
      (banner file model ++ log, st)
  end.

(** ** [main(file, question, model, interactive)] *)

Definition main (file : string) (question : option string) (model : string)
    (interactive : bool) (inputs : list input) : list output * status :=
  if interactive then interactive_mode file model inputs
  else
    match question with
    | None | Some "" =>
        ([EchoErr "Error: In non-interactive mode, you must provide a question"],
         Exit 1)
    | Some question =>
        match load file with
        | (log, None) => (log, Exit 1)
        | (_, Some json_content) =>
            let m :=
              say! echo ("Using model: " +:+ model) in
              say! echo ("Generating jq command for question: " +:+ question) in
              do! jq_command := ask_ollama question json_content model in
              say! echo ("Generated jq command: " +:+ jq_command) in
              show_result jq_command file in
            match m with
            | (log, Return _) => (log, Returned)
            | (log, Raise e) => (log, Crashed e)
            end
        end
    end.

(** ** Specification vocabulary *)

(** The calls of the processes return: the programs can be started. *)
Definition processes_start : Prop :=
  (∀ model p, ∃ r, ollama model p = Return r) ∧
  (∀ filter file, ∃ r, jq filter file = Return r).

(** The phase the loop is in after the inputs, [None] once it has ended. *)
Definition phase_after (file model json_content : string) (ph : phase)
    (inputs : list input) : option phase :=
  foldl (λ ph i, ph ← ph; (cli_step file model json_content ph i).2)
        (Some ph) inputs.

(** What ends the loop: an interrupt, or [exit] or [quit] typed as a
    question. *)
Definition ends (ph : phase) (i : input) : Prop :=
  i = KeyboardInterrupt ∨
  (ph = AskQuestion ∧ ∃ s, i = Line s ∧ lower s ∈ ["exit"; "quit"]).

(** The conditions of [main]: a question is given, the file is read and
    parsed. *)
Definition question_given (question : option string) : Prop :=
  ∃ q, question = Some q ∧ q ≠ "".

Definition loadable (file : string) : Prop :=
  ∃ json_content, read_file file = Some json_content ∧
                  is_Some (json_loads json_content).

(** ** [run_jq] *)


Lemma run_jq_returns jq_command json_file :
  (∀ filter file, ∃ r, jq filter file = Return r) →
  ∃ log result, run_jq jq_command json_file = (log, Return result).
Proof.
  intros Hjq. unfold run_jq.
  apply io_bind_returns; [unfold echo; eauto|]. intros _.
  apply io_bind_returns; [unfold call; destruct (Hjq (strip_chars [dquote; "'"%char] jq_command) json_file) as [r ->]; eauto|].
  intros result. repeat case_bool_decide; try by (unfold io_ret; eauto).
  apply io_bind_returns; [unfold echo; eauto|]. intros _.
  apply io_bind_returns; [unfold call; destruct (Hjq "type" json_file) as [r ->]; eauto|].
  intros check. destruct (contains _ _); [|unfold io_ret; eauto].
  apply io_bind_returns; [unfold call; destruct (Hjq ".[0]" json_file) as [r ->]; eauto|].
  intros sample. unfold io_ret; eauto.
Qed.

(** ** The interactive loop *)

Section loop.
Context (file model json_content : string).

#[local] Abbreviation step_ := (cli_step file model json_content).
#[local] Abbreviation loop_ := (loop file model json_content).
#[local] Abbreviation after_ := (phase_after file model json_content).

Lemma cli_step_None ph i : (step_ ph i).2 = None ↔ ends ph i.
Proof.
  unfold cli_step, ends. destruct i as [s| |]; cbn [snd];
    [|by split; [left|]|by intros; split; [|intros [|(_ & ? & ? & _)]]].
  unfold on_line. destruct ph.
  - case_bool_decide as Hq; cbn [snd]; [by split; eauto|].
    split; [|intros [|(_ & s' & [= <-] & ?)]; done].
    destruct (String.prefix _ _);
      match goal with |- context [io_bind ?m ?f] => by destruct (io_bind m f) as [? []] end.
  - split; [by case_bool_decide|]. by intros [|[? _]].
  - split; [|by intros [|[? _]]]. case_bool_decide; [|done].
    match goal with |- context [io_bind ?m ?f] => by destruct (io_bind m f) as [? []] end.
Qed.

Lemma phase_after_None inputs : foldl (λ ph i, ph ← ph; (step_ ph i).2) None inputs = None.
Proof. by induction inputs. Qed.

Lemma phase_after_cons ph i inputs :
  after_ ph (i :: inputs) =
  ph' ← (step_ ph i).2; after_ ph' inputs.
Proof.
  unfold phase_after. cbn [foldl mbind option_bind].
  destruct (step_ ph i).2; [done|]. apply phase_after_None.
Qed.

Lemma loop_status ph inputs :
  (loop_ ph inputs).2 = from_option (λ _, Waiting) Returned (after_ ph inputs).
Proof.
  revert ph. induction inputs as [|i inputs IH]; intros ph; [done|].
  rewrite phase_after_cons. cbn [loop].
  destruct (step_ ph i) as [log [next|]]; cbn [snd mbind option_bind]; [|done].
  rewrite <-IH. by destruct (loop_ next inputs).
Qed.

Lemma phase_after_ends ph inputs :
  after_ ph inputs = None ↔
  ∃ pre i post ph', inputs = pre ++ i :: post ∧
                    after_ ph pre = Some ph' ∧ ends ph' i.
Proof.
  revert ph. induction inputs as [|i inputs IH]; intros ph.
  { split; [done|]. by intros ([|??] & ? & ? & ? & ? & _). }
  rewrite phase_after_cons. destruct (step_ ph i).2 as [next|] eqn:E;
    cbn [mbind option_bind].
  - rewrite IH. split.
    + intros (pre & j & post & ph' & -> & Hpre & Hends).
      exists (i :: pre), j, post, ph'. rewrite phase_after_cons, E. done.
    + intros ([|i' pre] & j & post & ph' & Heq & Hpre & Hends); simplify_eq/=.
      { injection Hpre as <-. apply cli_step_None in Hends. congruence. }
      rewrite phase_after_cons, E in Hpre. by exists pre, j, post, ph'.
  - split; [|done]. intros _. exists [], i, inputs, ph.
    split_and!; [done..|]. by apply cli_step_None.
Qed.

Lemma phase_after_eof ph n :
  after_ ph (replicate n EOF) = Some (match n with 0 => ph | S _ => AskQuestion end).
Proof.
  revert ph. induction n as [|n IH]; intros ph; [done|].
  cbn [replicate]. rewrite phase_after_cons. cbn [cli_step snd mbind option_bind].
  rewrite IH. by destruct n.
Qed.

End loop.

(** ** [main] *)

Lemma load_spec file :
  (loadable file ∧ ∃ json_content, read_file file = Some json_content ∧
                                    load file = ([], Some json_content)) ∨
  (¬ loadable file ∧ ∃ log, load file = (log, None)).
Proof.
  unfold load, loadable. destruct (read_file file) as [c|] eqn:E.
  - destruct (json_loads c) as [v|] eqn:Ev; [left|right]; (split; [|by eauto]).
    + exists c. by rewrite Ev.
    + intros (c' & [= <-] & Hv). rewrite Ev in Hv. by destruct Hv.
  - right. split; [|by eauto]. by intros (? & ? & _).
Qed.

Lemma ask_ollama_returns question json_content model :
  processes_start →
  ∃ log result, ask_ollama question json_content model = (log, Return result).
Proof.
  intros [Ho _]. unfold ask_ollama. apply io_bind_returns; [|unfold io_ret; eauto].
  unfold call. by edestruct Ho as [r ->]; eauto.
Qed.

Lemma show_result_returns jq_command file :
  processes_start → ∃ log u, show_result jq_command file = (log, Return u).
Proof.
  intros [_ Hjq]. unfold show_result.
  apply io_bind_returns; [by apply run_jq_returns|]. intros result.
  apply io_bind_returns; unfold echo; eauto.
Qed.

Lemma question_given_dec question :
  (question_given question ∧ ∃ q, question = Some q ∧ q ≠ "") ∨
  (¬ question_given question ∧ (question = None ∨ question = Some "")).
Proof.
  unfold question_given. destruct question as [[|a q]|].
  - right. split; [|by right]. by intros (? & [= <-] & ?).
  - left. split; by eexists.
  - right. split; [|by left]. by intros (? & ? & _).
Qed.

Lemma main_batch file question model inputs :
  let st := (main file question model false inputs).2 in
  (st = Exit 1 ↔ ¬ question_given question ∨ ¬ loadable file) ∧
  (processes_start → question_given question → loadable file → st = Returned).
Proof.
  cbv zeta. unfold main.
  destruct (question_given_dec question) as [[Hq (q & -> & Hne)]|[Hq [->| ->]]];
    [|by split; [split; [left|]|]..].
  destruct q as [|a q]; [done|].
  destruct (load_spec file) as [[Hl (c & _ & ->)]|[Hl [log ->]]];
    [|by split; [split; [right|]|]].
  match goal with |- context [io_bind ?m ?f] => destruct (io_bind m f) as [log [u|e]] eqn:E end;
    cbn [snd]; (split; [split; [done|by intros [|]]|]); [done|].
  intros Hp _ _. exfalso.
  assert (∃ log u, io_bind (echo ("Using model: " +:+ model)) (λ _,
    io_bind (echo ("Generating jq command for question: " +:+ String a q)) (λ _,
    io_bind (ask_ollama (String a q) c model) (λ jq_command,
    io_bind (echo ("Generated jq command: " +:+ jq_command)) (λ _,
    show_result jq_command file)))) = (log, Return u)) as (? & ? & Hr);
    [|rewrite Hr in E; done].
  apply io_bind_returns; [unfold echo; eauto|]. intros _.
  apply io_bind_returns; [unfold echo; eauto|]. intros _.
  apply io_bind_returns; [by apply ask_ollama_returns|]. intros jq_command.
  apply io_bind_returns; [unfold echo; eauto|]. intros _.
  by apply show_result_returns.
Qed.

Lemma main_interactive file question model inputs :
  let st := (main file question model true inputs).2 in
  (st = Exit 1 ↔ ¬ loadable file) ∧ (st = Returned ∨ st = Waiting ∨ st = Exit 1).
Proof.
  cbv zeta. unfold main, interactive_mode.
  destruct (load_spec file) as [[Hl (c & _ & ->)]|[Hl [log ->]]]; [|by split; [|auto]].
  pose proof (loop_status file model c AskQuestion inputs) as Hst.
  destruct (loop file model c AskQuestion inputs) as [log st]. cbn [snd] in *.
  destruct (phase_after _ _ _ _ _); cbn [from_option] in Hst; subst;
    by split; [split|auto].
Qed.

(** ** Properties *)

(** [C32] [run_jq] raises only when jq cannot be started: whenever the
    process runs, also with a non-zero exit status or without output, it
    returns a text. *)
Theorem run_jq_never_raises jq_command json_file :
  (∀ filter file, ∃ r, jq filter file = Return r) →
  ∃ log result, run_jq jq_command json_file = (log, Return result).
Proof. apply run_jq_returns. Qed.

(** [C18] The interactive loop ends exactly when one of the inputs is an
    interrupt, or is [exit] or [quit] in any capitalization read as a
    question, and till then it waits for input: no exception of a process
    and no other line ends it. *)
Theorem interactive_loop_ends file model json_content ph inputs :
  let st := (loop file model json_content ph inputs).2 in
  (st = Returned ∨ st = Waiting) ∧
  (st = Returned ↔
   ∃ pre i post ph', inputs = pre ++ i :: post ∧
     phase_after file model json_content ph pre = Some ph' ∧ ends ph' i).
Proof.
  cbv zeta. rewrite loop_status, <-phase_after_ends.
  destruct (phase_after _ _ _ _ _); cbn [from_option]; naive_solver.
Qed.

(** [C34] At the end of the input the loop does not end: every further read
    raises [EOFError], which the loop catches like the failure of a
    command, and it reads again. *)
Theorem interactive_eof_spins file model json_content ph n :
  (loop file model json_content ph (replicate n EOF)).2 = Waiting ∧
  phase_after file model json_content ph (replicate (S n) EOF) = Some AskQuestion.
Proof. by rewrite loop_status, !phase_after_eof. Qed.

(** [C19] The exit status of [main] without the interactive flag: it exits
    with status 1 exactly when no question is given or the file cannot be
    read as JSON, and it returns when the question is given, the file is
    read and the processes start. *)
Theorem main_exit_status file question model inputs :
  let st := (main file question model false inputs).2 in
  (st = Exit 1 ↔ ¬ question_given question ∨ ¬ loadable file) ∧
  (processes_start → question_given question → loadable file → st = Returned).
Proof. apply main_batch. Qed.

(** With the interactive flag [main] exits with status 1 exactly when
    the file cannot be read as JSON; otherwise it returns or waits for
    input, whatever the question option holds. *)
Theorem main_interactive_status file question model inputs :
  let st := (main file question model true inputs).2 in
  (st = Exit 1 ↔ ¬ loadable file) ∧ (st = Returned ∨ st = Waiting ∨ st = Exit 1).
Proof. apply main_interactive. Qed.

End cli.

(** ** [ask_ollama] *)

Lemma clean_result_eq raw_result :
  clean_result raw_result = strip (replace "jq" "" (remove_char "`" raw_result)).
Proof.
  unfold clean_result. rewrite (replace_char_empty "`").
  by rewrite (replace_absent "```") by apply remove_char_absent.
Qed.

Lemma take_join_short (json_content : string) :
  length (split_on newline json_content) ≤ 50 →
  json_content_limited json_content = json_content.
Proof.
  intros Hlen. unfold json_content_limited. rewrite decide_False by lia.
  rewrite take_ge by done. apply join_split_on.
Qed.

(** [C33] [ask_ollama] removes every backquote from the answer, then every
    occurrence of the letters [jq], then surrounding whitespace; its second
    replacement, of the fence of three backquotes, finds nothing to
    replace. *)
Theorem clean_result_spec raw_result :
  clean_result raw_result = strip (replace "jq" "" (remove_char "`" raw_result)).
Proof. apply clean_result_eq. Qed.

(** A document of at most 50 lines goes into the prompt unchanged:
    joining the lines [split] gave restores it. *)
Theorem json_content_limited_short (json_content : string) :
  length (split_on newline json_content) ≤ 50 →
  json_content_limited json_content = json_content.
Proof. apply take_join_short. Qed.

(** ** Examples *)

(** The fenced answer is cleaned to the filter; a filter that contains the
    letters [jq] loses them. *)
Example clean_result_examples :
  clean_result (strip cli_answer) = ".[] | select(. > 1)"
  ∧ clean_result ".jq_version" = "._version"
  ∧ clean_result ".items | map(.jquery)" = ".items | map(.uery)".
Proof. by vm_compute. Qed.

(** [run_jq]: output, an error of jq as a text, and the sample of the
    first element when the filter prints nothing; quotes around the command
    are removed. *)
Example run_jq_examples :
  run_jq cli_jq "'.[] | select(. > 1)'" "data.json"
  = ([Echo "Executing: jq '.[] | select(. > 1)' data.json"], Return ("2" +:+ nl))
  ∧ (run_jq cli_jq ".a" "data.json").2
    = Return "Error executing jq command: jq: error: Cannot index array with a"
  ∧ (run_jq cli_jq ".[] | .b?" "data.json").2
    = Return ("No results found. Sample data from first element:" +:+ nl +:+ "1" +:+ nl).
Proof. by vm_compute. Qed.

(** A session: a direct jq command, a question whose filter is kept, and
    [EXIT]. *)
Example interactive_session :
  (interactive_mode cli_file cli_json cli_ollama cli_jq
     "data.json" "mistral"
     [Line "jq .[0]"; Line "which are greater than one?"; Line "n"; Line "EXIT"]).2
  = Returned
  ∧ (interactive_mode cli_file cli_json cli_ollama cli_jq
       "data.json" "mistral" [Line "exit now"; EOF; EOF]).2 = Waiting
  ∧ (interactive_mode cli_file cli_json cli_ollama cli_jq
       "data.json" "none" [Line "a question"; Line "quit"]).2 = Returned
  ∧ (interactive_mode cli_file cli_json cli_ollama cli_jq
       "nothing.json" "mistral" []).2 = Exit 1.
Proof. by vm_compute. Qed.

(** Without the interactive flag an exception of a process leaves [main]. *)
Example main_examples :
  (main cli_file cli_json cli_ollama cli_jq
     "data.json" (Some "which are greater than one?") "mistral" false []).2 = Returned
  ∧ (main cli_file cli_json cli_ollama cli_jq
       "data.json" (Some "which are greater than one?") "none" false []).2
    = Crashed OSError
  ∧ (main cli_file cli_json cli_ollama cli_jq
       "data.json" None "mistral" false []).2 = Exit 1.
Proof. by vm_compute. Qed.

Lemma json_content_limited_short_witness :
  json_content_limited ("[1," +:+ nl +:+ "2]") = "[1," +:+ nl +:+ "2]".
Proof. apply json_content_limited_short. apply (bool_decide_unpack _). by vm_compute. Defined.

Lemma cli_jq_starts filter file : ∃ r, cli_jq filter file = Return r.
Proof. unfold cli_jq. repeat case_bool_decide; eauto. Qed.

Lemma run_jq_never_raises_witness :
  ∃ log result, run_jq cli_jq ".a" "data.json" = (log, Return result).
Proof. apply run_jq_never_raises, cli_jq_starts. Defined.
